(** * libmedia: device, buffer-pool and session lifecycle of media.c

    A shallow embedding of the V4L2 capture library [media.c]: the device
    registry, format negotiation, buffer-pool allocation and release, the
    streaming switches, the wait-then-dequeue capture path and the session
    facade.  The C functions are state transformers over a [world] that
    holds the library's globals, the caller's buffer arrays, the live memory
    mappings, the kernel's pending replies and the trace of system calls.

    The file has three parts: the embedding of the code, the vocabulary the
    statements use, and the proofs. *)

From Stdlib Require Import ZArith List Lia Bool String.
From stdpp Require Import base option list gmap.
Import ListNotations.
Local Open Scope Z_scope.

(** ** Constants *)

Definition MAX_DEVICES : Z := 16.
Definition DEVICE_NAME_SIZE : Z := 256.

(** From <linux/videodev2.h>, <errno.h> and <sys/mman.h>. *)
Definition VIDEO_MAX_PLANES : Z := 8.
Definition V4L2_BUF_TYPE_VIDEO_CAPTURE : Z := 1.
Definition V4L2_BUF_TYPE_VIDEO_CAPTURE_MPLANE : Z := 9.
Definition V4L2_MEMORY_MMAP : Z := 1.
Definition EINTR : Z := 4.
Definition EIO : Z := 5.
Definition EAGAIN : Z := 11.
Definition NULL : Z := 0.
Definition MAP_FAILED : Z := -1.

(** From <sys/select.h>: the number of descriptors an [fd_set] holds. *)
Definition FD_SETSIZE : Z := 1024.

(** Conversions to the C integer types the code stores kernel values in. *)
Definition u8 (x : Z) : Z := x mod 2 ^ 8.
Definition u32 (x : Z) : Z := x mod 2 ^ 32.
Definition u64 (x : Z) : Z := x mod 2 ^ 64.
Definition s32 (x : Z) : Z :=
  let y := x mod 2 ^ 32 in if y <? 2 ^ 31 then y else y - 2 ^ 32.

(** ** Data model (media.h) *)

Inductive media_error_t : Set :=
| MEDIA_ERROR_NONE
| MEDIA_ERROR_INVALID_PARAM
| MEDIA_ERROR_DEVICE_NOT_FOUND
| MEDIA_ERROR_DEVICE_BUSY
| MEDIA_ERROR_NOT_SUPPORTED
| MEDIA_ERROR_OUT_OF_MEMORY
| MEDIA_ERROR_IOCTL_FAILED
| MEDIA_ERROR_TIMEOUT
| MEDIA_ERROR_BUFFER_ERROR
| MEDIA_ERROR_FORMAT_ERROR
| MEDIA_ERROR_STREAMING_ERROR.

Record media_format_t : Set := mk_format {
  f_width : Z;
  f_height : Z;
  f_pixelformat : Z;
  f_field : Z;
  f_num_planes : Z;
  f_plane_size : list Z            (* uint32_t plane_size[VIDEO_MAX_PLANES] *)
}.

Record media_buffer_t : Set := mk_buffer {
  b_start : list Z;                (* void* start[VIDEO_MAX_PLANES] *)
  b_length : list Z;               (* size_t length[VIDEO_MAX_PLANES] *)
  b_num_planes : Z;
  b_index : Z;
  b_bytes_used : Z;
  b_timestamp : Z
}.

Record media_frame_t : Set := mk_frame {
  fr_data : Z;
  fr_size : Z;
  fr_width : Z;
  fr_height : Z;
  fr_pixelformat : Z;
  fr_timestamp : Z;
  fr_frame_id : Z
}.

Record media_session_config_t : Set := mk_config {
  c_device_path : option string;   (* NULL is None *)
  c_format : media_format_t;
  c_buffer_count : Z;
  c_use_multiplanar : Z;
  c_nonblocking : Z
}.

(** [device_context_t] of media.c.  [buffers] is the address of the
    caller's array ([None] is NULL); the [info] cache, which only
    libmedia_get_device_info touches, is left out. *)
Record device_context_t : Set := mk_device {
  fd : Z;
  device_path : string;
  format : media_format_t;
  buffers : option Z;
  buffer_count : Z;
  streaming : Z;
  use_multiplanar : Z
}.

(** [struct media_session]: [device] points into [g_devices], kept as the
    slot number ([None] is NULL). *)
Record media_session : Set := mk_session {
  s_device : option Z;
  s_config : media_session_config_t;
  s_active : Z
}.

(** ** The operating system seen from the library *)

(** A control code together with the fields the code fills in before the
    call. *)
Inductive ioctl_req : Set :=
| VIDIOC_S_FMT (type width height pixelformat field : Z)
| VIDIOC_REQBUFS (count type memory : Z)
| VIDIOC_QUERYBUF (type memory index : Z)
| VIDIOC_QBUF (type memory index : Z)
| VIDIOC_DQBUF (type memory : Z)
| VIDIOC_STREAMON (type : Z)
| VIDIOC_STREAMOFF (type : Z).

(** What the kernel answers to one system call.  [Err e] is a return value
    of -1 (MAP_FAILED for mmap) with errno set to [e]; the other
    constructors carry the fields the kernel writes back. *)
Inductive reply : Set :=
| Err (e : Z)
| OkOpen (newfd : Z)
| OkFmt (width height pixelformat field sizeimage : Z)
| OkFmtMp (width height pixelformat field num_planes : Z) (sizeimage : list Z)
| OkReqbufs (count : Z)
| OkQuerybuf (len offset : Z)
| OkQuerybufMp (len : Z) (planes : list (Z * Z))
| OkDqbuf (index bytesused tv_sec tv_usec : Z)
| OkDqbufMp (index : Z) (bytesused : list Z) (tv_sec tv_usec : Z)
| OkDone
| OkMmap (addr : Z)
| OkSelect (n : Z).

Inductive event : Set :=
| EvOpen (path : string)
| EvClose (cfd : Z)
| EvIoctl (ifd : Z) (req : ioctl_req)
| EvMmap (len mfd off : Z)
| EvMunmap (addr len : Z)
| EvSelect (nfds : Z) (tv : option (Z * Z)).

(** The globals of media.c, the caller's [media_buffer_t] arrays by address,
    the live mappings as (address, length), the replies the kernel will give
    to the coming system calls, and the system calls made so far. *)
Record world : Type := mk_world {
  g_devices : list device_context_t;
  g_device_count : Z;
  g_initialized : Z;
  g_last_error : media_error_t;
  errno : Z;
  heap : gmap Z (list media_buffer_t);
  mappings : list (Z * Z);
  script : list reply;
  trace : list event
}.

Definition with_devices (ds : list device_context_t) (w : world) : world :=
  mk_world ds (g_device_count w) (g_initialized w) (g_last_error w) (errno w)
           (heap w) (mappings w) (script w) (trace w).
Definition with_device_count (n : Z) (w : world) : world :=
  mk_world (g_devices w) n (g_initialized w) (g_last_error w) (errno w)
           (heap w) (mappings w) (script w) (trace w).
Definition with_initialized (n : Z) (w : world) : world :=
  mk_world (g_devices w) (g_device_count w) n (g_last_error w) (errno w)
           (heap w) (mappings w) (script w) (trace w).
Definition with_last_error (e : media_error_t) (w : world) : world :=
  mk_world (g_devices w) (g_device_count w) (g_initialized w) e (errno w)
           (heap w) (mappings w) (script w) (trace w).
Definition with_heap (h : gmap Z (list media_buffer_t)) (w : world) : world :=
  mk_world (g_devices w) (g_device_count w) (g_initialized w) (g_last_error w)
           (errno w) h (mappings w) (script w) (trace w).
Definition with_mappings (m : list (Z * Z)) (w : world) : world :=
  mk_world (g_devices w) (g_device_count w) (g_initialized w) (g_last_error w)
           (errno w) (heap w) m (script w) (trace w).

(** One system call: the call is logged, the next reply is consumed, and a
    failure sets errno.  A reply that is missing, or that belongs to another
    call, counts as a failure with EIO. *)
Definition syscall (ev : event) (fits : reply -> bool) (w : world) : reply * world :=
  let r := match script w with
           | r :: _ => if fits r then r else Err EIO
           | [] => Err EIO
           end in
  (r, mk_world (g_devices w) (g_device_count w) (g_initialized w) (g_last_error w)
               (match r with Err e => e | _ => errno w end)
               (heap w) (mappings w) (tl (script w)) (trace w ++ [ev])).

(** ** The monad: state passing, [None] for undefined behaviour

    A C access outside an array or through NULL has no defined result; the
    embedding stops with [None] there. *)
Definition M (A : Type) : Type := world -> option (A * world).

Definition ret {A : Type} (a : A) : M A := fun w => Some (a, w).
Definition bind {A B : Type} (m : M A) (k : A -> M B) : M B :=
  fun w => match m w with
           | Some (a, w') => k a w'
           | None => None
           end.
Definition fault {A : Type} : M A := fun _ => None.
Definition gets {A : Type} (f : world -> A) : M A := fun w => Some (f w, w).
Definition modify (f : world -> world) : M unit := fun w => Some (tt, f w).
Definition lift_sys {A : Type} (f : world -> A * world) : M A := fun w => Some (f w).

Declare Scope cmd_scope.
Delimit Scope cmd_scope with cmd.
Notation "x <- c1 ;; c2" := (bind c1 (fun x => c2))
  (at level 100, c1 at next level, right associativity) : cmd_scope.
Notation "c1 ;;; c2" := (bind c1 (fun _ => c2))
  (at level 100, right associativity) : cmd_scope.
Local Open Scope cmd_scope.

(** [for (i = start; i < start + n; i++) body], where the body may return
    from the enclosing function ([Some v]). *)
Fixpoint for_loop {R : Type} (n : nat) (i : Z) (body : Z -> M (option R)) : M (option R) :=
  match n with
  | O => ret None
  | S n' =>
      r <- body i ;;
      match r with
      | Some v => ret (Some v)
      | None => for_loop n' (i + 1) body
      end
  end.

(** ** System calls *)

Definition fits_ioctl (req : ioctl_req) (r : reply) : bool :=
  match r, req with
  | Err _, _ => true
  | OkFmt _ _ _ _ _, VIDIOC_S_FMT t _ _ _ _ => t =? V4L2_BUF_TYPE_VIDEO_CAPTURE
  | OkFmtMp _ _ _ _ _ _, VIDIOC_S_FMT t _ _ _ _ => t =? V4L2_BUF_TYPE_VIDEO_CAPTURE_MPLANE
  | OkReqbufs _, VIDIOC_REQBUFS _ _ _ => true
  | OkQuerybuf _ _, VIDIOC_QUERYBUF t _ _ => t =? V4L2_BUF_TYPE_VIDEO_CAPTURE
  | OkQuerybufMp _ _, VIDIOC_QUERYBUF t _ _ => t =? V4L2_BUF_TYPE_VIDEO_CAPTURE_MPLANE
  | OkDqbuf _ _ _ _, VIDIOC_DQBUF t _ => t =? V4L2_BUF_TYPE_VIDEO_CAPTURE
  | OkDqbufMp _ _ _ _, VIDIOC_DQBUF t _ => t =? V4L2_BUF_TYPE_VIDEO_CAPTURE_MPLANE
  | OkDone, VIDIOC_QBUF _ _ _ => true
  | OkDone, VIDIOC_STREAMON _ => true
  | OkDone, VIDIOC_STREAMOFF _ => true
  | _, _ => false
  end.

Definition ioctl (dfd : Z) (req : ioctl_req) : world -> reply * world :=
  syscall (EvIoctl dfd req) (fits_ioctl req).

Definition is_eintr (r : reply) : bool :=
  match r with Err e => e =? EINTR | _ => false end.

(** [xioctl]: repeat the ioctl while it fails with EINTR.  [n] bounds the
    number of repetitions by the number of pending replies; once they are
    used up the ioctl fails with EIO and the loop ends. *)
Fixpoint xioctl_loop (n : nat) (dfd : Z) (req : ioctl_req) (w : world) : reply * world :=
  let '(r, w') := ioctl dfd req w in
  match n with
  | O => (r, w')
  | S n' => if is_eintr r then xioctl_loop n' dfd req w' else (r, w')
  end.

Definition xioctl (dfd : Z) (req : ioctl_req) : M reply :=
  fun w => Some (xioctl_loop (List.length (script w)) dfd req w).

Definition sys_open (path : string) : M Z :=
  lift_sys (fun w =>
    let '(r, w') := syscall (EvOpen path)
                      (fun r => match r with Err _ | OkOpen _ => true | _ => false end) w in
    (match r with OkOpen n => n | _ => -1 end, w')).

Definition sys_close (cfd : Z) : M unit :=
  modify (fun w => mk_world (g_devices w) (g_device_count w) (g_initialized w)
                            (g_last_error w) (errno w) (heap w) (mappings w)
                            (script w) (trace w ++ [EvClose cfd])).

Definition sys_mmap (len mfd off : Z) : M Z :=
  lift_sys (fun w =>
    let '(r, w') := syscall (EvMmap len mfd off)
                      (fun r => match r with Err _ | OkMmap _ => true | _ => false end) w in
    match r with
    | OkMmap a => (a, if a =? MAP_FAILED then w' else with_mappings (mappings w' ++ [(a, len)]) w')
    | _ => (MAP_FAILED, w')
    end).

(** [munmap(addr, len)]: the mapping at [addr] goes away.  The code ignores
    the return value. *)
Definition sys_munmap (addr len : Z) : M unit :=
  modify (fun w => mk_world (g_devices w) (g_device_count w) (g_initialized w)
                            (g_last_error w) (errno w) (heap w)
                            (List.filter (fun m => negb (fst m =? addr)) (mappings w))
                            (script w) (trace w ++ [EvMunmap addr len])).

Definition sys_select (nfds : Z) (tv : option (Z * Z)) : M Z :=
  lift_sys (fun w =>
    let '(r, w') := syscall (EvSelect nfds tv)
                      (fun r => match r with Err _ | OkSelect _ => true | _ => false end) w in
    (match r with OkSelect n => n | _ => -1 end, w')).

(** ** Globals and array accesses *)

Definition set_last_error (error : media_error_t) : M unit :=
  modify (with_last_error error).

(** [g_devices[i]], read and written through a pointer to the slot. *)
Definition read_dev (i : Z) : M device_context_t :=
  fun w => if i <? 0 then None
           else match g_devices w !! Z.to_nat i with
                | Some c => Some (c, w)
                | None => None
                end.

Definition write_dev (i : Z) (f : device_context_t -> device_context_t) : M unit :=
  fun w => if i <? 0 then None
           else match g_devices w !! Z.to_nat i with
                | Some c => Some (tt, with_devices (<[Z.to_nat i := f c]> (g_devices w)) w)
                | None => None
                end.

Definition set_fd (v : Z) (c : device_context_t) : device_context_t :=
  mk_device v (device_path c) (format c) (buffers c) (buffer_count c) (streaming c)
            (use_multiplanar c).
Definition set_format (v : media_format_t) (c : device_context_t) : device_context_t :=
  mk_device (fd c) (device_path c) v (buffers c) (buffer_count c) (streaming c)
            (use_multiplanar c).
Definition set_buffers (v : option Z) (c : device_context_t) : device_context_t :=
  mk_device (fd c) (device_path c) (format c) v (buffer_count c) (streaming c)
            (use_multiplanar c).
Definition set_buffer_count (v : Z) (c : device_context_t) : device_context_t :=
  mk_device (fd c) (device_path c) (format c) (buffers c) v (streaming c)
            (use_multiplanar c).
Definition set_streaming (v : Z) (c : device_context_t) : device_context_t :=
  mk_device (fd c) (device_path c) (format c) (buffers c) (buffer_count c) v
            (use_multiplanar c).
Definition set_use_multiplanar (v : Z) (c : device_context_t) : device_context_t :=
  mk_device (fd c) (device_path c) (format c) (buffers c) (buffer_count c) (streaming c) v.

(** [a[i]] and [a[i] = v] for the fixed-size arrays inside the structs. *)
Definition array_get (a : list Z) (i : Z) : option Z :=
  if i <? 0 then None else a !! Z.to_nat i.

Definition array_set (a : list Z) (i : Z) (v : Z) : option (list Z) :=
  if i <? 0 then None
  else if (Z.to_nat i <? List.length a)%nat then Some (<[Z.to_nat i := v]> a)
  else None.

Definition lift_opt {A : Type} (o : option A) : M A :=
  fun w => match o with Some a => Some (a, w) | None => None end.

(** [buffers[i]] for a caller array at address [p]. *)
Definition load_buf (p i : Z) : M media_buffer_t :=
  fun w => if i <? 0 then None
           else match heap w !! p with
                | Some arr => match arr !! Z.to_nat i with
                              | Some b => Some (b, w)
                              | None => None
                              end
                | None => None
                end.

Definition store_buf (p i : Z) (f : media_buffer_t -> media_buffer_t) : M unit :=
  fun w => if i <? 0 then None
           else match heap w !! p with
                | Some arr => match arr !! Z.to_nat i with
                              | Some b => Some (tt, with_heap (<[p := <[Z.to_nat i := f b]> arr]> (heap w)) w)
                              | None => None
                              end
                | None => None
                end.

Definition set_b_start (v : list Z) (b : media_buffer_t) : media_buffer_t :=
  mk_buffer v (b_length b) (b_num_planes b) (b_index b) (b_bytes_used b) (b_timestamp b).
Definition set_b_length (v : list Z) (b : media_buffer_t) : media_buffer_t :=
  mk_buffer (b_start b) v (b_num_planes b) (b_index b) (b_bytes_used b) (b_timestamp b).
Definition set_b_num_planes (v : Z) (b : media_buffer_t) : media_buffer_t :=
  mk_buffer (b_start b) (b_length b) v (b_index b) (b_bytes_used b) (b_timestamp b).
Definition set_b_index (v : Z) (b : media_buffer_t) : media_buffer_t :=
  mk_buffer (b_start b) (b_length b) (b_num_planes b) v (b_bytes_used b) (b_timestamp b).
Definition set_b_bytes_used (v : Z) (b : media_buffer_t) : media_buffer_t :=
  mk_buffer (b_start b) (b_length b) (b_num_planes b) (b_index b) v (b_timestamp b).
Definition set_b_timestamp (v : Z) (b : media_buffer_t) : media_buffer_t :=
  mk_buffer (b_start b) (b_length b) (b_num_planes b) (b_index b) (b_bytes_used b) v.

(** [buffers[i].start[p] = v] and [buffers[i].length[p] = v]. *)
Definition store_start (ptr i p v : Z) : M unit :=
  b <- load_buf ptr i ;;
  a <- lift_opt (array_set (b_start b) p v) ;;
  store_buf ptr i (set_b_start a).

Definition store_length (ptr i p v : Z) : M unit :=
  b <- load_buf ptr i ;;
  a <- lift_opt (array_set (b_length b) p v) ;;
  store_buf ptr i (set_b_length a).

(** ** Internal utility functions *)

Definition find_device (handle : Z) : M (option Z) :=
  n <- gets g_device_count ;;
  if (handle <? 0) || (handle >=? n) then
    set_last_error MEDIA_ERROR_INVALID_PARAM ;;; ret None
  else
    dev <- read_dev handle ;;
    if fd dev <? 0 then
      set_last_error MEDIA_ERROR_DEVICE_NOT_FOUND ;;; ret None
    else ret (Some handle).

(** ** Library management *)

Definition zero_format : media_format_t :=
  mk_format 0 0 0 0 0 (replicate (Z.to_nat VIDEO_MAX_PLANES) 0).

Definition zero_device : device_context_t :=
  mk_device 0 EmptyString zero_format None 0 0 0.

Definition libmedia_init : M Z :=
  ini <- gets g_initialized ;;
  if negb (ini =? 0) then ret 0
  else
    modify (with_devices (replicate (Z.to_nat MAX_DEVICES) (set_fd (-1) zero_device))) ;;;
    modify (with_device_count 0) ;;;
    modify (with_last_error MEDIA_ERROR_NONE) ;;;
    modify (with_initialized 1) ;;;
    ret 0.

Definition failed (r : reply) : bool :=
  match r with Err _ => true | _ => false end.

Definition invalid_param {A : Type} (a : A) : M A :=
  set_last_error MEDIA_ERROR_INVALID_PARAM ;;; ret a.

(** ** Streaming control *)

Definition libmedia_start_streaming (handle : Z) : M Z :=
  dev <- find_device handle ;;
  match dev with
  | None => ret (-1)
  | Some dev =>
      d <- read_dev dev ;;
      r <- xioctl (fd d) (VIDIOC_STREAMON V4L2_BUF_TYPE_VIDEO_CAPTURE) ;;
      if failed r then
        set_last_error MEDIA_ERROR_STREAMING_ERROR ;;; ret (-1)
      else
        write_dev dev (set_streaming 1) ;;; ret 0
  end.

Definition libmedia_start_streaming_mp (handle : Z) : M Z :=
  dev <- find_device handle ;;
  match dev with
  | None => ret (-1)
  | Some dev =>
      d <- read_dev dev ;;
      r <- xioctl (fd d) (VIDIOC_STREAMON V4L2_BUF_TYPE_VIDEO_CAPTURE_MPLANE) ;;
      if failed r then
        set_last_error MEDIA_ERROR_STREAMING_ERROR ;;; ret (-1)
      else
        write_dev dev (set_streaming 1) ;;; ret 0
  end.

Definition libmedia_stop_streaming (handle : Z) : M Z :=
  dev <- find_device handle ;;
  match dev with
  | None => ret (-1)
  | Some dev =>
      d <- read_dev dev ;;
      r <- xioctl (fd d) (VIDIOC_STREAMOFF V4L2_BUF_TYPE_VIDEO_CAPTURE) ;;
      if failed r then
        set_last_error MEDIA_ERROR_STREAMING_ERROR ;;; ret (-1)
      else
        write_dev dev (set_streaming 0) ;;; ret 0
  end.

Definition libmedia_stop_streaming_mp (handle : Z) : M Z :=
  dev <- find_device handle ;;
  match dev with
  | None => ret (-1)
  | Some dev =>
      d <- read_dev dev ;;
      r <- xioctl (fd d) (VIDIOC_STREAMOFF V4L2_BUF_TYPE_VIDEO_CAPTURE_MPLANE) ;;
      if failed r then
        set_last_error MEDIA_ERROR_STREAMING_ERROR ;;; ret (-1)
      else
        write_dev dev (set_streaming 0) ;;; ret 0
  end.

(** ** Buffer management *)

(** One plane of the unmap loop of libmedia_free_buffers. *)
Definition free_plane (ptr i p : Z) : M (option Z) :=
  b <- load_buf ptr i ;;
  s <- lift_opt (array_get (b_start b) p) ;;
  if negb (s =? MAP_FAILED) && negb (s =? NULL) then
    l <- lift_opt (array_get (b_length b) p) ;;
    sys_munmap s l ;;;
    store_start ptr i p NULL ;;;
    ret None
  else ret None.

Definition free_buffer (ptr i : Z) : M (option Z) :=
  b <- load_buf ptr i ;;
  for_loop (Z.to_nat (b_num_planes b)) 0 (free_plane ptr i).

Definition libmedia_free_buffers (handle : Z) (buffers : option Z) (count : Z) : M Z :=
  dev <- find_device handle ;;
  match dev, buffers with
  | Some dev, Some ptr =>
      if count <=? 0 then invalid_param (-1)
      else
        for_loop (Z.to_nat count) 0 (free_buffer ptr) ;;;
        write_dev dev (set_buffers None) ;;;
        write_dev dev (set_buffer_count 0) ;;;
        ret 0
  | _, _ => invalid_param (-1)
  end.

(** The body of the mapping loop of libmedia_request_buffers. *)
Definition map_buffer (dfd ptr i : Z) : M (option Z) :=
  q <- xioctl dfd (VIDIOC_QUERYBUF V4L2_BUF_TYPE_VIDEO_CAPTURE V4L2_MEMORY_MMAP i) ;;
  match q with
  | OkQuerybuf len off =>
      a <- sys_mmap (u32 len) dfd (u32 off) ;;
      store_start ptr i 0 a ;;;
      if a =? MAP_FAILED then
        set_last_error MEDIA_ERROR_OUT_OF_MEMORY ;;; ret (Some (-1))
      else
        store_length ptr i 0 (u32 len) ;;;
        store_buf ptr i (set_b_num_planes 1) ;;;
        store_buf ptr i (set_b_index (s32 i)) ;;;
        ret None
  | _ => set_last_error MEDIA_ERROR_BUFFER_ERROR ;;; ret (Some (-1))
  end.

Definition libmedia_request_buffers (handle count : Z) (buffers : option Z) : M Z :=
  dev <- find_device handle ;;
  match dev, buffers with
  | Some dev, Some ptr =>
      if count <=? 0 then invalid_param (-1)
      else
        d <- read_dev dev ;;
        r <- xioctl (fd d) (VIDIOC_REQBUFS (u32 count) V4L2_BUF_TYPE_VIDEO_CAPTURE
                                           V4L2_MEMORY_MMAP) ;;
        match r with
        | OkReqbufs n =>
            res <- for_loop (Z.to_nat (u32 n)) 0 (map_buffer (fd d) ptr) ;;
            match res with
            | Some v => ret v
            | None =>
                write_dev dev (set_buffers (Some ptr)) ;;;
                write_dev dev (set_buffer_count (s32 n)) ;;;
                ret (s32 n)
            end
        | _ => set_last_error MEDIA_ERROR_BUFFER_ERROR ;;; ret (-1)
        end
  | _, _ => invalid_param (-1)
  end.

(** [planes[p]] of the local [struct v4l2_plane planes[VIDEO_MAX_PLANES]],
    zero-initialised and then filled by the kernel. *)
Definition plane_get (planes : list (Z * Z)) (p : Z) : option (Z * Z) :=
  if (p <? 0) || (p >=? VIDEO_MAX_PLANES) then None
  else Some (nth (Z.to_nat p) planes (0, 0)).

Definition map_plane (dfd ptr i : Z) (planes : list (Z * Z)) (p : Z) : M (option Z) :=
  pl <- lift_opt (plane_get planes p) ;;
  a <- sys_mmap (u32 (fst pl)) dfd (u32 (snd pl)) ;;
  store_start ptr i p a ;;;
  if a =? MAP_FAILED then
    set_last_error MEDIA_ERROR_OUT_OF_MEMORY ;;; ret (Some (-1))
  else
    store_length ptr i p (u32 (fst pl)) ;;; ret None.

Definition map_buffer_mp (dfd ptr i : Z) : M (option Z) :=
  q <- xioctl dfd (VIDIOC_QUERYBUF V4L2_BUF_TYPE_VIDEO_CAPTURE_MPLANE V4L2_MEMORY_MMAP i) ;;
  match q with
  | OkQuerybufMp len planes =>
      store_buf ptr i (set_b_num_planes (s32 len)) ;;;
      store_buf ptr i (set_b_index (s32 i)) ;;;
      for_loop (Z.to_nat (u32 len)) 0 (map_plane dfd ptr i planes)
  | _ => set_last_error MEDIA_ERROR_BUFFER_ERROR ;;; ret (Some (-1))
  end.

Definition libmedia_request_buffers_mp (handle count : Z) (buffers : option Z) : M Z :=
  dev <- find_device handle ;;
  match dev, buffers with
  | Some dev, Some ptr =>
      if count <=? 0 then invalid_param (-1)
      else
        d <- read_dev dev ;;
        r <- xioctl (fd d) (VIDIOC_REQBUFS (u32 count) V4L2_BUF_TYPE_VIDEO_CAPTURE_MPLANE
                                           V4L2_MEMORY_MMAP) ;;
        match r with
        | OkReqbufs n =>
            res <- for_loop (Z.to_nat (u32 n)) 0 (map_buffer_mp (fd d) ptr) ;;
            match res with
            | Some v => ret v
            | None =>
                write_dev dev (set_buffers (Some ptr)) ;;;
                write_dev dev (set_buffer_count (s32 n)) ;;;
                ret (s32 n)
            end
        | _ => set_last_error MEDIA_ERROR_BUFFER_ERROR ;;; ret (-1)
        end
  | _, _ => invalid_param (-1)
  end.

Definition libmedia_queue_buffer (handle index : Z) : M Z :=
  dev <- find_device handle ;;
  match dev with
  | None => invalid_param (-1)
  | Some dev =>
      d <- read_dev dev ;;
      if (index <? 0) || (index >=? buffer_count d) then invalid_param (-1)
      else
        r <- xioctl (fd d) (VIDIOC_QBUF V4L2_BUF_TYPE_VIDEO_CAPTURE V4L2_MEMORY_MMAP index) ;;
        if failed r then
          set_last_error MEDIA_ERROR_BUFFER_ERROR ;;; ret (-1)
        else ret 0
  end.

Definition libmedia_queue_buffer_mp (handle index : Z) : M Z :=
  dev <- find_device handle ;;
  match dev with
  | None => invalid_param (-1)
  | Some dev =>
      d <- read_dev dev ;;
      if (index <? 0) || (index >=? buffer_count d) then invalid_param (-1)
      else
        r <- xioctl (fd d) (VIDIOC_QBUF V4L2_BUF_TYPE_VIDEO_CAPTURE_MPLANE V4L2_MEMORY_MMAP
                                        index) ;;
        if failed r then
          set_last_error MEDIA_ERROR_BUFFER_ERROR ;;; ret (-1)
        else ret 0
  end.

(** [(uint64_t)tv_sec * 1000000000ULL + (uint64_t)tv_usec * 1000ULL] *)
Definition timestamp_ns (tv_sec tv_usec : Z) : Z :=
  u64 (u64 tv_sec * 1000000000 + u64 tv_usec * 1000).

(** The caller's [buffer] is passed and returned by value ([None] is a NULL
    pointer). *)
Definition libmedia_dequeue_buffer (handle : Z) (buffer : option media_buffer_t)
  : M (Z * option media_buffer_t) :=
  dev <- find_device handle ;;
  match dev, buffer with
  | Some dev, Some out =>
      d <- read_dev dev ;;
      r <- xioctl (fd d) (VIDIOC_DQBUF V4L2_BUF_TYPE_VIDEO_CAPTURE V4L2_MEMORY_MMAP) ;;
      match r with
      | OkDqbuf index bytesused tv_sec tv_usec =>
          d <- read_dev dev ;;
          if u32 index >=? u32 (buffer_count d) then
            set_last_error MEDIA_ERROR_BUFFER_ERROR ;;; ret (-1, Some out)
          else
            match buffers d with
            | None => fault
            | Some ptr =>
                b <- load_buf ptr (u32 index) ;;
                ret (0, Some (set_b_timestamp (timestamp_ns tv_sec tv_usec)
                                (set_b_bytes_used (u32 bytesused) b)))
            end
      | _ =>
          e <- gets errno ;;
          (if e =? EAGAIN then set_last_error MEDIA_ERROR_TIMEOUT
           else set_last_error MEDIA_ERROR_BUFFER_ERROR) ;;;
          ret (-1, Some out)
      end
  | _, _ => invalid_param (-1, buffer)
  end.

(** [buf.m.planes[0].bytesused]: the first entry of the local plane array,
    zero where the kernel wrote nothing. *)
Definition plane0_bytesused (bytesused : list Z) : Z := nth 0 bytesused 0.

Definition libmedia_dequeue_buffer_mp (handle : Z) (buffer : option media_buffer_t)
  : M (Z * option media_buffer_t) :=
  dev <- find_device handle ;;
  match dev, buffer with
  | Some dev, Some out =>
      d <- read_dev dev ;;
      r <- xioctl (fd d) (VIDIOC_DQBUF V4L2_BUF_TYPE_VIDEO_CAPTURE_MPLANE V4L2_MEMORY_MMAP) ;;
      match r with
      | OkDqbufMp index bytesused tv_sec tv_usec =>
          d <- read_dev dev ;;
          if u32 index >=? u32 (buffer_count d) then
            set_last_error MEDIA_ERROR_BUFFER_ERROR ;;; ret (-1, Some out)
          else
            match buffers d with
            | None => fault
            | Some ptr =>
                b <- load_buf ptr (u32 index) ;;
                ret (0, Some (set_b_timestamp (timestamp_ns tv_sec tv_usec)
                                (set_b_bytes_used (u32 (plane0_bytesused bytesused)) b)))
            end
      | _ =>
          e <- gets errno ;;
          (if e =? EAGAIN then set_last_error MEDIA_ERROR_TIMEOUT
           else set_last_error MEDIA_ERROR_BUFFER_ERROR) ;;;
          ret (-1, Some out)
      end
  | _, _ => invalid_param (-1, buffer)
  end.

(** ** Device management *)

(** [strncpy(dev->device_path, device_path, DEVICE_NAME_SIZE - 1)] followed
    by the terminating NUL. *)
Definition copy_path (path : string) : string :=
  substring 0 (Z.to_nat (DEVICE_NAME_SIZE - 1)) path.

Definition libmedia_open_device (path : option string) : M Z :=
  ini <- gets g_initialized ;;
  (if ini =? 0 then libmedia_init else ret 0) ;;;
  match path with
  | None => invalid_param (-1)
  | Some p =>
      n <- gets g_device_count ;;
      if n >=? MAX_DEVICES then
        set_last_error MEDIA_ERROR_OUT_OF_MEMORY ;;; ret (-1)
      else
        newfd <- sys_open p ;;
        if newfd =? -1 then
          set_last_error MEDIA_ERROR_DEVICE_NOT_FOUND ;;; ret (-1)
        else
          write_dev n (fun dev => mk_device newfd (copy_path p) (format dev) None 0 0 0) ;;;
          modify (with_device_count (n + 1)) ;;;
          ret n
  end.

Definition libmedia_close_device (handle : Z) : M Z :=
  dev <- find_device handle ;;
  match dev with
  | None => ret (-1)
  | Some dev =>
      d <- read_dev dev ;;
      (if negb (streaming d =? 0) then
         if negb (use_multiplanar d =? 0) then libmedia_stop_streaming_mp handle
         else libmedia_stop_streaming handle
       else ret 0) ;;;
      d <- read_dev dev ;;
      (match buffers d with
       | Some ptr => libmedia_free_buffers handle (Some ptr) (buffer_count d)
       | None => ret 0
       end) ;;;
      d <- read_dev dev ;;
      (if fd d >=? 0 then
         sys_close (fd d) ;;; write_dev dev (set_fd (-1))
       else ret tt) ;;;
      ret 0
  end.

(** The loop body of libmedia_deinit. *)
Definition deinit_slot (i : Z) : M (option Z) :=
  d <- read_dev i ;;
  (if fd d >=? 0 then libmedia_close_device i else ret 0) ;;;
  ret None.

Definition libmedia_deinit : M unit :=
  ini <- gets g_initialized ;;
  if ini =? 0 then ret tt
  else
    n <- gets g_device_count ;;
    for_loop (Z.to_nat n) 0 deinit_slot ;;;
    modify (with_initialized 0).

(** ** Format configuration.  The caller's [format] struct is passed and
    returned by value ([None] is a NULL pointer). *)

Definition libmedia_set_format (handle : Z) (fmt : option media_format_t)
  : M (Z * option media_format_t) :=
  dev <- find_device handle ;;
  match dev, fmt with
  | Some dev, Some f =>
      d <- read_dev dev ;;
      r <- xioctl (fd d) (VIDIOC_S_FMT V4L2_BUF_TYPE_VIDEO_CAPTURE (f_width f) (f_height f)
                                       (f_pixelformat f) (f_field f)) ;;
      match r with
      | OkFmt width height pixelformat field sizeimage =>
          ps <- lift_opt (array_set (f_plane_size f) 0 (u32 sizeimage)) ;;
          let f' := mk_format (u32 width) (u32 height) (u32 pixelformat) (u32 field) 1 ps in
          write_dev dev (set_format f') ;;;
          write_dev dev (set_use_multiplanar 0) ;;;
          ret (0, Some f')
      | _ => set_last_error MEDIA_ERROR_FORMAT_ERROR ;;; ret (-1, fmt)
      end
  | _, _ => invalid_param (-1, fmt)
  end.

(** [plane_fmt[i].sizeimage] of the kernel's [struct v4l2_pix_format_mplane]:
    VIDEO_MAX_PLANES entries, zero where the kernel wrote nothing. *)
Definition plane_fmt_get (sizeimage : list Z) (i : Z) : option Z :=
  if (i <? 0) || (i >=? VIDEO_MAX_PLANES) then None
  else Some (nth (Z.to_nat i) sizeimage 0).

(** [for (i = start; i < start + n; i++)
       format->plane_size[i] = fmt.fmt.pix_mp.plane_fmt[i].sizeimage;] *)
Fixpoint copy_plane_sizes (n : nat) (i : Z) (sizeimage plane_size : list Z)
  : option (list Z) :=
  match n with
  | O => Some plane_size
  | S n' =>
      match plane_fmt_get sizeimage i with
      | Some v =>
          match array_set plane_size i (u32 v) with
          | Some ps => copy_plane_sizes n' (i + 1) sizeimage ps
          | None => None
          end
      | None => None
      end
  end.

Definition libmedia_set_format_mp (handle : Z) (fmt : option media_format_t)
  : M (Z * option media_format_t) :=
  dev <- find_device handle ;;
  match dev, fmt with
  | Some dev, Some f =>
      d <- read_dev dev ;;
      r <- xioctl (fd d) (VIDIOC_S_FMT V4L2_BUF_TYPE_VIDEO_CAPTURE_MPLANE (f_width f)
                                       (f_height f) (f_pixelformat f) (f_field f)) ;;
      match r with
      | OkFmtMp width height pixelformat field num_planes sizeimage =>
          ps <- lift_opt (copy_plane_sizes (Z.to_nat (u8 num_planes)) 0 sizeimage
                                           (f_plane_size f)) ;;
          let f' := mk_format (u32 width) (u32 height) (u32 pixelformat) (u32 field)
                              (u8 num_planes) ps in
          write_dev dev (set_format f') ;;;
          write_dev dev (set_use_multiplanar 1) ;;;
          ret (0, Some f')
      | _ => set_last_error MEDIA_ERROR_FORMAT_ERROR ;;; ret (-1, fmt)
      end
  | _, _ => invalid_param (-1, fmt)
  end.

Definition libmedia_get_format (handle : Z) (fmt : option media_format_t)
  : M (Z * option media_format_t) :=
  dev <- find_device handle ;;
  match dev, fmt with
  | Some dev, Some _ =>
      d <- read_dev dev ;;
      ret (0, Some (format d))
  | _, _ => invalid_param (-1, fmt)
  end.

Definition libmedia_get_format_mp (handle : Z) (fmt : option media_format_t)
  : M (Z * option media_format_t) :=
  libmedia_get_format handle fmt.

(** ** Frame capture *)

(** [FD_ZERO(&fds); FD_SET(dev->fd, &fds)] has no defined result for a
    descriptor outside the set: the embedding stops there. *)
Definition libmedia_wait_for_frame (handle timeout_ms : Z) : M Z :=
  dev <- find_device handle ;;
  match dev with
  | None => ret (-1)
  | Some dev =>
      d <- read_dev dev ;;
      if (fd d <? 0) || (fd d >=? FD_SETSIZE) then fault
      else
      let ptv := if timeout_ms >=? 0
                 then Some (Z.quot timeout_ms 1000, Z.rem timeout_ms 1000 * 1000)
                 else None in
      result <- sys_select (fd d + 1) ptv ;;
      if result =? -1 then
        e <- gets errno ;;
        if e =? EINTR then
          set_last_error MEDIA_ERROR_TIMEOUT ;;; ret 0
        else
          set_last_error MEDIA_ERROR_IOCTL_FAILED ;;; ret (-1)
      else if result =? 0 then
        set_last_error MEDIA_ERROR_TIMEOUT ;;; ret 0
      else ret 1
  end.

(** The local [media_buffer_t buffer] before the dequeue fills it. *)
Definition local_buffer : media_buffer_t :=
  mk_buffer (replicate (Z.to_nat VIDEO_MAX_PLANES) 0)
            (replicate (Z.to_nat VIDEO_MAX_PLANES) 0) 0 0 0 0.

(** The caller's [frame] is passed and returned by value ([None] is a NULL
    pointer). *)
Definition libmedia_capture_frame (handle : Z) (frame : option media_frame_t)
    (timeout_ms : Z) : M (Z * option media_frame_t) :=
  dev <- find_device handle ;;
  match dev, frame with
  | Some dev, Some _ =>
      wait_result <- (if negb (timeout_ms =? 0)
                      then libmedia_wait_for_frame handle timeout_ms
                      else ret 1) ;;
      if negb (timeout_ms =? 0) && (wait_result <=? 0) then ret (wait_result, frame)
      else
        res <- libmedia_dequeue_buffer handle (Some local_buffer) ;;
        if fst res <? 0 then ret (fst res, frame)
        else
          match snd res with
          | None => fault
          | Some buffer =>
              d <- read_dev dev ;;
              data <- lift_opt (array_get (b_start buffer) 0) ;;
              ret (0, Some (mk_frame data (b_bytes_used buffer) (f_width (format d))
                                     (f_height (format d)) (f_pixelformat (format d))
                                     (b_timestamp buffer) (u32 (b_index buffer))))
          end
  | _, _ => invalid_param (-1, frame)
  end.

Definition libmedia_capture_frame_mp (handle : Z) (frame : option media_frame_t)
    (timeout_ms : Z) : M (Z * option media_frame_t) :=
  dev <- find_device handle ;;
  match dev, frame with
  | Some dev, Some _ =>
      wait_result <- (if negb (timeout_ms =? 0)
                      then libmedia_wait_for_frame handle timeout_ms
                      else ret 1) ;;
      if negb (timeout_ms =? 0) && (wait_result <=? 0) then ret (wait_result, frame)
      else
        res <- libmedia_dequeue_buffer_mp handle (Some local_buffer) ;;
        if fst res <? 0 then ret (fst res, frame)
        else
          match snd res with
          | None => fault
          | Some buffer =>
              d <- read_dev dev ;;
              data <- lift_opt (array_get (b_start buffer) 0) ;;
              ret (0, Some (mk_frame data (b_bytes_used buffer) (f_width (format d))
                                     (f_height (format d)) (f_pixelformat (format d))
                                     (b_timestamp buffer) (u32 (b_index buffer))))
          end
  | _, _ => invalid_param (-1, frame)
  end.

Definition libmedia_release_frame (handle : Z) (frame : option media_frame_t) : M Z :=
  dev <- find_device handle ;;
  match dev, frame with
  | Some dev, Some fr =>
      d <- read_dev dev ;;
      if negb (use_multiplanar d =? 0)
      then libmedia_queue_buffer_mp handle (s32 (fr_frame_id fr))
      else libmedia_queue_buffer handle (s32 (fr_frame_id fr))
  | _, _ => invalid_param (-1)
  end.

(** ** Sessions.  [session->device - g_devices] is the slot number the
    session holds; a session is passed and returned by value. *)

Definition queue_one (mp handle i : Z) : M (option Z) :=
  result <- (if negb (mp =? 0) then libmedia_queue_buffer_mp handle i
             else libmedia_queue_buffer handle i) ;;
  if result <? 0 then ret (Some result) else ret None.

Definition libmedia_start_session (session : option media_session)
  : M (Z * option media_session) :=
  match session with
  | Some s =>
      match s_device s with
      | Some handle =>
          d <- read_dev handle ;;
          res <- for_loop (Z.to_nat (buffer_count d)) 0
                          (queue_one (c_use_multiplanar (s_config s)) handle) ;;
          match res with
          | Some v => ret (v, session)
          | None =>
              result <- (if negb (c_use_multiplanar (s_config s) =? 0)
                         then libmedia_start_streaming_mp handle
                         else libmedia_start_streaming handle) ;;
              if result <? 0 then ret (result, session)
              else ret (0, Some (mk_session (s_device s) (s_config s) 1))
          end
      | None => invalid_param (-1, session)
      end
  | None => invalid_param (-1, session)
  end.

Definition libmedia_stop_session (session : option media_session)
  : M (Z * option media_session) :=
  match session with
  | Some s =>
      match s_device s with
      | Some handle =>
          result <- (if negb (c_use_multiplanar (s_config s) =? 0)
                     then libmedia_stop_streaming_mp handle
                     else libmedia_stop_streaming handle) ;;
          ret (result, Some (mk_session (s_device s) (s_config s) 0))
      | None => invalid_param (-1, session)
      end
  | None => invalid_param (-1, session)
  end.

Definition libmedia_session_capture_frame (session : option media_session)
    (frame : option media_frame_t) (timeout_ms : Z) : M (Z * option media_frame_t) :=
  match session, frame with
  | Some s, Some _ =>
      match s_device s with
      | Some handle =>
          if s_active s =? 0 then
            set_last_error MEDIA_ERROR_STREAMING_ERROR ;;; ret (-1, frame)
          else if negb (c_use_multiplanar (s_config s) =? 0)
          then libmedia_capture_frame_mp handle frame timeout_ms
          else libmedia_capture_frame handle frame timeout_ms
      | None => invalid_param (-1, frame)
      end
  | _, _ => invalid_param (-1, frame)
  end.

Definition libmedia_session_release_frame (session : option media_session)
    (frame : option media_frame_t) : M Z :=
  match session, frame with
  | Some s, Some _ =>
      match s_device s with
      | Some handle => libmedia_release_frame handle frame
      | None => invalid_param (-1)
      end
  | _, _ => invalid_param (-1)
  end.

Definition libmedia_get_last_error : M media_error_t := gets g_last_error.


(** ** Utility functions *)

(** [size_t] is [size_bits] wide; media.c leaves the width to the platform. *)
Definition size_t (size_bits x : Z) : Z := x mod 2 ^ size_bits.

(** [for (i = start; i < start + n; i++) total_size += format->plane_size[i];] *)
Fixpoint sum_plane_sizes (size_bits : Z) (n : nat) (i : Z) (plane_size : list Z)
    (total_size : Z) : option Z :=
  match n with
  | O => Some total_size
  | S n' =>
      match array_get plane_size i with
      | Some v => sum_plane_sizes size_bits n' (i + 1) plane_size
                                  (size_t size_bits (total_size + v))
      | None => None
      end
  end.

(** [None] is an access outside [plane_size]; a NULL [format] gives 0. *)
Definition libmedia_calculate_frame_size (size_bits : Z) (fmt : option media_format_t)
  : option Z :=
  match fmt with
  | None => Some 0
  | Some f => sum_plane_sizes size_bits (Z.to_nat (f_num_planes f)) 0 (f_plane_size f) 0
  end.

(** The values of [media_error_t] in media.h. *)
Definition error_code (e : media_error_t) : Z :=
  match e with
  | MEDIA_ERROR_NONE => 0
  | MEDIA_ERROR_INVALID_PARAM => -1
  | MEDIA_ERROR_DEVICE_NOT_FOUND => -2
  | MEDIA_ERROR_DEVICE_BUSY => -3
  | MEDIA_ERROR_NOT_SUPPORTED => -4
  | MEDIA_ERROR_OUT_OF_MEMORY => -5
  | MEDIA_ERROR_IOCTL_FAILED => -6
  | MEDIA_ERROR_TIMEOUT => -7
  | MEDIA_ERROR_BUFFER_ERROR => -8
  | MEDIA_ERROR_FORMAT_ERROR => -9
  | MEDIA_ERROR_STREAMING_ERROR => -10
  end.

(** The switch of libmedia_get_error_string, on the integer it is passed. *)
Definition libmedia_get_error_string (error : Z) : string :=
  if error =? error_code MEDIA_ERROR_NONE then "No error"
  else if error =? error_code MEDIA_ERROR_INVALID_PARAM then "Invalid parameter"
  else if error =? error_code MEDIA_ERROR_DEVICE_NOT_FOUND then "Device not found"
  else if error =? error_code MEDIA_ERROR_DEVICE_BUSY then "Device busy"
  else if error =? error_code MEDIA_ERROR_NOT_SUPPORTED then "Operation not supported"
  else if error =? error_code MEDIA_ERROR_OUT_OF_MEMORY then "Out of memory"
  else if error =? error_code MEDIA_ERROR_IOCTL_FAILED then "IOCTL operation failed"
  else if error =? error_code MEDIA_ERROR_TIMEOUT then "Operation timeout"
  else if error =? error_code MEDIA_ERROR_BUFFER_ERROR then "Buffer error"
  else if error =? error_code MEDIA_ERROR_FORMAT_ERROR then "Format error"
  else if error =? error_code MEDIA_ERROR_STREAMING_ERROR then "Streaming error"
  else "Unknown error".

(** ** Creating and destroying a session

    malloc and free are the C library's.  A session is passed by value, so
    of [malloc(sizeof(media_session_t))] only its success matters, given as
    [session_mem].  What [malloc(sizeof(media_buffer_t) * buffer_count)]
    returns is given as [buffers_mem]: [None] for NULL, else the address of
    the block and its indeterminate contents, which enter the heap at that
    point; [free(buffers)] takes the block out of the heap again. *)

Definition sys_malloc (block : Z * list media_buffer_t) : M Z :=
  modify (fun w => with_heap (<[fst block := snd block]> (heap w)) w) ;;;
  ret (fst block).

Definition sys_free (ptr : Z) : M unit :=
  modify (fun w => with_heap (delete ptr (heap w)) w).

Definition libmedia_create_session (config : option media_session_config_t)
    (session_mem : bool) (buffers_mem : option (Z * list media_buffer_t))
  : M (option media_session) :=
  match config with
  | Some cfg =>
      match c_device_path cfg with
      | Some path =>
          if negb session_mem then
            set_last_error MEDIA_ERROR_OUT_OF_MEMORY ;;; ret None
          else
            handle <- libmedia_open_device (Some path) ;;
            if handle <? 0 then ret None
            else
              res <- (if negb (c_use_multiplanar cfg =? 0)
                      then libmedia_set_format_mp handle (Some (c_format cfg))
                      else libmedia_set_format handle (Some (c_format cfg))) ;;
              if fst res <? 0 then
                libmedia_close_device handle ;;; ret None
              else
                match buffers_mem with
                | None =>
                    libmedia_close_device handle ;;;
                    set_last_error MEDIA_ERROR_OUT_OF_MEMORY ;;;
                    ret None
                | Some block =>
                    buffers <- sys_malloc block ;;
                    buffer_count <-
                      (if negb (c_use_multiplanar cfg =? 0)
                       then libmedia_request_buffers_mp handle (c_buffer_count cfg)
                                                        (Some buffers)
                       else libmedia_request_buffers handle (c_buffer_count cfg)
                                                     (Some buffers)) ;;
                    if buffer_count <=? 0 then
                      sys_free buffers ;;;
                      libmedia_close_device handle ;;;
                      ret None
                    else ret (Some (mk_session (Some handle) cfg 0))
                end
      | None => invalid_param None
      end
  | None => invalid_param None
  end.

(** * Specification vocabulary *)

(** [handle] names an open device whose context is [d]: what find_device
    accepts. *)
Definition open_at (w : world) (handle : Z) (d : device_context_t) : Prop :=
  0 <= handle < g_device_count w /\
  g_devices w !! Z.to_nat handle = Some d /\
  0 <= fd d.

(** The reply xioctl ends with, once the interrupted attempts are over. *)
Definition kernel_answer (dfd : Z) (req : ioctl_req) (w : world) : reply :=
  fst (xioctl_loop (List.length (script w)) dfd req w).

Definition after_xioctl (dfd : Z) (req : ioctl_req) (w : world) : world :=
  snd (xioctl_loop (List.length (script w)) dfd req w).

(** [w'] differs from [w] only on the kernel's side: replies were consumed,
    errno may have been set, and the system calls [evs] were made. *)
Definition kernel_step (w w' : world) (evs : list event) : Prop :=
  g_devices w' = g_devices w /\
  g_device_count w' = g_device_count w /\
  g_initialized w' = g_initialized w /\
  g_last_error w' = g_last_error w /\
  heap w' = heap w /\
  mappings w' = mappings w /\
  trace w' = trace w ++ evs.

(** ** Scripts of replies

    [interrupted s] counts the attempts of one control code that the script
    [s] answers with EINTR before it answers otherwise. *)
Fixpoint interrupted (s : list reply) : nat :=
  match s with
  | r :: s' => if is_eintr r then S (interrupted s') else O
  | [] => O
  end.

(** [k] interrupted attempts, then the reply [r]. *)
Definition after_eintr (k : nat) (r : reply) : list reply :=
  repeat (Err EINTR) k ++ [r].

(** A control code without output fields accepted, and refused with errno
    [e], after [k] interrupted attempts. *)
Definition accepted (k : nat) : list reply := after_eintr k OkDone.
Definition refused (k : nat) (e : Z) : list reply := after_eintr k (Err e).

(** ** A sample process state

    One device is open on descriptor 3 for /dev/video0, with a pool of four
    single-plane buffers of 614400 bytes in the caller's array at address
    1000, all mapped. *)

Definition sample_format : media_format_t :=
  mk_format 640 480 1448695129 1 1 (614400 :: replicate 7 0).

Definition sample_buffer (i : Z) : media_buffer_t :=
  mk_buffer ((4096 + i * 1048576) :: replicate 7 0) (614400 :: replicate 7 0) 1 i 0 0.

Definition sample_pool : list media_buffer_t :=
  [sample_buffer 0; sample_buffer 1; sample_buffer 2; sample_buffer 3].

Definition closed_device : device_context_t := set_fd (-1) zero_device.

Definition sample_device (nbuf stream : Z) : device_context_t :=
  mk_device 3 "/dev/video0" sample_format
            (if nbuf =? 0 then None else Some 1000) nbuf stream 0.

Definition sample_world (nbuf stream : Z) (replies : list reply) : world :=
  mk_world (sample_device nbuf stream :: replicate 15 closed_device) 1 1
           MEDIA_ERROR_NONE 0
           (<[1000 := sample_pool]> ∅)
           (if nbuf =? 0 then []
            else [(4096, 614400); (1052672, 614400); (2101248, 614400); (3149824, 614400)])
           replies [].

Definition sample_frame : media_frame_t := mk_frame 0 0 0 0 0 0 0.

(** The timeout argument of select as libmedia_wait_for_frame builds it. *)
Definition select_timeout (timeout_ms : Z) : option (Z * Z) :=
  if timeout_ms >=? 0
  then Some (Z.quot timeout_ms 1000, Z.rem timeout_ms 1000 * 1000)
  else None.

(** The world after one select that failed with [e] or returned 0, and after
    libmedia_wait_for_frame has recorded the time-out. *)
Definition timed_out (w : world) (e : Z) (rest : list reply) (ev : event) : world :=
  mk_world (g_devices w) (g_device_count w) (g_initialized w) MEDIA_ERROR_TIMEOUT e
           (heap w) (mappings w) rest (trace w ++ [ev]).

(** The pool record of a device is sound: the count is a non-negative [int]
    and the array it points to holds at least that many buffers; with no
    array the count is 0. *)
Definition pool_ok (w : world) (d : device_context_t) : Prop :=
  match buffers d with
  | Some ptr => exists arr, heap w !! ptr = Some arr /\
                            0 <= buffer_count d < 2 ^ 31 /\
                            buffer_count d <= Z.of_nat (List.length arr)
  | None => buffer_count d = 0
  end.

(** The completed buffer a VIDIOC_DQBUF answer reports: index, byte count
    (of the buffer, or of its first plane), and the time stamp. *)
Definition completed (r : reply) : option (Z * Z * Z * Z) :=
  match r with
  | OkDqbuf index bytesused tv_sec tv_usec => Some (index, bytesused, tv_sec, tv_usec)
  | OkDqbufMp index bytesused tv_sec tv_usec =>
      Some (index, plane0_bytesused bytesused, tv_sec, tv_usec)
  | _ => None
  end.

(** What a dequeue does once the kernel's answer is known. *)
Definition dequeue_outcome (w : world) (d : device_context_t) (out : media_buffer_t)
    (type : Z) (r : Z * option media_buffer_t) (w' : world) : Prop :=
  heap w' = heap w /\ g_devices w' = g_devices w /\
  forall index bytesused tv_sec tv_usec,
    completed (kernel_answer (fd d) (VIDIOC_DQBUF type V4L2_MEMORY_MMAP) w)
      = Some (index, bytesused, tv_sec, tv_usec) ->
    (buffer_count d <= u32 index ->
     r = (-1, Some out) /\ g_last_error w' = MEDIA_ERROR_BUFFER_ERROR) /\
    (u32 index < buffer_count d ->
     exists ptr arr b,
       buffers d = Some ptr /\ heap w !! ptr = Some arr /\
       arr !! Z.to_nat (u32 index) = Some b /\
       r = (0, Some (set_b_timestamp (timestamp_ns tv_sec tv_usec)
                       (set_b_bytes_used (u32 bytesused) b)))).

(** The device table with slot [handle] replaced by [d']. *)
Definition put_device (handle : Z) (d' : device_context_t) (w : world) : world :=
  with_devices (<[Z.to_nat handle := d']> (g_devices w)) w.

(** ** The streaming switches

    What a stream-start or stream-stop call on slot [handle] returns and
    leaves, with [req] the control code it sends and [flag] the value of the
    streaming flag it stands for: the code goes to the kernel, and the flag
    follows the kernel's answer. *)
Definition switched (handle : Z) (d : device_context_t) (req : ioctl_req) (flag : Z)
    (w : world) : Z * world :=
  if failed (kernel_answer (fd d) req w)
  then (-1, with_last_error MEDIA_ERROR_STREAMING_ERROR (after_xioctl (fd d) req w))
  else (0, put_device handle (set_streaming flag d) (after_xioctl (fd d) req w)).

(** ** Histories of the device registry *)






Definition idle (d : device_context_t) : Prop :=
  buffers d = None /\ streaming d = 0.

(** What holds of the registry as long as only open and close are called. *)
Definition registry_inv (w : world) : Prop :=
  List.length (g_devices w) = Z.to_nat MAX_DEVICES /\
  0 <= g_device_count w <= MAX_DEVICES /\
  (g_initialized w = 0 -> g_device_count w = 0) /\
  (g_initialized w <> 0 -> Forall idle (g_devices w)).

(** ** Buffer arrays *)

(** The plane arrays of a buffer have their C size and the plane count fits. *)
Definition planes_ok (b : media_buffer_t) : Prop :=
  List.length (b_start b) = Z.to_nat VIDEO_MAX_PLANES /\
  List.length (b_length b) = Z.to_nat VIDEO_MAX_PLANES /\
  b_num_planes b <= VIDEO_MAX_PLANES.

(** The array holds at least [count] buffers, each with sound planes. *)
Definition array_ok (arr : list media_buffer_t) (count : Z) : Prop :=
  count <= Z.of_nat (List.length arr) /\
  forall i b, 0 <= i < count -> arr !! Z.to_nat i = Some b -> planes_ok b.

(** A plane address that libmedia_free_buffers passes to munmap. *)
Definition live (s : Z) : bool := negb (s =? MAP_FAILED) && negb (s =? NULL).

(** No plane of the buffer is mapped any more. *)
Definition released (b : media_buffer_t) : Prop :=
  forall p s, 0 <= p < b_num_planes b -> array_get (b_start b) p = Some s -> live s = false.

Definition pool_released (arr : list media_buffer_t) (count : Z) : Prop :=
  forall i b, 0 <= i < count -> arr !! Z.to_nat i = Some b -> released b.

Definition is_munmap (ev : event) : Prop :=
  match ev with EvMunmap _ _ => True | _ => False end.

Definition is_streamoff (dfd : Z) (ev : event) : Prop :=
  match ev with EvIoctl f (VIDIOC_STREAMOFF _) => f = dfd | _ => False end.

(** [w'] comes from [w] by unmapping: only munmap was called, no mapping was
    added, and apart from the heap nothing else changed. *)
Definition unmap_step (w w' : world) : Prop :=
  g_devices w' = g_devices w /\
  g_device_count w' = g_device_count w /\
  g_initialized w' = g_initialized w /\
  g_last_error w' = g_last_error w /\
  errno w' = errno w /\
  script w' = script w /\
  (exists evs, trace w' = trace w ++ evs /\ Forall is_munmap evs) /\
  (forall m, In m (mappings w') -> In m (mappings w)).

(** The munmap calls of libmedia_free_buffers, as (address, length) pairs in
    the order they are made: for each of the first [count] buffers of the
    array, in index order, each of its first [b_num_planes] planes, in plane
    order, whose address is live. *)
Definition plane_unmaps (b : media_buffer_t) (p : Z) : list (Z * Z) :=
  match array_get (b_start b) p, array_get (b_length b) p with
  | Some s, Some l => if live s then [(s, l)] else []
  | _, _ => []
  end.

Definition buffer_unmaps (b : media_buffer_t) : list (Z * Z) :=
  flat_map (plane_unmaps b) (seqZ 0 (b_num_planes b)).

Definition pool_unmaps (arr : list media_buffer_t) (count : Z) : list (Z * Z) :=
  flat_map buffer_unmaps (take (Z.to_nat count) arr).

Definition munmap_events (us : list (Z * Z)) : list event :=
  map (fun u => EvMunmap (fst u) (snd u)) us.

(** The live mappings [ms] after the munmap calls [us]. *)
Definition unmapped (us : list (Z * Z)) (ms : list (Z * Z)) : list (Z * Z) :=
  fold_left (fun ms u => List.filter (fun m => negb (fst m =? fst u)) ms) us ms.


(** The device context after libmedia_free_buffers. *)
Definition freed_device (d : device_context_t) : device_context_t :=
  set_buffer_count 0 (set_buffers None d).

(** The stop request libmedia_close_device sends for a streaming device. *)
Definition stop_request (d : device_context_t) : ioctl_req :=
  VIDIOC_STREAMOFF (if negb (use_multiplanar d =? 0)
                    then V4L2_BUF_TYPE_VIDEO_CAPTURE_MPLANE
                    else V4L2_BUF_TYPE_VIDEO_CAPTURE).



(** The stop and free steps of libmedia_close_device. *)
Definition close_stop (handle : Z) (d : device_context_t) : M Z :=
  if negb (streaming d =? 0) then
    if negb (use_multiplanar d =? 0) then libmedia_stop_streaming_mp handle
    else libmedia_stop_streaming handle
  else ret 0.

Definition close_free (handle : Z) (d : device_context_t) : M Z :=
  match buffers d with
  | Some ptr => libmedia_free_buffers handle (Some ptr) (buffer_count d)
  | None => ret 0
  end.

(** ** Allocating the pool *)

(** Plane [p] of the buffer is mapped: its address is a live mapping of the
    recorded length. *)
Definition plane_mapped (w : world) (b : media_buffer_t) (p : Z) : Prop :=
  exists a l,
    array_get (b_start b) p = Some a /\
    array_get (b_length b) p = Some l /\
    a <> MAP_FAILED /\
    In (a, l) (mappings w).

Definition fully_mapped (w : world) (b : media_buffer_t) : Prop :=
  forall p, 0 <= p < b_num_planes b -> plane_mapped w b p.

(** The first [n] buffers of the array carry their index and are mapped in
    all their planes. *)
Definition pool_mapped (w : world) (arr : list media_buffer_t) (n : Z) : Prop :=
  forall i, 0 <= i < n ->
    exists b, arr !! Z.to_nat i = Some b /\ b_index b = i /\ fully_mapped w b.

(** The plane arrays of a buffer have their C size. *)
Definition sized (b : media_buffer_t) : Prop :=
  List.length (b_start b) = Z.to_nat VIDEO_MAX_PLANES /\
  List.length (b_length b) = Z.to_nat VIDEO_MAX_PLANES.

(** The kernel keeps to what the caller's array can take: it grants no more
    buffers than the array has entries and reports no more than
    VIDEO_MAX_PLANES planes for a buffer. *)
Definition reply_fits (entries : Z) (r : reply) : Prop :=
  match r with
  | OkReqbufs n => u32 n <= entries
  | OkQuerybufMp len _ => u32 len <= VIDEO_MAX_PLANES
  | _ => True
  end.

(** [w'] comes from [w] by mapping: the device table is untouched and no
    mapping was removed. *)
Definition map_step (w w' : world) : Prop :=
  g_devices w' = g_devices w /\
  g_device_count w' = g_device_count w /\
  (forall m, In m (mappings w) -> In m (mappings w')).

(** The device context after a successful allocation of [n] buffers in the
    array at [ptr]. *)
Definition pooled_device (ptr n : Z) (d : device_context_t) : device_context_t :=
  set_buffer_count n (set_buffers (Some ptr) d).

(** What an allocation leaves, for the single-plane ([type] is
    V4L2_BUF_TYPE_VIDEO_CAPTURE) and the multi-plane call: either -1 with
    the device table as it was, or the count the kernel granted, recorded
    with the array as the device's pool, every granted buffer mapped. *)
Definition request_outcome (type : Z) (w : world) (handle : Z) (d : device_context_t)
    (count ptr : Z) (r : Z) (w' : world) : Prop :=
  (r = -1 /\ g_devices w' = g_devices w) \/
  (exists n arr',
     kernel_answer (fd d) (VIDIOC_REQBUFS (u32 count) type V4L2_MEMORY_MMAP) w = OkReqbufs n /\
     r = u32 n /\
     g_devices w' = <[Z.to_nat handle := pooled_device ptr (u32 n) d]> (g_devices w) /\
     heap w' !! ptr = Some arr' /\
     pool_mapped w' arr' (u32 n)).

(** What one round of a mapping loop does: [NP] is what the round
    guarantees about the plane count. *)
Definition maps_one (NP : media_buffer_t -> Prop) (entries ptr : Z)
    (body : Z -> M (option Z)) : Prop :=
  forall i w0 arr0 b,
    heap w0 !! ptr = Some arr0 ->
    arr0 !! Z.to_nat i = Some b ->
    0 <= i < 2 ^ 31 ->
    sized b ->
    Forall (reply_fits entries) (script w0) ->
    exists r w1 b',
      body i w0 = Some (r, w1) /\
      map_step w0 w1 /\
      Forall (reply_fits entries) (script w1) /\
      heap w1 = <[ptr := <[Z.to_nat i := b']> arr0]> (heap w0) /\
      sized b' /\
      match r with
      | None => b_index b' = i /\ NP b' /\ fully_mapped w1 b'
      | Some v => v = -1
      end.

(** The shape libmedia_request_buffers and libmedia_request_buffers_mp
    share: they differ in the buffer type and in the body of the mapping
    loop. *)
Definition request_with (type : Z) (body : Z -> Z -> Z -> M (option Z))
    (handle count : Z) (buffers : option Z) : M Z :=
  (dev <- find_device handle ;;
   match dev, buffers with
   | Some dev, Some ptr =>
       if count <=? 0 then invalid_param (-1)
       else
         d <- read_dev dev ;;
         r <- xioctl (fd d) (VIDIOC_REQBUFS (u32 count) type V4L2_MEMORY_MMAP) ;;
         match r with
         | OkReqbufs n =>
             res <- for_loop (Z.to_nat (u32 n)) 0 (body (fd d) ptr) ;;
             match res with
             | Some v => ret v
             | None =>
                 write_dev dev (set_buffers (Some ptr)) ;;;
                 write_dev dev (set_buffer_count (s32 n)) ;;;
                 ret (s32 n)
             end
         | _ => set_last_error MEDIA_ERROR_BUFFER_ERROR ;;; ret (-1)
         end
   | _, _ => invalid_param (-1)
   end)%cmd.

(** ** What the kernel grants

    The kernel's answers for one buffer of a mapping loop: [g_retries]
    attempts of VIDIOC_QUERYBUF interrupted by EINTR, the answer [g_query]
    to the attempt that follows, and the addresses [g_addrs] that mmap
    returns for the planes of the buffer. *)
Record grant : Set := mk_grant {
  g_retries : nat;
  g_query : reply;
  g_addrs : list Z
}.

(** The planes a mapping loop maps for a QUERYBUF answer, as (length,
    offset) pairs: the one of a single-plane buffer, or the first [length]
    entries of the plane array the multi-plane call passed in. *)
Definition planes_of (q : reply) : list (Z * Z) :=
  match q with
  | OkQuerybuf len off => [(len, off)]
  | OkQuerybufMp len planes =>
      map (fun p => nth p planes (0, 0)) (seq 0 (Z.to_nat (u32 len)))
  | _ => []
  end.

Definition plane_lengths (q : reply) : list Z :=
  map (fun pl => u32 (fst pl)) (planes_of q).

(** The answer is one to the QUERYBUF of the call for [type], and it reports
    no more planes than a [media_buffer_t] has room for. *)
Definition query_fits (type : Z) (q : reply) : Prop :=
  match q with
  | OkQuerybuf _ _ => type = V4L2_BUF_TYPE_VIDEO_CAPTURE
  | OkQuerybufMp len _ =>
      type = V4L2_BUF_TYPE_VIDEO_CAPTURE_MPLANE /\ u32 len <= VIDEO_MAX_PLANES
  | _ => False
  end.

(** The buffer is granted: the query is answered and every plane is mapped. *)
Definition grant_ok (type : Z) (g : grant) : Prop :=
  query_fits type (g_query g) /\
  List.length (g_addrs g) = List.length (planes_of (g_query g)) /\
  Forall (fun a => a <> MAP_FAILED) (g_addrs g).

(** An mmap that fails. *)
Definition mmap_failure (m : reply) : Prop :=
  m = OkMmap MAP_FAILED \/ exists e, m = Err e.

Definition grant_replies (g : grant) : list reply :=
  after_eintr (g_retries g) (g_query g) ++ map OkMmap (g_addrs g).

Definition query_events (dfd type i : Z) (k : nat) : list event :=
  repeat (EvIoctl dfd (VIDIOC_QUERYBUF type V4L2_MEMORY_MMAP i)) (S k).

Definition mmap_events (dfd : Z) (pls : list (Z * Z)) : list event :=
  map (fun pl => EvMmap (u32 (fst pl)) dfd (u32 (snd pl))) pls.

(** The system calls made for buffer [i], the mappings they add, and the
    array entry they leave. *)
Definition grant_events (dfd type i : Z) (g : grant) : list event :=
  query_events dfd type i (g_retries g) ++ mmap_events dfd (planes_of (g_query g)).

Definition grant_mappings (g : grant) : list (Z * Z) :=
  combine (g_addrs g) (plane_lengths (g_query g)).

Definition granted (i : Z) (g : grant) (b : media_buffer_t) : media_buffer_t :=
  mk_buffer (list_inserts 0 (g_addrs g) (b_start b))
            (list_inserts 0 (plane_lengths (g_query g)) (b_length b))
            (Z.of_nat (List.length (planes_of (g_query g)))) i
            (b_bytes_used b) (b_timestamp b).

(** The same for the buffers [i], [i + 1], ... of a pool. *)
Fixpoint pool_events (dfd type i : Z) (gs : list grant) : list event :=
  match gs with
  | [] => []
  | g :: gs' => grant_events dfd type i g ++ pool_events dfd type (i + 1) gs'
  end.

Fixpoint granted_pool (i : Z) (gs : list grant) (arr : list media_buffer_t)
  : list media_buffer_t :=
  match gs with
  | [] => arr
  | g :: gs' =>
      granted_pool (i + 1) gs'
        (match arr !! Z.to_nat i with
         | Some b => <[Z.to_nat i := granted i g b]> arr
         | None => arr
         end)
  end.

(** The VIDIOC_REQBUFS of an allocation, sent [S k] times. *)
Definition reqbufs_events (dfd count type : Z) (k : nat) : list event :=
  repeat (EvIoctl dfd (VIDIOC_REQBUFS (u32 count) type V4L2_MEMORY_MMAP)) (S k).

(** [w'] comes from [w] by the system calls [evs], which added the mappings
    [ms] and left the replies [rest] pending; [err] is the last error.  The
    device table is as it was. *)
Definition alloc_step (w w' : world) (evs : list event) (ms : list (Z * Z))
    (rest : list reply) (err : media_error_t) : Prop :=
  g_devices w' = g_devices w /\
  g_device_count w' = g_device_count w /\
  g_initialized w' = g_initialized w /\
  g_last_error w' = err /\
  trace w' = trace w ++ evs /\
  mappings w' = mappings w ++ ms /\
  script w' = rest.

(** * Vocabulary for the rest of the library *)

(** [handle] names no open device: it is out of range or its slot is
    closed. *)
Definition dead_handle (w : world) (handle : Z) : Prop :=
  handle < 0 \/ g_device_count w <= handle \/
  exists d, g_devices w !! Z.to_nat handle = Some d /\ fd d < 0.

(** An error return that made no system call: only the last-error slot
    differs, and it holds an error. *)
Definition only_error (w w' : world) : Prop :=
  exists e, e <> MEDIA_ERROR_NONE /\ w' = with_last_error e w.

(** The registry is initialised and its table has its C size. *)
Definition registry_ready (w : world) : Prop :=
  g_initialized w <> 0 /\
  List.length (g_devices w) = Z.to_nat MAX_DEVICES /\
  0 <= g_device_count w <= MAX_DEVICES.

(** The context libmedia_open_device writes into a slot that held [old]. *)
Definition opened_device (newfd : Z) (path : string) (old : device_context_t)
  : device_context_t :=
  mk_device newfd (copy_path path) (format old) None 0 0 0.

(** What libmedia_open_device leaves. *)
Definition open_outcome (path : option string) (w : world) (r : Z) (w' : world) : Prop :=
  heap w' = heap w /\ mappings w' = mappings w /\
  ((r = -1 /\ g_devices w' = g_devices w /\ g_device_count w' = g_device_count w /\
    g_last_error w' <> MEDIA_ERROR_NONE /\
    (path = None -> g_last_error w' = MEDIA_ERROR_INVALID_PARAM /\ trace w' = trace w) /\
    (path <> None -> g_device_count w = MAX_DEVICES ->
     g_last_error w' = MEDIA_ERROR_OUT_OF_MEMORY /\ trace w' = trace w) /\
    (forall p, path = Some p -> g_device_count w < MAX_DEVICES ->
     g_last_error w' = MEDIA_ERROR_DEVICE_NOT_FOUND /\ trace w' = trace w ++ [EvOpen p])) \/
   (r = g_device_count w /\ g_device_count w' = r + 1 /\
    exists p newfd old,
      path = Some p /\ script w = OkOpen newfd :: script w' /\ newfd <> -1 /\
      g_devices w !! Z.to_nat r = Some old /\
      g_devices w' = <[Z.to_nat r := opened_device newfd p old]> (g_devices w) /\
      trace w' = trace w ++ [EvOpen p] /\
      g_last_error w' = g_last_error w)).

(** The world after a successful open of [path] on descriptor [newfd]. *)
Definition opened_world (w : world) (path : string) (newfd : Z) (old : device_context_t)
    (rest : list reply) : world :=
  mk_world (<[Z.to_nat (g_device_count w) := opened_device newfd path old]> (g_devices w))
           (g_device_count w + 1) (g_initialized w) (g_last_error w) (errno w)
           (heap w) (mappings w) rest (trace w ++ [EvOpen path]).

(** The control codes of the two format calls for a caller's format [f]. *)
Definition s_fmt_request (type : Z) (f : media_format_t) : ioctl_req :=
  VIDIOC_S_FMT type (f_width f) (f_height f) (f_pixelformat f) (f_field f).

(** The sum of the kernel's sizes of planes [i], ..., [i + n - 1]. *)
Fixpoint accepted_total (sizeimage : list Z) (n : nat) (i : Z) : Z :=
  match n with
  | O => 0
  | S n' => u32 (nth (Z.to_nat i) sizeimage 0) + accepted_total sizeimage n' (i + 1)
  end.

(** The buffer type a device's plane mode selects. *)
Definition buf_type (mp : Z) : Z :=
  if negb (mp =? 0) then V4L2_BUF_TYPE_VIDEO_CAPTURE_MPLANE
  else V4L2_BUF_TYPE_VIDEO_CAPTURE.

Definition qbuf_request (type index : Z) : ioctl_req :=
  VIDIOC_QBUF type V4L2_MEMORY_MMAP index.

Definition dqbuf_request (type : Z) : ioctl_req :=
  VIDIOC_DQBUF type V4L2_MEMORY_MMAP.

(** What a queue call does with an index inside the pool: the one QBUF,
    repeated while interrupted, and the kernel's verdict passed on. *)
Definition queue_outcome (w : world) (d : device_context_t) (type index : Z)
    (r : Z) (w' : world) : Prop :=
  (exists k, trace w' = trace w ++ repeat (EvIoctl (fd d) (qbuf_request type index)) (S k)) /\
  g_devices w' = g_devices w /\ g_device_count w' = g_device_count w /\
  heap w' = heap w /\ mappings w' = mappings w /\
  (failed (kernel_answer (fd d) (qbuf_request type index) w) = false ->
   r = 0 /\ g_last_error w' = g_last_error w) /\
  (failed (kernel_answer (fd d) (qbuf_request type index) w) = true ->
   r = -1 /\ g_last_error w' = MEDIA_ERROR_BUFFER_ERROR).

(** The frame is there to be taken: no wait was asked for, or select
    reported [n] > 0 descriptors ready. *)
Definition ready (w : world) (timeout_ms : Z) : Prop :=
  timeout_ms = 0 \/
  exists n rest, 0 < n /\ script w = OkSelect n :: rest.

(** The world after the wait of a capture: untouched without a wait, else
    one select made and its reply consumed. *)
Definition after_wait (w : world) (d : device_context_t) (timeout_ms : Z) : world :=
  if timeout_ms =? 0 then w
  else mk_world (g_devices w) (g_device_count w) (g_initialized w) (g_last_error w)
                (errno w) (heap w) (mappings w) (tl (script w))
                (trace w ++ [EvSelect (fd d + 1) (select_timeout timeout_ms)]).

(** The frame a capture builds from pool record [b], the kernel's byte count
    and time stamp, and the cached format of the device. *)
Definition captured_frame (d : device_context_t) (b : media_buffer_t) (data : Z)
    (bytesused tv_sec tv_usec : Z) : media_frame_t :=
  mk_frame data (u32 bytesused) (f_width (format d)) (f_height (format d))
           (f_pixelformat (format d)) (timestamp_ns tv_sec tv_usec) (u32 (b_index b)).

(** The system calls of queueing buffers [i], [i + 1], ... in turn, buffer
    [i + n] being sent [S k] times when [k] is the [n]-th entry of the list
    (the attempts that were interrupted, and the one that was not). *)
Fixpoint queue_events (dfd type i : Z) (ks : list nat) : list event :=
  match ks with
  | [] => []
  | k :: ks' =>
      repeat (EvIoctl dfd (qbuf_request type i)) (S k) ++ queue_events dfd type (i + 1) ks'
  end.

(** The session over the device in slot [handle]. *)
Definition session_on (handle : Z) (cfg : media_session_config_t) (active : Z)
  : media_session :=
  mk_session (Some handle) cfg active.

(** The close call that libmedia_deinit makes for a slot, if any. *)
Definition close_event (d : device_context_t) : list event :=
  if fd d >=? 0 then [EvClose (fd d)] else [].

(** The world after close(fd) has been called. *)
Definition after_close (cfd : Z) (w : world) : world :=
  mk_world (g_devices w) (g_device_count w) (g_initialized w) (g_last_error w) (errno w)
           (heap w) (mappings w) (script w) (trace w ++ [EvClose cfd]).

(** The error a failed VIDIOC_DQBUF is recorded as. *)
Definition dequeue_error (e : Z) : media_error_t :=
  if e =? EAGAIN then MEDIA_ERROR_TIMEOUT else MEDIA_ERROR_BUFFER_ERROR.

(** What the session calls need of the kernel's replies beyond
    [reply_fits]: a descriptor from open is not negative, and a multi-plane
    format has no more than VIDEO_MAX_PLANES planes. *)
Definition session_reply (entries : Z) (r : reply) : Prop :=
  reply_fits entries r /\
  match r with
  | OkOpen n => 0 <= n
  | OkFmtMp _ _ _ _ num_planes _ => u8 num_planes <= VIDEO_MAX_PLANES
  | _ => True
  end.

(** The format call and the allocation call a configuration selects. *)
Definition set_format_by (mp handle : Z) (fmt : option media_format_t)
  : M (Z * option media_format_t) :=
  if negb (mp =? 0) then libmedia_set_format_mp handle fmt
  else libmedia_set_format handle fmt.

Definition request_buffers_by (mp handle count : Z) (buffers : option Z) : M Z :=
  if negb (mp =? 0) then libmedia_request_buffers_mp handle count buffers
  else libmedia_request_buffers handle count buffers.

(** A device as libmedia_open_device and the format calls leave it: no pool,
    not streaming. *)
Definition bare (d : device_context_t) : Prop :=
  buffers d = None /\ buffer_count d = 0 /\ streaming d = 0.

(** What libmedia_create_session leaves when it returns a session [s], for
    a registry that held [count0] devices before, and the block [ptr] that
    malloc gave for the buffer array. *)
Definition session_created (cfg : media_session_config_t) (count0 ptr : Z)
    (s : media_session) (w' : world) : Prop :=
  s = session_on count0 cfg 0 /\
  g_device_count w' = count0 + 1 /\
  exists d' arr',
    open_at w' count0 d' /\
    buffers d' = Some ptr /\ 0 < buffer_count d' /\ streaming d' = 0 /\
    use_multiplanar d' = (if negb (c_use_multiplanar cfg =? 0) then 1 else 0) /\
    heap w' !! ptr = Some arr' /\
    pool_mapped w' arr' (buffer_count d').

(** What it leaves when it returns NULL, coming from [w]: no device of its
    own left open, the array block, if malloc gave one, not in the heap, at
    most the one registry slot of its open used, and no mapping removed. *)
Definition session_refused (w : world) (buffers_mem : option (Z * list media_buffer_t))
    (w' : world) : Prop :=
  (forall h, g_device_count w <= h -> dead_handle w' h) /\
  (forall block, buffers_mem = Some block -> heap w' !! fst block = None) /\
  g_device_count w <= g_device_count w' <= g_device_count w + 1 /\
  (forall m, In m (mappings w) -> In m (mappings w')).

(** The answer to VIDIOC_S_FMT is one the format call of plane mode [mp]
    accepts: the single-plane answer for mode 0, else the multi-plane answer
    with no more planes than a [media_format_t] has room for. *)
Definition format_fits (mp : Z) (r : reply) : Prop :=
  match r with
  | OkFmt _ _ _ _ _ => mp = 0
  | OkFmtMp _ _ _ _ num_planes _ => mp <> 0 /\ u8 num_planes <= VIDEO_MAX_PLANES
  | _ => False
  end.

(** The system calls of libmedia_create_session up to the allocation: the
    open of [path] and the format request, sent [S k] times. *)
Definition session_setup_events (cfg : media_session_config_t) (path : string)
    (newfd : Z) (k : nat) : list event :=
  EvOpen path
  :: repeat (EvIoctl newfd (s_fmt_request (buf_type (c_use_multiplanar cfg)) (c_format cfg)))
            (S k).

(** A sample configuration, asking for two single-plane buffers, and a
    fresh block for its buffer array. *)
Definition sample_config : media_session_config_t :=
  mk_config (Some "/dev/video1"%string) sample_format 2 0 0.

Definition sample_block : Z * list media_buffer_t :=
  (2000, [local_buffer; local_buffer]).
(** * Basic facts *)

Lemma find_device_open w handle d :
  open_at w handle d -> find_device handle w = Some (Some handle, w).
Proof.
  intros (Hr & Hd & Hfd). unfold find_device, bind, gets, read_dev.
  replace (handle <? 0) with false by lia.
  replace (handle >=? g_device_count w) with false by lia.
  simpl. rewrite Hd.
  replace (fd d <? 0) with false by lia. reflexivity.
Qed.

Lemma read_dev_open w handle d :
  open_at w handle d -> read_dev handle w = Some (d, w).
Proof.
  intros (Hr & Hd & Hfd). unfold read_dev.
  replace (handle <? 0) with false by lia. rewrite Hd. reflexivity.
Qed.

Lemma syscall_step ev fits w r w' :
  syscall ev fits w = (r, w') ->
  kernel_step w w' [ev] /\ script w' = tl (script w).
Proof.
  unfold syscall. intros H. inversion H; subst; clear H.
  unfold kernel_step; simpl. repeat split; reflexivity.
Qed.

Lemma kernel_step_trans w1 w2 w3 e1 e2 :
  kernel_step w1 w2 e1 -> kernel_step w2 w3 e2 -> kernel_step w1 w3 (e1 ++ e2).
Proof.
  unfold kernel_step.
  intros (A1 & A2 & A3 & A4 & A5 & A6 & A7) (B1 & B2 & B3 & B4 & B5 & B6 & B7).
  rewrite B1, B2, B3, B4, B5, B6, B7, A7, app_assoc. repeat split; assumption.
Qed.

Lemma xioctl_loop_step n dfd req w r w' :
  xioctl_loop n dfd req w = (r, w') ->
  exists k, kernel_step w w' (repeat (EvIoctl dfd req) (S k)).
Proof.
  revert w. induction n as [|n IH]; intros w; cbn [xioctl_loop].
  - destruct (ioctl dfd req w) as [r0 w0] eqn:E. intros H; inversion H; subst.
    exists O. apply syscall_step in E. apply E.
  - destruct (ioctl dfd req w) as [r0 w0] eqn:E.
    apply syscall_step in E. destruct E as [E _].
    destruct (is_eintr r0).
    + intros H. apply IH in H. destruct H as [k Hk]. exists (S k).
      change (repeat (EvIoctl dfd req) (S (S k)))
        with ([EvIoctl dfd req] ++ repeat (EvIoctl dfd req) (S k)).
      eapply kernel_step_trans; eassumption.
    + intros H; inversion H; subst. exists O. exact E.
Qed.

(** xioctl never hands an interrupted attempt to its caller. *)
Lemma xioctl_loop_not_eintr n dfd req w r w' :
  (List.length (script w) <= n)%nat ->
  xioctl_loop n dfd req w = (r, w') ->
  is_eintr r = false.
Proof.
  revert w. induction n as [|n IH]; intros w Hn; cbn [xioctl_loop].
  - destruct (script w) as [|x s] eqn:Es; [|simpl in Hn; lia].
    unfold ioctl, syscall. rewrite Es. intros H; inversion H; subst. reflexivity.
  - destruct (ioctl dfd req w) as [r0 w0] eqn:E.
    destruct (is_eintr r0) eqn:Ei.
    + apply IH. apply syscall_step in E. destruct E as [_ E]. rewrite E.
      destruct (script w); simpl in *; lia.
    + intros H; inversion H; subst. exact Ei.
Qed.

Lemma xioctl_run dfd req w :
  xioctl dfd req w = Some (kernel_answer dfd req w, after_xioctl dfd req w).
Proof.
  unfold xioctl, kernel_answer, after_xioctl.
  destruct (xioctl_loop _ dfd req w); reflexivity.
Qed.

Lemma after_xioctl_step dfd req w :
  exists k, kernel_step w (after_xioctl dfd req w) (repeat (EvIoctl dfd req) (S k)).
Proof.
  unfold after_xioctl.
  destruct (xioctl_loop _ dfd req w) as [r w'] eqn:E.
  apply xioctl_loop_step in E. exact E.
Qed.

Lemma kernel_answer_not_eintr dfd req w :
  is_eintr (kernel_answer dfd req w) = false.
Proof.
  unfold kernel_answer.
  destruct (xioctl_loop _ dfd req w) as [r w'] eqn:E.
  eapply xioctl_loop_not_eintr in E; [exact E | lia].
Qed.

(** The reply a control code gets is one of its own replies or a failure. *)
Lemma xioctl_loop_fits_req n dfd req w r w' :
  xioctl_loop n dfd req w = (r, w') -> fits_ioctl req r = true.
Proof.
  revert w. induction n as [|n IH]; intros w; cbn [xioctl_loop].
  - unfold ioctl, syscall. intros H; inversion H; subst; clear H.
    destruct (script w) as [|x s]; [reflexivity|].
    destruct (fits_ioctl req x) eqn:E; [exact E | reflexivity].
  - destruct (ioctl dfd req w) as [r0 w0] eqn:E.
    destruct (is_eintr r0).
    + apply IH.
    + intros H; inversion H; subst. unfold ioctl, syscall in E.
      inversion E; subst; clear E.
      destruct (script w) as [|x s]; [reflexivity|].
      destruct (fits_ioctl req x) eqn:E; [exact E | reflexivity].
Qed.

Lemma kernel_answer_fits_req dfd req w :
  fits_ioctl req (kernel_answer dfd req w) = true.
Proof.
  unfold kernel_answer.
  destruct (xioctl_loop _ dfd req w) as [r w'] eqn:E.
  apply xioctl_loop_fits_req in E. exact E.
Qed.

(** xioctl repeats the control code once for each interrupted attempt, and
    no more: it ends with the first reply that is not EINTR. *)
Lemma xioctl_loop_script k : forall n dfd req w r rest,
  (k <= n)%nat ->
  script w = after_eintr k r ++ rest ->
  fits_ioctl req r = true ->
  is_eintr r = false ->
  exists w',
    xioctl_loop n dfd req w = (r, w') /\
    script w' = rest /\
    kernel_step w w' (repeat (EvIoctl dfd req) (S k)).
Proof.
  unfold after_eintr.
  induction k as [|k IH]; intros n dfd req w r rest Hn Hs Hfit Hne.
  - cbn [repeat app] in Hs.
    assert (E : ioctl dfd req w = (r, snd (ioctl dfd req w))).
    { unfold ioctl, syscall. rewrite Hs, Hfit. reflexivity. }
    exists (snd (ioctl dfd req w)).
    pose proof (syscall_step _ _ _ _ _ E) as [Hk Ht]. rewrite Hs in Ht.
    split; [|split; [exact Ht | exact Hk]].
    destruct n; cbn [xioctl_loop]; rewrite E; [reflexivity|].
    rewrite Hne. reflexivity.
  - destruct n as [|n]; [lia|].
    cbn [repeat app] in Hs.
    assert (E : ioctl dfd req w = (Err EINTR, snd (ioctl dfd req w))).
    { unfold ioctl, syscall. rewrite Hs. reflexivity. }
    pose proof (syscall_step _ _ _ _ _ E) as [Hk Ht]. rewrite Hs in Ht. cbn [tl] in Ht.
    destruct (IH n dfd req (snd (ioctl dfd req w)) r rest ltac:(lia) Ht Hfit Hne)
      as (w' & E' & Hs' & Hk').
    exists w'. cbn [xioctl_loop]. rewrite E.
    change (is_eintr (Err EINTR)) with true. cbv iota.
    split; [exact E'|]. split; [exact Hs'|].
    change (repeat (EvIoctl dfd req) (S (S k)))
      with ([EvIoctl dfd req] ++ repeat (EvIoctl dfd req) (S k)).
    eapply kernel_step_trans; eassumption.
Qed.

Lemma xioctl_script dfd req w k r rest :
  script w = after_eintr k r ++ rest ->
  fits_ioctl req r = true ->
  is_eintr r = false ->
  kernel_answer dfd req w = r /\
  script (after_xioctl dfd req w) = rest /\
  kernel_step w (after_xioctl dfd req w) (repeat (EvIoctl dfd req) (S k)).
Proof.
  intros Hs Hfit Hne. unfold kernel_answer, after_xioctl.
  destruct (xioctl_loop_script k (List.length (script w)) dfd req w r rest)
    as (w' & E & Hs' & Hk); try assumption.
  { rewrite Hs. unfold after_eintr. rewrite !length_app, repeat_length. lia. }
  rewrite E. auto.
Qed.

Lemma interrupted_le_length s : (interrupted s <= List.length s)%nat.
Proof.
  induction s as [|r s IH]; cbn [interrupted List.length]; [lia|].
  destruct (is_eintr r); lia.
Qed.

Lemma xioctl_loop_exact n dfd req : forall w r w',
  (interrupted (script w) <= n)%nat ->
  xioctl_loop n dfd req w = (r, w') ->
  trace w' = trace w ++ repeat (EvIoctl dfd req) (S (interrupted (script w))) /\
  script w' = drop (S (interrupted (script w))) (script w).
Proof.
  induction n as [|n IH]; intros w r w' Hn; cbn [xioctl_loop].
  - destruct (ioctl dfd req w) as [r0 w0] eqn:E. intros H; injection H as <- <-.
    apply syscall_step in E. destruct E as [(_ & _ & _ & _ & _ & _ & Ht) Hs].
    assert (H0 : interrupted (script w) = O) by lia. rewrite H0.
    split; [exact Ht|]. rewrite Hs. destruct (script w); reflexivity.
  - destruct (ioctl dfd req w) as [r0 w0] eqn:E.
    assert (Hr0 : is_eintr r0 = match script w with
                                | x :: _ => is_eintr x
                                | [] => false
                                end).
    { unfold ioctl, syscall in E. inversion E; subst; clear E.
      destruct (script w) as [|x s]; [reflexivity|].
      destruct (fits_ioctl req x) eqn:Ef; [reflexivity|].
      destruct x; try reflexivity. discriminate Ef. }
    apply syscall_step in E. destruct E as [(_ & _ & _ & _ & _ & _ & Ht) Hs].
    destruct (script w) as [|x s] eqn:Es.
    + rewrite Hr0. intros H; injection H as <- <-. cbn [interrupted].
      split; [exact Ht | rewrite Hs; reflexivity].
    + cbn [interrupted] in *. cbn [tl] in Hs. rewrite Hr0.
      destruct (is_eintr x).
      * intros H. apply IH in H; [|rewrite Hs; lia].
        destruct H as [Ht' Hs']. rewrite Ht', Ht, Hs', Hs, <- app_assoc.
        split; reflexivity.
      * intros H; injection H as <- <-. split; [exact Ht | rewrite Hs; reflexivity].
Qed.

Lemma after_xioctl_exact dfd req w :
  trace (after_xioctl dfd req w)
    = trace w ++ repeat (EvIoctl dfd req) (S (interrupted (script w))) /\
  script (after_xioctl dfd req w) = drop (S (interrupted (script w))) (script w).
Proof.
  unfold after_xioctl.
  destruct (xioctl_loop _ dfd req w) as [r w'] eqn:E. cbn [snd].
  apply (xioctl_loop_exact _ _ _ _ _ _ (interrupted_le_length _) E).
Qed.

Lemma open_at_kernel_step w w' evs handle d :
  kernel_step w w' evs -> open_at w handle d -> open_at w' handle d.
Proof.
  intros (A1 & A2 & _) (H1 & H2 & H3). unfold open_at. rewrite A1, A2. auto.
Qed.

(** * Session capture is gated on the active flag *)

(** C8: on a session whose active flag is clear, libmedia_session_capture_frame
    returns -1 with an error recorded (MEDIA_ERROR_STREAMING_ERROR once the
    arguments are valid), leaves the caller's frame as it was, and changes
    nothing but the last-error slot: no system call is made and no reply of
    the kernel is consumed, so the endpoint is never reached. *)
Theorem session_capture_inactive_is_error :
  forall (s : media_session) (frame : option media_frame_t) (timeout_ms : Z) (w : world),
    s_active s = 0 ->
    exists e,
      libmedia_session_capture_frame (Some s) frame timeout_ms w
        = Some ((-1, frame), with_last_error e w) /\
      e <> MEDIA_ERROR_NONE /\
      (s_device s <> None -> frame <> None -> e = MEDIA_ERROR_STREAMING_ERROR) /\
      trace (with_last_error e w) = trace w /\
      script (with_last_error e w) = script w /\
      g_devices (with_last_error e w) = g_devices w /\
      heap (with_last_error e w) = heap w.
Proof.
  intros s frame timeout_ms w Ha. unfold libmedia_session_capture_frame.
  destruct frame as [fr|]; [destruct (s_device s) as [h|]|].
  - rewrite Ha. simpl. exists MEDIA_ERROR_STREAMING_ERROR.
    repeat split; congruence.
  - exists MEDIA_ERROR_INVALID_PARAM. repeat split; congruence.
  - exists MEDIA_ERROR_INVALID_PARAM. repeat split; congruence.
Qed.

Lemma session_capture_inactive_is_error_witness :
  exists e,
    libmedia_session_capture_frame
      (Some (mk_session (Some 0) (mk_config (Some "/dev/video0"%string) sample_format 4 0 0) 0))
      (Some sample_frame) 1000 (sample_world 4 1 [OkSelect 1; OkDqbuf 2 614400 10 0])
    = Some ((-1, Some sample_frame),
            with_last_error e (sample_world 4 1 [OkSelect 1; OkDqbuf 2 614400 10 0])) /\
    e = MEDIA_ERROR_STREAMING_ERROR.
Proof.
  destruct (session_capture_inactive_is_error
              (mk_session (Some 0) (mk_config (Some "/dev/video0"%string) sample_format 4 0 0) 0)
              (Some sample_frame) 1000
              (sample_world 4 1 [OkSelect 1; OkDqbuf 2 614400 10 0]) eq_refl)
    as (e & H1 & _ & H3 & _).
  exists e. split; [exact H1 | apply H3; discriminate].
Defined.

(** * The readiness wait *)

Lemma fd_set_defined w handle d :
  open_at w handle d -> fd d < FD_SETSIZE ->
  (fd d <? 0) || (fd d >=? FD_SETSIZE) = false.
Proof. intros (_ & _ & H) Hfd. apply orb_false_iff. lia. Qed.

Lemma wait_for_frame_interrupted w handle d timeout_ms rest :
  open_at w handle d ->
  fd d < FD_SETSIZE ->
  script w = Err EINTR :: rest ->
  libmedia_wait_for_frame handle timeout_ms w
    = Some (0, timed_out w EINTR rest (EvSelect (fd d + 1) (select_timeout timeout_ms))).
Proof.
  intros Ho Hfd Hs. unfold libmedia_wait_for_frame, bind.
  rewrite (find_device_open _ _ _ Ho), (read_dev_open _ _ _ Ho).
  rewrite (fd_set_defined _ _ _ Ho Hfd).
  unfold sys_select, lift_sys, syscall. rewrite Hs. reflexivity.
Qed.

Lemma wait_for_frame_not_ready w handle d timeout_ms rest :
  open_at w handle d ->
  fd d < FD_SETSIZE ->
  script w = OkSelect 0 :: rest ->
  libmedia_wait_for_frame handle timeout_ms w
    = Some (0, timed_out w (errno w) rest (EvSelect (fd d + 1) (select_timeout timeout_ms))).
Proof.
  intros Ho Hfd Hs. unfold libmedia_wait_for_frame, bind.
  rewrite (find_device_open _ _ _ Ho), (read_dev_open _ _ _ Ho).
  rewrite (fd_set_defined _ _ _ Ho Hfd).
  unfold sys_select, lift_sys, syscall. rewrite Hs. reflexivity.
Qed.

Ltac capture_waits Ho Ht Hw :=
  unfold bind; rewrite (find_device_open _ _ _ Ho);
  match goal with |- context [?t =? 0] => replace (t =? 0) with false by lia end;
  cbn [negb]; rewrite Hw; reflexivity.

Lemma capture_frame_waits_first w handle d frame timeout_ms w' :
  open_at w handle d ->
  timeout_ms <> 0 ->
  libmedia_wait_for_frame handle timeout_ms w = Some (0, w') ->
  libmedia_capture_frame handle (Some frame) timeout_ms w = Some ((0, Some frame), w').
Proof. intros Ho Ht Hw. unfold libmedia_capture_frame. capture_waits Ho Ht Hw. Qed.

Lemma capture_frame_mp_waits_first w handle d frame timeout_ms w' :
  open_at w handle d ->
  timeout_ms <> 0 ->
  libmedia_wait_for_frame handle timeout_ms w = Some (0, w') ->
  libmedia_capture_frame_mp handle (Some frame) timeout_ms w = Some ((0, Some frame), w').
Proof. intros Ho Ht Hw. unfold libmedia_capture_frame_mp. capture_waits Ho Ht Hw. Qed.

(** C3, as the code has it: an EINTR from select is not retried.  On an
    open device whose descriptor an fd_set can hold (below FD_SETSIZE),
    libmedia_wait_for_frame makes that one select call, consumes nothing
    further from the kernel, records MEDIA_ERROR_TIMEOUT and returns its
    time-out code 0; libmedia_capture_frame and libmedia_capture_frame_mp,
    called with a non-zero timeout, end there: no second select, no dequeue,
    and the caller's frame untouched. *)
Theorem wait_interrupted_reports_timeout :
  forall (w : world) (handle : Z) (d : device_context_t) (timeout_ms : Z)
         (rest : list reply) (frame : media_frame_t),
    open_at w handle d ->
    fd d < FD_SETSIZE ->
    script w = Err EINTR :: rest ->
    let w' := timed_out w EINTR rest (EvSelect (fd d + 1) (select_timeout timeout_ms)) in
    libmedia_wait_for_frame handle timeout_ms w = Some (0, w') /\
    g_last_error w' = MEDIA_ERROR_TIMEOUT /\
    script w' = rest /\
    trace w' = trace w ++ [EvSelect (fd d + 1) (select_timeout timeout_ms)] /\
    (timeout_ms <> 0 ->
     exists r,
       libmedia_capture_frame handle (Some frame) timeout_ms w = Some ((r, Some frame), w') /\
       libmedia_capture_frame_mp handle (Some frame) timeout_ms w
         = Some ((r, Some frame), w')).
Proof.
  intros w handle d timeout_ms rest frame Ho Hfd Hs w'.
  pose proof (wait_for_frame_interrupted w handle d timeout_ms rest Ho Hfd Hs) as Hw.
  split; [exact Hw|]. split; [reflexivity|]. split; [reflexivity|].
  split; [reflexivity|].
  intros Ht. exists 0. split.
  - apply (capture_frame_waits_first w handle d); assumption.
  - apply (capture_frame_mp_waits_first w handle d); assumption.
Qed.

Lemma sample_world_open nbuf stream replies :
  open_at (sample_world nbuf stream replies) 0 (sample_device nbuf stream).
Proof. unfold open_at; simpl. repeat split; lia. Qed.

Lemma wait_interrupted_reports_timeout_witness :
  libmedia_wait_for_frame 0 1000 (sample_world 4 1 [Err EINTR; OkSelect 1])
    = Some (0, timed_out (sample_world 4 1 [Err EINTR; OkSelect 1]) EINTR [OkSelect 1]
                         (EvSelect 4 (Some (1, 0)))).
Proof.
  exact (proj1 (wait_interrupted_reports_timeout
                  (sample_world 4 1 [Err EINTR; OkSelect 1]) 0 (sample_device 4 1) 1000
                  [OkSelect 1] sample_frame
                  (sample_world_open 4 1 _) eq_refl eq_refl)).
Defined.

(** C3 as stated fails: select is interrupted once and would report the
    descriptor readable on the next call, with a completed buffer waiting;
    the capture does not call select again.  It returns 0 with
    MEDIA_ERROR_TIMEOUT recorded, the frame untouched, and the kernel's
    readiness and the completed buffer still pending. *)
Lemma wait_interrupted_not_retried :
  exists w',
    libmedia_capture_frame 0 (Some sample_frame) 1000
      (sample_world 4 1 [Err EINTR; OkSelect 1; OkDqbuf 2 614400 10 0])
    = Some ((0, Some sample_frame), w') /\
    g_last_error w' = MEDIA_ERROR_TIMEOUT /\
    script w' = [OkSelect 1; OkDqbuf 2 614400 10 0] /\
    trace w' = [EvSelect 4 (Some (1, 0))].
Proof. eexists. split; [vm_compute; reflexivity | repeat split]. Qed.

(** * Capture time-outs *)

(** On every open device, a capture with a non-zero timeout whose select
    reports nothing ready returns 0 with the frame untouched. *)
Lemma capture_frame_not_ready w handle d frame timeout_ms rest :
  open_at w handle d ->
  fd d < FD_SETSIZE ->
  timeout_ms <> 0 ->
  script w = OkSelect 0 :: rest ->
  libmedia_capture_frame handle (Some frame) timeout_ms w
    = Some ((0, Some frame),
            timed_out w (errno w) rest (EvSelect (fd d + 1) (select_timeout timeout_ms))).
Proof.
  intros Ho Hfd Ht Hs. apply (capture_frame_waits_first w handle d); try assumption.
  apply wait_for_frame_not_ready; assumption.
Qed.

(** C2, evaluated: on the sample device, streaming with a pool of four, a
    capture with a 1000 ms timeout whose select reports nothing ready returns
    0 with the caller's frame untouched and MEDIA_ERROR_TIMEOUT recorded.  A
    capture that delivers buffer 2 returns the same 0, and when an earlier
    time-out has left MEDIA_ERROR_TIMEOUT in the last-error slot the slot
    still holds it afterwards: return value and last error are the same in
    both runs.  A dequeue that finds nothing (EAGAIN) after select reported
    the descriptor readable returns -1 with MEDIA_ERROR_TIMEOUT, told apart
    from other dequeue failures, which record MEDIA_ERROR_BUFFER_ERROR. *)
Theorem capture_timeout_returns_zero :
  (exists w',
     libmedia_capture_frame 0 (Some sample_frame) 1000 (sample_world 4 1 [OkSelect 0])
       = Some ((0, Some sample_frame), w') /\
     g_last_error w' = MEDIA_ERROR_TIMEOUT /\
     libmedia_capture_frame_mp 0 (Some sample_frame) 1000 (sample_world 4 1 [OkSelect 0])
       = Some ((0, Some sample_frame), w')) /\
  (exists w',
     libmedia_capture_frame 0 (Some sample_frame) 1000
       (with_last_error MEDIA_ERROR_TIMEOUT
          (sample_world 4 1 [OkSelect 1; OkDqbuf 2 614400 10 0]))
       = Some ((0, Some (mk_frame 2101248 614400 640 480 1448695129 10000000000 2)), w') /\
     g_last_error w' = MEDIA_ERROR_TIMEOUT) /\
  (exists w',
     libmedia_capture_frame 0 (Some sample_frame) 1000
       (sample_world 4 1 [OkSelect 1; Err EAGAIN])
       = Some ((-1, Some sample_frame), w') /\
     g_last_error w' = MEDIA_ERROR_TIMEOUT) /\
  (exists w',
     libmedia_capture_frame 0 (Some sample_frame) 1000
       (sample_world 4 1 [OkSelect 1; Err EIO])
       = Some ((-1, Some sample_frame), w') /\
     g_last_error w' = MEDIA_ERROR_BUFFER_ERROR).
Proof.
  repeat split; eexists; (split; [vm_compute; reflexivity | repeat split]).
Qed.

(** * Dequeue checks the index the kernel reports *)

Lemma u32_small x : 0 <= x < 2 ^ 32 -> u32 x = x.
Proof. intros H. unfold u32. apply Z.mod_small. exact H. Qed.

Lemma u32_range x : 0 <= u32 x < 2 ^ 32.
Proof. unfold u32. apply Z.mod_pos_bound. lia. Qed.

Ltac dequeue_fail K1 K5 :=
  unfold gets, set_last_error, modify, ret;
  match goal with |- context [?e =? EAGAIN] => destruct (e =? EAGAIN) end;
  eexists; eexists; (split; [reflexivity|]); simpl;
  (split; [exact K5 | split; [exact K1 | discriminate]]).

Ltac dequeue_proof Ho Hp :=
  unfold bind;
  rewrite (find_device_open _ _ _ Ho), (read_dev_open _ _ _ Ho), xioctl_run;
  match goal with
  | |- context [after_xioctl ?f ?q ?w] =>
      let k := fresh "k" in
      let Hk := fresh "Hk" in
      let Ho1 := fresh "Ho1" in
      let K1 := fresh "K1" in
      let K5 := fresh "K5" in
      destruct (after_xioctl_step f q w) as [k Hk];
      pose proof (open_at_kernel_step _ _ _ _ _ Hk Ho) as Ho1;
      destruct Hk as (K1 & _ & _ & _ & K5 & _);
      unfold dequeue_outcome;
      pose proof (kernel_answer_fits_req f q w) as Hreq;
      destruct (kernel_answer f q w);
      try (exfalso; vm_compute in Hreq; discriminate Hreq);
      try (dequeue_fail K1 K5);
      rewrite (read_dev_open _ _ _ Ho1);
      unfold pool_ok in Hp;
      match goal with
      | |- context [u32 ?i >=? u32 (buffer_count ?d)] =>
          pose proof (u32_range i);
          destruct (buffers d) as [ptr|] eqn:?;
          [ destruct Hp as (arr & Ha & Hc & Hl);
            rewrite (u32_small (buffer_count d)) by lia;
            destruct (u32 i >=? buffer_count d) eqn:?;
            [ eexists; eexists; split; [reflexivity|]; simpl;
              split; [exact K5 | split; [exact K1 |]];
              intros ? ? ? ? Heq; inversion Heq; subst; split; [auto | lia]
            | destruct (arr !! Z.to_nat (u32 i)) as [b|] eqn:El;
              [ unfold load_buf; replace (u32 i <? 0) with false by lia;
                rewrite K5, Ha, El;
                eexists; eexists; split; [reflexivity|];
                split; [exact K5 | split; [exact K1 |]];
                intros ? ? ? ? Heq; inversion Heq; subst; split; [lia |];
                intros _; exists ptr, arr, b; auto
              | apply lookup_ge_None in El; lia ] ]
          | rewrite Hp; change (u32 0) with 0;
            replace (u32 i >=? 0) with true by lia;
            eexists; eexists; split; [reflexivity|]; simpl;
            split; [exact K5 | split; [exact K1 |]];
            intros ? ? ? ? Heq; inversion Heq; subst; split; [auto | lia] ]
      end
  end.

Lemma dequeue_buffer_checked w handle d out :
  open_at w handle d ->
  pool_ok w d ->
  exists r w',
    libmedia_dequeue_buffer handle (Some out) w = Some (r, w') /\
    dequeue_outcome w d out V4L2_BUF_TYPE_VIDEO_CAPTURE r w'.
Proof. intros Ho Hp. unfold libmedia_dequeue_buffer. dequeue_proof Ho Hp. Qed.

Lemma dequeue_buffer_mp_checked w handle d out :
  open_at w handle d ->
  pool_ok w d ->
  exists r w',
    libmedia_dequeue_buffer_mp handle (Some out) w = Some (r, w') /\
    dequeue_outcome w d out V4L2_BUF_TYPE_VIDEO_CAPTURE_MPLANE r w'.
Proof. intros Ho Hp. unfold libmedia_dequeue_buffer_mp. dequeue_proof Ho Hp. Qed.

(** C6: on an open device with a sound pool record, libmedia_dequeue_buffer
    and libmedia_dequeue_buffer_mp always complete, never reading outside the
    pool array: an index from the kernel that is not below the pool size gives
    -1 with MEDIA_ERROR_BUFFER_ERROR and the caller's buffer untouched, and
    the array is read, at that index, only when the index is below the pool
    size. *)
Theorem dequeue_index_checked :
  forall (w : world) (handle : Z) (d : device_context_t) (out : media_buffer_t),
    open_at w handle d ->
    pool_ok w d ->
    (exists r w',
       libmedia_dequeue_buffer handle (Some out) w = Some (r, w') /\
       dequeue_outcome w d out V4L2_BUF_TYPE_VIDEO_CAPTURE r w') /\
    (exists r w',
       libmedia_dequeue_buffer_mp handle (Some out) w = Some (r, w') /\
       dequeue_outcome w d out V4L2_BUF_TYPE_VIDEO_CAPTURE_MPLANE r w').
Proof.
  intros w handle d out Ho Hp. split.
  - apply dequeue_buffer_checked; assumption.
  - apply dequeue_buffer_mp_checked; assumption.
Qed.

Lemma sample_world_pool_ok stream replies :
  pool_ok (sample_world 4 stream replies) (sample_device 4 stream).
Proof.
  unfold pool_ok; simpl. exists sample_pool. split; [reflexivity|].
  simpl. lia.
Qed.

Lemma dequeue_index_checked_witness :
  exists r w',
    libmedia_dequeue_buffer 0 (Some local_buffer) (sample_world 4 1 [OkDqbuf 7 614400 10 0])
      = Some (r, w') /\
    dequeue_outcome (sample_world 4 1 [OkDqbuf 7 614400 10 0]) (sample_device 4 1)
                    local_buffer V4L2_BUF_TYPE_VIDEO_CAPTURE r w'.
Proof.
  exact (proj1 (dequeue_index_checked (sample_world 4 1 [OkDqbuf 7 614400 10 0]) 0
                  (sample_device 4 1) local_buffer
                  (sample_world_open 4 1 _) (sample_world_pool_ok 1 _))).
Defined.

(** * Format negotiation *)

Lemma write_dev_open w handle d f :
  open_at w handle d ->
  write_dev handle f w = Some (tt, put_device handle (f d) w).
Proof.
  intros (Hr & Hd & Hfd). unfold write_dev, put_device.
  replace (handle <? 0) with false by lia. rewrite Hd. reflexivity.
Qed.

Lemma open_at_put_device w handle d d' :
  open_at w handle d -> 0 <= fd d' -> open_at (put_device handle d' w) handle d'.
Proof.
  intros (Hr & Hd & Hfd) Hfd'. unfold open_at, put_device; simpl.
  repeat split; try lia.
  apply list_lookup_insert_eq. apply lookup_lt_Some in Hd. exact Hd.
Qed.

Lemma array_set_get a i v a' :
  array_set a i v = Some a' ->
  List.length a' = List.length a /\
  array_get a' i = Some v /\
  (forall j, j <> i -> 0 <= j -> array_get a' j = array_get a j).
Proof.
  unfold array_set, array_get.
  destruct (i <? 0) eqn:Ei; [discriminate|].
  destruct (Z.to_nat i <? List.length a)%nat eqn:El; [|discriminate].
  intros H; inversion H; subst; clear H.
  apply Nat.ltb_lt in El.
  split; [apply length_insert|]. split.
  - apply list_lookup_insert_eq. exact El.
  - intros j Hj Hj0. replace (j <? 0) with false by lia.
    apply list_lookup_insert_ne. lia.
Qed.

Lemma array_set_in_range a i v :
  0 <= i < Z.of_nat (List.length a) -> exists a', array_set a i v = Some a'.
Proof.
  intros H. unfold array_set.
  replace (i <? 0) with false by lia.
  replace (Z.to_nat i <? List.length a)%nat with true
    by (symmetry; apply Nat.ltb_lt; lia).
  eexists; reflexivity.
Qed.

Lemma copy_plane_sizes_spec n : forall i sizeimage ps,
  0 <= i ->
  i + Z.of_nat n <= VIDEO_MAX_PLANES ->
  i + Z.of_nat n <= Z.of_nat (List.length ps) ->
  exists ps',
    copy_plane_sizes n i sizeimage ps = Some ps' /\
    List.length ps' = List.length ps /\
    (forall j, i <= j < i + Z.of_nat n ->
               array_get ps' j = Some (u32 (nth (Z.to_nat j) sizeimage 0))) /\
    (forall j, 0 <= j < i -> array_get ps' j = array_get ps j).
Proof.
  induction n as [|n IH]; intros i sizeimage ps Hi Hmax Hlen.
  - exists ps. simpl. repeat split; auto. intros j Hj; lia.
  - cbn [copy_plane_sizes]. unfold plane_fmt_get.
    replace (i <? 0) with false by lia.
    replace (i >=? VIDEO_MAX_PLANES) with false by lia.
    cbn [orb].
    destruct (array_set_in_range ps i (u32 (nth (Z.to_nat i) sizeimage 0))) as [ps1 H1];
      [lia|].
    rewrite H1. apply array_set_get in H1. destruct H1 as (L1 & G1 & O1).
    destruct (IH (i + 1) sizeimage ps1) as (ps' & E & L & G & O); try lia.
    exists ps'. split; [exact E|]. split; [congruence|]. split.
    + intros j Hj. destruct (Z.eq_dec j i) as [->|Hne].
      * rewrite O by lia. exact G1.
      * apply G. lia.
    + intros j Hj. rewrite O by lia. apply O1; lia.
Qed.

Lemma get_format_cached w handle d out :
  open_at w handle d ->
  libmedia_get_format handle (Some out) w = Some ((0, Some (format d)), w).
Proof.
  intros Ho. unfold libmedia_get_format, bind.
  rewrite (find_device_open _ _ _ Ho), (read_dev_open _ _ _ Ho). reflexivity.
Qed.

(** C9: when the kernel accepts a multi-plane format on an open device,
    libmedia_set_format_mp returns 0 and both hands back and caches a format
    that holds the kernel's values: width, height, pixel format, field, the
    kernel's plane count, and the kernel's size for every plane below that
    count.  Afterwards libmedia_get_format and libmedia_get_format_mp return
    0 with that cached format and leave the whole state as it is: no system
    call is made, so repeating the query gives the same answer. *)
Theorem set_format_mp_caches_accepted :
  forall (w : world) (handle : Z) (d : device_context_t) (f : media_format_t)
         (width height pixelformat field num_planes : Z) (sizeimage : list Z),
    open_at w handle d ->
    List.length (f_plane_size f) = Z.to_nat VIDEO_MAX_PLANES ->
    kernel_answer (fd d)
      (VIDIOC_S_FMT V4L2_BUF_TYPE_VIDEO_CAPTURE_MPLANE (f_width f) (f_height f)
                    (f_pixelformat f) (f_field f)) w
      = OkFmtMp width height pixelformat field num_planes sizeimage ->
    u8 num_planes <= VIDEO_MAX_PLANES ->
    exists f' w' d',
      libmedia_set_format_mp handle (Some f) w = Some ((0, Some f'), w') /\
      f_width f' = u32 width /\ f_height f' = u32 height /\
      f_pixelformat f' = u32 pixelformat /\ f_field f' = u32 field /\
      f_num_planes f' = u8 num_planes /\
      (forall i, 0 <= i < u8 num_planes ->
                 array_get (f_plane_size f') i = Some (u32 (nth (Z.to_nat i) sizeimage 0))) /\
      open_at w' handle d' /\ format d' = f' /\ use_multiplanar d' = 1 /\
      (forall out, libmedia_get_format handle (Some out) w' = Some ((0, Some f'), w')) /\
      (forall out, libmedia_get_format_mp handle (Some out) w' = Some ((0, Some f'), w')).
Proof.
  intros w handle d f width height pixelformat field num_planes sizeimage Ho Hlen Hk Hnp.
  unfold libmedia_set_format_mp, bind.
  rewrite (find_device_open _ _ _ Ho), (read_dev_open _ _ _ Ho), xioctl_run, Hk.
  assert (Hu8 : 0 <= u8 num_planes) by (unfold u8; apply Z.mod_pos_bound; lia).
  destruct (copy_plane_sizes_spec (Z.to_nat (u8 num_planes)) 0 sizeimage (f_plane_size f))
    as (ps & E & L & G & _).
  { lia. }
  { rewrite Z2Nat.id by lia. lia. }
  { rewrite Hlen. unfold VIDEO_MAX_PLANES in *. rewrite Z2Nat.id by lia. lia. }
  unfold lift_opt. rewrite E.
  destruct (after_xioctl_step (fd d)
              (VIDIOC_S_FMT V4L2_BUF_TYPE_VIDEO_CAPTURE_MPLANE (f_width f) (f_height f)
                            (f_pixelformat f) (f_field f)) w) as [k Hstep].
  pose proof (open_at_kernel_step _ _ _ _ _ Hstep Ho) as Ho1.
  set (w1 := after_xioctl _ _ w) in *.
  set (f' := mk_format (u32 width) (u32 height) (u32 pixelformat) (u32 field)
                       (u8 num_planes) ps).
  rewrite (write_dev_open _ _ _ _ Ho1).
  assert (Ho2 : open_at (put_device handle (set_format f' d) w1) handle (set_format f' d)).
  { apply (open_at_put_device _ _ d); [exact Ho1 | apply Ho]. }
  rewrite (write_dev_open _ _ _ _ Ho2).
  set (d2 := set_use_multiplanar 1 (set_format f' d)).
  assert (Ho3 : open_at (put_device handle d2 (put_device handle (set_format f' d) w1))
                        handle d2).
  { apply (open_at_put_device _ _ (set_format f' d)); [exact Ho2 | apply Ho]. }
  exists f', (put_device handle d2 (put_device handle (set_format f' d) w1)), d2.
  split; [reflexivity|].
  repeat (split; [reflexivity|]).
  split.
  { intros i Hi. apply G. rewrite Z2Nat.id by lia. lia. }
  split; [exact Ho3|]. split; [reflexivity|]. split; [reflexivity|].
  split; intros out; [|unfold libmedia_get_format_mp];
    apply (get_format_cached _ _ d2 out Ho3).
Qed.

Lemma set_format_mp_caches_accepted_witness :
  exists f' w' d',
    libmedia_set_format_mp 0 (Some sample_format)
      (sample_world 0 0 [OkFmtMp 640 480 842094158 1 2 [307200; 153600]])
      = Some ((0, Some f'), w') /\
    f_num_planes f' = 2 /\
    array_get (f_plane_size f') 1 = Some 153600 /\
    format d' = f' /\
    libmedia_get_format 0 (Some sample_format) w' = Some ((0, Some f'), w').
Proof.
  destruct (set_format_mp_caches_accepted
              (sample_world 0 0 [OkFmtMp 640 480 842094158 1 2 [307200; 153600]]) 0
              (sample_device 0 0) sample_format 640 480 842094158 1 2 [307200; 153600]
              (sample_world_open 0 0 _) eq_refl eq_refl)
    as (f' & w' & d' & H1 & _ & _ & _ & _ & H6 & H7 & _ & H9 & _ & H11 & _).
  { vm_compute. discriminate. }
  exists f', w', d'. split; [exact H1|]. split; [exact H6|].
  split; [apply (H7 1); vm_compute; split; [discriminate | reflexivity]|].
  split; [exact H9 | apply H11].
Defined.

(** * The device registry *)








(** * Loops *)

(** The rule for [for_loop]: an invariant [I] indexed by the counter, and a
    condition [Q] on what an early return leaves. *)
Lemma for_loop_rule {R : Type} (I : Z -> world -> Prop) (Q : R -> world -> Prop)
    (body : Z -> M (option R)) (n : nat) :
  forall i w,
    I i w ->
    (forall j w0, i <= j < i + Z.of_nat n -> I j w0 ->
       exists r w1, body j w0 = Some (r, w1) /\
                    match r with None => I (j + 1) w1 | Some v => Q v w1 end) ->
    exists r w', for_loop n i body w = Some (r, w') /\
                 match r with None => I (i + Z.of_nat n) w' | Some v => Q v w' end.
Proof.
  induction n as [|n IH]; intros i w Hi Hbody.
  - exists None, w. split; [reflexivity|]. rewrite Z.add_0_r. exact Hi.
  - cbn [for_loop]. unfold bind at 1.
    destruct (Hbody i w) as (r & w1 & E & Hr); [lia | exact Hi |].
    rewrite E. destruct r as [v|].
    + exists (Some v), w1. split; [reflexivity | exact Hr].
    + destruct (IH (i + 1) w1 Hr) as (r' & w' & E' & Hr').
      { intros j w0 Hj. apply Hbody. lia. }
      exists r', w'. split; [exact E'|].
      replace (i + Z.of_nat (S n)) with (i + 1 + Z.of_nat n) by lia. exact Hr'.
Qed.

(** * Releasing the pool *)

Lemma unmap_step_refl w : unmap_step w w.
Proof.
  unfold unmap_step. repeat split; try reflexivity; auto.
  exists []. rewrite app_nil_r. split; [reflexivity | constructor].
Qed.

Lemma unmap_step_trans w1 w2 w3 :
  unmap_step w1 w2 -> unmap_step w2 w3 -> unmap_step w1 w3.
Proof.
  intros (A1 & A2 & A3 & A4 & A5 & A6 & (e1 & A7 & F1) & A8)
         (B1 & B2 & B3 & B4 & B5 & B6 & (e2 & B7 & F2) & B8).
  unfold unmap_step. rewrite B1, B2, B3, B4, B5, B6.
  repeat split; try assumption.
  - exists (e1 ++ e2). rewrite B7, A7, app_assoc. split; [reflexivity|].
    apply Forall_app; split; assumption.
  - intros m Hm. apply A8, B8, Hm.
Qed.

Lemma array_get_in_range a p :
  0 <= p < Z.of_nat (List.length a) -> exists s, array_get a p = Some s.
Proof.
  intros H. unfold array_get. replace (p <? 0) with false by lia.
  destruct (a !! Z.to_nat p) as [s|] eqn:E; [eexists; reflexivity|].
  apply lookup_ge_None in E. lia.
Qed.

Lemma set_b_start_id b : set_b_start (b_start b) b = b.
Proof. destruct b; reflexivity. Qed.

Lemma load_buf_at ptr i w arr b :
  0 <= i -> heap w !! ptr = Some arr -> arr !! Z.to_nat i = Some b ->
  load_buf ptr i w = Some (b, w).
Proof.
  intros Hi Hh Hb. unfold load_buf.
  replace (i <? 0) with false by lia. rewrite Hh, Hb. reflexivity.
Qed.

Lemma store_buf_at ptr i w arr b f :
  0 <= i -> heap w !! ptr = Some arr -> arr !! Z.to_nat i = Some b ->
  store_buf ptr i f w
    = Some (tt, with_heap (<[ptr := <[Z.to_nat i := f b]> arr]> (heap w)) w).
Proof.
  intros Hi Hh Hb. unfold store_buf.
  replace (i <? 0) with false by lia. rewrite Hh, Hb. reflexivity.
Qed.

Lemma free_plane_step ptr i p w0 arr0 b :
  0 <= i ->
  heap w0 !! ptr = Some arr0 ->
  arr0 !! Z.to_nat i = Some b ->
  0 <= p < Z.of_nat (List.length (b_start b)) ->
  p < Z.of_nat (List.length (b_length b)) ->
  exists w1 st,
    free_plane ptr i p w0 = Some (None, w1) /\
    unmap_step w0 w1 /\
    List.length st = List.length (b_start b) /\
    heap w1 = <[ptr := <[Z.to_nat i := set_b_start st b]> arr0]> (heap w0) /\
    (exists s, array_get st p = Some s /\ live s = false) /\
    (forall q, q <> p -> 0 <= q -> array_get st q = array_get (b_start b) q) /\
    trace w1 = trace w0 ++ munmap_events (plane_unmaps b p) /\
    mappings w1 = unmapped (plane_unmaps b p) (mappings w0).
Proof.
  intros Hi Hh Hb Hp Hp'.
  unfold free_plane, bind at 1. rewrite (load_buf_at _ _ _ _ _ Hi Hh Hb).
  destruct (array_get_in_range (b_start b) p Hp) as [s Hs].
  unfold bind at 1, lift_opt at 1. rewrite Hs.
  destruct (array_get_in_range (b_length b) p ltac:(lia)) as [l Hlen].
  assert (Hpu : plane_unmaps b p = if live s then [(s, l)] else []).
  { unfold plane_unmaps. rewrite Hs, Hlen. reflexivity. }
  rewrite Hpu. clear Hpu.
  fold (live s). destruct (live s) eqn:El.
  - unfold bind at 1, lift_opt at 1. rewrite Hlen.
    unfold bind at 1, sys_munmap, modify.
    set (w01 := mk_world _ _ _ _ _ _ _ _ _).
    assert (Hh1 : heap w01 !! ptr = Some arr0) by exact Hh.
    unfold store_start, bind. rewrite (load_buf_at _ _ _ _ _ Hi Hh1 Hb).
    destruct (array_set_in_range (b_start b) p NULL Hp) as [st Hst].
    unfold lift_opt. rewrite Hst.
    rewrite (store_buf_at _ _ _ _ _ _ Hi Hh1 Hb).
    apply array_set_get in Hst. destruct Hst as (L & G & O).
    eexists; exists st. split; [reflexivity|].
    split.
    { unfold unmap_step; simpl. repeat split; try reflexivity.
      - exists [EvMunmap s l]. split; [reflexivity|]. repeat constructor.
      - intros m Hm. apply filter_In in Hm. apply Hm. }
    split; [exact L|]. split; [reflexivity|].
    split; [exists NULL; split; [exact G | reflexivity]|].
    split; [exact O|]. split; reflexivity.
  - exists w0, (b_start b). split; [reflexivity|].
    split; [apply unmap_step_refl|]. split; [reflexivity|].
    split.
    { rewrite set_b_start_id, (list_insert_id _ _ _ Hb), (insert_id _ _ _ Hh).
      reflexivity. }
    split; [exists s; auto|]. split; [auto|].
    cbn [munmap_events map unmapped fold_left]. rewrite app_nil_r. auto.
Qed.

Lemma munmap_events_app us1 us2 :
  munmap_events (us1 ++ us2) = munmap_events us1 ++ munmap_events us2.
Proof. apply map_app. Qed.

Lemma unmapped_app us1 us2 ms :
  unmapped (us1 ++ us2) ms = unmapped us2 (unmapped us1 ms).
Proof. apply fold_left_app. Qed.



Lemma seqZ_to_nat n : seqZ 0 (Z.of_nat (Z.to_nat n)) = seqZ 0 n.
Proof. unfold seqZ. rewrite Nat2Z.id. reflexivity. Qed.

Lemma seqZ_snoc j : 0 <= j -> seqZ 0 (j + 1) = seqZ 0 j ++ [j].
Proof.
  intros Hj. rewrite seqZ_app by lia. rewrite Z.add_0_l. reflexivity.
Qed.

Lemma plane_unmaps_ext b b' p :
  array_get (b_start b') p = array_get (b_start b) p ->
  b_length b' = b_length b ->
  plane_unmaps b' p = plane_unmaps b p.
Proof. intros H1 H2. unfold plane_unmaps. rewrite H1, H2. reflexivity. Qed.



Lemma free_buffer_spec ptr i w0 arr0 b :
  0 <= i ->
  heap w0 !! ptr = Some arr0 ->
  arr0 !! Z.to_nat i = Some b ->
  planes_ok b ->
  exists w1 st,
    free_buffer ptr i w0 = Some (None, w1) /\
    unmap_step w0 w1 /\
    List.length st = List.length (b_start b) /\
    heap w1 = <[ptr := <[Z.to_nat i := set_b_start st b]> arr0]> (heap w0) /\
    released (set_b_start st b) /\
    trace w1 = trace w0 ++ munmap_events (buffer_unmaps b) /\
    mappings w1 = unmapped (buffer_unmaps b) (mappings w0).
Proof.
  intros Hi Hh Hb (Ls & Ll & Hn).
  unfold free_buffer, bind. rewrite (load_buf_at _ _ _ _ _ Hi Hh Hb).
  pose proof (lookup_lt_Some _ _ _ Hb) as Hlt.
  destruct (for_loop_rule
              (fun p w1 => unmap_step w0 w1 /\
                 exists st, List.length st = List.length (b_start b) /\
                   heap w1 = <[ptr := <[Z.to_nat i := set_b_start st b]> arr0]> (heap w0) /\
                   (forall q s, 0 <= q < p -> array_get st q = Some s -> live s = false) /\
                   (forall q, p <= q -> array_get st q = array_get (b_start b) q) /\
                   trace w1 = trace w0
                                ++ munmap_events (flat_map (plane_unmaps b) (seqZ 0 p)) /\
                   mappings w1 = unmapped (flat_map (plane_unmaps b) (seqZ 0 p))
                                          (mappings w0))
              (fun (_ : Z) (_ : world) => False)
              (free_plane ptr i) (Z.to_nat (b_num_planes b)) 0 w0)
    as (r & w1 & E & Hr).
  { split; [apply unmap_step_refl|]. exists (b_start b). split; [reflexivity|].
    split.
    { rewrite set_b_start_id, (list_insert_id _ _ _ Hb), (insert_id _ _ _ Hh).
      reflexivity. }
    split; [intros q s Hq; lia|]. split; [reflexivity|].
    cbn. rewrite app_nil_r. auto. }
  { intros j w1 Hj (Hu & st & Lst & Hheap & Hdead & Hkeep & Htr & Hmp).
    assert (Hh1 : heap w1 !! ptr = Some (<[Z.to_nat i := set_b_start st b]> arr0)).
    { rewrite Hheap. apply lookup_insert_eq. }
    assert (Hb1 : <[Z.to_nat i := set_b_start st b]> arr0 !! Z.to_nat i
                  = Some (set_b_start st b)).
    { apply list_lookup_insert_eq. exact Hlt. }
    destruct (free_plane_step ptr i j w1 _ _ Hi Hh1 Hb1)
      as (w2 & st2 & E2 & Hu2 & L2 & Hheap2 & (s & Gs & Ds) & O2 & Htr2 & Hmp2).
    { cbn [b_start set_b_start]. rewrite Lst, Ls. unfold VIDEO_MAX_PLANES in *. lia. }
    { cbn [b_length set_b_start]. rewrite Ll. unfold VIDEO_MAX_PLANES in *. lia. }
    assert (Hpl : plane_unmaps (set_b_start st b) j = plane_unmaps b j).
    { apply plane_unmaps_ext; [cbn [b_start set_b_start]; apply Hkeep; lia | reflexivity]. }
    rewrite Hpl in Htr2, Hmp2.
    exists None, w2. split; [exact E2|].
    split; [eapply unmap_step_trans; eassumption|].
    exists st2. split; [cbn [b_start set_b_start] in L2; congruence|].
    split.
    { rewrite Hheap2, Hheap, insert_insert_eq, list_insert_insert_eq. reflexivity. }
    split.
    { intros q s' Hq Hs'. destruct (Z.eq_dec q j) as [->|Hne].
      - congruence.
      - rewrite O2 in Hs' by lia. cbn [b_start set_b_start] in Hs'.
        apply (Hdead q s'); [lia | exact Hs']. }
    split.
    { intros q Hq. rewrite O2 by lia. cbn [b_start set_b_start]. apply Hkeep. lia. }
    rewrite (seqZ_snoc j) by lia. rewrite flat_map_app. cbn [flat_map].
    rewrite app_nil_r, munmap_events_app, unmapped_app, Htr2, Hmp2, Htr, Hmp, app_assoc.
    auto. }
  destruct r as [v|]; [contradiction|].
  destruct Hr as (Hu & st & Lst & Hheap & Hdead & _ & Htr & Hmp).
  rewrite Z.add_0_l, seqZ_to_nat in Htr, Hmp.
  exists w1, st. split; [exact E|]. split; [exact Hu|]. split; [exact Lst|].
  split; [exact Hheap|].
  split; [|split; [exact Htr | exact Hmp]].
  intros p s Hp Hs. cbn [b_num_planes b_start set_b_start] in *.
  apply (Hdead p s); [lia | exact Hs].
Qed.

Lemma free_loop_spec ptr count w arr :
  heap w !! ptr = Some arr ->
  array_ok arr count ->
  exists w1 arr1,
    for_loop (Z.to_nat count) 0 (free_buffer ptr) w = Some (None, w1) /\
    unmap_step w w1 /\
    heap w1 = <[ptr := arr1]> (heap w) /\
    array_ok arr1 count /\
    pool_released arr1 count /\
    trace w1 = trace w ++ munmap_events (pool_unmaps arr count) /\
    mappings w1 = unmapped (pool_unmaps arr count) (mappings w).
Proof.
  intros Hh (Hlen & Hok).
  destruct (for_loop_rule
              (fun i w1 => unmap_step w w1 /\
                 exists arr1, heap w1 = <[ptr := arr1]> (heap w) /\
                   array_ok arr1 count /\
                   (forall j b, 0 <= j < i -> arr1 !! Z.to_nat j = Some b -> released b) /\
                   (forall j, i <= j -> arr1 !! Z.to_nat j = arr !! Z.to_nat j) /\
                   trace w1 = trace w ++ munmap_events (pool_unmaps arr i) /\
                   mappings w1 = unmapped (pool_unmaps arr i) (mappings w))
              (fun (_ : Z) (_ : world) => False)
              (free_buffer ptr) (Z.to_nat count) 0 w)
    as (r & w1 & E & Hr).
  { split; [apply unmap_step_refl|]. exists arr.
    split; [rewrite (insert_id _ _ _ Hh); reflexivity|].
    split; [split; assumption|]. split; [intros j b Hj; lia|].
    split; [reflexivity|]. cbn. rewrite app_nil_r. auto. }
  { intros j w1 Hj (Hu & arr1 & Hheap & (Hlen1 & Hok1) & Hrel & Hkeep & Htr & Hmp).
    assert (Hh1 : heap w1 !! ptr = Some arr1).
    { rewrite Hheap. apply lookup_insert_eq. }
    destruct (arr1 !! Z.to_nat j) as [b|] eqn:Eb.
    2:{ apply lookup_ge_None in Eb. lia. }
    pose proof (Hok1 j b ltac:(lia) Eb) as Hpl.
    destruct (free_buffer_spec ptr j w1 arr1 b ltac:(lia) Hh1 Eb Hpl)
      as (w2 & st & E2 & Hu2 & Lst & Hheap2 & Hrel2 & Htr2 & Hmp2).
    assert (Eb0 : arr !! Z.to_nat j = Some b).
    { rewrite <- (Hkeep j) by lia. exact Eb. }
    assert (Hpool : pool_unmaps arr (j + 1) = pool_unmaps arr j ++ buffer_unmaps b).
    { unfold pool_unmaps. replace (Z.to_nat (j + 1)) with (S (Z.to_nat j)) by lia.
      rewrite (take_S_r _ _ _ Eb0), flat_map_app. cbn [flat_map].
      rewrite app_nil_r. reflexivity. }
    exists None, w2. split; [exact E2|].
    split; [eapply unmap_step_trans; eassumption|].
    exists (<[Z.to_nat j := set_b_start st b]> arr1).
    split; [rewrite Hheap2, Hheap, insert_insert_eq; reflexivity|].
    pose proof (lookup_lt_Some _ _ _ Eb) as Hlt.
    split.
    { split; [rewrite length_insert; exact Hlen1|].
      intros k b' Hk Hb'. destruct (Z.eq_dec k j) as [->|Hne].
      - rewrite list_lookup_insert_eq in Hb' by exact Hlt.
        inversion Hb'; subst. destruct Hpl as (P1 & P2 & P3).
        unfold planes_ok. cbn [b_start b_length b_num_planes set_b_start].
        rewrite Lst. auto.
      - rewrite list_lookup_insert_ne in Hb' by lia. apply (Hok1 k b' Hk Hb'). }
    split.
    { intros k b' Hk Hb'. destruct (Z.eq_dec k j) as [->|Hne].
      - rewrite list_lookup_insert_eq in Hb' by exact Hlt.
        inversion Hb'; subst. exact Hrel2.
      - rewrite list_lookup_insert_ne in Hb' by lia.
        apply (Hrel k b'); [lia | exact Hb']. }
    split.
    { intros k Hk. rewrite list_lookup_insert_ne by lia. apply Hkeep. lia. }
    rewrite Hpool, munmap_events_app, unmapped_app, Htr2, Hmp2, Htr, Hmp, app_assoc.
    auto. }
  destruct r as [v|]; [contradiction|].
  destruct Hr as (Hu & arr1 & Hheap & Hok1 & Hrel & _ & Htr & Hmp).
  assert (Hcnt : pool_unmaps arr (0 + Z.of_nat (Z.to_nat count)) = pool_unmaps arr count).
  { unfold pool_unmaps. rewrite Z.add_0_l, Nat2Z.id. reflexivity. }
  rewrite Hcnt in Htr, Hmp.
  exists w1, arr1. split; [exact E|]. split; [exact Hu|]. split; [exact Hheap|].
  split; [exact Hok1|]. split; [|split; [exact Htr | exact Hmp]].
  intros i b Hi. apply Hrel. lia.
Qed.

Lemma free_plane_released ptr i p w arr b :
  0 <= i ->
  heap w !! ptr = Some arr ->
  arr !! Z.to_nat i = Some b ->
  0 <= p < Z.of_nat (List.length (b_start b)) ->
  (forall s, array_get (b_start b) p = Some s -> live s = false) ->
  free_plane ptr i p w = Some (None, w).
Proof.
  intros Hi Hh Hb Hp Hdead.
  unfold free_plane, bind at 1. rewrite (load_buf_at _ _ _ _ _ Hi Hh Hb).
  destruct (array_get_in_range (b_start b) p Hp) as [s Hs].
  unfold bind at 1, lift_opt at 1. rewrite Hs.
  fold (live s). rewrite (Hdead s Hs). reflexivity.
Qed.

Lemma free_loop_released ptr count w arr :
  heap w !! ptr = Some arr ->
  array_ok arr count ->
  pool_released arr count ->
  for_loop (Z.to_nat count) 0 (free_buffer ptr) w = Some (None, w).
Proof.
  intros Hh (Hlen & Hok) Hrel.
  destruct (for_loop_rule (fun (_ : Z) w1 => w1 = w) (fun (_ : Z) (_ : world) => False)
              (free_buffer ptr) (Z.to_nat count) 0 w eq_refl)
    as (r & w1 & E & Hr).
  { intros j w0 Hj ->.
    destruct (arr !! Z.to_nat j) as [b|] eqn:Eb.
    2:{ apply lookup_ge_None in Eb. lia. }
    destruct (Hok j b ltac:(lia) Eb) as (Ls & Ll & Hn).
    exists None, w. split; [|reflexivity].
    unfold free_buffer, bind. rewrite (load_buf_at ptr j w arr b ltac:(lia) Hh Eb).
    destruct (for_loop_rule (fun (_ : Z) w1 => w1 = w) (fun (_ : Z) (_ : world) => False)
                (free_plane ptr j) (Z.to_nat (b_num_planes b)) 0 w eq_refl)
      as (r2 & w2 & E2 & Hr2).
    { intros p w0 Hp ->. exists None, w. split; [|reflexivity].
      apply (free_plane_released ptr j p w arr b ltac:(lia) Hh Eb).
      - rewrite Ls. unfold VIDEO_MAX_PLANES in *. lia.
      - intros s Hs. apply (Hrel j b ltac:(lia) Eb p s); [lia | exact Hs]. }
    destruct r2 as [v|]; [contradiction|]. subst w2. exact E2. }
  destruct r as [v|]; [contradiction|]. subst w1. exact E.
Qed.

Lemma with_devices_id w : with_devices (g_devices w) w = w.
Proof. destruct w; reflexivity. Qed.

Lemma open_at_unmap_step w w1 handle d :
  unmap_step w w1 -> open_at w handle d -> open_at w1 handle d.
Proof.
  intros (A1 & A2 & _) (H1 & H2 & H3). unfold open_at. rewrite A1, A2. auto.
Qed.

Lemma free_buffers_exact w handle d ptr arr count :
  open_at w handle d ->
  heap w !! ptr = Some arr ->
  array_ok arr count ->
  0 < count ->
  exists w1 arr1,
    libmedia_free_buffers handle (Some ptr) count w
      = Some (0, with_devices (<[Z.to_nat handle := freed_device d]> (g_devices w)) w1) /\
    unmap_step w w1 /\
    heap w1 = <[ptr := arr1]> (heap w) /\
    array_ok arr1 count /\
    pool_released arr1 count /\
    trace w1 = trace w ++ munmap_events (pool_unmaps arr count) /\
    mappings w1 = unmapped (pool_unmaps arr count) (mappings w).
Proof.
  intros Ho Hh Hok Hc.
  unfold libmedia_free_buffers, bind at 1. rewrite (find_device_open _ _ _ Ho).
  replace (count <=? 0) with false by lia.
  destruct (free_loop_spec ptr count w arr Hh Hok)
    as (w1 & arr1 & E & Hu & Hheap & Hok1 & Hrel & Htr & Hmp).
  unfold bind at 1. rewrite E.
  pose proof (open_at_unmap_step _ _ _ _ Hu Ho) as Ho1.
  unfold bind at 1. rewrite (write_dev_open _ _ _ _ Ho1).
  assert (Ho2 : open_at (put_device handle (set_buffers None d) w1) handle
                        (set_buffers None d)).
  { apply (open_at_put_device _ _ d); [exact Ho1 | apply Ho]. }
  unfold bind. rewrite (write_dev_open _ _ _ _ Ho2).
  exists w1, arr1. split; [|auto 10].
  unfold ret, put_device, with_devices. cbn [g_devices g_device_count g_initialized
    g_last_error errno heap mappings script trace].
  rewrite list_insert_insert_eq. destruct Hu as (A1 & _). rewrite A1. reflexivity.
Qed.

Lemma free_buffers_spec w handle d ptr arr count :
  open_at w handle d ->
  heap w !! ptr = Some arr ->
  array_ok arr count ->
  0 < count ->
  exists w1 arr1,
    libmedia_free_buffers handle (Some ptr) count w
      = Some (0, with_devices (<[Z.to_nat handle := freed_device d]> (g_devices w)) w1) /\
    unmap_step w w1 /\
    heap w1 = <[ptr := arr1]> (heap w) /\
    array_ok arr1 count /\
    pool_released arr1 count.
Proof.
  intros Ho Hh Hok Hc.
  destruct (free_buffers_exact w handle d ptr arr count Ho Hh Hok Hc)
    as (w1 & arr1 & E & Hu & Hheap & Hok1 & Hrel & _).
  exists w1, arr1. auto.
Qed.

(** * Freeing twice *)

(** C5: libmedia_free_buffers called on an open device with an array of
    [count] >= 1 well-formed buffers returns 0 and leaves every plane of the
    array released; called again on the same array it returns 0 again and
    changes nothing at all: no munmap is issued, no mapping is removed, and
    the array and the device are as the first call left them. *)
Theorem free_buffers_idempotent :
  forall (w : world) (handle : Z) (d : device_context_t) (ptr : Z)
         (arr : list media_buffer_t) (count : Z),
    open_at w handle d ->
    heap w !! ptr = Some arr ->
    array_ok arr count ->
    0 < count ->
    exists w1 arr1,
      libmedia_free_buffers handle (Some ptr) count w = Some (0, w1) /\
      heap w1 !! ptr = Some arr1 /\ pool_released arr1 count /\
      libmedia_free_buffers handle (Some ptr) count w1 = Some (0, w1).
Proof.
  intros w handle d ptr arr count Ho Hh Hok Hc.
  destruct (free_buffers_spec w handle d ptr arr count Ho Hh Hok Hc)
    as (w1 & arr1 & E & Hu & Hheap & Hok1 & Hrel).
  set (w2 := with_devices (<[Z.to_nat handle := freed_device d]> (g_devices w)) w1) in *.
  exists w2, arr1. split; [exact E|].
  assert (Hh2 : heap w2 !! ptr = Some arr1).
  { unfold w2; cbn [heap with_devices]. rewrite Hheap. apply lookup_insert_eq. }
  split; [exact Hh2|]. split; [exact Hrel|].
  assert (Ho2 : open_at w2 handle (freed_device d)).
  { destruct Ho as (H1 & H2 & H3). unfold open_at, w2.
    cbn [g_devices g_device_count with_devices].
    destruct Hu as (_ & A2 & _). rewrite A2.
    split; [exact H1|]. split; [|exact H3].
    apply list_lookup_insert_eq. apply lookup_lt_Some in H2. exact H2. }
  unfold libmedia_free_buffers, bind at 1. rewrite (find_device_open _ _ _ Ho2).
  replace (count <=? 0) with false by lia.
  unfold bind at 1. rewrite (free_loop_released ptr count w2 arr1 Hh2 Hok1 Hrel).
  unfold bind at 1. rewrite (write_dev_open _ _ _ _ Ho2).
  assert (Hid : put_device handle (set_buffers None (freed_device d)) w2 = w2).
  { unfold put_device. change (set_buffers None (freed_device d)) with (freed_device d).
    destruct Ho2 as (_ & H2 & _). rewrite (list_insert_id _ _ _ H2).
    apply with_devices_id. }
  rewrite Hid. unfold bind. rewrite (write_dev_open _ _ _ _ Ho2).
  change (set_buffer_count 0 (freed_device d)) with (freed_device d).
  unfold put_device. destruct Ho2 as (_ & H2 & _). rewrite (list_insert_id _ _ _ H2).
  rewrite with_devices_id. reflexivity.
Qed.

Lemma sample_pool_ok : array_ok sample_pool 4.
Proof.
  split; [simpl; lia|].
  intros i b Hi Hb.
  assert (Hcases : i = 0 \/ i = 1 \/ i = 2 \/ i = 3) by lia.
  destruct Hcases as [-> | [-> | [-> | ->]]]; inversion Hb; subst;
    (split; [reflexivity | split; [reflexivity | unfold VIDEO_MAX_PLANES; simpl; lia]]).
Qed.

Lemma free_buffers_idempotent_witness :
  exists w1 arr1,
    libmedia_free_buffers 0 (Some 1000) 4 (sample_world 4 0 []) = Some (0, w1) /\
    heap w1 !! 1000 = Some arr1 /\ pool_released arr1 4 /\
    libmedia_free_buffers 0 (Some 1000) 4 w1 = Some (0, w1).
Proof.
  exact (free_buffers_idempotent (sample_world 4 0 []) 0 (sample_device 4 0) 1000
           sample_pool 4 (sample_world_open 4 0 []) eq_refl sample_pool_ok
           ltac:(lia)).
Defined.

(** * The streaming switches *)

Ltac switch_spec Ho :=
  unfold bind at 1; rewrite (find_device_open _ _ _ Ho);
  unfold bind at 1; rewrite (read_dev_open _ _ _ Ho);
  unfold bind at 1; rewrite xioctl_run;
  match goal with
  | |- context [after_xioctl ?f ?q ?w] =>
      let k := fresh "k" in
      let Hk := fresh "Hk" in
      let Ho1 := fresh "Ho1" in
      destruct (after_xioctl_step f q w) as [k Hk];
      pose proof (open_at_kernel_step _ _ _ _ _ Hk Ho) as Ho1;
      destruct Hk as (? & ? & ? & ? & ? & ? & ?);
      exists k;
      destruct (failed (kernel_answer f q w));
      [ eexists; eexists; split; [reflexivity|];
        split; [assumption|]; split; [assumption|]; split; [assumption|];
        split; [assumption|];
        right; split; [reflexivity|]; split; [reflexivity|]; split; [assumption|];
        reflexivity
      | unfold bind; rewrite (write_dev_open _ _ _ _ Ho1);
        eexists; eexists; split; [reflexivity|];
        split; [assumption|]; split; [assumption|]; split; [assumption|];
        split; [assumption|];
        left; split; [reflexivity|]; split; [reflexivity|];
        unfold put_device; cbn [g_devices with_devices]; congruence ]
  end.

Lemma stop_streaming_spec w handle d :
  open_at w handle d ->
  exists k r w1,
    libmedia_stop_streaming handle w = Some (r, w1) /\
    trace w1 = trace w ++ repeat (EvIoctl (fd d) (VIDIOC_STREAMOFF V4L2_BUF_TYPE_VIDEO_CAPTURE)) (S k) /\
    heap w1 = heap w /\ mappings w1 = mappings w /\
    g_device_count w1 = g_device_count w /\
    ((r = 0 /\
      failed (kernel_answer (fd d) (VIDIOC_STREAMOFF V4L2_BUF_TYPE_VIDEO_CAPTURE) w) = false /\
      g_devices w1 = <[Z.to_nat handle := set_streaming 0 d]> (g_devices w)) \/
     (r = -1 /\
      failed (kernel_answer (fd d) (VIDIOC_STREAMOFF V4L2_BUF_TYPE_VIDEO_CAPTURE) w) = true /\
      g_devices w1 = g_devices w /\
      g_last_error w1 = MEDIA_ERROR_STREAMING_ERROR)).
Proof. intros Ho. unfold libmedia_stop_streaming. switch_spec Ho. Qed.

Lemma stop_streaming_mp_spec w handle d :
  open_at w handle d ->
  exists k r w1,
    libmedia_stop_streaming_mp handle w = Some (r, w1) /\
    trace w1 = trace w ++ repeat (EvIoctl (fd d) (VIDIOC_STREAMOFF V4L2_BUF_TYPE_VIDEO_CAPTURE_MPLANE)) (S k) /\
    heap w1 = heap w /\ mappings w1 = mappings w /\
    g_device_count w1 = g_device_count w /\
    ((r = 0 /\
      failed (kernel_answer (fd d) (VIDIOC_STREAMOFF V4L2_BUF_TYPE_VIDEO_CAPTURE_MPLANE) w) = false /\
      g_devices w1 = <[Z.to_nat handle := set_streaming 0 d]> (g_devices w)) \/
     (r = -1 /\
      failed (kernel_answer (fd d) (VIDIOC_STREAMOFF V4L2_BUF_TYPE_VIDEO_CAPTURE_MPLANE) w) = true /\
      g_devices w1 = g_devices w /\
      g_last_error w1 = MEDIA_ERROR_STREAMING_ERROR)).
Proof. intros Ho. unfold libmedia_stop_streaming_mp. switch_spec Ho. Qed.

Lemma start_streaming_spec w handle d :
  open_at w handle d ->
  exists k r w1,
    libmedia_start_streaming handle w = Some (r, w1) /\
    trace w1 = trace w ++ repeat (EvIoctl (fd d) (VIDIOC_STREAMON V4L2_BUF_TYPE_VIDEO_CAPTURE)) (S k) /\
    heap w1 = heap w /\ mappings w1 = mappings w /\
    g_device_count w1 = g_device_count w /\
    ((r = 0 /\
      failed (kernel_answer (fd d) (VIDIOC_STREAMON V4L2_BUF_TYPE_VIDEO_CAPTURE) w) = false /\
      g_devices w1 = <[Z.to_nat handle := set_streaming 1 d]> (g_devices w)) \/
     (r = -1 /\
      failed (kernel_answer (fd d) (VIDIOC_STREAMON V4L2_BUF_TYPE_VIDEO_CAPTURE) w) = true /\
      g_devices w1 = g_devices w /\
      g_last_error w1 = MEDIA_ERROR_STREAMING_ERROR)).
Proof. intros Ho. unfold libmedia_start_streaming. switch_spec Ho. Qed.

Lemma start_streaming_mp_spec w handle d :
  open_at w handle d ->
  exists k r w1,
    libmedia_start_streaming_mp handle w = Some (r, w1) /\
    trace w1 = trace w ++ repeat (EvIoctl (fd d) (VIDIOC_STREAMON V4L2_BUF_TYPE_VIDEO_CAPTURE_MPLANE)) (S k) /\
    heap w1 = heap w /\ mappings w1 = mappings w /\
    g_device_count w1 = g_device_count w /\
    ((r = 0 /\
      failed (kernel_answer (fd d) (VIDIOC_STREAMON V4L2_BUF_TYPE_VIDEO_CAPTURE_MPLANE) w) = false /\
      g_devices w1 = <[Z.to_nat handle := set_streaming 1 d]> (g_devices w)) \/
     (r = -1 /\
      failed (kernel_answer (fd d) (VIDIOC_STREAMON V4L2_BUF_TYPE_VIDEO_CAPTURE_MPLANE) w) = true /\
      g_devices w1 = g_devices w /\
      g_last_error w1 = MEDIA_ERROR_STREAMING_ERROR)).
Proof. intros Ho. unfold libmedia_start_streaming_mp. switch_spec Ho. Qed.

Ltac switch_run Ho :=
  unfold bind at 1; rewrite (find_device_open _ _ _ Ho);
  unfold bind at 1; rewrite (read_dev_open _ _ _ Ho);
  unfold bind at 1; rewrite xioctl_run; unfold switched;
  match goal with
  | |- context [after_xioctl ?f ?q ?w] =>
      let k := fresh "k" in
      let Hk := fresh "Hk" in
      let Ho1 := fresh "Ho1" in
      destruct (after_xioctl_step f q w) as [k Hk];
      pose proof (open_at_kernel_step _ _ _ _ _ Hk Ho) as Ho1;
      destruct (failed (kernel_answer f q w));
      [ reflexivity
      | unfold bind; rewrite (write_dev_open _ _ _ _ Ho1); reflexivity ]
  end.

Lemma start_streaming_run w handle d :
  open_at w handle d ->
  libmedia_start_streaming handle w
    = Some (switched handle d (VIDIOC_STREAMON V4L2_BUF_TYPE_VIDEO_CAPTURE) 1 w).
Proof. intros Ho. unfold libmedia_start_streaming. switch_run Ho. Qed.

Lemma start_streaming_mp_run w handle d :
  open_at w handle d ->
  libmedia_start_streaming_mp handle w
    = Some (switched handle d (VIDIOC_STREAMON V4L2_BUF_TYPE_VIDEO_CAPTURE_MPLANE) 1 w).
Proof. intros Ho. unfold libmedia_start_streaming_mp. switch_run Ho. Qed.

Lemma stop_streaming_run w handle d :
  open_at w handle d ->
  libmedia_stop_streaming handle w
    = Some (switched handle d (VIDIOC_STREAMOFF V4L2_BUF_TYPE_VIDEO_CAPTURE) 0 w).
Proof. intros Ho. unfold libmedia_stop_streaming. switch_run Ho. Qed.

Lemma stop_streaming_mp_run w handle d :
  open_at w handle d ->
  libmedia_stop_streaming_mp handle w
    = Some (switched handle d (VIDIOC_STREAMOFF V4L2_BUF_TYPE_VIDEO_CAPTURE_MPLANE) 0 w).
Proof. intros Ho. unfold libmedia_stop_streaming_mp. switch_run Ho. Qed.

(** What [switched] comes to, field by field. *)
Lemma switched_spec handle d req flag w r w' :
  switched handle d req flag w = (r, w') ->
  trace w' = trace w ++ repeat (EvIoctl (fd d) req) (S (interrupted (script w))) /\
  script w' = drop (S (interrupted (script w))) (script w) /\
  heap w' = heap w /\ mappings w' = mappings w /\
  g_device_count w' = g_device_count w /\
  (failed (kernel_answer (fd d) req w) = false ->
   r = 0 /\ g_last_error w' = g_last_error w /\
   g_devices w' = <[Z.to_nat handle := set_streaming flag d]> (g_devices w)) /\
  (failed (kernel_answer (fd d) req w) = true ->
   r = -1 /\ g_last_error w' = MEDIA_ERROR_STREAMING_ERROR /\
   g_devices w' = g_devices w).
Proof.
  unfold switched. intros H.
  destruct (after_xioctl_exact (fd d) req w) as [Ht Hs].
  destruct (after_xioctl_step (fd d) req w) as [k (A1 & A2 & A3 & A4 & A5 & A6 & A7)].
  destruct (failed (kernel_answer (fd d) req w)); inversion H; subst; clear H;
    unfold put_device; cbn [trace script heap mappings g_device_count g_last_error
                            g_devices with_last_error with_devices];
    (split; [exact Ht|]); (split; [exact Hs|]); (split; [exact A5|]);
    (split; [exact A6|]); (split; [exact A2|]);
    (split; [intros E | intros E]); try discriminate E;
    rewrite ?A1; auto.
Qed.




(** * Closing a device *)

Lemma Forall_repeat {A : Type} (P : A -> Prop) (x : A) (n : nat) :
  P x -> Forall P (repeat x n).
Proof. intros H. induction n; simpl; constructor; auto. Qed.

Lemma close_stop_phase w handle d :
  open_at w handle d ->
  exists r w1 d1 stop_evs,
    close_stop handle d w = Some (r, w1) /\
    open_at w1 handle d1 /\
    fd d1 = fd d /\ buffers d1 = buffers d /\ buffer_count d1 = buffer_count d /\
    trace w1 = trace w ++ stop_evs /\
    Forall (is_streamoff (fd d)) stop_evs /\
    (stop_evs = [] <-> streaming d = 0) /\
    heap w1 = heap w /\
    (streaming d1 = 0 \/
     (streaming d1 = streaming d /\ failed (kernel_answer (fd d) (stop_request d) w) = true)).
Proof.
  intros Ho. unfold close_stop, stop_request.
  destruct (streaming d =? 0) eqn:Es; cbn [negb].
  - apply Z.eqb_eq in Es. exists 0, w, d, [].
    split; [reflexivity|]. split; [exact Ho|].
    repeat (split; [reflexivity|]).
    split; [rewrite app_nil_r; reflexivity|]. split; [constructor|].
    split; [tauto|]. split; [reflexivity | left; exact Es].
  - apply Z.eqb_neq in Es.
    assert (Hput : forall w1 d1,
               g_device_count w1 = g_device_count w ->
               g_devices w1 = <[Z.to_nat handle := d1]> (g_devices w) ->
               fd d1 = fd d -> open_at w1 handle d1).
    { intros w1 d1 Hc Hd Hf. destruct Ho as (H1 & H2 & H3). unfold open_at.
      rewrite Hc, Hd, Hf. split; [exact H1|]. split; [|exact H3].
      apply list_lookup_insert_eq. apply lookup_lt_Some in H2. exact H2. }
    assert (Hsame : forall w1,
               g_device_count w1 = g_device_count w ->
               g_devices w1 = g_devices w -> open_at w1 handle d).
    { intros w1 Hc Hd. destruct Ho as (H1 & H2 & H3). unfold open_at.
      rewrite Hc, Hd. auto. }
    destruct (use_multiplanar d =? 0) eqn:Em; cbn [negb].
    + destruct (stop_streaming_spec w handle d Ho)
        as (k & r & w1 & E & T & Hh & _ & Hc & [(Hr & Hf & Hd) | (Hr & Hf & Hd & _)]).
      * exists r, w1, (set_streaming 0 d), (repeat (EvIoctl (fd d) (VIDIOC_STREAMOFF V4L2_BUF_TYPE_VIDEO_CAPTURE)) (S k)).
        split; [exact E|]. split; [apply Hput; auto|].
        repeat (split; [reflexivity|]). split; [exact T|].
        split; [apply Forall_repeat; reflexivity|].
        split; [split; [discriminate | intros; contradiction]|].
        split; [exact Hh | left; reflexivity].
      * exists r, w1, d, (repeat (EvIoctl (fd d) (VIDIOC_STREAMOFF V4L2_BUF_TYPE_VIDEO_CAPTURE)) (S k)).
        split; [exact E|]. split; [apply Hsame; auto|].
        repeat (split; [reflexivity|]). split; [exact T|].
        split; [apply Forall_repeat; reflexivity|].
        split; [split; [discriminate | intros; contradiction]|].
        split; [exact Hh | right; auto].
    + destruct (stop_streaming_mp_spec w handle d Ho)
        as (k & r & w1 & E & T & Hh & _ & Hc & [(Hr & Hf & Hd) | (Hr & Hf & Hd & _)]).
      * exists r, w1, (set_streaming 0 d), (repeat (EvIoctl (fd d) (VIDIOC_STREAMOFF V4L2_BUF_TYPE_VIDEO_CAPTURE_MPLANE)) (S k)).
        split; [exact E|]. split; [apply Hput; auto|].
        repeat (split; [reflexivity|]). split; [exact T|].
        split; [apply Forall_repeat; reflexivity|].
        split; [split; [discriminate | intros; contradiction]|].
        split; [exact Hh | left; reflexivity].
      * exists r, w1, d, (repeat (EvIoctl (fd d) (VIDIOC_STREAMOFF V4L2_BUF_TYPE_VIDEO_CAPTURE_MPLANE)) (S k)).
        split; [exact E|]. split; [apply Hsame; auto|].
        repeat (split; [reflexivity|]). split; [exact T|].
        split; [apply Forall_repeat; reflexivity|].
        split; [split; [discriminate | intros; contradiction]|].
        split; [exact Hh | right; auto].
Qed.

Lemma close_free_phase w handle d :
  open_at w handle d ->
  (forall ptr, buffers d = Some ptr ->
               exists arr, heap w !! ptr = Some arr /\ array_ok arr (buffer_count d)) ->
  exists r w2 d2 unmap_evs,
    close_free handle d w = Some (r, w2) /\
    open_at w2 handle d2 /\
    fd d2 = fd d /\ streaming d2 = streaming d /\
    trace w2 = trace w ++ unmap_evs /\
    Forall is_munmap unmap_evs /\
    (buffers d = None -> unmap_evs = []) /\
    (forall ptr, buffers d = Some ptr ->
                 exists arr', heap w2 !! ptr = Some arr' /\
                              pool_released arr' (buffer_count d)).
Proof.
  intros Ho Hpool. unfold close_free.
  destruct (buffers d) as [ptr|] eqn:Eb.
  - destruct (Hpool ptr eq_refl) as (arr & Hh & Hok).
    destruct (Z_lt_le_dec 0 (buffer_count d)) as [Hc|Hc].
    + destruct (free_buffers_spec w handle d ptr arr _ Ho Hh Hok Hc)
        as (w1 & arr1 & E & Hu & Hheap & Hok1 & Hrel).
      destruct Hu as (A1 & A2 & A3 & A4 & A5 & A6 & (evs & A7 & A8) & A9).
      eexists; eexists; exists (freed_device d), evs. split; [exact E|].
      split.
      { destruct Ho as (H1 & H2 & H3). unfold open_at.
        cbn [g_devices g_device_count with_devices]. rewrite A2.
        split; [exact H1|]. split; [|exact H3].
        apply list_lookup_insert_eq. apply lookup_lt_Some in H2. exact H2. }
      split; [reflexivity|]. split; [reflexivity|].
      split; [exact A7|]. split; [exact A8|]. split; [discriminate|].
      intros p Hp; inversion Hp; subst p. exists arr1.
      split; [|exact Hrel].
      cbn [heap with_devices]. rewrite Hheap. apply lookup_insert_eq.
    + unfold libmedia_free_buffers, bind. rewrite (find_device_open _ _ _ Ho).
      replace (buffer_count d <=? 0) with true by lia.
      eexists; eexists; exists d, []. split; [reflexivity|].
      split; [exact Ho|]. split; [reflexivity|]. split; [reflexivity|].
      split; [cbn; rewrite app_nil_r; reflexivity|]. split; [constructor|].
      split; [reflexivity|].
      intros p Hp; inversion Hp; subst p. exists arr. split; [exact Hh|].
      intros i b Hi. lia.
  - exists 0, w, d, []. split; [reflexivity|]. split; [exact Ho|].
    split; [reflexivity|]. split; [reflexivity|].
    split; [rewrite app_nil_r; reflexivity|]. split; [constructor|].
    split; [reflexivity | discriminate].
Qed.


Lemma open_at_slot w w1 handle d d1 :
  open_at w handle d ->
  g_devices w1 = <[Z.to_nat handle := d1]> (g_devices w) ->
  g_device_count w1 = g_device_count w ->
  fd d1 = fd d ->
  open_at w1 handle d1.
Proof.
  intros (H1 & H2 & H3) Hd Hc Hf. unfold open_at. rewrite Hc, Hd, Hf.
  split; [exact H1|]. split; [|exact H3].
  apply list_lookup_insert_eq. apply lookup_lt_Some in H2. exact H2.
Qed.






Lemma sample_world_pool_sound stream replies :
  forall ptr, buffers (sample_device 4 stream) = Some ptr ->
    exists arr, heap (sample_world 4 stream replies) !! ptr = Some arr /\
                array_ok arr (buffer_count (sample_device 4 stream)).
Proof.
  intros ptr Hb. inversion Hb; subst. exists sample_pool.
  split; [reflexivity | exact sample_pool_ok].
Qed.



(** * Allocating the pool *)

Lemma map_step_refl w : map_step w w.
Proof. unfold map_step. auto. Qed.

Lemma map_step_trans w1 w2 w3 : map_step w1 w2 -> map_step w2 w3 -> map_step w1 w3.
Proof.
  intros (A1 & A2 & A3) (B1 & B2 & B3). unfold map_step.
  rewrite B1, B2. auto.
Qed.

Lemma kernel_step_map_step w w' evs : kernel_step w w' evs -> map_step w w'.
Proof.
  intros (A1 & A2 & _ & _ & _ & A6 & _). unfold map_step.
  rewrite A6. auto.
Qed.

(** Properties of the kernel's replies that every failure has are kept by
    the system calls: they hold of the reply a call gets and of the replies
    still pending. *)
Section KernelReplies.

Variable P : reply -> Prop.
Hypothesis P_err : forall e, P (Err e).

Lemma syscall_fits ev fits w r w' :
  Forall P (script w) ->
  syscall ev fits w = (r, w') ->
  P r /\ Forall P (script w').
Proof.
  intros HF H. unfold syscall in H. inversion H; subst; clear H. cbn [script].
  destruct (script w) as [|x s]; [split; [apply P_err | constructor]|].
  inversion HF; subst. split; [|assumption].
  destruct (fits x); [assumption | apply P_err].
Qed.

Lemma xioctl_loop_fits n dfd req :
  forall w r w',
    Forall P (script w) ->
    xioctl_loop n dfd req w = (r, w') ->
    P r /\ Forall P (script w').
Proof.
  induction n as [|n IH]; intros w r w' HF; cbn [xioctl_loop].
  - destruct (ioctl dfd req w) as [r0 w0] eqn:E. intros H; inversion H; subst.
    apply (syscall_fits _ _ _ _ _ HF E).
  - destruct (ioctl dfd req w) as [r0 w0] eqn:E.
    destruct (syscall_fits _ _ _ _ _ HF E) as [Pr HF0].
    destruct (is_eintr r0).
    + apply IH. exact HF0.
    + intros H; inversion H; subst. auto.
Qed.

Lemma kernel_answer_fits dfd req w :
  Forall P (script w) ->
  P (kernel_answer dfd req w) /\ Forall P (script (after_xioctl dfd req w)).
Proof.
  intros HF. unfold kernel_answer, after_xioctl.
  destruct (xioctl_loop _ dfd req w) as [r w'] eqn:E. cbn [fst snd].
  apply (xioctl_loop_fits _ _ _ w r w' HF E).
Qed.

Lemma sys_mmap_spec len dfd off w :
  Forall P (script w) ->
  exists a w1,
    sys_mmap len dfd off w = Some (a, w1) /\
    heap w1 = heap w /\
    map_step w w1 /\
    Forall P (script w1) /\
    (a <> MAP_FAILED -> In (a, len) (mappings w1)).
Proof.
  intros HF. unfold sys_mmap, lift_sys.
  destruct (syscall (EvMmap len dfd off)
              (fun r => match r with Err _ | OkMmap _ => true | _ => false end) w)
    as [r w1] eqn:E.
  destruct (syscall_fits _ _ _ _ _ HF E) as [_ HF1].
  apply syscall_step in E. destruct E as [Hk _].
  pose proof (kernel_step_map_step _ _ _ Hk) as Hm.
  destruct Hk as (K1 & K2 & K3 & K4 & K5 & K6 & K7).
  assert (Hfail : exists a w2, Some (MAP_FAILED, w1) = Some (a, w2) /\
            heap w2 = heap w /\ map_step w w2 /\ Forall P (script w2) /\
            (a <> MAP_FAILED -> In (a, len) (mappings w2))).
  { exists MAP_FAILED, w1. split; [reflexivity|]. split; [exact K5|].
    split; [exact Hm|]. split; [exact HF1|]. intros H; contradiction. }
  destruct r; try exact Hfail.
  destruct (addr =? MAP_FAILED) eqn:Ea.
  - exists addr, w1. split; [reflexivity|]. split; [exact K5|].
    split; [exact Hm|]. split; [exact HF1|].
    intros H. apply Z.eqb_eq in Ea. contradiction.
  - eexists; eexists. split; [reflexivity|]. cbn [heap script with_mappings].
    split; [exact K5|]. split; [|split; [exact HF1|]].
    + destruct Hm as (M1 & M2 & M3). unfold map_step.
      cbn [g_devices g_device_count mappings with_mappings].
      split; [exact M1|]. split; [exact M2|].
      intros m Hin. apply in_or_app. left. apply M3, Hin.
    + intros _. cbn [mappings with_mappings]. apply in_or_app. right. left. reflexivity.
Qed.

End KernelReplies.

Lemma reply_fits_err entries e : reply_fits entries (Err e).
Proof. exact I. Qed.

(** The heap holds the array [arr] at [ptr] with entry [i] replaced by [b]. *)
Lemma store_buf_holds h0 arr ptr i b f w :
  0 <= i < Z.of_nat (List.length arr) ->
  heap w = <[ptr := <[Z.to_nat i := b]> arr]> h0 ->
  store_buf ptr i f w
    = Some (tt, with_heap (<[ptr := <[Z.to_nat i := f b]> arr]> h0) w).
Proof.
  intros Hi Hh. unfold store_buf. replace (i <? 0) with false by lia.
  rewrite Hh, lookup_insert_eq, list_lookup_insert_eq by lia.
  rewrite insert_insert_eq, list_insert_insert_eq. reflexivity.
Qed.

Lemma load_buf_holds h0 arr ptr i b w :
  0 <= i < Z.of_nat (List.length arr) ->
  heap w = <[ptr := <[Z.to_nat i := b]> arr]> h0 ->
  load_buf ptr i w = Some (b, w).
Proof.
  intros Hi Hh. unfold load_buf. replace (i <? 0) with false by lia.
  rewrite Hh, lookup_insert_eq, list_lookup_insert_eq by lia. reflexivity.
Qed.

Lemma store_start_holds h0 arr ptr i b p v st w :
  0 <= i < Z.of_nat (List.length arr) ->
  heap w = <[ptr := <[Z.to_nat i := b]> arr]> h0 ->
  array_set (b_start b) p v = Some st ->
  store_start ptr i p v w
    = Some (tt, with_heap (<[ptr := <[Z.to_nat i := set_b_start st b]> arr]> h0) w).
Proof.
  intros Hi Hh Hst. unfold store_start, bind.
  rewrite (load_buf_holds h0 arr ptr i b w Hi Hh).
  unfold lift_opt. rewrite Hst.
  apply (store_buf_holds h0 arr ptr i b (set_b_start st) w Hi Hh).
Qed.

Lemma store_length_holds h0 arr ptr i b p v st w :
  0 <= i < Z.of_nat (List.length arr) ->
  heap w = <[ptr := <[Z.to_nat i := b]> arr]> h0 ->
  array_set (b_length b) p v = Some st ->
  store_length ptr i p v w
    = Some (tt, with_heap (<[ptr := <[Z.to_nat i := set_b_length st b]> arr]> h0) w).
Proof.
  intros Hi Hh Hst. unfold store_length, bind.
  rewrite (load_buf_holds h0 arr ptr i b w Hi Hh).
  unfold lift_opt. rewrite Hst.
  apply (store_buf_holds h0 arr ptr i b (set_b_length st) w Hi Hh).
Qed.

Lemma holds_initially ptr i arr b (h : gmap Z (list media_buffer_t)) :
  h !! ptr = Some arr -> arr !! Z.to_nat i = Some b ->
  h = <[ptr := <[Z.to_nat i := b]> arr]> h.
Proof.
  intros Hh Hb. rewrite (list_insert_id _ _ _ Hb), (insert_id _ _ _ Hh). reflexivity.
Qed.

Lemma s32_small x : 0 <= x < 2 ^ 31 -> s32 x = x.
Proof.
  intros H. unfold s32. rewrite Z.mod_small by lia.
  replace (x <? 2 ^ 31) with true by lia. reflexivity.
Qed.

Lemma sized_array_set_start b p v st :
  sized b -> array_set (b_start b) p v = Some st -> sized (set_b_start st b).
Proof.
  intros (S1 & S2) H. apply array_set_get in H. destruct H as (L & _).
  unfold sized. cbn [b_start b_length set_b_start]. rewrite L. auto.
Qed.

Lemma sized_array_set_length b p v sl :
  sized b -> array_set (b_length b) p v = Some sl -> sized (set_b_length sl b).
Proof.
  intros (S1 & S2) H. apply array_set_get in H. destruct H as (L & _).
  unfold sized. cbn [b_start b_length set_b_length]. rewrite L. auto.
Qed.

Lemma map_buffer_step entries dfd ptr i w0 arr0 b :
  heap w0 !! ptr = Some arr0 ->
  arr0 !! Z.to_nat i = Some b ->
  0 <= i < 2 ^ 31 ->
  sized b ->
  Forall (reply_fits entries) (script w0) ->
  exists r w1 b',
    map_buffer dfd ptr i w0 = Some (r, w1) /\
    map_step w0 w1 /\
    Forall (reply_fits entries) (script w1) /\
    heap w1 = <[ptr := <[Z.to_nat i := b']> arr0]> (heap w0) /\
    sized b' /\
    match r with
    | None => b_index b' = i /\ b_num_planes b' = 1 /\ fully_mapped w1 b'
    | Some v => v = -1
    end.
Proof.
  intros Hh Hb Hi Hs HF.
  pose proof (lookup_lt_Some _ _ _ Hb) as Hlt.
  pose proof (holds_initially ptr i arr0 b (heap w0) Hh Hb) as Hinit.
  set (req := VIDIOC_QUERYBUF V4L2_BUF_TYPE_VIDEO_CAPTURE V4L2_MEMORY_MMAP i).
  unfold map_buffer, bind at 1. fold req. rewrite xioctl_run.
  destruct (kernel_answer_fits (reply_fits entries) (reply_fits_err entries) dfd req w0 HF)
    as [_ HF1].
  destruct (after_xioctl_step dfd req w0) as [k Hk].
  pose proof (kernel_step_map_step _ _ _ Hk) as Hm1.
  destruct Hk as (_ & _ & _ & _ & K5 & _).
  set (w0a := after_xioctl dfd req w0) in *.
  assert (Hfail : exists r w1 b',
            (set_last_error MEDIA_ERROR_BUFFER_ERROR ;;; ret (Some (-1)))%cmd w0a
              = Some (r, w1) /\
            map_step w0 w1 /\ Forall (reply_fits entries) (script w1) /\
            heap w1 = <[ptr := <[Z.to_nat i := b']> arr0]> (heap w0) /\
            sized b' /\
            match r with
            | None => b_index b' = i /\ b_num_planes b' = 1 /\ fully_mapped w1 b'
            | Some v => v = -1
            end).
  { exists (Some (-1)), (with_last_error MEDIA_ERROR_BUFFER_ERROR w0a), b.
    split; [reflexivity|]. split; [exact Hm1|]. split; [exact HF1|].
    split; [cbn [heap with_last_error]; rewrite K5; exact Hinit|].
    split; [exact Hs | reflexivity]. }
  destruct (kernel_answer dfd req w0); try exact Hfail. clear Hfail.
  destruct (sys_mmap_spec (reply_fits entries) (reply_fits_err entries)
              (u32 len) dfd (u32 offset) w0a HF1)
    as (a & w0b & Emap & Hheapb & Hm2 & HF2 & Hin).
  unfold bind at 1. rewrite Emap.
  assert (Hholds : heap w0b = <[ptr := <[Z.to_nat i := b]> arr0]> (heap w0)).
  { rewrite Hheapb, K5. exact Hinit. }
  destruct Hs as [S1 S2].
  destruct (array_set_in_range (b_start b) 0 a) as [st Hst].
  { rewrite S1. unfold VIDEO_MAX_PLANES. lia. }
  unfold bind at 1.
  rewrite (store_start_holds (heap w0) arr0 ptr i b 0 a st w0b ltac:(lia) Hholds Hst).
  pose proof (sized_array_set_start b 0 a st (conj S1 S2) Hst) as Hs1.
  set (b1 := set_b_start st b) in *.
  set (w0c := with_heap _ w0b).
  assert (Hm3 : map_step w0 w0c).
  { apply (map_step_trans _ w0a); [exact Hm1|].
    destruct Hm2 as (M1 & M2 & M3). unfold map_step, w0c.
    cbn [g_devices g_device_count mappings with_heap]. auto. }
  destruct (a =? MAP_FAILED) eqn:Ea.
  - exists (Some (-1)), (with_last_error MEDIA_ERROR_OUT_OF_MEMORY w0c), b1.
    split; [reflexivity|]. split; [exact Hm3|]. split; [exact HF2|].
    split; [reflexivity|]. split; [exact Hs1 | reflexivity].
  - apply Z.eqb_neq in Ea.
    destruct (array_set_in_range (b_length b1) 0 (u32 len)) as [sl Hsl].
    { destruct Hs1 as [_ S2']. rewrite S2'. unfold VIDEO_MAX_PLANES. lia. }
    unfold bind at 1.
    rewrite (store_length_holds (heap w0) arr0 ptr i b1 0 (u32 len) sl w0c
               ltac:(lia) eq_refl Hsl).
    pose proof (sized_array_set_length b1 0 (u32 len) sl Hs1 Hsl) as Hs2.
    set (b2 := set_b_length sl b1) in *.
    set (w0d := with_heap (<[ptr := <[Z.to_nat i := b2]> arr0]> (heap w0)) w0c).
    unfold bind at 1.
    rewrite (store_buf_holds (heap w0) arr0 ptr i b2 (set_b_num_planes 1) w0d
               ltac:(lia) eq_refl).
    set (w0e := with_heap (<[ptr := <[Z.to_nat i := set_b_num_planes 1 b2]> arr0]> (heap w0))
                          w0d).
    unfold bind at 1.
    rewrite (store_buf_holds (heap w0) arr0 ptr i (set_b_num_planes 1 b2)
               (set_b_index (s32 i)) w0e ltac:(lia) eq_refl).
    eexists None, _, (set_b_index (s32 i) (set_b_num_planes 1 b2)).
    split; [reflexivity|]. split; [exact Hm3|]. split; [exact HF2|].
    split; [reflexivity|]. split; [exact Hs2|].
    split; [cbn [b_index set_b_index]; apply s32_small; exact Hi|].
    split; [reflexivity|].
    intros p Hp. cbn [b_num_planes set_b_index set_b_num_planes] in Hp.
    assert (p = 0) by lia. subst p.
    exists a, (u32 len).
    apply array_set_get in Hst. apply array_set_get in Hsl.
    split; [apply Hst|]. split; [apply Hsl|]. split; [exact Ea|].
    apply Hin. exact Ea.
Qed.

Lemma plane_mapped_mono w w' b p :
  map_step w w' -> plane_mapped w b p -> plane_mapped w' b p.
Proof.
  intros (_ & _ & M) (a & l & H1 & H2 & H3 & H4). exists a, l. auto.
Qed.

Lemma fully_mapped_mono w w' b :
  map_step w w' -> fully_mapped w b -> fully_mapped w' b.
Proof.
  intros Hm Hf p Hp. apply (plane_mapped_mono w); auto.
Qed.

Lemma map_loop_spec NP entries ptr body w arr n :
  maps_one NP entries ptr body ->
  heap w !! ptr = Some arr ->
  Forall sized arr ->
  n <= Z.of_nat (List.length arr) < 2 ^ 31 ->
  Forall (reply_fits entries) (script w) ->
  exists r w1,
    for_loop (Z.to_nat n) 0 body w = Some (r, w1) /\
    map_step w w1 /\
    match r with
    | None => exists arr1, heap w1 !! ptr = Some arr1 /\
                pool_mapped w1 arr1 n /\
                (forall i b, 0 <= i < n -> arr1 !! Z.to_nat i = Some b -> NP b)
    | Some v => v = -1
    end.
Proof.
  intros Hbody Hh Hsz Hn HF.
  destruct (for_loop_rule
              (fun i w1 => map_step w w1 /\ Forall (reply_fits entries) (script w1) /\
                 exists arr1, heap w1 !! ptr = Some arr1 /\
                   List.length arr1 = List.length arr /\ Forall sized arr1 /\
                   forall j, 0 <= j < i ->
                     exists b, arr1 !! Z.to_nat j = Some b /\ b_index b = j /\ NP b /\
                               fully_mapped w1 b)
              (fun v w1 => v = -1 /\ map_step w w1)
              body (Z.to_nat n) 0 w)
    as (r & w1 & E & Hr).
  { split; [apply map_step_refl|]. split; [exact HF|]. exists arr.
    split; [exact Hh|]. split; [reflexivity|]. split; [exact Hsz|]. intros j Hj; lia. }
  { intros j w0 Hj (Hm & HF0 & arr0 & Hh0 & Hl0 & Hsz0 & Hdone).
    destruct (arr0 !! Z.to_nat j) as [b|] eqn:Eb.
    2:{ apply lookup_ge_None in Eb. lia. }
    assert (Hsb : sized b).
    { rewrite Forall_forall in Hsz0. apply Hsz0. eapply list_elem_of_lookup_2. exact Eb. }
    destruct (Hbody j w0 arr0 b Hh0 Eb ltac:(lia) Hsb HF0)
      as (r & w1 & b' & E & Hm1 & HF1 & Hheap & Hsb' & Hr).
    exists r, w1. split; [exact E|].
    pose proof (map_step_trans _ _ _ Hm Hm1) as Hm2.
    destruct r as [v|]; [split; [exact Hr | exact Hm2]|].
    split; [exact Hm2|]. split; [exact HF1|].
    exists (<[Z.to_nat j := b']> arr0).
    split; [rewrite Hheap; apply lookup_insert_eq|].
    split; [rewrite length_insert; exact Hl0|].
    pose proof (lookup_lt_Some _ _ _ Eb) as Hlt.
    split; [apply Forall_insert; assumption|].
    intros k Hk. destruct (Z.eq_dec k j) as [->|Hne].
    - exists b'. rewrite list_lookup_insert_eq by exact Hlt.
      destruct Hr as (R1 & R2 & R3). auto.
    - destruct (Hdone k ltac:(lia)) as (bk & Ek & Ik & Nk & Fk).
      exists bk. rewrite list_lookup_insert_ne by lia.
      split; [exact Ek|]. split; [exact Ik|]. split; [exact Nk|].
      apply (fully_mapped_mono w0); assumption. }
  exists r, w1. split; [exact E|].
  destruct r as [v|]; [destruct Hr; auto|].
  destruct Hr as (Hm & _ & arr1 & Hh1 & _ & _ & Hdone).
  split; [exact Hm|]. exists arr1. split; [exact Hh1|].
  rewrite Z.add_0_l in Hdone.
  split.
  - intros i Hi. destruct (Hdone i ltac:(lia)) as (b & Eb & Ib & _ & Fb).
    exists b. auto.
  - intros i b Hi Hb. destruct (Hdone i ltac:(lia)) as (b0 & Eb & _ & Nb & _).
    congruence.
Qed.

Lemma map_buffer_maps_one entries dfd ptr :
  maps_one (fun b => b_num_planes b = 1) entries ptr (map_buffer dfd ptr).
Proof.
  intros i w0 arr0 b Hh Hb Hi Hs HF.
  apply (map_buffer_step entries dfd ptr i w0 arr0 b Hh Hb Hi Hs HF).
Qed.

Lemma s32_u32 x : u32 x < 2 ^ 31 -> s32 x = u32 x.
Proof.
  intros H. unfold s32, u32 in *.
  replace (x mod 2 ^ 32 <? 2 ^ 31) with true by lia. reflexivity.
Qed.

Lemma map_plane_step entries dfd ptr i planes p w1 h0 arr0 b1 :
  0 <= i < Z.of_nat (List.length arr0) ->
  heap w1 = <[ptr := <[Z.to_nat i := b1]> arr0]> h0 ->
  sized b1 ->
  0 <= p < VIDEO_MAX_PLANES ->
  Forall (reply_fits entries) (script w1) ->
  exists r w2 b2,
    map_plane dfd ptr i planes p w1 = Some (r, w2) /\
    map_step w1 w2 /\
    Forall (reply_fits entries) (script w2) /\
    heap w2 = <[ptr := <[Z.to_nat i := b2]> arr0]> h0 /\
    sized b2 /\
    b_index b2 = b_index b1 /\ b_num_planes b2 = b_num_planes b1 /\
    match r with
    | None => plane_mapped w2 b2 p /\
              (forall q, q <> p -> 0 <= q ->
                 array_get (b_start b2) q = array_get (b_start b1) q /\
                 array_get (b_length b2) q = array_get (b_length b1) q)
    | Some v => v = -1
    end.
Proof.
  intros Hi Hh Hs Hp HF.
  unfold map_plane, bind at 1, lift_opt at 1, plane_get.
  replace (p <? 0) with false by lia.
  replace (p >=? VIDEO_MAX_PLANES) with false by lia. cbn [orb].
  set (pl := nth (Z.to_nat p) planes (0, 0)).
  destruct (sys_mmap_spec (reply_fits entries) (reply_fits_err entries)
              (u32 (fst pl)) dfd (u32 (snd pl)) w1 HF)
    as (a & w1b & Emap & Hheapb & Hm & HF2 & Hin).
  unfold bind at 1. rewrite Emap.
  destruct Hs as [S1 S2].
  destruct (array_set_in_range (b_start b1) p a) as [st Hst].
  { rewrite S1. unfold VIDEO_MAX_PLANES in *. lia. }
  unfold bind at 1.
  rewrite (store_start_holds h0 arr0 ptr i b1 p a st w1b Hi ltac:(congruence) Hst).
  pose proof (sized_array_set_start b1 p a st (conj S1 S2) Hst) as Hs1.
  set (w1c := with_heap _ w1b).
  assert (Hm3 : map_step w1 w1c).
  { destruct Hm as (M1 & M2 & M3). unfold map_step, w1c.
    cbn [g_devices g_device_count mappings with_heap]. auto. }
  destruct (a =? MAP_FAILED) eqn:Ea.
  - exists (Some (-1)), (with_last_error MEDIA_ERROR_OUT_OF_MEMORY w1c), (set_b_start st b1).
    split; [reflexivity|]. split; [exact Hm3|]. split; [exact HF2|].
    split; [reflexivity|]. split; [exact Hs1|]. auto.
  - apply Z.eqb_neq in Ea.
    destruct (array_set_in_range (b_length (set_b_start st b1)) p (u32 (fst pl)))
      as [sl Hsl].
    { destruct Hs1 as [_ S2']. rewrite S2'. unfold VIDEO_MAX_PLANES in *. lia. }
    unfold bind at 1.
    rewrite (store_length_holds h0 arr0 ptr i (set_b_start st b1) p (u32 (fst pl)) sl w1c
               Hi eq_refl Hsl).
    pose proof (sized_array_set_length _ p _ sl Hs1 Hsl) as Hs2.
    eexists None, _, (set_b_length sl (set_b_start st b1)).
    split; [reflexivity|]. split; [exact Hm3|]. split; [exact HF2|].
    split; [reflexivity|]. split; [exact Hs2|].
    split; [reflexivity|]. split; [reflexivity|].
    apply array_set_get in Hst. apply array_set_get in Hsl.
    destruct Hst as (_ & G1 & O1). destruct Hsl as (_ & G2 & O2).
    split.
    + exists a, (u32 (fst pl)). split; [exact G1|]. split; [exact G2|].
      split; [exact Ea | apply Hin; exact Ea].
    + intros q Hq Hq0. split; [apply O1; assumption | apply O2; assumption].
Qed.

Lemma map_buffer_mp_maps_one entries dfd ptr :
  maps_one (fun _ => True) entries ptr (map_buffer_mp dfd ptr).
Proof.
  intros i w0 arr0 b Hh Hb Hi Hs HF.
  pose proof (lookup_lt_Some _ _ _ Hb) as Hlt.
  pose proof (holds_initially ptr i arr0 b (heap w0) Hh Hb) as Hinit.
  set (req := VIDIOC_QUERYBUF V4L2_BUF_TYPE_VIDEO_CAPTURE_MPLANE V4L2_MEMORY_MMAP i).
  unfold map_buffer_mp, bind at 1. fold req. rewrite xioctl_run.
  destruct (kernel_answer_fits (reply_fits entries) (reply_fits_err entries) dfd req w0 HF)
    as [Hfit HF1].
  destruct (after_xioctl_step dfd req w0) as [k Hk].
  pose proof (kernel_step_map_step _ _ _ Hk) as Hm1.
  destruct Hk as (_ & _ & _ & _ & K5 & _).
  set (w0a := after_xioctl dfd req w0) in *.
  assert (Hfail : exists r w1 b',
            (set_last_error MEDIA_ERROR_BUFFER_ERROR ;;; ret (Some (-1)))%cmd w0a
              = Some (r, w1) /\
            map_step w0 w1 /\ Forall (reply_fits entries) (script w1) /\
            heap w1 = <[ptr := <[Z.to_nat i := b']> arr0]> (heap w0) /\
            sized b' /\
            match r with
            | None => b_index b' = i /\ True /\ fully_mapped w1 b'
            | Some v => v = -1
            end).
  { exists (Some (-1)), (with_last_error MEDIA_ERROR_BUFFER_ERROR w0a), b.
    split; [reflexivity|]. split; [exact Hm1|]. split; [exact HF1|].
    split; [cbn [heap with_last_error]; rewrite K5; exact Hinit|].
    split; [exact Hs | reflexivity]. }
  destruct (kernel_answer dfd req w0); try exact Hfail. clear Hfail.
  cbn [reply_fits] in Hfit.
  assert (Hholds : heap w0a = <[ptr := <[Z.to_nat i := b]> arr0]> (heap w0)).
  { rewrite K5. exact Hinit. }
  unfold bind at 1.
  rewrite (store_buf_holds (heap w0) arr0 ptr i b (set_b_num_planes (s32 len)) w0a
             ltac:(lia) Hholds).
  set (w0b := with_heap _ w0a).
  unfold bind at 1.
  rewrite (store_buf_holds (heap w0) arr0 ptr i (set_b_num_planes (s32 len) b)
             (set_b_index (s32 i)) w0b ltac:(lia) eq_refl).
  set (b1 := set_b_index (s32 i) (set_b_num_planes (s32 len) b)).
  set (w0c := with_heap _ w0b).
  assert (Hm2 : map_step w0 w0c).
  { destruct Hm1 as (M1 & M2 & M3). unfold map_step, w0c, w0b.
    cbn [g_devices g_device_count mappings with_heap]. auto. }
  pose proof (u32_range len) as Hlen.
  destruct (for_loop_rule
              (fun p w1 => map_step w0 w1 /\ Forall (reply_fits entries) (script w1) /\
                 exists b2, heap w1 = <[ptr := <[Z.to_nat i := b2]> arr0]> (heap w0) /\
                   sized b2 /\ b_index b2 = i /\ b_num_planes b2 = s32 len /\
                   forall q, 0 <= q < p -> plane_mapped w1 b2 q)
              (fun v w1 => v = -1 /\ map_step w0 w1 /\
                 Forall (reply_fits entries) (script w1) /\
                 exists b2, heap w1 = <[ptr := <[Z.to_nat i := b2]> arr0]> (heap w0) /\
                   sized b2)
              (map_plane dfd ptr i planes) (Z.to_nat (u32 len)) 0 w0c)
    as (r & w1 & E & Hr).
  { split; [exact Hm2|]. split; [exact HF1|]. exists b1.
    split; [reflexivity|]. split; [exact Hs|].
    split; [apply s32_small; exact Hi|]. split; [reflexivity|]. intros q Hq; lia. }
  { intros p w1 Hp (Hm & HF0 & b2 & Hheap & Hs2 & Hi2 & Hn2 & Hdone).
    destruct (map_plane_step entries dfd ptr i planes p w1 (heap w0) arr0 b2
                ltac:(lia) Hheap Hs2 ltac:(lia) HF0)
      as (r & w2 & b3 & E & Hm3 & HF3 & Hheap3 & Hs3 & Hi3 & Hn3 & Hr).
    exists r, w2. split; [exact E|].
    pose proof (map_step_trans _ _ _ Hm Hm3) as Hm4.
    destruct r as [v|].
    - split; [exact Hr|]. split; [exact Hm4|]. split; [exact HF3|]. exists b3. auto.
    - split; [exact Hm4|]. split; [exact HF3|]. exists b3.
      split; [exact Hheap3|]. split; [exact Hs3|].
      split; [congruence|]. split; [congruence|].
      destruct Hr as (Hpm & Hoth).
      intros q Hq. destruct (Z.eq_dec q p) as [->|Hne]; [exact Hpm|].
      destruct (Hdone q ltac:(lia)) as (a & l & G1 & G2 & G3 & G4).
      destruct (Hoth q Hne ltac:(lia)) as (O1 & O2).
      exists a, l. rewrite O1, O2. split; [exact G1|]. split; [exact G2|].
      split; [exact G3|]. destruct Hm3 as (_ & _ & M). apply M, G4. }
  destruct r as [v|].
  - destruct Hr as (Hv & Hm & HF3 & b2 & Hheap & Hs2).
    exists (Some v), w1, b2. split; [exact E|]. auto.
  - destruct Hr as (Hm & HF3 & b2 & Hheap & Hs2 & Hi2 & Hn2 & Hdone).
    exists None, w1, b2. split; [exact E|]. split; [exact Hm|]. split; [exact HF3|].
    split; [exact Hheap|]. split; [exact Hs2|]. split; [exact Hi2|]. split; [exact I|].
    intros p Hp. apply Hdone. rewrite Hn2, s32_u32 in Hp.
    + lia.
    + unfold VIDEO_MAX_PLANES in Hfit. lia.
Qed.

Lemma request_buffers_shape :
  libmedia_request_buffers = request_with V4L2_BUF_TYPE_VIDEO_CAPTURE map_buffer.
Proof. reflexivity. Qed.

Lemma request_buffers_mp_shape :
  libmedia_request_buffers_mp = request_with V4L2_BUF_TYPE_VIDEO_CAPTURE_MPLANE map_buffer_mp.
Proof. reflexivity. Qed.

(** * Allocating the pool, reply by reply *)

Lemma alloc_step_refl w : alloc_step w w [] [] (script w) (g_last_error w).
Proof. unfold alloc_step. rewrite !app_nil_r. repeat split; reflexivity. Qed.

Lemma alloc_step_trans w1 w2 w3 e1 e2 m1 m2 r1 r2 err1 err2 :
  alloc_step w1 w2 e1 m1 r1 err1 -> alloc_step w2 w3 e2 m2 r2 err2 ->
  alloc_step w1 w3 (e1 ++ e2) (m1 ++ m2) r2 err2.
Proof.
  intros (A1 & A2 & A3 & A4 & A5 & A6 & A7) (B1 & B2 & B3 & B4 & B5 & B6 & B7).
  unfold alloc_step. rewrite B1, B2, B3, B5, B6, A5, A6, !app_assoc.
  repeat split; assumption.
Qed.

Lemma kernel_step_alloc w w1 evs rest :
  kernel_step w w1 evs -> script w1 = rest ->
  alloc_step w w1 evs [] rest (g_last_error w).
Proof.
  intros (K1 & K2 & K3 & K4 & K5 & K6 & K7) Hs. unfold alloc_step.
  rewrite app_nil_r. repeat split; assumption.
Qed.

Lemma alloc_step_heap w w1 h evs ms rest err :
  alloc_step w w1 evs ms rest err -> alloc_step w (with_heap h w1) evs ms rest err.
Proof. intros H. exact H. Qed.

Lemma alloc_step_error w w1 evs ms rest err err' :
  alloc_step w w1 evs ms rest err ->
  alloc_step w (with_last_error err' w1) evs ms rest err'.
Proof.
  intros (A1 & A2 & A3 & A4 & A5 & A6 & A7). unfold alloc_step.
  cbn [g_devices g_device_count g_initialized g_last_error trace mappings script
       with_last_error]. repeat split; assumption.
Qed.

Lemma open_at_alloc_step w w' evs ms rest err handle d :
  alloc_step w w' evs ms rest err -> open_at w handle d -> open_at w' handle d.
Proof.
  intros (A1 & A2 & _) (H1 & H2 & H3). unfold open_at. rewrite A1, A2. auto.
Qed.

(** mmap answered with an address, and mmap failing. *)
Lemma sys_mmap_grants len dfd off w a rest :
  script w = OkMmap a :: rest ->
  a <> MAP_FAILED ->
  exists w1,
    sys_mmap len dfd off w = Some (a, w1) /\
    heap w1 = heap w /\
    alloc_step w w1 [EvMmap len dfd off] [(a, len)] rest (g_last_error w).
Proof.
  intros Hs Ha. unfold sys_mmap, lift_sys, syscall. rewrite Hs.
  apply Z.eqb_neq in Ha. rewrite Ha.
  eexists. split; [reflexivity|]. split; [reflexivity|].
  unfold alloc_step. cbn. repeat split; reflexivity.
Qed.

Lemma sys_mmap_fails len dfd off w m rest :
  script w = m :: rest ->
  mmap_failure m ->
  exists w1,
    sys_mmap len dfd off w = Some (MAP_FAILED, w1) /\
    heap w1 = heap w /\
    alloc_step w w1 [EvMmap len dfd off] [] rest (g_last_error w).
Proof.
  intros Hs [->|[e ->]]; unfold sys_mmap, lift_sys, syscall; rewrite Hs;
    cbn [Z.eqb MAP_FAILED];
    (eexists; split; [reflexivity|]; split; [reflexivity|];
     unfold alloc_step; cbn; rewrite ?app_nil_r; repeat split; reflexivity).
Qed.

Lemma length_one {A : Type} (l : list A) :
  List.length l = 1%nat -> exists a, l = [a].
Proof.
  destruct l as [|a [|b l]]; cbn; intros H; try discriminate. exists a. reflexivity.
Qed.

Lemma array_set_some a p v st :
  array_set a p v = Some st -> st = <[Z.to_nat p := v]> a.
Proof.
  unfold array_set. destruct (p <? 0); [discriminate|].
  destruct (Z.to_nat p <? List.length a)%nat; [|discriminate].
  intros H; inversion H; reflexivity.
Qed.

(** ** One buffer of the single-plane loop *)

Lemma map_buffer_grants dfd ptr i w0 arr0 b g rest :
  heap w0 !! ptr = Some arr0 ->
  arr0 !! Z.to_nat i = Some b ->
  0 <= i < 2 ^ 31 ->
  sized b ->
  grant_ok V4L2_BUF_TYPE_VIDEO_CAPTURE g ->
  script w0 = grant_replies g ++ rest ->
  exists w1,
    map_buffer dfd ptr i w0 = Some (None, w1) /\
    heap w1 = <[ptr := <[Z.to_nat i := granted i g b]> arr0]> (heap w0) /\
    alloc_step w0 w1 (grant_events dfd V4L2_BUF_TYPE_VIDEO_CAPTURE i g)
               (grant_mappings g) rest (g_last_error w0).
Proof.
  intros Hh Hb Hi [S1 S2] (Hq & Hlen & Hok) Hs.
  destruct g as [k q addrs]. cbn [g_query g_addrs g_retries] in *.
  unfold grant_replies, grant_events, grant_mappings, granted, plane_lengths in *.
  cbn [g_query g_addrs g_retries] in *.
  destruct q; try contradiction; try (destruct Hq; discriminate).
  cbn [planes_of List.length map fst snd] in *.
  destruct (length_one _ Hlen) as [a ->].
  inversion Hok as [|? ? Ha _]; subst. clear Hok Hlen Hq.
  cbn [map] in Hs. rewrite <- app_assoc in Hs.
  pose proof (lookup_lt_Some _ _ _ Hb) as Hlt.
  pose proof (holds_initially ptr i arr0 b (heap w0) Hh Hb) as Hinit.
  set (req := VIDIOC_QUERYBUF V4L2_BUF_TYPE_VIDEO_CAPTURE V4L2_MEMORY_MMAP i).
  destruct (xioctl_script dfd req w0 k (OkQuerybuf len offset) ([OkMmap a] ++ rest)
              Hs eq_refl eq_refl) as (Hans & Hs1 & Hk1).
  unfold map_buffer, bind at 1. fold req. rewrite xioctl_run, Hans.
  set (w0a := after_xioctl dfd req w0) in *.
  destruct (sys_mmap_grants (u32 len) dfd (u32 offset) w0a a rest Hs1 Ha)
    as (w0b & Emap & Hheapb & Hstep).
  unfold bind at 1. rewrite Emap.
  assert (Hholds : heap w0b = <[ptr := <[Z.to_nat i := b]> arr0]> (heap w0)).
  { rewrite Hheapb. destruct Hk1 as (_ & _ & _ & _ & K5 & _). rewrite K5. exact Hinit. }
  destruct (array_set_in_range (b_start b) 0 a) as [st Hst].
  { rewrite S1. unfold VIDEO_MAX_PLANES. lia. }
  unfold bind at 1.
  rewrite (store_start_holds (heap w0) arr0 ptr i b 0 a st w0b ltac:(lia) Hholds Hst).
  replace (a =? MAP_FAILED) with false by (symmetry; apply Z.eqb_neq; exact Ha).
  set (b1 := set_b_start st b).
  set (w0c := with_heap _ w0b).
  destruct (array_set_in_range (b_length b1) 0 (u32 len)) as [sl Hsl].
  { unfold b1. cbn [b_length set_b_start]. rewrite S2. unfold VIDEO_MAX_PLANES. lia. }
  unfold bind at 1.
  rewrite (store_length_holds (heap w0) arr0 ptr i b1 0 (u32 len) sl w0c
             ltac:(lia) eq_refl Hsl).
  set (b2 := set_b_length sl b1).
  set (w0d := with_heap (<[ptr := <[Z.to_nat i := b2]> arr0]> (heap w0)) w0c).
  unfold bind at 1.
  rewrite (store_buf_holds (heap w0) arr0 ptr i b2 (set_b_num_planes 1) w0d
             ltac:(lia) eq_refl).
  set (w0e := with_heap (<[ptr := <[Z.to_nat i := set_b_num_planes 1 b2]> arr0]> (heap w0))
                        w0d).
  unfold bind at 1.
  rewrite (store_buf_holds (heap w0) arr0 ptr i (set_b_num_planes 1 b2)
             (set_b_index (s32 i)) w0e ltac:(lia) eq_refl).
  eexists. split; [reflexivity|]. split.
  - cbn [heap with_heap]. rewrite (s32_small i Hi).
    apply array_set_some in Hst. apply array_set_some in Hsl.
    unfold b2, b1. rewrite Hsl. unfold b1. rewrite Hst. reflexivity.
  - pose proof (alloc_step_trans _ _ _ _ _ _ _ _ _ _ _
                  (kernel_step_alloc _ _ _ _ Hk1 Hs1) Hstep) as Hall.
    destruct Hk1 as (_ & _ & _ & K4 & _). rewrite K4 in Hall.
    exact Hall.
Qed.

Lemma map_buffer_refused dfd ptr i w0 k e rest :
  e <> EINTR ->
  script w0 = refused k e ++ rest ->
  exists w1,
    map_buffer dfd ptr i w0 = Some (Some (-1), w1) /\
    heap w1 = heap w0 /\
    alloc_step w0 w1 (query_events dfd V4L2_BUF_TYPE_VIDEO_CAPTURE i k) [] rest
               MEDIA_ERROR_BUFFER_ERROR.
Proof.
  intros He Hs.
  set (req := VIDIOC_QUERYBUF V4L2_BUF_TYPE_VIDEO_CAPTURE V4L2_MEMORY_MMAP i).
  assert (Hne : is_eintr (Err e) = false) by (cbn; apply Z.eqb_neq; exact He).
  destruct (xioctl_script dfd req w0 k (Err e) rest Hs eq_refl Hne)
    as (Hans & Hs1 & Hk1).
  unfold map_buffer, bind at 1. fold req. rewrite xioctl_run, Hans.
  eexists. split; [reflexivity|]. split.
  - cbn [heap with_last_error]. apply Hk1.
  - apply alloc_step_error with (err := g_last_error w0).
    apply kernel_step_alloc; assumption.
Qed.

Lemma map_buffer_unmapped dfd ptr i w0 arr0 b k q addrs m rest :
  heap w0 !! ptr = Some arr0 ->
  arr0 !! Z.to_nat i = Some b ->
  0 <= i < 2 ^ 31 ->
  sized b ->
  query_fits V4L2_BUF_TYPE_VIDEO_CAPTURE q ->
  (List.length addrs < List.length (planes_of q))%nat ->
  Forall (fun a => a <> MAP_FAILED) addrs ->
  mmap_failure m ->
  script w0 = after_eintr k q ++ map OkMmap addrs ++ m :: rest ->
  exists w1,
    map_buffer dfd ptr i w0 = Some (Some (-1), w1) /\
    alloc_step w0 w1
      (query_events dfd V4L2_BUF_TYPE_VIDEO_CAPTURE i k
         ++ mmap_events dfd (take (S (List.length addrs)) (planes_of q)))
      (combine addrs (plane_lengths q)) rest MEDIA_ERROR_OUT_OF_MEMORY.
Proof.
  intros Hh Hb Hi [S1 S2] Hq Hlen Hok Hm Hs.
  destruct q; try contradiction; try (destruct Hq; discriminate).
  cbn [planes_of List.length] in *.
  destruct addrs as [|a0 addrs]; [|cbn in Hlen; lia].
  cbn [map app List.length take combine] in *.
  pose proof (lookup_lt_Some _ _ _ Hb) as Hlt.
  pose proof (holds_initially ptr i arr0 b (heap w0) Hh Hb) as Hinit.
  set (req := VIDIOC_QUERYBUF V4L2_BUF_TYPE_VIDEO_CAPTURE V4L2_MEMORY_MMAP i).
  destruct (xioctl_script dfd req w0 k (OkQuerybuf len offset) (m :: rest)
              Hs eq_refl eq_refl) as (Hans & Hs1 & Hk1).
  unfold map_buffer, bind at 1. fold req. rewrite xioctl_run, Hans.
  set (w0a := after_xioctl dfd req w0) in *.
  destruct (sys_mmap_fails (u32 len) dfd (u32 offset) w0a m rest Hs1 Hm)
    as (w0b & Emap & Hheapb & Hstep).
  unfold bind at 1. rewrite Emap.
  assert (Hholds : heap w0b = <[ptr := <[Z.to_nat i := b]> arr0]> (heap w0)).
  { rewrite Hheapb. destruct Hk1 as (_ & _ & _ & _ & K5 & _). rewrite K5. exact Hinit. }
  destruct (array_set_in_range (b_start b) 0 MAP_FAILED) as [st Hst].
  { rewrite S1. unfold VIDEO_MAX_PLANES. lia. }
  unfold bind at 1.
  rewrite (store_start_holds (heap w0) arr0 ptr i b 0 MAP_FAILED st w0b
             ltac:(lia) Hholds Hst).
  rewrite Z.eqb_refl.
  eexists. split; [reflexivity|].
  apply alloc_step_error with (err := g_last_error w0a). apply alloc_step_heap.
  pose proof (alloc_step_trans _ _ _ _ _ _ _ _ _ _ _
                (kernel_step_alloc _ _ _ _ Hk1 Hs1) Hstep) as Hall.
  exact Hall.
Qed.

(** ** One buffer of the multi-plane loop *)

Lemma plane_get_in_range planes (p : nat) :
  (p < 8)%nat -> plane_get planes (Z.of_nat p) = Some (nth p planes (0, 0)).
Proof.
  intros Hp. unfold plane_get, VIDEO_MAX_PLANES.
  replace (Z.of_nat p <? 0) with false by lia.
  replace (Z.of_nat p >=? 8) with false by lia.
  rewrite Nat2Z.id. reflexivity.
Qed.

Lemma combine_app_short {A B : Type} (l : list A) (l1 l2 : list B) :
  List.length l = List.length l1 -> combine l (l1 ++ l2) = combine l l1.
Proof.
  revert l1. induction l as [|a l IH]; intros l1 H; [reflexivity|].
  destruct l1 as [|b l1]; [discriminate|].
  cbn [app combine]. f_equal. apply IH. cbn in H. lia.
Qed.

(** The planes [p0], [p0 + 1], ... of the buffer, one for each address. *)
Lemma map_planes_grant dfd ptr i planes h0 arr0 :
  0 <= i < Z.of_nat (List.length arr0) ->
  forall addrs (p0 m : nat) w0 b rest,
    heap w0 = <[ptr := <[Z.to_nat i := b]> arr0]> h0 ->
    sized b ->
    (p0 + List.length addrs <= 8)%nat ->
    Forall (fun a => a <> MAP_FAILED) addrs ->
    script w0 = map OkMmap addrs ++ rest ->
    exists w1,
      for_loop (List.length addrs + m) (Z.of_nat p0) (map_plane dfd ptr i planes) w0
        = for_loop m (Z.of_nat (p0 + List.length addrs)) (map_plane dfd ptr i planes) w1 /\
      heap w1
        = <[ptr := <[Z.to_nat i :=
              set_b_length
                (list_inserts p0
                   (map (fun p => u32 (fst (nth p planes (0, 0))))
                        (seq p0 (List.length addrs)))
                   (b_length b))
                (set_b_start (list_inserts p0 addrs (b_start b)) b)]> arr0]> h0 /\
      alloc_step w0 w1
        (mmap_events dfd (map (fun p => nth p planes (0, 0)) (seq p0 (List.length addrs))))
        (combine addrs (map (fun p => u32 (fst (nth p planes (0, 0))))
                            (seq p0 (List.length addrs))))
        rest (g_last_error w0).
Proof.
  intros Hi. induction addrs as [|a addrs IH]; intros p0 m w0 b rest Hh Hs Hp Hok Hscr.
  - exists w0. cbn [List.length Nat.add seq map list_inserts combine mmap_events].
    rewrite Nat.add_0_r. split; [reflexivity|]. split.
    + rewrite Hh. destruct b; reflexivity.
    + cbn [map app] in Hscr. rewrite <- Hscr. apply alloc_step_refl.
  - cbn [List.length] in Hp. inversion Hok as [|? ? Ha Hok']; subst.
    cbn [map app] in Hscr.
    cbn [List.length Nat.add for_loop]. unfold bind at 1, map_plane at 1.
    unfold bind at 1. rewrite (plane_get_in_range planes p0) by lia.
    cbn [lift_opt].
    set (pl := nth p0 planes (0, 0)).
    destruct (sys_mmap_grants (u32 (fst pl)) dfd (u32 (snd pl)) w0 a
                (map OkMmap addrs ++ rest) Hscr Ha) as (w0b & Emap & Hheapb & Hstep).
    unfold bind at 1. rewrite Emap.
    destruct Hs as [S1 S2].
    destruct (array_set_in_range (b_start b) (Z.of_nat p0) a) as [st Hst].
    { rewrite S1. unfold VIDEO_MAX_PLANES. lia. }
    unfold bind at 1.
    rewrite (store_start_holds h0 arr0 ptr i b (Z.of_nat p0) a st w0b Hi
               ltac:(congruence) Hst).
    replace (a =? MAP_FAILED) with false by (symmetry; apply Z.eqb_neq; exact Ha).
    set (b1 := set_b_start st b).
    set (w0c := with_heap _ w0b).
    destruct (array_set_in_range (b_length b1) (Z.of_nat p0) (u32 (fst pl))) as [sl Hsl].
    { unfold b1. cbn [b_length set_b_start]. rewrite S2. unfold VIDEO_MAX_PLANES. lia. }
    unfold bind at 1.
    rewrite (store_length_holds h0 arr0 ptr i b1 (Z.of_nat p0) (u32 (fst pl)) sl w0c
               Hi eq_refl Hsl).
    set (b2 := set_b_length sl b1).
    set (w0d := with_heap (<[ptr := <[Z.to_nat i := b2]> arr0]> h0) w0c).
    apply array_set_some in Hst. apply array_set_some in Hsl.
    rewrite Nat2Z.id in Hst, Hsl.
    assert (Hsz2 : sized b2).
    { unfold sized, b2, b1. cbn [b_start b_length set_b_start set_b_length].
      rewrite Hst, Hsl, !length_insert. auto. }
    assert (Hstep' : alloc_step w0 w0d [EvMmap (u32 (fst pl)) dfd (u32 (snd pl))]
                       [(a, u32 (fst pl))] (map OkMmap addrs ++ rest) (g_last_error w0))
      by exact Hstep.
    destruct (IH (S p0) m w0d b2 rest eq_refl Hsz2 ltac:(lia) Hok' (proj2 (proj2 (proj2
                (proj2 (proj2 (proj2 Hstep'))))))) as (w1 & E & Hh1 & Hstep1).
    exists w1. cbn [ret]. replace (Z.of_nat p0 + 1) with (Z.of_nat (S p0)) by lia.
    rewrite E. replace (p0 + S (List.length addrs))%nat
      with (S p0 + List.length addrs)%nat by lia.
    split; [reflexivity|]. split.
    + rewrite Hh1. f_equal. f_equal.
      unfold b2, b1, set_b_length, set_b_start.
      cbn [b_start b_length b_num_planes b_index b_bytes_used b_timestamp
           seq map list_inserts].
      rewrite Hst, Hsl. fold pl.
      rewrite !list_insert_inserts_lt by lia. reflexivity.
    + pose proof (alloc_step_trans _ _ _ _ _ _ _ _ _ _ _ Hstep' Hstep1) as Hall.
      destruct Hstep' as (_ & _ & _ & A4 & _). rewrite A4 in Hall.
      exact Hall.
Qed.

Lemma planes_of_mp_length len planes :
  List.length (planes_of (OkQuerybufMp len planes)) = Z.to_nat (u32 len).
Proof. cbn [planes_of]. rewrite length_map, length_seq. reflexivity. Qed.

Lemma map_buffer_mp_grants dfd ptr i w0 arr0 b g rest :
  heap w0 !! ptr = Some arr0 ->
  arr0 !! Z.to_nat i = Some b ->
  0 <= i < 2 ^ 31 ->
  sized b ->
  grant_ok V4L2_BUF_TYPE_VIDEO_CAPTURE_MPLANE g ->
  script w0 = grant_replies g ++ rest ->
  exists w1,
    map_buffer_mp dfd ptr i w0 = Some (None, w1) /\
    heap w1 = <[ptr := <[Z.to_nat i := granted i g b]> arr0]> (heap w0) /\
    alloc_step w0 w1 (grant_events dfd V4L2_BUF_TYPE_VIDEO_CAPTURE_MPLANE i g)
               (grant_mappings g) rest (g_last_error w0).
Proof.
  intros Hh Hb Hi Hsz (Hq & Hlen & Hok) Hs.
  destruct g as [k q addrs]. cbn [g_query g_addrs g_retries] in *.
  unfold grant_replies, grant_events, grant_mappings, granted, plane_lengths in *.
  cbn [g_query g_addrs g_retries] in *.
  destruct q; try contradiction; try discriminate.
  destruct Hq as [_ Hmax].
  rewrite planes_of_mp_length in Hlen.
  rewrite <- app_assoc in Hs.
  pose proof (lookup_lt_Some _ _ _ Hb) as Hlt.
  pose proof (holds_initially ptr i arr0 b (heap w0) Hh Hb) as Hinit.
  set (req := VIDIOC_QUERYBUF V4L2_BUF_TYPE_VIDEO_CAPTURE_MPLANE V4L2_MEMORY_MMAP i).
  destruct (xioctl_script dfd req w0 k (OkQuerybufMp len planes)
              (map OkMmap addrs ++ rest) Hs eq_refl eq_refl) as (Hans & Hs1 & Hk1).
  unfold map_buffer_mp, bind at 1. fold req. rewrite xioctl_run, Hans.
  set (w0a := after_xioctl dfd req w0) in *.
  assert (Hholds : heap w0a = <[ptr := <[Z.to_nat i := b]> arr0]> (heap w0)).
  { destruct Hk1 as (_ & _ & _ & _ & K5 & _). rewrite K5. exact Hinit. }
  unfold bind at 1.
  rewrite (store_buf_holds (heap w0) arr0 ptr i b (set_b_num_planes (s32 len)) w0a
             ltac:(lia) Hholds).
  set (w0b := with_heap _ w0a).
  unfold bind at 1.
  rewrite (store_buf_holds (heap w0) arr0 ptr i (set_b_num_planes (s32 len) b)
             (set_b_index (s32 i)) w0b ltac:(lia) eq_refl).
  set (b1 := set_b_index (s32 i) (set_b_num_planes (s32 len) b)).
  set (w0c := with_heap (<[ptr := <[Z.to_nat i := b1]> arr0]> (heap w0)) w0b).
  assert (Hsz1 : sized b1) by exact Hsz.
  unfold VIDEO_MAX_PLANES in Hmax.
  assert (Hir : 0 <= i < Z.of_nat (List.length arr0)) by lia.
  assert (Hfit : (0 + List.length addrs <= 8)%nat) by lia.
  destruct (map_planes_grant dfd ptr i planes (heap w0) arr0 Hir addrs 0 0 w0c b1
              rest eq_refl Hsz1 Hfit Hok Hs1) as (w1 & E & Hh1 & Hstep).
  rewrite <- Hlen. rewrite Nat.add_0_r in E. change (Z.of_nat 0) with 0 in E.
  rewrite E. cbn [for_loop ret].
  exists w1. split; [reflexivity|]. split.
  - rewrite Hh1. f_equal. f_equal.
    unfold b1, set_b_length, set_b_start, set_b_index, set_b_num_planes.
    cbn [b_start b_length b_num_planes b_index b_bytes_used b_timestamp].
    rewrite (s32_small i Hi), planes_of_mp_length.
    rewrite Z2Nat.id by apply (proj1 (u32_range len)).
    rewrite s32_u32 by lia. cbn [planes_of]. rewrite map_map, Hlen. reflexivity.
  - pose proof (alloc_step_trans _ _ _ _ _ _ _ _ _ _ _
                  (kernel_step_alloc _ _ _ _ Hk1 Hs1) Hstep) as Hall.
    destruct Hk1 as (_ & _ & _ & K4 & _).
    change (g_last_error w0c) with (g_last_error w0a) in Hall. rewrite K4 in Hall.
    cbn [planes_of]. rewrite map_map, <- Hlen. exact Hall.
Qed.

Lemma map_buffer_mp_refused dfd ptr i w0 k e rest :
  e <> EINTR ->
  script w0 = refused k e ++ rest ->
  exists w1,
    map_buffer_mp dfd ptr i w0 = Some (Some (-1), w1) /\
    heap w1 = heap w0 /\
    alloc_step w0 w1 (query_events dfd V4L2_BUF_TYPE_VIDEO_CAPTURE_MPLANE i k) [] rest
               MEDIA_ERROR_BUFFER_ERROR.
Proof.
  intros He Hs.
  set (req := VIDIOC_QUERYBUF V4L2_BUF_TYPE_VIDEO_CAPTURE_MPLANE V4L2_MEMORY_MMAP i).
  assert (Hne : is_eintr (Err e) = false) by (cbn; apply Z.eqb_neq; exact He).
  destruct (xioctl_script dfd req w0 k (Err e) rest Hs eq_refl Hne)
    as (Hans & Hs1 & Hk1).
  unfold map_buffer_mp, bind at 1. fold req. rewrite xioctl_run, Hans.
  eexists. split; [reflexivity|]. split.
  - cbn [heap with_last_error]. apply Hk1.
  - apply alloc_step_error with (err := g_last_error w0).
    apply kernel_step_alloc; assumption.
Qed.

Lemma map_buffer_mp_unmapped dfd ptr i w0 arr0 b k q addrs m rest :
  heap w0 !! ptr = Some arr0 ->
  arr0 !! Z.to_nat i = Some b ->
  0 <= i < 2 ^ 31 ->
  sized b ->
  query_fits V4L2_BUF_TYPE_VIDEO_CAPTURE_MPLANE q ->
  (List.length addrs < List.length (planes_of q))%nat ->
  Forall (fun a => a <> MAP_FAILED) addrs ->
  mmap_failure m ->
  script w0 = after_eintr k q ++ map OkMmap addrs ++ m :: rest ->
  exists w1,
    map_buffer_mp dfd ptr i w0 = Some (Some (-1), w1) /\
    alloc_step w0 w1
      (query_events dfd V4L2_BUF_TYPE_VIDEO_CAPTURE_MPLANE i k
         ++ mmap_events dfd (take (S (List.length addrs)) (planes_of q)))
      (combine addrs (plane_lengths q)) rest MEDIA_ERROR_OUT_OF_MEMORY.
Proof.
  intros Hh Hb Hi Hsz Hq Hlen Hok Hm Hs.
  destruct q; try contradiction; try discriminate.
  destruct Hq as [_ Hmax]. unfold VIDEO_MAX_PLANES in Hmax.
  rewrite planes_of_mp_length in Hlen.
  pose proof (lookup_lt_Some _ _ _ Hb) as Hlt.
  pose proof (holds_initially ptr i arr0 b (heap w0) Hh Hb) as Hinit.
  set (req := VIDIOC_QUERYBUF V4L2_BUF_TYPE_VIDEO_CAPTURE_MPLANE V4L2_MEMORY_MMAP i).
  destruct (xioctl_script dfd req w0 k (OkQuerybufMp len planes)
              (map OkMmap addrs ++ m :: rest) Hs eq_refl eq_refl) as (Hans & Hs1 & Hk1).
  unfold map_buffer_mp, bind at 1. fold req. rewrite xioctl_run, Hans.
  set (w0a := after_xioctl dfd req w0) in *.
  assert (Hholds : heap w0a = <[ptr := <[Z.to_nat i := b]> arr0]> (heap w0)).
  { destruct Hk1 as (_ & _ & _ & _ & K5 & _). rewrite K5. exact Hinit. }
  unfold bind at 1.
  rewrite (store_buf_holds (heap w0) arr0 ptr i b (set_b_num_planes (s32 len)) w0a
             ltac:(lia) Hholds).
  set (w0b := with_heap _ w0a).
  unfold bind at 1.
  rewrite (store_buf_holds (heap w0) arr0 ptr i (set_b_num_planes (s32 len) b)
             (set_b_index (s32 i)) w0b ltac:(lia) eq_refl).
  set (b1 := set_b_index (s32 i) (set_b_num_planes (s32 len) b)).
  set (w0c := with_heap (<[ptr := <[Z.to_nat i := b1]> arr0]> (heap w0)) w0b).
  assert (Hsz1 : sized b1) by exact Hsz.
  set (n := List.length addrs) in *.
  assert (Hir : 0 <= i < Z.of_nat (List.length arr0)) by lia.
  assert (Hfit : (0 + n <= 8)%nat) by lia.
  set (r := (Z.to_nat (u32 len) - S n)%nat).
  assert (Hn : Z.to_nat (u32 len) = (n + S r)%nat) by lia.
  destruct (map_planes_grant dfd ptr i planes (heap w0) arr0 Hir addrs 0
              (S r) w0c b1
              (m :: rest) eq_refl Hsz1 Hfit Hok Hs1) as (w1 & E & Hh1 & Hstep).
  change (Z.of_nat 0) with 0 in E. fold n in E. rewrite Hn, E.
  cbn [for_loop Nat.add]. unfold bind at 1, map_plane at 1.
  unfold bind at 1. rewrite (plane_get_in_range planes n) by lia.
  cbn [lift_opt].
  set (pl := nth n planes (0, 0)).
  destruct Hstep as (A1 & A2 & A3 & A4 & A5 & A6 & A7).
  destruct (sys_mmap_fails (u32 (fst pl)) dfd (u32 (snd pl)) w1 m rest A7 Hm)
    as (w1b & Emap & Hheapb & Hstep2).
  unfold bind at 1. rewrite Emap.
  set (b2 := set_b_length _ _) in Hh1.
  assert (Hsz2 : sized b2).
  { unfold sized, b2. cbn [b_start b_length set_b_start set_b_length].
    rewrite !length_inserts. exact Hsz1. }
  destruct Hsz2 as [S1 S2].
  destruct (array_set_in_range (b_start b2) (Z.of_nat n) MAP_FAILED) as [st Hst].
  { rewrite S1. unfold VIDEO_MAX_PLANES. lia. }
  unfold bind at 1.
  rewrite (store_start_holds (heap w0) arr0 ptr i b2 (Z.of_nat n) MAP_FAILED st w1b
             ltac:(lia) ltac:(congruence) Hst).
  rewrite Z.eqb_refl. cbn [ret].
  eexists. split; [reflexivity|].
  apply alloc_step_error with (err := g_last_error w1). apply alloc_step_heap.
  assert (Hstep1 : alloc_step w0c w1
            (mmap_events dfd (map (fun p => nth p planes (0, 0)) (seq 0 n)))
            (combine addrs (map (fun p => u32 (fst (nth p planes (0, 0)))) (seq 0 n)))
            (m :: rest) (g_last_error w0c))
    by (unfold alloc_step; auto 10).
  pose proof (alloc_step_trans _ _ _ _ _ _ _ _ _ _ _
                (alloc_step_trans _ _ _ _ _ _ _ _ _ _ _
                   (kernel_step_alloc _ _ _ _ Hk1 Hs1) Hstep1) Hstep2) as Hall.
  assert (Htake : take (S n) (planes_of (OkQuerybufMp len planes))
                  = map (fun p => nth p planes (0, 0)) (seq 0 n) ++ [pl]).
  { cbn [planes_of]. rewrite firstn_map, take_seq.
    replace (S n `min` Z.to_nat (u32 len))%nat with (S n) by lia.
    rewrite seq_S, map_app. reflexivity. }
  assert (Hcomb : combine addrs (plane_lengths (OkQuerybufMp len planes))
                  = combine addrs (map (fun p => u32 (fst (nth p planes (0, 0))))
                                       (seq 0 n))).
  { unfold plane_lengths. cbn [planes_of]. rewrite map_map.
    replace (Z.to_nat (u32 len)) with (n + (Z.to_nat (u32 len) - n))%nat by lia.
    rewrite seq_app, map_app. apply combine_app_short.
    rewrite length_map, length_seq. reflexivity. }
  rewrite Htake, Hcomb. unfold mmap_events. rewrite map_app.
  unfold mmap_events in Hall. cbn [map app] in Hall |- *.
  rewrite !app_nil_r, <- !app_assoc in Hall. exact Hall.
Qed.

(** ** The mapping loop and the allocation, for either call

    [type] is the buffer type of the call and [body] the body of its
    mapping loop; the three hypotheses are what was shown of map_buffer and
    of map_buffer_mp above. *)
Section Allocation.

Variable type : Z.
Variable body : Z -> Z -> Z -> M (option Z).

Hypothesis body_grants :
  forall dfd ptr i w0 arr0 b g rest,
    heap w0 !! ptr = Some arr0 ->
    arr0 !! Z.to_nat i = Some b ->
    0 <= i < 2 ^ 31 ->
    sized b ->
    grant_ok type g ->
    script w0 = grant_replies g ++ rest ->
    exists w1,
      body dfd ptr i w0 = Some (None, w1) /\
      heap w1 = <[ptr := <[Z.to_nat i := granted i g b]> arr0]> (heap w0) /\
      alloc_step w0 w1 (grant_events dfd type i g) (grant_mappings g) rest
                 (g_last_error w0).

Hypothesis body_refused :
  forall dfd ptr i w0 k e rest,
    e <> EINTR ->
    script w0 = refused k e ++ rest ->
    exists w1,
      body dfd ptr i w0 = Some (Some (-1), w1) /\
      heap w1 = heap w0 /\
      alloc_step w0 w1 (query_events dfd type i k) [] rest MEDIA_ERROR_BUFFER_ERROR.

Hypothesis body_unmapped :
  forall dfd ptr i w0 arr0 b k q addrs m rest,
    heap w0 !! ptr = Some arr0 ->
    arr0 !! Z.to_nat i = Some b ->
    0 <= i < 2 ^ 31 ->
    sized b ->
    query_fits type q ->
    (List.length addrs < List.length (planes_of q))%nat ->
    Forall (fun a => a <> MAP_FAILED) addrs ->
    mmap_failure m ->
    script w0 = after_eintr k q ++ map OkMmap addrs ++ m :: rest ->
    exists w1,
      body dfd ptr i w0 = Some (Some (-1), w1) /\
      alloc_step w0 w1
        (query_events dfd type i k
           ++ mmap_events dfd (take (S (List.length addrs)) (planes_of q)))
        (combine addrs (plane_lengths q)) rest MEDIA_ERROR_OUT_OF_MEMORY.

Lemma sized_granted i g b : sized b -> sized (granted i g b).
Proof.
  intros [S1 S2]. unfold sized, granted. cbn [b_start b_length].
  rewrite !length_inserts. auto.
Qed.

Lemma grant_loop dfd ptr : forall gs i m w arr rest,
  heap w !! ptr = Some arr ->
  Forall sized arr ->
  0 <= i ->
  i + Z.of_nat (List.length gs) <= Z.of_nat (List.length arr) ->
  Z.of_nat (List.length arr) < 2 ^ 31 ->
  Forall (grant_ok type) gs ->
  script w = flat_map grant_replies gs ++ rest ->
  exists w1,
    for_loop (List.length gs + m) i (body dfd ptr) w
      = for_loop m (i + Z.of_nat (List.length gs)) (body dfd ptr) w1 /\
    heap w1 = <[ptr := granted_pool i gs arr]> (heap w) /\
    alloc_step w w1 (pool_events dfd type i gs) (flat_map grant_mappings gs) rest
               (g_last_error w) /\
    Forall sized (granted_pool i gs arr) /\
    List.length (granted_pool i gs arr) = List.length arr.
Proof.
  induction gs as [|g gs IH]; intros i m w arr rest Hh Hsz Hi Hb Hlen Hok Hs.
  - exists w. cbn [List.length Nat.add Z.of_nat granted_pool pool_events flat_map].
    rewrite Z.add_0_r. split; [reflexivity|].
    split; [rewrite (insert_id _ _ _ Hh); reflexivity|].
    split; [cbn [flat_map app] in Hs; rewrite <- Hs; apply alloc_step_refl|].
    split; [exact Hsz | reflexivity].
  - cbn [List.length] in Hb. inversion Hok as [|? ? Hg Hok']; subst.
    cbn [flat_map] in Hs. rewrite <- app_assoc in Hs.
    destruct (arr !! Z.to_nat i) as [b|] eqn:Eb.
    2:{ apply lookup_ge_None in Eb. lia. }
    assert (Hb0 : sized b).
    { exact (Forall_lookup_1 _ _ _ _ Hsz Eb). }
    assert (Hir : 0 <= i < 2 ^ 31) by lia.
    destruct (body_grants dfd ptr i w arr b g (flat_map grant_replies gs ++ rest)
                Hh Eb Hir Hb0 Hg Hs) as (w0 & E0 & Hh0 & Hstep0).
    set (arr1 := <[Z.to_nat i := granted i g b]> arr) in *.
    assert (Hh1 : heap w0 !! ptr = Some arr1).
    { rewrite Hh0. apply lookup_insert_eq. }
    assert (Hsz1 : Forall sized arr1).
    { apply Forall_insert; [exact Hsz | apply sized_granted; exact Hb0]. }
    assert (Hl1 : List.length arr1 = List.length arr) by apply length_insert.
    assert (Hi1 : 0 <= i + 1) by lia.
    assert (Hb1 : i + 1 + Z.of_nat (List.length gs) <= Z.of_nat (List.length arr1))
      by (rewrite Hl1; lia).
    assert (Hlen1 : Z.of_nat (List.length arr1) < 2 ^ 31) by (rewrite Hl1; exact Hlen).
    destruct Hstep0 as (A1 & A2 & A3 & A4 & A5 & A6 & A7).
    destruct (IH (i + 1) m w0 arr1 rest Hh1 Hsz1 Hi1 Hb1 Hlen1 Hok' A7)
      as (w1 & E1 & Hh2 & Hstep1 & Hsz2 & Hl2).
    exists w1. cbn [List.length Nat.add for_loop granted_pool pool_events flat_map].
    unfold bind at 1. rewrite E0, E1, Eb. fold arr1.
    replace (i + 1 + Z.of_nat (List.length gs)) with (i + Z.of_nat (S (List.length gs)))
      by lia.
    split; [reflexivity|].
    split; [rewrite Hh2, Hh0, insert_insert_eq; reflexivity|].
    split.
    { assert (Hstep0 : alloc_step w w0 (grant_events dfd type i g) (grant_mappings g)
                         (flat_map grant_replies gs ++ rest) (g_last_error w))
        by (unfold alloc_step; auto 10).
      pose proof (alloc_step_trans _ _ _ _ _ _ _ _ _ _ _ Hstep0 Hstep1) as Hall.
      rewrite A4 in Hall. exact Hall. }
    split; [exact Hsz2 | congruence].
Qed.

Lemma reqbufs_granted dfd count w k n rest0 :
  script w = after_eintr k (OkReqbufs n) ++ rest0 ->
  kernel_answer dfd (VIDIOC_REQBUFS (u32 count) type V4L2_MEMORY_MMAP) w = OkReqbufs n /\
  script (after_xioctl dfd (VIDIOC_REQBUFS (u32 count) type V4L2_MEMORY_MMAP) w) = rest0 /\
  kernel_step w (after_xioctl dfd (VIDIOC_REQBUFS (u32 count) type V4L2_MEMORY_MMAP) w)
              (reqbufs_events dfd count type k).
Proof.
  intros Hs.
  apply (xioctl_script dfd (VIDIOC_REQBUFS (u32 count) type V4L2_MEMORY_MMAP) w k
           (OkReqbufs n) rest0 Hs eq_refl eq_refl).
Qed.

(** Every buffer is granted. *)
Lemma request_with_grants w handle d count ptr arr k n gs rest :
  open_at w handle d ->
  1 <= count ->
  heap w !! ptr = Some arr ->
  Forall sized arr ->
  Z.of_nat (List.length arr) < 2 ^ 31 ->
  script w = after_eintr k (OkReqbufs n) ++ flat_map grant_replies gs ++ rest ->
  Z.of_nat (List.length gs) = u32 n ->
  u32 n <= Z.of_nat (List.length arr) ->
  Forall (grant_ok type) gs ->
  exists w',
    request_with type body handle count (Some ptr) w = Some (u32 n, w') /\
    heap w' = <[ptr := granted_pool 0 gs arr]> (heap w) /\
    g_devices w' = <[Z.to_nat handle := pooled_device ptr (u32 n) d]> (g_devices w) /\
    g_device_count w' = g_device_count w /\
    g_last_error w' = g_last_error w /\
    trace w' = trace w ++ reqbufs_events (fd d) count type k
                       ++ pool_events (fd d) type 0 gs /\
    mappings w' = mappings w ++ flat_map grant_mappings gs /\
    script w' = rest.
Proof.
  intros Ho Hc Hh Hsz Hlen Hs Hn Hfit Hok.
  unfold request_with, bind at 1. rewrite (find_device_open _ _ _ Ho).
  replace (count <=? 0) with false by lia.
  unfold bind at 1. rewrite (read_dev_open _ _ _ Ho).
  destruct (reqbufs_granted (fd d) count w k n _ Hs) as (Hans & Hs1 & Hk1).
  unfold bind at 1. rewrite xioctl_run, Hans.
  set (w0 := after_xioctl _ _ w) in *.
  assert (Hh0 : heap w0 !! ptr = Some arr).
  { destruct Hk1 as (_ & _ & _ & _ & K5 & _). rewrite K5. exact Hh. }
  assert (H00 : 0 <= 0) by lia.
  assert (Hb0 : 0 + Z.of_nat (List.length gs) <= Z.of_nat (List.length arr)) by lia.
  destruct (grant_loop (fd d) ptr gs 0 0 w0 arr rest Hh0 Hsz H00 Hb0 Hlen Hok Hs1)
    as (w1 & E & Hh1 & Hstep & _ & _).
  replace (Z.to_nat (u32 n)) with (List.length gs + 0)%nat by lia.
  unfold bind at 1. rewrite E. cbn [for_loop ret].
  pose proof (alloc_step_trans _ _ _ _ _ _ _ _ _ _ _
                (kernel_step_alloc _ _ _ _ Hk1 Hs1) Hstep) as Hall.
  pose proof (open_at_alloc_step _ _ _ _ _ _ _ _ Hall Ho) as Ho1.
  unfold bind at 1. rewrite (write_dev_open _ _ _ _ Ho1).
  assert (Ho2 : open_at (put_device handle (set_buffers (Some ptr) d) w1) handle
                        (set_buffers (Some ptr) d)).
  { apply (open_at_put_device _ _ d); [exact Ho1 | apply Ho]. }
  unfold bind at 1. rewrite (write_dev_open _ _ _ _ Ho2).
  rewrite s32_u32 by lia.
  eexists. split; [reflexivity|].
  destruct Hall as (A1 & A2 & A3 & A4 & A5 & A6 & A7).
  destruct Hk1 as (_ & _ & _ & K4 & K5 & _).
  unfold put_device.
  cbn [heap g_devices g_device_count g_last_error trace mappings script with_devices].
  rewrite list_insert_insert_eq, A1, Hh1, K5, A4, K4, A5, A6.
  cbn [app]. auto 10.
Qed.

(** VIDIOC_REQBUFS is refused. *)
Lemma request_with_refused w handle d count ptr k e rest :
  open_at w handle d ->
  1 <= count ->
  e <> EINTR ->
  script w = refused k e ++ rest ->
  exists w',
    request_with type body handle count (Some ptr) w = Some (-1, w') /\
    heap w' = heap w /\
    alloc_step w w' (reqbufs_events (fd d) count type k) [] rest MEDIA_ERROR_BUFFER_ERROR.
Proof.
  intros Ho Hc He Hs.
  unfold request_with, bind at 1. rewrite (find_device_open _ _ _ Ho).
  replace (count <=? 0) with false by lia.
  unfold bind at 1. rewrite (read_dev_open _ _ _ Ho).
  assert (Hne : is_eintr (Err e) = false) by (cbn; apply Z.eqb_neq; exact He).
  destruct (xioctl_script (fd d) (VIDIOC_REQBUFS (u32 count) type V4L2_MEMORY_MMAP)
              w k (Err e) rest Hs eq_refl Hne) as (Hans & Hs1 & Hk1).
  unfold bind at 1. rewrite xioctl_run, Hans.
  eexists. split; [reflexivity|]. split.
  - cbn [heap with_last_error]. apply Hk1.
  - apply alloc_step_error with (err := g_last_error w).
    apply kernel_step_alloc; assumption.
Qed.

(** The VIDIOC_QUERYBUF of the buffer after [gs] is refused. *)
Lemma request_with_query_refused w handle d count ptr arr k n gs k' e rest :
  open_at w handle d ->
  1 <= count ->
  heap w !! ptr = Some arr ->
  Forall sized arr ->
  Z.of_nat (List.length arr) < 2 ^ 31 ->
  e <> EINTR ->
  script w = after_eintr k (OkReqbufs n) ++ flat_map grant_replies gs
               ++ refused k' e ++ rest ->
  Z.of_nat (List.length gs) < u32 n ->
  u32 n <= Z.of_nat (List.length arr) ->
  Forall (grant_ok type) gs ->
  exists w',
    request_with type body handle count (Some ptr) w = Some (-1, w') /\
    heap w' = <[ptr := granted_pool 0 gs arr]> (heap w) /\
    alloc_step w w'
      (reqbufs_events (fd d) count type k ++ pool_events (fd d) type 0 gs
         ++ query_events (fd d) type (Z.of_nat (List.length gs)) k')
      (flat_map grant_mappings gs) rest MEDIA_ERROR_BUFFER_ERROR.
Proof.
  intros Ho Hc Hh Hsz Hlen He Hs Hn Hfit Hok.
  unfold request_with, bind at 1. rewrite (find_device_open _ _ _ Ho).
  replace (count <=? 0) with false by lia.
  unfold bind at 1. rewrite (read_dev_open _ _ _ Ho).
  destruct (reqbufs_granted (fd d) count w k n _ Hs) as (Hans & Hs1 & Hk1).
  unfold bind at 1. rewrite xioctl_run, Hans.
  set (w0 := after_xioctl _ _ w) in *.
  assert (Hh0 : heap w0 !! ptr = Some arr).
  { destruct Hk1 as (_ & _ & _ & _ & K5 & _). rewrite K5. exact Hh. }
  assert (H00 : 0 <= 0) by lia.
  assert (Hb0 : 0 + Z.of_nat (List.length gs) <= Z.of_nat (List.length arr)) by lia.
  set (r := (Z.to_nat (u32 n) - S (List.length gs))%nat).
  destruct (grant_loop (fd d) ptr gs 0 (S r) w0 arr (refused k' e ++ rest)
              Hh0 Hsz H00 Hb0 Hlen Hok Hs1)
    as (w1 & E & Hh1 & Hstep & _ & _).
  assert (Hcnt : Z.to_nat (u32 n) = (List.length gs + S r)%nat) by lia.
  rewrite Hcnt. unfold bind at 1. rewrite E. cbn [for_loop].
  destruct Hstep as (A1 & A2 & A3 & A4 & A5 & A6 & A7).
  destruct (body_refused (fd d) ptr (0 + Z.of_nat (List.length gs)) w1 k' e rest He A7)
    as (w2 & E2 & Hh2 & Hstep2).
  unfold bind at 1. rewrite E2. cbn [ret].
  eexists. split; [reflexivity|]. split.
  - rewrite Hh2, Hh1. destruct Hk1 as (_ & _ & _ & _ & K5 & _). rewrite K5. reflexivity.
  - assert (Hstep1 : alloc_step w0 w1 (pool_events (fd d) type 0 gs)
                       (flat_map grant_mappings gs) (refused k' e ++ rest)
                       (g_last_error w0))
      by (unfold alloc_step; auto 10).
    pose proof (alloc_step_trans _ _ _ _ _ _ _ _ _ _ _
                  (alloc_step_trans _ _ _ _ _ _ _ _ _ _ _
                     (kernel_step_alloc _ _ _ _ Hk1 Hs1) Hstep1) Hstep2) as Hall.
    cbn [app] in Hall. rewrite Z.add_0_l, app_nil_r, <- app_assoc in Hall.
    exact Hall.
Qed.

(** An mmap of the buffer after [gs] fails, the planes [addrs] of that buffer
    having been mapped. *)
Lemma request_with_unmapped w handle d count ptr arr k n gs k' q addrs m rest :
  open_at w handle d ->
  1 <= count ->
  heap w !! ptr = Some arr ->
  Forall sized arr ->
  Z.of_nat (List.length arr) < 2 ^ 31 ->
  script w = after_eintr k (OkReqbufs n) ++ flat_map grant_replies gs
               ++ after_eintr k' q ++ map OkMmap addrs ++ m :: rest ->
  Z.of_nat (List.length gs) < u32 n ->
  u32 n <= Z.of_nat (List.length arr) ->
  Forall (grant_ok type) gs ->
  query_fits type q ->
  (List.length addrs < List.length (planes_of q))%nat ->
  Forall (fun a => a <> MAP_FAILED) addrs ->
  mmap_failure m ->
  exists w',
    request_with type body handle count (Some ptr) w = Some (-1, w') /\
    alloc_step w w'
      (reqbufs_events (fd d) count type k ++ pool_events (fd d) type 0 gs
         ++ query_events (fd d) type (Z.of_nat (List.length gs)) k'
         ++ mmap_events (fd d) (take (S (List.length addrs)) (planes_of q)))
      (flat_map grant_mappings gs ++ combine addrs (plane_lengths q))
      rest MEDIA_ERROR_OUT_OF_MEMORY.
Proof.
  intros Ho Hc Hh Hsz Hlen Hs Hn Hfit Hok Hq Hla Hoka Hm.
  unfold request_with, bind at 1. rewrite (find_device_open _ _ _ Ho).
  replace (count <=? 0) with false by lia.
  unfold bind at 1. rewrite (read_dev_open _ _ _ Ho).
  destruct (reqbufs_granted (fd d) count w k n _ Hs) as (Hans & Hs1 & Hk1).
  unfold bind at 1. rewrite xioctl_run, Hans.
  set (w0 := after_xioctl _ _ w) in *.
  assert (Hh0 : heap w0 !! ptr = Some arr).
  { destruct Hk1 as (_ & _ & _ & _ & K5 & _). rewrite K5. exact Hh. }
  assert (H00 : 0 <= 0) by lia.
  assert (Hb0 : 0 + Z.of_nat (List.length gs) <= Z.of_nat (List.length arr)) by lia.
  set (r := (Z.to_nat (u32 n) - S (List.length gs))%nat).
  destruct (grant_loop (fd d) ptr gs 0 (S r) w0 arr
              (after_eintr k' q ++ map OkMmap addrs ++ m :: rest)
              Hh0 Hsz H00 Hb0 Hlen Hok Hs1)
    as (w1 & E & Hh1 & Hstep & Hsz1 & Hl1).
  assert (Hcnt : Z.to_nat (u32 n) = (List.length gs + S r)%nat) by lia.
  rewrite Hcnt. unfold bind at 1. rewrite E. cbn [for_loop].
  destruct Hstep as (A1 & A2 & A3 & A4 & A5 & A6 & A7).
  set (j := 0 + Z.of_nat (List.length gs)).
  assert (Hh1' : heap w1 !! ptr = Some (granted_pool 0 gs arr)).
  { rewrite Hh1. apply lookup_insert_eq. }
  destruct (granted_pool 0 gs arr !! Z.to_nat j) as [b|] eqn:Eb.
  2:{ apply lookup_ge_None in Eb. unfold j in Eb. lia. }
  assert (Hb : sized b).
  { exact (Forall_lookup_1 _ _ _ _ Hsz1 Eb). }
  assert (Hjr : 0 <= j < 2 ^ 31) by (unfold j; lia).
  destruct (body_unmapped (fd d) ptr j w1 _ b k' q addrs m rest Hh1' Eb Hjr Hb Hq Hla
              Hoka Hm A7) as (w2 & E2 & Hstep2).
  unfold bind at 1. rewrite E2. cbn [ret].
  eexists. split; [reflexivity|].
  assert (Hstep1 : alloc_step w0 w1 (pool_events (fd d) type 0 gs)
                     (flat_map grant_mappings gs)
                     (after_eintr k' q ++ map OkMmap addrs ++ m :: rest)
                     (g_last_error w0))
    by (unfold alloc_step; auto 10).
  pose proof (alloc_step_trans _ _ _ _ _ _ _ _ _ _ _
                (alloc_step_trans _ _ _ _ _ _ _ _ _ _ _
                   (kernel_step_alloc _ _ _ _ Hk1 Hs1) Hstep1) Hstep2) as Hall.
  unfold j in Hall. cbn [app] in Hall. rewrite Z.add_0_l, <- app_assoc in Hall.
  exact Hall.
Qed.

End Allocation.

(** ** The array a granted pool leaves *)

Lemma granted_pool_lookup_lt : forall gs i arr (j : nat),
  0 <= i -> (j < Z.to_nat i)%nat ->
  granted_pool i gs arr !! j = arr !! j.
Proof.
  induction gs as [|g gs IH]; intros i arr j Hi Hj; [reflexivity|].
  cbn [granted_pool]. rewrite IH by lia.
  destruct (arr !! Z.to_nat i); [|reflexivity].
  apply list_lookup_insert_ne. lia.
Qed.

Lemma granted_pool_lookup : forall gs i arr (j : nat) g b,
  0 <= i ->
  gs !! j = Some g ->
  arr !! (Z.to_nat i + j)%nat = Some b ->
  granted_pool i gs arr !! (Z.to_nat i + j)%nat = Some (granted (i + Z.of_nat j) g b).
Proof.
  induction gs as [|g0 gs IH]; intros i arr j g b Hi Hg Hb; [discriminate|].
  cbn [granted_pool]. destruct j as [|j].
  - cbn in Hg. inversion Hg; subst g0. rewrite Nat.add_0_r in Hb |- *.
    rewrite Hb. rewrite granted_pool_lookup_lt by lia.
    rewrite Z.add_0_r. apply list_lookup_insert_eq.
    apply lookup_lt_Some in Hb. exact Hb.
  - cbn in Hg.
    replace (Z.to_nat i + S j)%nat with (Z.to_nat (i + 1) + j)%nat in * by lia.
    replace (i + Z.of_nat (S j)) with (i + 1 + Z.of_nat j) by lia.
    apply IH; [lia | exact Hg|].
    destruct (arr !! Z.to_nat i); [|exact Hb].
    rewrite list_lookup_insert_ne by lia. exact Hb.
Qed.

Lemma combine_lookup_in {A B : Type} (l1 : list A) (l2 : list B) (j : nat) a b :
  l1 !! j = Some a -> l2 !! j = Some b -> In (a, b) (combine l1 l2).
Proof.
  revert l2 j. induction l1 as [|x l1 IH]; intros l2 j H1 H2; [discriminate|].
  destruct l2 as [|y l2]; [discriminate|].
  destruct j as [|j]; cbn in *.
  - inversion H1; inversion H2; subst. left. reflexivity.
  - right. apply (IH l2 j); assumption.
Qed.

Lemma query_fits_planes type q :
  query_fits type q -> (List.length (planes_of q) <= 8)%nat.
Proof.
  destruct q; cbn [query_fits]; try contradiction.
  - intros _. cbn. lia.
  - intros [_ H]. rewrite planes_of_mp_length. unfold VIDEO_MAX_PLANES in H. lia.
Qed.

(** A granted buffer carries its index and the plane count the kernel
    reported, and each of these planes is mapped. *)
Lemma granted_fully_mapped type w' i g b :
  grant_ok type g ->
  sized b ->
  (forall m, In m (grant_mappings g) -> In m (mappings w')) ->
  fully_mapped w' (granted i g b).
Proof.
  intros (Hq & Hlen & Hok) [S1 S2] Hin p Hp.
  cbn [b_num_planes granted] in Hp.
  pose proof (query_fits_planes type _ Hq) as Hmax.
  assert (Hpa : (Z.to_nat p < List.length (g_addrs g))%nat) by lia.
  assert (Hpl : (Z.to_nat p < List.length (plane_lengths (g_query g)))%nat).
  { unfold plane_lengths. rewrite length_map. lia. }
  destruct (lookup_lt_is_Some_2 _ _ Hpa) as [a Ha].
  destruct (lookup_lt_is_Some_2 _ _ Hpl) as [l Hl].
  exists a, l. unfold array_get. replace (p <? 0) with false by lia.
  cbn [b_start b_length granted].
  rewrite !list_lookup_inserts by (rewrite ?S1, ?S2; unfold VIDEO_MAX_PLANES; lia).
  rewrite Nat.sub_0_r.
  split; [exact Ha|]. split; [exact Hl|]. split.
  - exact (Forall_lookup_1 _ _ _ _ Hok Ha).
  - apply Hin. unfold grant_mappings. apply (combine_lookup_in _ _ (Z.to_nat p)); assumption.
Qed.

Lemma granted_pool_mapped type w' gs arr ms0 :
  Forall (grant_ok type) gs ->
  Forall sized arr ->
  Z.of_nat (List.length gs) <= Z.of_nat (List.length arr) ->
  mappings w' = ms0 ++ flat_map grant_mappings gs ->
  pool_mapped w' (granted_pool 0 gs arr) (Z.of_nat (List.length gs)) /\
  (forall i b, 0 <= i < Z.of_nat (List.length gs) ->
     granted_pool 0 gs arr !! Z.to_nat i = Some b ->
     exists g, gs !! Z.to_nat i = Some g /\
               b_num_planes b = Z.of_nat (List.length (planes_of (g_query g)))).
Proof.
  intros Hok Hsz Hlen Hm.
  assert (Hat : forall i, 0 <= i < Z.of_nat (List.length gs) ->
            exists g b0, gs !! Z.to_nat i = Some g /\ arr !! Z.to_nat i = Some b0 /\
                         granted_pool 0 gs arr !! Z.to_nat i = Some (granted i g b0)).
  { intros i Hi.
    destruct (lookup_lt_is_Some_2 gs (Z.to_nat i) ltac:(lia)) as [g Hg].
    destruct (lookup_lt_is_Some_2 arr (Z.to_nat i) ltac:(lia)) as [b0 Hb0].
    exists g, b0. split; [exact Hg|]. split; [exact Hb0|].
    pose proof (granted_pool_lookup gs 0 arr (Z.to_nat i) g b0 ltac:(lia) Hg Hb0) as H.
    change (Z.to_nat 0 + Z.to_nat i)%nat with (Z.to_nat i) in H.
    rewrite Z.add_0_l, Z2Nat.id in H by lia. exact H. }
  split.
  - intros i Hi. destruct (Hat i Hi) as (g & b0 & Hg & Hb0 & Hb).
    exists (granted i g b0). split; [exact Hb|]. split; [reflexivity|].
    apply (granted_fully_mapped type).
    + exact (Forall_lookup_1 _ _ _ _ Hok Hg).
    + exact (Forall_lookup_1 _ _ _ _ Hsz Hb0).
    + intros m Hin. rewrite Hm. apply in_or_app. right.
      apply in_flat_map. exists g. split; [|exact Hin].
      apply list_elem_of_In. eapply list_elem_of_lookup_2. exact Hg.
  - intros i b Hi Hb. destruct (Hat i Hi) as (g & b0 & Hg & Hb0 & Hb').
    rewrite Hb' in Hb. inversion Hb; subst b. exists g. split; [exact Hg | reflexivity].
Qed.
(** C1, as the code has it: for every requested pool size N >= 1, on an open
    device and a caller array of well-sized buffers,
    libmedia_request_buffers and libmedia_request_buffers_mp follow the
    kernel's answers, provided the array has room for the count G the kernel
    grants and the kernel reports at most VIDEO_MAX_PLANES planes for a
    buffer (the code checks neither).

    When VIDIOC_REQBUFS is refused, the call returns -1 with
    MEDIA_ERROR_BUFFER_ERROR; nothing is mapped and the array and the device
    table are as they were.

    When the kernel grants G buffers, answers the VIDIOC_QUERYBUF of each
    and maps each of their planes, the call returns G -- which need not be
    N -- having recorded the array with count G as the device's pool: each
    of its first G buffers carries its index and the plane count the kernel
    reported for it (1 in the single-plane call) and is mapped in every one
    of these planes, the mappings made being exactly those of these planes.

    When the VIDIOC_QUERYBUF of a buffer is refused
    (MEDIA_ERROR_BUFFER_ERROR), or the mmap of one of its planes fails
    (MEDIA_ERROR_OUT_OF_MEMORY), the call returns -1 and the device table is
    as it was; nothing more is asked of the kernel, and the mappings made
    before the failure stay in place: no munmap is called. *)
Theorem request_buffers_grant_or_failure :
  forall (request : Z -> Z -> option Z -> M Z) (type : Z)
         (w : world) (handle : Z) (d : device_context_t) (count ptr : Z)
         (arr : list media_buffer_t),
    (request = libmedia_request_buffers /\ type = V4L2_BUF_TYPE_VIDEO_CAPTURE) \/
    (request = libmedia_request_buffers_mp /\
     type = V4L2_BUF_TYPE_VIDEO_CAPTURE_MPLANE) ->
    open_at w handle d ->
    1 <= count ->
    heap w !! ptr = Some arr ->
    Forall sized arr ->
    Z.of_nat (List.length arr) < 2 ^ 31 ->
    (forall (k : nat) (e : Z) (rest : list reply),
        e <> EINTR ->
        script w = refused k e ++ rest ->
        exists w',
          request handle count (Some ptr) w = Some (-1, w') /\
          heap w' = heap w /\
          alloc_step w w' (reqbufs_events (fd d) count type k) [] rest
                     MEDIA_ERROR_BUFFER_ERROR) /\
    (forall (k : nat) (n : Z) (gs : list grant),
        u32 n <= Z.of_nat (List.length arr) ->
        Forall (grant_ok type) gs ->
        (forall rest : list reply,
            Z.of_nat (List.length gs) = u32 n ->
            script w = after_eintr k (OkReqbufs n) ++ flat_map grant_replies gs ++ rest ->
            exists w',
              request handle count (Some ptr) w = Some (u32 n, w') /\
              g_devices w'
                = <[Z.to_nat handle := pooled_device ptr (u32 n) d]> (g_devices w) /\
              g_last_error w' = g_last_error w /\
              trace w' = trace w ++ reqbufs_events (fd d) count type k
                                 ++ pool_events (fd d) type 0 gs /\
              mappings w' = mappings w ++ flat_map grant_mappings gs /\
              script w' = rest /\
              heap w' = <[ptr := granted_pool 0 gs arr]> (heap w) /\
              pool_mapped w' (granted_pool 0 gs arr) (u32 n) /\
              (forall i b,
                  0 <= i < u32 n ->
                  granted_pool 0 gs arr !! Z.to_nat i = Some b ->
                  exists g,
                    gs !! Z.to_nat i = Some g /\
                    b_num_planes b = Z.of_nat (List.length (planes_of (g_query g))) /\
                    (type = V4L2_BUF_TYPE_VIDEO_CAPTURE -> b_num_planes b = 1) /\
                    (forall len planes,
                        g_query g = OkQuerybufMp len planes ->
                        b_num_planes b = u32 len))) /\
        (forall (k' : nat) (e : Z) (rest : list reply),
            Z.of_nat (List.length gs) < u32 n ->
            e <> EINTR ->
            script w = after_eintr k (OkReqbufs n) ++ flat_map grant_replies gs
                         ++ refused k' e ++ rest ->
            exists w',
              request handle count (Some ptr) w = Some (-1, w') /\
              alloc_step w w'
                (reqbufs_events (fd d) count type k ++ pool_events (fd d) type 0 gs
                   ++ query_events (fd d) type (Z.of_nat (List.length gs)) k')
                (flat_map grant_mappings gs) rest MEDIA_ERROR_BUFFER_ERROR) /\
        (forall (k' : nat) (q : reply) (addrs : list Z) (m : reply) (rest : list reply),
            Z.of_nat (List.length gs) < u32 n ->
            query_fits type q ->
            (List.length addrs < List.length (planes_of q))%nat ->
            Forall (fun a => a <> MAP_FAILED) addrs ->
            mmap_failure m ->
            script w = after_eintr k (OkReqbufs n) ++ flat_map grant_replies gs
                         ++ after_eintr k' q ++ map OkMmap addrs ++ m :: rest ->
            exists w',
              request handle count (Some ptr) w = Some (-1, w') /\
              alloc_step w w'
                (reqbufs_events (fd d) count type k ++ pool_events (fd d) type 0 gs
                   ++ query_events (fd d) type (Z.of_nat (List.length gs)) k'
                   ++ mmap_events (fd d) (take (S (List.length addrs)) (planes_of q)))
                (flat_map grant_mappings gs ++ combine addrs (plane_lengths q))
                rest MEDIA_ERROR_OUT_OF_MEMORY)).
Proof.
  intros request type w handle d count ptr arr Hcall Ho Hc Hh Hsz Hlen.
  assert (Hbody : exists body,
            request = request_with type body /\
            (forall dfd ptr i w0 arr0 b g rest,
                heap w0 !! ptr = Some arr0 -> arr0 !! Z.to_nat i = Some b ->
                0 <= i < 2 ^ 31 -> sized b -> grant_ok type g ->
                script w0 = grant_replies g ++ rest ->
                exists w1,
                  body dfd ptr i w0 = Some (None, w1) /\
                  heap w1 = <[ptr := <[Z.to_nat i := granted i g b]> arr0]> (heap w0) /\
                  alloc_step w0 w1 (grant_events dfd type i g) (grant_mappings g) rest
                             (g_last_error w0)) /\
            (forall dfd ptr i w0 k e rest,
                e <> EINTR -> script w0 = refused k e ++ rest ->
                exists w1,
                  body dfd ptr i w0 = Some (Some (-1), w1) /\
                  heap w1 = heap w0 /\
                  alloc_step w0 w1 (query_events dfd type i k) [] rest
                             MEDIA_ERROR_BUFFER_ERROR) /\
            (forall dfd ptr i w0 arr0 b k q addrs m rest,
                heap w0 !! ptr = Some arr0 -> arr0 !! Z.to_nat i = Some b ->
                0 <= i < 2 ^ 31 -> sized b -> query_fits type q ->
                (List.length addrs < List.length (planes_of q))%nat ->
                Forall (fun a => a <> MAP_FAILED) addrs -> mmap_failure m ->
                script w0 = after_eintr k q ++ map OkMmap addrs ++ m :: rest ->
                exists w1,
                  body dfd ptr i w0 = Some (Some (-1), w1) /\
                  alloc_step w0 w1
                    (query_events dfd type i k
                       ++ mmap_events dfd (take (S (List.length addrs)) (planes_of q)))
                    (combine addrs (plane_lengths q)) rest MEDIA_ERROR_OUT_OF_MEMORY)).
  { destruct Hcall as [[-> ->]|[-> ->]].
    - exists map_buffer. split; [exact request_buffers_shape|].
      split; [exact map_buffer_grants|].
      split; [intros dfd p i; exact (map_buffer_refused dfd p i) | exact map_buffer_unmapped].
    - exists map_buffer_mp. split; [exact request_buffers_mp_shape|].
      split; [exact map_buffer_mp_grants|].
      split; [intros dfd p i; exact (map_buffer_mp_refused dfd p i)
             | exact map_buffer_mp_unmapped]. }
  destruct Hbody as (body & -> & Bg & Br & Bu).
  split.
  - intros k e rest He Hs.
    apply (request_with_refused type body w handle d count ptr k e rest Ho Hc He Hs).
  - intros k n gs Hfit Hok. split; [|split].
    + intros rest Hn Hs.
      destruct (request_with_grants type body Bg w handle d count ptr arr k n gs rest
                  Ho Hc Hh Hsz Hlen Hs Hn Hfit Hok)
        as (w' & E & Hh' & Hd & _ & He & Ht & Hm & Hsc).
      exists w'. split; [exact E|]. split; [exact Hd|]. split; [exact He|].
      split; [exact Ht|]. split; [exact Hm|]. split; [exact Hsc|]. split; [exact Hh'|].
      destruct (granted_pool_mapped type w' gs arr (mappings w) Hok Hsz ltac:(lia) Hm)
        as [Hpm Hnp].
      rewrite Hn in Hpm, Hnp. split; [exact Hpm|].
      intros i b Hi Hb. destruct (Hnp i b Hi Hb) as (g & Hg & Hcount).
      exists g. split; [exact Hg|]. split; [exact Hcount|].
      pose proof (Forall_lookup_1 _ _ _ _ Hok Hg) as (Hq & _).
      split.
      * intros ->. rewrite Hcount. destruct (g_query g); cbn [query_fits] in Hq;
          try contradiction; [reflexivity | destruct Hq; discriminate].
      * intros len planes Hgq. rewrite Hcount, Hgq, planes_of_mp_length.
        apply Z2Nat.id. apply (proj1 (u32_range len)).
    + intros k' e rest Hn He Hs.
      destruct (request_with_query_refused type body Bg Br w handle d count ptr arr k n gs
                  k' e rest Ho Hc Hh Hsz Hlen He Hs Hn Hfit Hok) as (w' & E & _ & Hstep).
      exists w'. split; [exact E | exact Hstep].
    + intros k' q addrs m rest Hn Hq Hla Hoka Hm Hs.
      apply (request_with_unmapped type body Bg Bu w handle d count ptr arr k n gs
               k' q addrs m rest Ho Hc Hh Hsz Hlen Hs Hn Hfit Hok Hq Hla Hoka Hm).
Qed.

Lemma sample_pool_sized : Forall sized sample_pool.
Proof. repeat constructor. Qed.

Lemma request_buffers_grant_or_failure_witness :
  (exists w',
     libmedia_request_buffers 0 4 (Some 1000)
       (sample_world 0 0 [Err EINTR; OkReqbufs 2; OkQuerybuf 614400 0; OkMmap 4096;
                          Err EINTR; OkQuerybuf 614400 614400; OkMmap 1052672; OkDone])
       = Some (2, w') /\
     g_devices w' !! 0%nat = Some (pooled_device 1000 2 (sample_device 0 0)) /\
     mappings w' = [(4096, 614400); (1052672, 614400)] /\
     script w' = [OkDone] /\
     pool_mapped w'
       (granted_pool 0 [mk_grant 0 (OkQuerybuf 614400 0) [4096];
                        mk_grant 1 (OkQuerybuf 614400 614400) [1052672]] sample_pool) 2) /\
  (exists w',
     libmedia_request_buffers_mp 0 4 (Some 1000)
       (sample_world 0 0 [OkReqbufs 2;
                          OkQuerybufMp 2 [(307200, 0); (153600, 307200)];
                          OkMmap 4096; OkMmap 311296;
                          OkQuerybufMp 2 [(307200, 460800); (153600, 768000)];
                          OkMmap 464896; Err 12; OkDone])
       = Some (-1, w') /\
     g_devices w' = g_devices (sample_world 0 0 []) /\
     g_last_error w' = MEDIA_ERROR_OUT_OF_MEMORY /\
     mappings w' = [(4096, 307200); (311296, 153600); (464896, 307200)] /\
     script w' = [OkDone]).
Proof.
  split.
  - destruct (request_buffers_grant_or_failure libmedia_request_buffers
                V4L2_BUF_TYPE_VIDEO_CAPTURE
                (sample_world 0 0 [Err EINTR; OkReqbufs 2; OkQuerybuf 614400 0; OkMmap 4096;
                                   Err EINTR; OkQuerybuf 614400 614400; OkMmap 1052672;
                                   OkDone])
                0 (sample_device 0 0) 4 1000 sample_pool
                (or_introl (conj eq_refl eq_refl))
                (sample_world_open 0 0 _) ltac:(lia) eq_refl sample_pool_sized
                ltac:(simpl; lia)) as [_ H].
    destruct (H 1%nat 2 [mk_grant 0 (OkQuerybuf 614400 0) [4096];
                         mk_grant 1 (OkQuerybuf 614400 614400) [1052672]]) as [Hg _].
    { vm_compute. discriminate. }
    { repeat (constructor; [repeat split; repeat constructor; discriminate|]).
      constructor. }
    destruct (Hg [OkDone] eq_refl eq_refl)
      as (w' & E & Hd & _ & _ & Hm & Hs & _ & Hpm & _).
    exists w'. split; [exact E|]. split; [rewrite Hd; reflexivity|].
    split; [exact Hm|]. split; [exact Hs | exact Hpm].
  - destruct (request_buffers_grant_or_failure libmedia_request_buffers_mp
                V4L2_BUF_TYPE_VIDEO_CAPTURE_MPLANE
                (sample_world 0 0 [OkReqbufs 2;
                                   OkQuerybufMp 2 [(307200, 0); (153600, 307200)];
                                   OkMmap 4096; OkMmap 311296;
                                   OkQuerybufMp 2 [(307200, 460800); (153600, 768000)];
                                   OkMmap 464896; Err 12; OkDone])
                0 (sample_device 0 0) 4 1000 sample_pool
                (or_intror (conj eq_refl eq_refl))
                (sample_world_open 0 0 _) ltac:(lia) eq_refl sample_pool_sized
                ltac:(simpl; lia)) as [_ H].
    destruct (H 0%nat 2 [mk_grant 0 (OkQuerybufMp 2 [(307200, 0); (153600, 307200)])
                           [4096; 311296]]) as (_ & _ & Hu).
    { vm_compute. discriminate. }
    { repeat (constructor; [repeat split; repeat constructor;
                            first [discriminate | vm_compute; discriminate]|]).
      constructor. }
    destruct (Hu 0%nat (OkQuerybufMp 2 [(307200, 460800); (153600, 768000)]) [464896]
                (Err 12) [OkDone])
      as (w' & E & Hd & _ & _ & He & _ & Hm & Hs).
    { vm_compute. reflexivity. }
    { split; [reflexivity | vm_compute; discriminate]. }
    { vm_compute. lia. }
    { repeat constructor. discriminate. }
    { right. exists 12. reflexivity. }
    { reflexivity. }
    exists w'. split; [exact E|]. split; [exact Hd|]. split; [exact He|].
    split; [exact Hm | exact Hs].
Defined.

(** Why the array must take what the kernel grants: granted five buffers
    for an array of four, the mapping loop writes past the end of the
    array. *)
Example request_buffers_overruns_small_array :
  libmedia_request_buffers 0 4 (Some 1000)
    (sample_world 0 0 [OkReqbufs 5;
                       OkQuerybuf 614400 0; OkMmap 4096;
                       OkQuerybuf 614400 614400; OkMmap 1052672;
                       OkQuerybuf 614400 1228800; OkMmap 2101248;
                       OkQuerybuf 614400 1843200; OkMmap 3149824;
                       OkQuerybuf 614400 2457600; OkMmap 4198400])
  = None.
Proof. vm_compute. reflexivity. Qed.

(** C1 as stated fails on both counts.  Four buffers are requested and the
    kernel grants two: the call returns 2, a success, with a pool of two.
    Four are granted and the third mmap fails: the call returns -1 and the
    two mappings made before stay in place, no munmap having been called.
    In the multi-plane call, a buffer whose second plane cannot be mapped
    leaves its first plane mapped. *)
Lemma request_buffers_partial_grant_and_leak :
  (exists w',
     libmedia_request_buffers 0 4 (Some 1000)
       (sample_world 0 0 [OkReqbufs 2; OkQuerybuf 614400 0; OkMmap 4096;
                          OkQuerybuf 614400 614400; OkMmap 1052672])
     = Some (2, w') /\
     g_devices w' !! 0%nat = Some (pooled_device 1000 2 (sample_device 0 0))) /\
  (exists w',
     libmedia_request_buffers 0 4 (Some 1000)
       (sample_world 0 0 [OkReqbufs 4; OkQuerybuf 614400 0; OkMmap 4096;
                          OkQuerybuf 614400 614400; OkMmap 1052672;
                          OkQuerybuf 614400 1228800; Err 12])
     = Some (-1, w') /\
     mappings w' = [(4096, 614400); (1052672, 614400)] /\
     trace w' = [EvIoctl 3 (VIDIOC_REQBUFS 4 1 1);
                 EvIoctl 3 (VIDIOC_QUERYBUF 1 1 0); EvMmap 614400 3 0;
                 EvIoctl 3 (VIDIOC_QUERYBUF 1 1 1); EvMmap 614400 3 614400;
                 EvIoctl 3 (VIDIOC_QUERYBUF 1 1 2); EvMmap 614400 3 1228800]) /\
  (exists w',
     libmedia_request_buffers_mp 0 1 (Some 1000)
       (sample_world 0 0 [OkReqbufs 1; OkQuerybufMp 2 [(307200, 0); (153600, 307200)];
                          OkMmap 4096; Err 12])
     = Some (-1, w') /\
     mappings w' = [(4096, 307200)]).
Proof.
  repeat split; eexists; (split; [vm_compute; reflexivity | repeat split]).
Qed.

(** * Handles that name no open device *)

Lemma find_device_dead w handle :
  dead_handle w handle ->
  exists e, e <> MEDIA_ERROR_NONE /\
            find_device handle w = Some (None, with_last_error e w).
Proof.
  intros Hd. unfold find_device, bind, gets.
  destruct ((handle <? 0) || (handle >=? g_device_count w)) eqn:Er.
  - exists MEDIA_ERROR_INVALID_PARAM. split; [discriminate | reflexivity].
  - apply orb_false_iff in Er. destruct Er as [Er1 Er2].
    destruct Hd as [Hd | [Hd | (d & Hl & Hfd)]]; try lia.
    unfold read_dev. rewrite Er1, Hl.
    replace (fd d <? 0) with true by lia.
    exists MEDIA_ERROR_DEVICE_NOT_FOUND. split; [discriminate | reflexivity].
Qed.

Lemma only_error_invalid w e :
  only_error w (with_last_error MEDIA_ERROR_INVALID_PARAM (with_last_error e w)).
Proof. exists MEDIA_ERROR_INVALID_PARAM. split; [discriminate | reflexivity]. Qed.

Ltac dead_op e He E :=
  unfold bind; rewrite E; cbv beta iota;
  repeat match goal with
         | |- context [match ?x with Some _ => _ | None => _ end] => is_var x; destruct x
         end;
  first [ split; [reflexivity | apply only_error_invalid]
        | split; [reflexivity | exists e; split; [exact He | reflexivity]] ].

(** X1: on a handle that names no open device -- out of range, or closed --
    every operation of the library returns -1 (leaving a caller's out
    parameter as it was) without making a system call: nothing but the
    last-error slot changes, and it holds an error afterwards. *)
Theorem dead_handle_rejected_everywhere :
  forall (w : world) (handle : Z),
    dead_handle w handle ->
    (exists w', libmedia_close_device handle w = Some (-1, w') /\ only_error w w') /\
    (exists w', libmedia_start_streaming handle w = Some (-1, w') /\ only_error w w') /\
    (exists w', libmedia_start_streaming_mp handle w = Some (-1, w') /\ only_error w w') /\
    (exists w', libmedia_stop_streaming handle w = Some (-1, w') /\ only_error w w') /\
    (exists w', libmedia_stop_streaming_mp handle w = Some (-1, w') /\ only_error w w') /\
    (forall t, exists w', libmedia_wait_for_frame handle t w = Some (-1, w') /\ only_error w w') /\
    (forall f, exists w', libmedia_set_format handle f w = Some ((-1, f), w') /\ only_error w w') /\
    (forall f, exists w', libmedia_set_format_mp handle f w = Some ((-1, f), w') /\ only_error w w') /\
    (forall f, exists w', libmedia_get_format handle f w = Some ((-1, f), w') /\ only_error w w') /\
    (forall n p, exists w', libmedia_request_buffers handle n p w = Some (-1, w') /\ only_error w w') /\
    (forall n p, exists w', libmedia_request_buffers_mp handle n p w = Some (-1, w') /\ only_error w w') /\
    (forall p n, exists w', libmedia_free_buffers handle p n w = Some (-1, w') /\ only_error w w') /\
    (forall i, exists w', libmedia_queue_buffer handle i w = Some (-1, w') /\ only_error w w') /\
    (forall i, exists w', libmedia_queue_buffer_mp handle i w = Some (-1, w') /\ only_error w w') /\
    (forall b, exists w', libmedia_dequeue_buffer handle b w = Some ((-1, b), w') /\ only_error w w') /\
    (forall b, exists w', libmedia_dequeue_buffer_mp handle b w = Some ((-1, b), w') /\ only_error w w') /\
    (forall f t, exists w', libmedia_capture_frame handle f t w = Some ((-1, f), w') /\ only_error w w') /\
    (forall f t, exists w', libmedia_capture_frame_mp handle f t w = Some ((-1, f), w') /\ only_error w w') /\
    (forall f, exists w', libmedia_release_frame handle f w = Some (-1, w') /\ only_error w w').
Proof.
  intros w handle Hd.
  destruct (find_device_dead _ _ Hd) as (e & He & E).
  repeat match goal with |- _ /\ _ => split end; intros; eexists;
    [ unfold libmedia_close_device | unfold libmedia_start_streaming
    | unfold libmedia_start_streaming_mp | unfold libmedia_stop_streaming
    | unfold libmedia_stop_streaming_mp | unfold libmedia_wait_for_frame
    | unfold libmedia_set_format | unfold libmedia_set_format_mp
    | unfold libmedia_get_format | unfold libmedia_request_buffers
    | unfold libmedia_request_buffers_mp | unfold libmedia_free_buffers
    | unfold libmedia_queue_buffer | unfold libmedia_queue_buffer_mp
    | unfold libmedia_dequeue_buffer | unfold libmedia_dequeue_buffer_mp
    | unfold libmedia_capture_frame | unfold libmedia_capture_frame_mp
    | unfold libmedia_release_frame ];
    dead_op e He E.
Qed.

Lemma dead_handle_rejected_everywhere_witness :
  (exists w', libmedia_close_device 5 (sample_world 4 1 []) = Some (-1, w') /\
              only_error (sample_world 4 1 []) w') /\
  (exists w', libmedia_capture_frame 5 (Some sample_frame) 1000 (sample_world 4 1 [])
                = Some ((-1, Some sample_frame), w') /\
              only_error (sample_world 4 1 []) w').
Proof.
  assert (Hd : dead_handle (sample_world 4 1 []) 5) by (right; left; simpl; lia).
  destruct (dead_handle_rejected_everywhere (sample_world 4 1 []) 5 Hd)
    as (H1 & _ & _ & _ & _ & _ & _ & _ & _ & _ & _ & _ & _ & _ & _ & _ & H17 & _).
  split; [exact H1 | exact (H17 (Some sample_frame) 1000)].
Defined.

(** * Closing, and what is left of the handle *)

Lemma close_device_run w handle d :
  open_at w handle d ->
  (forall ptr, buffers d = Some ptr ->
               exists arr, heap w !! ptr = Some arr /\ array_ok arr (buffer_count d)) ->
  exists w' d' stop_evs unmap_evs,
    libmedia_close_device handle w = Some (0, w') /\
    trace w' = trace w ++ stop_evs ++ unmap_evs ++ [EvClose (fd d)] /\
    Forall (is_streamoff (fd d)) stop_evs /\
    (stop_evs = [] <-> streaming d = 0) /\
    Forall is_munmap unmap_evs /\
    (buffers d = None -> unmap_evs = []) /\
    0 <= handle < g_device_count w' /\
    g_devices w' !! Z.to_nat handle = Some d' /\
    fd d' = -1 /\
    (forall ptr, buffers d = Some ptr ->
                 exists arr', heap w' !! ptr = Some arr' /\
                              pool_released arr' (buffer_count d)).
Proof.
  intros Ho Hpool.
  unfold libmedia_close_device, bind at 1. rewrite (find_device_open _ _ _ Ho).
  unfold bind at 1. rewrite (read_dev_open _ _ _ Ho).
  fold (close_stop handle d).
  destruct (close_stop_phase w handle d Ho)
    as (r1 & w1 & d1 & stop_evs & E1 & Ho1 & F1 & B1 & C1 & T1 & S1 & N1 & Hh1 & St1).
  unfold bind at 1. rewrite E1.
  unfold bind at 1. rewrite (read_dev_open _ _ _ Ho1).
  fold (close_free handle d1).
  destruct (close_free_phase w1 handle d1 Ho1)
    as (r2 & w2 & d2 & unmap_evs & E2 & Ho2 & F2 & St2 & T2 & M2 & N2 & R2).
  { intros ptr Hb. rewrite B1 in Hb. destruct (Hpool ptr Hb) as (arr & Ha & Hok).
    exists arr. rewrite Hh1, C1. auto. }
  unfold bind at 1. rewrite E2.
  unfold bind at 1. rewrite (read_dev_open _ _ _ Ho2).
  assert (Hfd : fd d2 = fd d) by congruence.
  replace (fd d2 >=? 0) with true by (destruct Ho as (_ & _ & H3); lia).
  unfold bind, sys_close, modify, ret.
  set (w3 := mk_world _ _ _ _ _ _ _ _ _).
  assert (Ho3 : open_at w3 handle d2) by exact Ho2.
  rewrite (write_dev_open _ _ _ _ Ho3).
  eexists; exists (set_fd (-1) d2), stop_evs, unmap_evs.
  split; [reflexivity|].
  split.
  { unfold put_device, w3. cbn [trace with_devices]. rewrite T2, T1, Hfd.
    rewrite <- !app_assoc. reflexivity. }
  split; [exact S1|]. split; [exact N1|]. split; [exact M2|].
  split; [intros Hb; apply N2; congruence|].
  split; [apply Ho3|].
  split.
  { unfold put_device. cbn [g_devices with_devices].
    apply list_lookup_insert_eq. destruct Ho3 as (_ & H2 & _).
    apply lookup_lt_Some in H2. exact H2. }
  split; [reflexivity|].
  intros ptr Hb. rewrite <- B1 in Hb. destruct (R2 ptr Hb) as (arr' & Ha & Hrel).
  exists arr'. split; [exact Ha|]. rewrite <- C1. exact Hrel.
Qed.

(** X2: once libmedia_close_device has closed an open device, the handle is
    dead: the slot keeps descriptor -1, and a second close returns -1 with
    MEDIA_ERROR_DEVICE_NOT_FOUND without making a system call, so no
    descriptor is closed twice. *)
Theorem closed_handle_is_dead :
  forall (w : world) (handle : Z) (d : device_context_t),
    open_at w handle d ->
    (forall ptr, buffers d = Some ptr ->
                 exists arr, heap w !! ptr = Some arr /\ array_ok arr (buffer_count d)) ->
    exists w',
      libmedia_close_device handle w = Some (0, w') /\
      dead_handle w' handle /\
      libmedia_close_device handle w'
        = Some (-1, with_last_error MEDIA_ERROR_DEVICE_NOT_FOUND w').
Proof.
  intros w handle d Ho Hpool.
  destruct (close_device_run w handle d Ho Hpool)
    as (w' & d' & _ & _ & E & _ & _ & _ & _ & _ & Hr & Hl & Hfd & _).
  exists w'. split; [exact E|]. split.
  - right; right. exists d'. split; [exact Hl | lia].
  - unfold libmedia_close_device, bind, find_device, bind, gets, read_dev.
    replace (handle <? 0) with false by lia.
    replace (handle >=? g_device_count w') with false by lia.
    cbn [orb]. rewrite Hl. rewrite Hfd. reflexivity.
Qed.

Lemma closed_handle_is_dead_witness :
  exists w',
    libmedia_close_device 0 (sample_world 4 1 [OkDone]) = Some (0, w') /\
    dead_handle w' 0 /\
    libmedia_close_device 0 w' = Some (-1, with_last_error MEDIA_ERROR_DEVICE_NOT_FOUND w').
Proof.
  exact (closed_handle_is_dead (sample_world 4 1 [OkDone]) 0 (sample_device 4 1)
           (sample_world_open 4 1 _) (sample_world_pool_sound 1 _)).
Defined.

(** * Opening a device *)

Lemma open_device_run path w :
  registry_ready w ->
  exists r w', libmedia_open_device path w = Some (r, w') /\ open_outcome path w r w'.
Proof.
  intros (Hi & Hl & Hc).
  unfold libmedia_open_device, bind at 1, gets at 1.
  replace (g_initialized w =? 0) with false by lia.
  unfold bind at 1, ret at 1.
  destruct path as [p|].
  2:{ eexists; eexists; split; [reflexivity|]. unfold open_outcome.
      split; [reflexivity|]. split; [reflexivity|]. left.
      cbn [g_devices g_device_count g_last_error trace with_last_error].
      split; [reflexivity|]. split; [reflexivity|]. split; [reflexivity|].
      split; [discriminate|]. split; [auto|].
      split; [intros Hn; contradiction Hn; reflexivity | discriminate]. }
  unfold bind at 1, gets at 1.
  destruct (g_device_count w >=? MAX_DEVICES) eqn:Efull.
  { eexists; eexists; split; [reflexivity|]. unfold open_outcome.
    split; [reflexivity|]. split; [reflexivity|]. left.
    cbn [g_devices g_device_count g_last_error trace with_last_error].
    split; [reflexivity|]. split; [reflexivity|]. split; [reflexivity|].
    split; [discriminate|]. split; [discriminate|].
    split; [auto | intros; lia]. }
  unfold bind at 1, sys_open, lift_sys, syscall.
  set (r0 := match script w with
             | r :: _ => if match r with Err _ | OkOpen _ => true | _ => false end
                         then r else Err EIO
             | [] => Err EIO
             end).
  set (w2 := mk_world _ _ _ _ _ _ _ _ _).
  set (newfd := match r0 with OkOpen n => n | _ => -1 end).
  destruct (newfd =? -1) eqn:Efd.
  { eexists; eexists; split; [reflexivity|]. unfold open_outcome.
    split; [reflexivity|]. split; [reflexivity|]. left.
    cbn [g_devices g_device_count g_last_error trace with_last_error w2].
    split; [reflexivity|]. split; [reflexivity|]. split; [reflexivity|].
    split; [discriminate|]. split; [discriminate|].
    split; [intros _ Hm; lia | intros p0 Hp _; inversion Hp; auto]. }
  apply Z.eqb_neq in Efd.
  assert (Hr0 : r0 = OkOpen newfd /\ script w = OkOpen newfd :: tl (script w)).
  { unfold newfd, r0 in *. destruct (script w) as [|x s]; [contradiction Efd; reflexivity|].
    destruct x; try (contradiction Efd; reflexivity). cbn. auto. }
  destruct Hr0 as [Hr0 Hs].
  unfold bind at 1, write_dev.
  replace (g_device_count w <? 0) with false by lia.
  cbn [g_devices w2].
  destruct (g_devices w !! Z.to_nat (g_device_count w)) as [old|] eqn:El.
  2:{ apply lookup_ge_None in El. rewrite Hl in El. unfold MAX_DEVICES in *. lia. }
  eexists; eexists; split; [reflexivity|]. unfold open_outcome.
  split; [reflexivity|]. split; [reflexivity|]. right.
  cbn [g_devices g_device_count g_last_error trace script with_devices
       with_device_count w2].
  split; [reflexivity|]. split; [reflexivity|].
  exists p, newfd, old.
  repeat split; try reflexivity; try assumption.
Qed.

(** X3: on an initialised registry libmedia_open_device is all or nothing.
    A failed open returns -1, records why (MEDIA_ERROR_INVALID_PARAM for a
    NULL path and MEDIA_ERROR_OUT_OF_MEMORY for a full table, both without
    calling open; MEDIA_ERROR_DEVICE_NOT_FOUND when open fails) and leaves
    the table and the count as they were.  A successful open returns the
    count as the handle, advances the count by one and fills that slot with
    the new descriptor, no pool, not streaming, single-plane mode. *)
Theorem open_device_all_or_nothing :
  forall (path : option string) (w : world),
    registry_ready w ->
    exists r w', libmedia_open_device path w = Some (r, w') /\ open_outcome path w r w'.
Proof. intros path w Hr. apply open_device_run. exact Hr. Qed.

Lemma sample_world_ready nbuf stream replies :
  registry_ready (sample_world nbuf stream replies).
Proof.
  unfold registry_ready; simpl. split; [discriminate|]. split; [reflexivity|].
  unfold MAX_DEVICES. lia.
Qed.

Lemma open_device_all_or_nothing_witness :
  exists r w',
    libmedia_open_device (Some "/dev/video1"%string) (sample_world 4 1 [OkOpen 5])
      = Some (r, w') /\
    open_outcome (Some "/dev/video1"%string) (sample_world 4 1 [OkOpen 5]) r w'.
Proof.
  exact (open_device_all_or_nothing (Some "/dev/video1"%string)
           (sample_world 4 1 [OkOpen 5]) (sample_world_ready 4 1 _)).
Defined.

Lemma open_device_succeeds p newfd rest w :
  registry_ready w ->
  g_device_count w < MAX_DEVICES ->
  script w = OkOpen newfd :: rest ->
  newfd <> -1 ->
  exists old,
    g_devices w !! Z.to_nat (g_device_count w) = Some old /\
    libmedia_open_device (Some p) w
      = Some (g_device_count w, opened_world w p newfd old rest).
Proof.
  intros (Hi & Hl & Hc) Hlt Hs Hfd.
  destruct (g_devices w !! Z.to_nat (g_device_count w)) as [old|] eqn:El.
  2:{ apply lookup_ge_None in El. rewrite Hl in El. unfold MAX_DEVICES in *. lia. }
  exists old. split; [reflexivity|].
  unfold libmedia_open_device, bind at 1, gets at 1.
  replace (g_initialized w =? 0) with false by lia.
  unfold bind at 1, ret at 1. unfold bind at 1, gets at 1.
  replace (g_device_count w >=? MAX_DEVICES) with false by lia.
  unfold bind at 1, sys_open, lift_sys, syscall. rewrite Hs.
  cbn [tl]. replace (newfd =? -1) with false by lia.
  unfold bind, write_dev. replace (g_device_count w <? 0) with false by lia.
  cbn [g_devices]. rewrite El. reflexivity.
Qed.

Lemma opened_world_open_at p newfd rest w old :
  registry_ready w ->
  g_device_count w < MAX_DEVICES ->
  0 <= newfd ->
  open_at (opened_world w p newfd old rest) (g_device_count w) (opened_device newfd p old).
Proof.
  intros (Hi & Hl & Hc) Hlt Hfd. unfold open_at, opened_world.
  cbn [g_devices g_device_count]. split; [lia|]. split; [|exact Hfd].
  apply list_lookup_insert_eq. rewrite Hl. unfold MAX_DEVICES in *. lia.
Qed.

(** X4: opening a device and closing it again is a clean round trip.  When
    open yields a descriptor, libmedia_open_device returns the next handle,
    libmedia_close_device on that handle returns 0, and between them exactly
    two system calls are made, the open and the close of that descriptor;
    the caller's arrays and the mappings are untouched, and the handle is
    dead afterwards. *)
Theorem open_then_close_round_trip :
  forall (w : world) (p : string) (newfd : Z) (rest : list reply),
    registry_ready w ->
    g_device_count w < MAX_DEVICES ->
    script w = OkOpen newfd :: rest ->
    0 <= newfd ->
    exists w1 w2,
      libmedia_open_device (Some p) w = Some (g_device_count w, w1) /\
      libmedia_close_device (g_device_count w) w1 = Some (0, w2) /\
      trace w2 = trace w ++ [EvOpen p; EvClose newfd] /\
      script w2 = rest /\
      heap w2 = heap w /\ mappings w2 = mappings w /\
      dead_handle w2 (g_device_count w).
Proof.
  intros w p newfd rest Hr Hlt Hs Hfd.
  destruct (open_device_succeeds p newfd rest w Hr Hlt Hs ltac:(lia)) as (old & El & E).
  pose proof (opened_world_open_at p newfd rest w old Hr Hlt Hfd) as Ho.
  set (w1 := opened_world w p newfd old rest) in *.
  exists w1.
  unfold libmedia_close_device, bind.
  rewrite (find_device_open _ _ _ Ho), (read_dev_open _ _ _ Ho).
  cbn [streaming opened_device Z.eqb negb]. unfold ret at 1.
  rewrite (read_dev_open _ _ _ Ho). cbn [buffers opened_device]. unfold ret at 1.
  rewrite (read_dev_open _ _ _ Ho). cbn [fd opened_device].
  replace (newfd >=? 0) with true by lia.
  unfold sys_close, modify.
  set (w1' := mk_world _ _ _ _ _ _ _ _ _).
  assert (Ho' : open_at w1' (g_device_count w) (opened_device newfd p old)) by exact Ho.
  rewrite (write_dev_open _ _ _ _ Ho').
  eexists. split; [exact E|]. split; [reflexivity|].
  unfold put_device, w1', w1, opened_world.
  cbn [trace script heap mappings with_devices g_devices g_device_count].
  split; [rewrite <- app_assoc; reflexivity|].
  split; [reflexivity|]. split; [reflexivity|]. split; [reflexivity|].
  right; right. exists (set_fd (-1) (opened_device newfd p old)).
  split; [|cbn; lia].
  apply list_lookup_insert_eq. rewrite length_insert.
  destruct Hr as (_ & Hl & _). rewrite Hl. unfold MAX_DEVICES in *. lia.
Qed.

Lemma open_then_close_round_trip_witness :
  exists w1 w2,
    libmedia_open_device (Some "/dev/video1"%string) (sample_world 4 1 [OkOpen 5])
      = Some (1, w1) /\
    libmedia_close_device 1 w1 = Some (0, w2) /\
    trace w2 = [EvOpen "/dev/video1"%string; EvClose 5].
Proof.
  destruct (open_then_close_round_trip (sample_world 4 1 [OkOpen 5]) "/dev/video1"%string
              5 [] (sample_world_ready 4 1 _) ltac:(vm_compute; reflexivity) eq_refl
              ltac:(lia))
    as (w1 & w2 & H1 & H2 & H3 & _).
  exists w1, w2. split; [exact H1|]. split; [exact H2 | exact H3].
Defined.

(** * Format negotiation, single-plane and rejected *)

Lemma size_t_u32 size_bits x : 32 <= size_bits -> size_t size_bits (u32 x) = u32 x.
Proof.
  intros H. unfold size_t. apply Z.mod_small.
  pose proof (u32_range x) as Hr.
  assert (2 ^ 32 <= 2 ^ size_bits) by (apply Z.pow_le_mono_r; lia). lia.
Qed.

Lemma set_format_run w handle d f width height pixelformat field sizeimage :
  open_at w handle d ->
  List.length (f_plane_size f) = Z.to_nat VIDEO_MAX_PLANES ->
  kernel_answer (fd d) (s_fmt_request V4L2_BUF_TYPE_VIDEO_CAPTURE f) w
    = OkFmt width height pixelformat field sizeimage ->
  exists ps,
    array_set (f_plane_size f) 0 (u32 sizeimage) = Some ps /\
    let f' := mk_format (u32 width) (u32 height) (u32 pixelformat) (u32 field) 1 ps in
    let d' := set_use_multiplanar 0 (set_format f' d) in
    let w' := put_device handle d'
                (put_device handle (set_format f' d)
                   (after_xioctl (fd d) (s_fmt_request V4L2_BUF_TYPE_VIDEO_CAPTURE f) w)) in
    libmedia_set_format handle (Some f) w = Some ((0, Some f'), w') /\
    open_at w' handle d'.
Proof.
  intros Ho Hlen Hk.
  destruct (array_set_in_range (f_plane_size f) 0 (u32 sizeimage)) as [ps Hps].
  { rewrite Hlen. unfold VIDEO_MAX_PLANES. lia. }
  exists ps. split; [exact Hps|]. intros f' d' w'.
  unfold libmedia_set_format, bind.
  rewrite (find_device_open _ _ _ Ho), (read_dev_open _ _ _ Ho).
  fold (s_fmt_request V4L2_BUF_TYPE_VIDEO_CAPTURE f). rewrite xioctl_run, Hk.
  unfold lift_opt. rewrite Hps.
  destruct (after_xioctl_step (fd d) (s_fmt_request V4L2_BUF_TYPE_VIDEO_CAPTURE f) w)
    as [k Hstep].
  pose proof (open_at_kernel_step _ _ _ _ _ Hstep Ho) as Ho1.
  rewrite (write_dev_open _ _ _ _ Ho1).
  assert (Ho2 : open_at (put_device handle (set_format f' d)
                           (after_xioctl (fd d)
                              (s_fmt_request V4L2_BUF_TYPE_VIDEO_CAPTURE f) w))
                        handle (set_format f' d)).
  { apply (open_at_put_device _ _ d); [exact Ho1 | apply Ho]. }
  rewrite (write_dev_open _ _ _ _ Ho2).
  split; [reflexivity|].
  apply (open_at_put_device _ _ (set_format f' d)); [exact Ho2 | apply Ho].
Qed.

(** X5: when the kernel accepts a single-plane format on an open device,
    libmedia_set_format returns 0 and hands back and caches the kernel's
    width, height, pixel format and field with plane count 1 and the
    kernel's image size as the size of plane 0; the device is put in
    single-plane mode, its pool and streaming flag are untouched,
    libmedia_get_format returns the cached format without a system call, and
    libmedia_calculate_frame_size of it is the kernel's image size. *)
Theorem set_format_caches_accepted :
  forall (size_bits : Z) (w : world) (handle : Z) (d : device_context_t)
         (f : media_format_t) (width height pixelformat field sizeimage : Z),
    32 <= size_bits ->
    open_at w handle d ->
    List.length (f_plane_size f) = Z.to_nat VIDEO_MAX_PLANES ->
    kernel_answer (fd d) (s_fmt_request V4L2_BUF_TYPE_VIDEO_CAPTURE f) w
      = OkFmt width height pixelformat field sizeimage ->
    exists f' w' d',
      libmedia_set_format handle (Some f) w = Some ((0, Some f'), w') /\
      f_width f' = u32 width /\ f_height f' = u32 height /\
      f_pixelformat f' = u32 pixelformat /\ f_field f' = u32 field /\
      f_num_planes f' = 1 /\
      array_get (f_plane_size f') 0 = Some (u32 sizeimage) /\
      open_at w' handle d' /\ format d' = f' /\ use_multiplanar d' = 0 /\
      buffers d' = buffers d /\ buffer_count d' = buffer_count d /\
      streaming d' = streaming d /\
      (forall out, libmedia_get_format handle (Some out) w' = Some ((0, Some f'), w')) /\
      libmedia_calculate_frame_size size_bits (Some f') = Some (u32 sizeimage).
Proof.
  intros size_bits w handle d f width height pixelformat field sizeimage Hb Ho Hlen Hk.
  destruct (set_format_run w handle d f width height pixelformat field sizeimage Ho Hlen Hk)
    as (ps & Hps & E & Ho').
  apply array_set_get in Hps. destruct Hps as (_ & G & _).
  eexists; eexists; eexists. split; [exact E|].
  repeat (split; [reflexivity|]). split; [exact G|].
  split; [exact Ho'|]. repeat (split; [reflexivity|]).
  split; [intros out; apply (get_format_cached _ _ _ out Ho')|].
  unfold libmedia_calculate_frame_size. cbn [f_num_planes f_plane_size].
  change (Z.to_nat 1) with 1%nat. cbn [sum_plane_sizes].
  rewrite G, Z.add_0_l.
  rewrite size_t_u32 by exact Hb. reflexivity.
Qed.

Lemma set_format_caches_accepted_witness :
  exists f' w',
    libmedia_set_format 0 (Some sample_format)
      (sample_world 0 0 [OkFmt 640 480 1448695129 1 614400])
      = Some ((0, Some f'), w') /\
    libmedia_calculate_frame_size 32 (Some f') = Some 614400.
Proof.
  destruct (set_format_caches_accepted 32
              (sample_world 0 0 [OkFmt 640 480 1448695129 1 614400]) 0
              (sample_device 0 0) sample_format 640 480 1448695129 1 614400
              ltac:(lia) (sample_world_open 0 0 _) eq_refl eq_refl)
    as (f' & w' & d' & H1 & H).
  exists f', w'. split; [exact H1|]. apply H.
Defined.

Lemma set_last_error_open w handle d e :
  open_at w handle d -> open_at (with_last_error e w) handle d.
Proof. intros H. exact H. Qed.

(** X6: when the kernel rejects the format, libmedia_set_format and
    libmedia_set_format_mp return -1 with the caller's format as it was,
    record MEDIA_ERROR_FORMAT_ERROR, and leave the device table untouched:
    the cached format and the plane mode of the device survive, so
    libmedia_get_format still answers with the earlier format.  The only
    system calls made are the repeated VIDIOC_S_FMT. *)
Theorem rejected_format_keeps_cache :
  forall (w : world) (handle : Z) (d : device_context_t) (f : media_format_t)
         (set : Z -> option media_format_t -> M (Z * option media_format_t)) (type : Z),
    open_at w handle d ->
    (set = libmedia_set_format /\ type = V4L2_BUF_TYPE_VIDEO_CAPTURE) \/
    (set = libmedia_set_format_mp /\ type = V4L2_BUF_TYPE_VIDEO_CAPTURE_MPLANE) ->
    failed (kernel_answer (fd d) (s_fmt_request type f) w) = true ->
    exists w' k,
      set handle (Some f) w = Some ((-1, Some f), w') /\
      g_last_error w' = MEDIA_ERROR_FORMAT_ERROR /\
      g_devices w' = g_devices w /\
      open_at w' handle d /\
      trace w' = trace w ++ repeat (EvIoctl (fd d) (s_fmt_request type f)) (S k) /\
      (forall out, libmedia_get_format handle (Some out) w'
                   = Some ((0, Some (format d)), w')).
Proof.
  intros w handle d f set type Ho Hset Hk.
  destruct (after_xioctl_step (fd d) (s_fmt_request type f) w) as [k Hstep].
  pose proof (open_at_kernel_step _ _ _ _ _ Hstep Ho) as Ho1.
  apply (set_last_error_open _ _ _ MEDIA_ERROR_FORMAT_ERROR) in Ho1.
  exists (with_last_error MEDIA_ERROR_FORMAT_ERROR (after_xioctl (fd d) (s_fmt_request type f) w)),
         k.
  split.
  { destruct Hset as [[-> ->]|[-> ->]].
    - unfold libmedia_set_format, bind.
      rewrite (find_device_open _ _ _ Ho), (read_dev_open _ _ _ Ho).
      fold (s_fmt_request V4L2_BUF_TYPE_VIDEO_CAPTURE f). rewrite xioctl_run.
      destruct (kernel_answer _ _ w); try discriminate Hk. reflexivity.
    - unfold libmedia_set_format_mp, bind.
      rewrite (find_device_open _ _ _ Ho), (read_dev_open _ _ _ Ho).
      fold (s_fmt_request V4L2_BUF_TYPE_VIDEO_CAPTURE_MPLANE f). rewrite xioctl_run.
      destruct (kernel_answer _ _ w); try discriminate Hk. reflexivity. }
  split; [reflexivity|].
  destruct Hstep as (A1 & A2 & A3 & A4 & A5 & A6 & A7).
  split; [exact A1|]. split; [exact Ho1|]. split; [exact A7|].
  intros out. apply (get_format_cached _ _ _ out Ho1).
Qed.

Lemma rejected_format_keeps_cache_witness :
  exists w',
    libmedia_set_format_mp 0 (Some sample_format) (sample_world 0 0 [Err EINTR; Err 22])
      = Some ((-1, Some sample_format), w') /\
    g_last_error w' = MEDIA_ERROR_FORMAT_ERROR /\
    open_at w' 0 (sample_device 0 0).
Proof.
  destruct (rejected_format_keeps_cache (sample_world 0 0 [Err EINTR; Err 22]) 0
              (sample_device 0 0) sample_format libmedia_set_format_mp
              V4L2_BUF_TYPE_VIDEO_CAPTURE_MPLANE
              (sample_world_open 0 0 _) (or_intror (conj eq_refl eq_refl)) eq_refl)
    as (w' & k & H1 & H2 & _ & H4 & _).
  exists w'. split; [exact H1|]. split; [exact H2 | exact H4].
Defined.

(** * Frame size *)

Lemma size_t_idem size_bits x :
  0 <= size_bits -> size_t size_bits (size_t size_bits x) = size_t size_bits x.
Proof.
  intros H. unfold size_t. apply Z.mod_mod.
  assert (0 < 2 ^ size_bits) by (apply Z.pow_pos_nonneg; lia). lia.
Qed.

Lemma sum_plane_sizes_spec size_bits sizeimage ps n : forall i acc,
  0 <= size_bits ->
  size_t size_bits acc = acc ->
  (forall j, i <= j < i + Z.of_nat n ->
             array_get ps j = Some (u32 (nth (Z.to_nat j) sizeimage 0))) ->
  sum_plane_sizes size_bits n i ps acc
    = Some (size_t size_bits (acc + accepted_total sizeimage n i)).
Proof.
  induction n as [|n IH]; intros i acc Hb Hacc G.
  - cbn [sum_plane_sizes accepted_total]. rewrite Z.add_0_r, Hacc. reflexivity.
  - cbn [sum_plane_sizes accepted_total]. rewrite (G i) by lia.
    rewrite IH.
    + f_equal. unfold size_t.
      assert (0 < 2 ^ size_bits) by (apply Z.pow_pos_nonneg; lia).
      rewrite Zplus_mod_idemp_l. f_equal. lia.
    + exact Hb.
    + apply size_t_idem. exact Hb.
    + intros j Hj. apply G. lia.
Qed.

Lemma accepted_total_bound sizeimage n : forall i,
  0 <= accepted_total sizeimage n i <= Z.of_nat n * (2 ^ 32 - 1).
Proof.
  induction n as [|n IH]; intros i.
  - cbn [accepted_total]. lia.
  - cbn [accepted_total]. specialize (IH (i + 1)).
    pose proof (u32_range (nth (Z.to_nat i) sizeimage 0)). lia.
Qed.

Lemma set_format_mp_run w handle d f width height pixelformat field num_planes sizeimage :
  open_at w handle d ->
  List.length (f_plane_size f) = Z.to_nat VIDEO_MAX_PLANES ->
  kernel_answer (fd d) (s_fmt_request V4L2_BUF_TYPE_VIDEO_CAPTURE_MPLANE f) w
    = OkFmtMp width height pixelformat field num_planes sizeimage ->
  u8 num_planes <= VIDEO_MAX_PLANES ->
  exists ps w',
    libmedia_set_format_mp handle (Some f) w
      = Some ((0, Some (mk_format (u32 width) (u32 height) (u32 pixelformat) (u32 field)
                                  (u8 num_planes) ps)), w') /\
    (forall i, 0 <= i < u8 num_planes ->
               array_get ps i = Some (u32 (nth (Z.to_nat i) sizeimage 0))).
Proof.
  intros Ho Hlen Hk Hnp.
  unfold libmedia_set_format_mp, bind.
  rewrite (find_device_open _ _ _ Ho), (read_dev_open _ _ _ Ho).
  fold (s_fmt_request V4L2_BUF_TYPE_VIDEO_CAPTURE_MPLANE f). rewrite xioctl_run, Hk.
  assert (Hu8 : 0 <= u8 num_planes) by (unfold u8; apply Z.mod_pos_bound; lia).
  destruct (copy_plane_sizes_spec (Z.to_nat (u8 num_planes)) 0 sizeimage (f_plane_size f))
    as (ps & E & L & G & _).
  { lia. }
  { rewrite Z2Nat.id by lia. lia. }
  { rewrite Hlen. unfold VIDEO_MAX_PLANES in *. rewrite Z2Nat.id by lia. lia. }
  unfold lift_opt. rewrite E.
  destruct (after_xioctl_step (fd d) (s_fmt_request V4L2_BUF_TYPE_VIDEO_CAPTURE_MPLANE f) w)
    as [k Hstep].
  pose proof (open_at_kernel_step _ _ _ _ _ Hstep Ho) as Ho1.
  rewrite (write_dev_open _ _ _ _ Ho1).
  assert (Ho2 : open_at (put_device handle
                           (set_format (mk_format (u32 width) (u32 height) (u32 pixelformat)
                                                  (u32 field) (u8 num_planes) ps) d)
                           (after_xioctl (fd d)
                              (s_fmt_request V4L2_BUF_TYPE_VIDEO_CAPTURE_MPLANE f) w))
                        handle
                        (set_format (mk_format (u32 width) (u32 height) (u32 pixelformat)
                                               (u32 field) (u8 num_planes) ps) d)).
  { apply (open_at_put_device _ _ d); [exact Ho1 | apply Ho]. }
  rewrite (write_dev_open _ _ _ _ Ho2).
  eexists; eexists. split; [reflexivity|].
  intros i Hi. apply G. rewrite Z2Nat.id by lia. lia.
Qed.

(** X7: libmedia_calculate_frame_size of the format handed back by an
    accepted libmedia_set_format_mp is the sum of the kernel's sizes of the
    planes below the kernel's plane count, reduced modulo the range of
    size_t; with a size_t of at least 35 bits no reduction happens, and the
    result is the exact sum. *)
Theorem frame_size_of_accepted_planes :
  forall (size_bits : Z) (w : world) (handle : Z) (d : device_context_t)
         (f : media_format_t) (width height pixelformat field num_planes : Z)
         (sizeimage : list Z),
    0 <= size_bits ->
    open_at w handle d ->
    List.length (f_plane_size f) = Z.to_nat VIDEO_MAX_PLANES ->
    kernel_answer (fd d) (s_fmt_request V4L2_BUF_TYPE_VIDEO_CAPTURE_MPLANE f) w
      = OkFmtMp width height pixelformat field num_planes sizeimage ->
    u8 num_planes <= VIDEO_MAX_PLANES ->
    exists f' w',
      libmedia_set_format_mp handle (Some f) w = Some ((0, Some f'), w') /\
      libmedia_calculate_frame_size size_bits (Some f')
        = Some (size_t size_bits
                  (accepted_total sizeimage (Z.to_nat (u8 num_planes)) 0)) /\
      (35 <= size_bits ->
       libmedia_calculate_frame_size size_bits (Some f')
         = Some (accepted_total sizeimage (Z.to_nat (u8 num_planes)) 0)).
Proof.
  intros size_bits w handle d f width height pixelformat field num_planes sizeimage
         Hb Ho Hlen Hk Hnp.
  destruct (set_format_mp_run w handle d f width height pixelformat field num_planes
              sizeimage Ho Hlen Hk Hnp) as (ps & w' & E & G).
  assert (Hu8 : 0 <= u8 num_planes) by (unfold u8; apply Z.mod_pos_bound; lia).
  assert (Hsum : libmedia_calculate_frame_size size_bits
                   (Some (mk_format (u32 width) (u32 height) (u32 pixelformat) (u32 field)
                                    (u8 num_planes) ps))
                 = Some (size_t size_bits
                           (accepted_total sizeimage (Z.to_nat (u8 num_planes)) 0))).
  { unfold libmedia_calculate_frame_size. cbn [f_num_planes f_plane_size].
    rewrite (sum_plane_sizes_spec size_bits sizeimage ps _ 0 0 Hb).
    - reflexivity.
    - unfold size_t. apply Z.mod_0_l.
      assert (0 < 2 ^ size_bits) by (apply Z.pow_pos_nonneg; lia). lia.
    - intros j Hj. apply G. rewrite Z2Nat.id in Hj by lia. lia. }
  eexists; eexists. split; [exact E|]. split; [exact Hsum|].
  intros H35. rewrite Hsum. f_equal. unfold size_t. apply Z.mod_small.
  pose proof (accepted_total_bound sizeimage (Z.to_nat (u8 num_planes)) 0) as Hr.
  rewrite Z2Nat.id in Hr by lia.
  assert (2 ^ 35 <= 2 ^ size_bits) by (apply Z.pow_le_mono_r; lia).
  unfold VIDEO_MAX_PLANES in Hnp. nia.
Qed.

Lemma frame_size_of_accepted_planes_witness :
  exists f' w',
    libmedia_set_format_mp 0 (Some sample_format)
      (sample_world 0 0 [OkFmtMp 640 480 842094158 1 2 [4294967295; 4294967295]])
      = Some ((0, Some f'), w') /\
    libmedia_calculate_frame_size 32 (Some f') = Some 4294967294.
Proof.
  destruct (frame_size_of_accepted_planes 32
              (sample_world 0 0 [OkFmtMp 640 480 842094158 1 2 [4294967295; 4294967295]]) 0
              (sample_device 0 0) sample_format 640 480 842094158 1 2
              [4294967295; 4294967295]
              ltac:(lia) (sample_world_open 0 0 _) eq_refl eq_refl
              ltac:(vm_compute; discriminate))
    as (f' & w' & H1 & H2 & _).
  exists f', w'. split; [exact H1 | exact H2].
Defined.

(** * Error messages *)

(** X8: libmedia_get_error_string gives every code of media_error_t a
    message of its own: two codes with the same message are the same code,
    no code gets the message of the default case, and every integer outside
    the range -10 .. 0 of the codes gets the default message. *)
Theorem error_strings_distinguish_codes :
  (forall e1 e2 : media_error_t,
      libmedia_get_error_string (error_code e1) = libmedia_get_error_string (error_code e2) ->
      e1 = e2) /\
  (forall e : media_error_t,
      libmedia_get_error_string (error_code e) <> "Unknown error"%string) /\
  (forall n : Z, n < -10 \/ 0 < n ->
      libmedia_get_error_string n = "Unknown error"%string).
Proof.
  split; [|split].
  - intros e1 e2. destruct e1, e2; vm_compute; intros H;
      first [reflexivity | discriminate H].
  - intros e. destruct e; vm_compute; discriminate.
  - intros n Hn. unfold libmedia_get_error_string, error_code.
    repeat match goal with
           | |- context [?a =? ?b] => destruct (Z.eqb_spec a b); [lia|]
           end.
    reflexivity.
Qed.

Lemma error_strings_distinguish_codes_witness :
  libmedia_get_error_string 1 = "Unknown error"%string /\
  libmedia_get_error_string (error_code MEDIA_ERROR_TIMEOUT) <> "Unknown error"%string.
Proof.
  destruct error_strings_distinguish_codes as (_ & H2 & H3).
  split; [apply H3; lia | apply H2].
Defined.

(** * Queueing *)

Ltac queue_rejects Ho Hi :=
  unfold bind; rewrite (find_device_open _ _ _ Ho), (read_dev_open _ _ _ Ho);
  match goal with
  | |- context [(?i <? 0) || (?i >=? ?n)] =>
      replace ((i <? 0) || (i >=? n)) with true
        by (symmetry; apply orb_true_iff; lia)
  end;
  reflexivity.

Lemma queue_buffer_rejects w handle d index :
  open_at w handle d ->
  index < 0 \/ buffer_count d <= index ->
  libmedia_queue_buffer handle index w
    = Some (-1, with_last_error MEDIA_ERROR_INVALID_PARAM w).
Proof. intros Ho Hi. unfold libmedia_queue_buffer. queue_rejects Ho Hi. Qed.

Lemma queue_buffer_mp_rejects w handle d index :
  open_at w handle d ->
  index < 0 \/ buffer_count d <= index ->
  libmedia_queue_buffer_mp handle index w
    = Some (-1, with_last_error MEDIA_ERROR_INVALID_PARAM w).
Proof. intros Ho Hi. unfold libmedia_queue_buffer_mp. queue_rejects Ho Hi. Qed.

Ltac queue_sends Ho Hi type index :=
  unfold bind; rewrite (find_device_open _ _ _ Ho), (read_dev_open _ _ _ Ho);
  match goal with
  | |- context [(?i <? 0) || (?i >=? ?n)] =>
      replace ((i <? 0) || (i >=? n)) with false
        by (symmetry; apply orb_false_iff; lia)
  end;
  fold (qbuf_request type index); rewrite xioctl_run;
  match goal with
  | |- context [after_xioctl ?dfd ?req ?w] =>
      destruct (after_xioctl_step dfd req w) as [k (A1 & A2 & A3 & A4 & A5 & A6 & A7)];
      destruct (failed (kernel_answer dfd req w)) eqn:Ef;
      eexists; eexists; (split; [reflexivity|]);
      (split; [exists k; exact A7|]);
      (split; [exact A1|]); (split; [exact A2|]);
      (split; [exact A5|]); (split; [exact A6|]);
      (split; intros Hf; [try discriminate Hf | try discriminate Hf]);
      (split; [reflexivity | first [exact A4 | reflexivity]])
  end.

Lemma queue_buffer_sends w handle d index :
  open_at w handle d ->
  0 <= index < buffer_count d ->
  exists r w',
    libmedia_queue_buffer handle index w = Some (r, w') /\
    queue_outcome w d V4L2_BUF_TYPE_VIDEO_CAPTURE index r w'.
Proof.
  intros Ho Hi. unfold libmedia_queue_buffer, queue_outcome.
  queue_sends Ho Hi V4L2_BUF_TYPE_VIDEO_CAPTURE index.
Qed.

Lemma queue_buffer_mp_sends w handle d index :
  open_at w handle d ->
  0 <= index < buffer_count d ->
  exists r w',
    libmedia_queue_buffer_mp handle index w = Some (r, w') /\
    queue_outcome w d V4L2_BUF_TYPE_VIDEO_CAPTURE_MPLANE index r w'.
Proof.
  intros Ho Hi. unfold libmedia_queue_buffer_mp, queue_outcome.
  queue_sends Ho Hi V4L2_BUF_TYPE_VIDEO_CAPTURE_MPLANE index.
Qed.

Ltac queue_runs Ho Hi type index :=
  unfold bind; rewrite (find_device_open _ _ _ Ho), (read_dev_open _ _ _ Ho);
  match goal with
  | |- context [(?i <? 0) || (?i >=? ?n)] =>
      replace ((i <? 0) || (i >=? n)) with false
        by (symmetry; apply orb_false_iff; lia)
  end;
  fold (qbuf_request type index); rewrite xioctl_run;
  match goal with
  | |- context [failed ?r] => destruct (failed r); reflexivity
  end.

Lemma queue_buffer_run w handle d index :
  open_at w handle d ->
  0 <= index < buffer_count d ->
  libmedia_queue_buffer handle index w
    = Some (if failed (kernel_answer (fd d)
                         (qbuf_request V4L2_BUF_TYPE_VIDEO_CAPTURE index) w)
            then (-1, with_last_error MEDIA_ERROR_BUFFER_ERROR
                        (after_xioctl (fd d)
                           (qbuf_request V4L2_BUF_TYPE_VIDEO_CAPTURE index) w))
            else (0, after_xioctl (fd d)
                       (qbuf_request V4L2_BUF_TYPE_VIDEO_CAPTURE index) w)).
Proof.
  intros Ho Hi. unfold libmedia_queue_buffer.
  queue_runs Ho Hi V4L2_BUF_TYPE_VIDEO_CAPTURE index.
Qed.

Lemma queue_buffer_mp_run w handle d index :
  open_at w handle d ->
  0 <= index < buffer_count d ->
  libmedia_queue_buffer_mp handle index w
    = Some (if failed (kernel_answer (fd d)
                         (qbuf_request V4L2_BUF_TYPE_VIDEO_CAPTURE_MPLANE index) w)
            then (-1, with_last_error MEDIA_ERROR_BUFFER_ERROR
                        (after_xioctl (fd d)
                           (qbuf_request V4L2_BUF_TYPE_VIDEO_CAPTURE_MPLANE index) w))
            else (0, after_xioctl (fd d)
                       (qbuf_request V4L2_BUF_TYPE_VIDEO_CAPTURE_MPLANE index) w)).
Proof.
  intros Ho Hi. unfold libmedia_queue_buffer_mp.
  queue_runs Ho Hi V4L2_BUF_TYPE_VIDEO_CAPTURE_MPLANE index.
Qed.

Lemma queue_run_exact w dfd req (r : Z) (w' : world) :
  Some (r, w')
    = Some (if failed (kernel_answer dfd req w)
            then (-1, with_last_error MEDIA_ERROR_BUFFER_ERROR (after_xioctl dfd req w))
            else (0, after_xioctl dfd req w)) ->
  trace w' = trace w ++ repeat (EvIoctl dfd req) (S (interrupted (script w))) /\
  script w' = drop (S (interrupted (script w))) (script w).
Proof.
  intros H. destruct (after_xioctl_exact dfd req w) as [Ht Hs].
  destruct (failed (kernel_answer dfd req w)); inversion H; subst; auto.
Qed.

(** X9: libmedia_queue_buffer and libmedia_queue_buffer_mp check the index
    against the pool size of the device before anything reaches the kernel:
    an index that is negative or not below buffer_count gives -1 with
    MEDIA_ERROR_INVALID_PARAM and no system call at all; an index inside the
    pool gives exactly the VIDIOC_QBUF for that index, repeated only while
    interrupted: one attempt for each EINTR the kernel answers first and one
    for the answer that follows, each consuming one reply.  The call returns
    0 with the last error untouched when the kernel accepts the code and -1
    with MEDIA_ERROR_BUFFER_ERROR when it does not.  The device table and the
    pool are not written either way. *)
Theorem queue_index_checked :
  forall (w : world) (handle : Z) (d : device_context_t) (index : Z)
         (queue : Z -> Z -> M Z) (type : Z),
    open_at w handle d ->
    (queue = libmedia_queue_buffer /\ type = V4L2_BUF_TYPE_VIDEO_CAPTURE) \/
    (queue = libmedia_queue_buffer_mp /\ type = V4L2_BUF_TYPE_VIDEO_CAPTURE_MPLANE) ->
    (index < 0 \/ buffer_count d <= index ->
     queue handle index w = Some (-1, with_last_error MEDIA_ERROR_INVALID_PARAM w)) /\
    (0 <= index < buffer_count d ->
     exists r w',
       queue handle index w = Some (r, w') /\ queue_outcome w d type index r w' /\
       trace w' = trace w ++ repeat (EvIoctl (fd d) (qbuf_request type index))
                                    (S (interrupted (script w))) /\
       script w' = drop (S (interrupted (script w))) (script w)).
Proof.
  intros w handle d index queue type Ho [[-> ->]|[-> ->]]; split; intros Hi.
  - apply (queue_buffer_rejects _ _ d); assumption.
  - destruct (queue_buffer_sends w handle d index Ho Hi) as (r & w' & E & Hq).
    exists r, w'. split; [exact E|]. split; [exact Hq|].
    rewrite (queue_buffer_run w handle d index Ho Hi) in E.
    apply (queue_run_exact _ _ _ _ _ (eq_sym E)).
  - apply (queue_buffer_mp_rejects _ _ d); assumption.
  - destruct (queue_buffer_mp_sends w handle d index Ho Hi) as (r & w' & E & Hq).
    exists r, w'. split; [exact E|]. split; [exact Hq|].
    rewrite (queue_buffer_mp_run w handle d index Ho Hi) in E.
    apply (queue_run_exact _ _ _ _ _ (eq_sym E)).
Qed.

Lemma queue_index_checked_witness :
  libmedia_queue_buffer 0 4 (sample_world 4 1 [OkDone])
    = Some (-1, with_last_error MEDIA_ERROR_INVALID_PARAM (sample_world 4 1 [OkDone])) /\
  exists r w',
    libmedia_queue_buffer 0 3 (sample_world 4 1 [Err EINTR; Err EINTR; OkDone; OkDone])
      = Some (r, w') /\
    queue_outcome (sample_world 4 1 [Err EINTR; Err EINTR; OkDone; OkDone])
                  (sample_device 4 1) V4L2_BUF_TYPE_VIDEO_CAPTURE 3 r w' /\
    trace w' = repeat (EvIoctl 3 (qbuf_request V4L2_BUF_TYPE_VIDEO_CAPTURE 3)) 3 /\
    script w' = [OkDone].
Proof.
  destruct (queue_index_checked (sample_world 4 1 [OkDone]) 0 (sample_device 4 1) 4
              libmedia_queue_buffer V4L2_BUF_TYPE_VIDEO_CAPTURE
              (sample_world_open 4 1 _) (or_introl (conj eq_refl eq_refl))) as [H1 _].
  destruct (queue_index_checked
              (sample_world 4 1 [Err EINTR; Err EINTR; OkDone; OkDone]) 0
              (sample_device 4 1) 3
              libmedia_queue_buffer V4L2_BUF_TYPE_VIDEO_CAPTURE
              (sample_world_open 4 1 _) (or_introl (conj eq_refl eq_refl))) as [_ H2].
  split; [apply H1; right; cbn; lia | apply H2; cbn; lia].
Defined.

(** * Capturing a frame *)

Lemma wait_for_frame_ready w handle d timeout_ms n rest :
  open_at w handle d ->
  fd d < FD_SETSIZE ->
  0 < n ->
  script w = OkSelect n :: rest ->
  timeout_ms <> 0 ->
  libmedia_wait_for_frame handle timeout_ms w = Some (1, after_wait w d timeout_ms).
Proof.
  intros Ho Hfd Hn Hs Ht. unfold libmedia_wait_for_frame, bind.
  rewrite (find_device_open _ _ _ Ho), (read_dev_open _ _ _ Ho).
  rewrite (fd_set_defined _ _ _ Ho Hfd).
  unfold sys_select, lift_sys, syscall. rewrite Hs. cbn [tl].
  replace (n =? -1) with false by lia. replace (n =? 0) with false by lia.
  unfold after_wait. replace (timeout_ms =? 0) with false by lia.
  rewrite Hs. reflexivity.
Qed.

Lemma after_wait_open w handle d timeout_ms :
  open_at w handle d -> open_at (after_wait w d timeout_ms) handle d.
Proof.
  intros Ho. unfold after_wait. destruct (timeout_ms =? 0); exact Ho.
Qed.

Ltac dequeue_takes Ho Hb Hh Hc Hi Ha type :=
  unfold bind; rewrite (find_device_open _ _ _ Ho), (read_dev_open _ _ _ Ho);
  fold (dqbuf_request type); rewrite xioctl_run;
  match goal with
  | Hcomp : completed (kernel_answer ?dfd ?req ?w) = Some _ |- _ =>
      pose proof (kernel_answer_fits_req dfd req w) as Hfit;
      destruct (after_xioctl_step dfd req w) as [k Hstep];
      pose proof (open_at_kernel_step _ _ _ _ _ Hstep Ho) as Ho1;
      destruct (kernel_answer dfd req w); try discriminate Hcomp;
      try (exfalso; vm_compute in Hfit; discriminate Hfit);
      cbn [completed] in Hcomp; inversion Hcomp; subst; clear Hcomp;
      rewrite (read_dev_open _ _ _ Ho1);
      rewrite (u32_small (buffer_count _)) by lia;
      match goal with
      | |- context [?a >=? ?b] => replace (a >=? b) with false by lia
      end;
      rewrite Hb;
      destruct Hstep as (_ & _ & _ & _ & K5 & _);
      match goal with
      | |- context [load_buf ?p (u32 ?j) ?w1] =>
          rewrite (load_buf_at p (u32 j) w1 _ _ (proj1 (u32_range j))
                     (eq_trans (f_equal (fun h => h !! p) K5) Hh) Ha)
      end;
      reflexivity
  end.

Lemma dequeue_buffer_takes w handle d ptr arr b out index bytesused tv_sec tv_usec :
  open_at w handle d ->
  buffers d = Some ptr -> heap w !! ptr = Some arr ->
  0 <= buffer_count d < 2 ^ 31 ->
  completed (kernel_answer (fd d) (dqbuf_request V4L2_BUF_TYPE_VIDEO_CAPTURE) w)
    = Some (index, bytesused, tv_sec, tv_usec) ->
  u32 index < buffer_count d ->
  arr !! Z.to_nat (u32 index) = Some b ->
  libmedia_dequeue_buffer handle (Some out) w
    = Some ((0, Some (set_b_timestamp (timestamp_ns tv_sec tv_usec)
                        (set_b_bytes_used (u32 bytesused) b))),
            after_xioctl (fd d) (dqbuf_request V4L2_BUF_TYPE_VIDEO_CAPTURE) w).
Proof.
  intros Ho Hb Hh Hc Hcomp Hi Ha. unfold libmedia_dequeue_buffer.
  dequeue_takes Ho Hb Hh Hc Hi Ha V4L2_BUF_TYPE_VIDEO_CAPTURE.
Qed.

Lemma dequeue_buffer_mp_takes w handle d ptr arr b out index bytesused tv_sec tv_usec :
  open_at w handle d ->
  buffers d = Some ptr -> heap w !! ptr = Some arr ->
  0 <= buffer_count d < 2 ^ 31 ->
  completed (kernel_answer (fd d) (dqbuf_request V4L2_BUF_TYPE_VIDEO_CAPTURE_MPLANE) w)
    = Some (index, bytesused, tv_sec, tv_usec) ->
  u32 index < buffer_count d ->
  arr !! Z.to_nat (u32 index) = Some b ->
  libmedia_dequeue_buffer_mp handle (Some out) w
    = Some ((0, Some (set_b_timestamp (timestamp_ns tv_sec tv_usec)
                        (set_b_bytes_used (u32 bytesused) b))),
            after_xioctl (fd d) (dqbuf_request V4L2_BUF_TYPE_VIDEO_CAPTURE_MPLANE) w).
Proof.
  intros Ho Hb Hh Hc Hcomp Hi Ha. unfold libmedia_dequeue_buffer_mp.
  dequeue_takes Ho Hb Hh Hc Hi Ha V4L2_BUF_TYPE_VIDEO_CAPTURE_MPLANE.
Qed.

Lemma after_wait_heap w d timeout_ms : heap (after_wait w d timeout_ms) = heap w.
Proof. unfold after_wait. destruct (timeout_ms =? 0); reflexivity. Qed.

Lemma after_wait_last_error w d timeout_ms :
  g_last_error (after_wait w d timeout_ms) = g_last_error w.
Proof. unfold after_wait. destruct (timeout_ms =? 0); reflexivity. Qed.

Lemma after_wait_devices w d timeout_ms :
  g_devices (after_wait w d timeout_ms) = g_devices w.
Proof. unfold after_wait. destruct (timeout_ms =? 0); reflexivity. Qed.

Ltac capture_finish Ho Hdq Hdata :=
  unfold bind at 1; rewrite Hdq; cbn [fst snd];
  replace (0 <? 0) with false by reflexivity;
  match goal with
  | |- context [after_xioctl ?dfd ?req ?w0] =>
      let k := fresh "k" in
      let Hstep := fresh "Hstep" in
      destruct (after_xioctl_step dfd req w0) as [k Hstep];
      unfold bind at 1;
      rewrite (read_dev_open _ _ _ (open_at_kernel_step _ _ _ _ _ Hstep Ho))
  end;
  unfold bind, lift_opt;
  cbn [b_start b_bytes_used b_timestamp b_index set_b_timestamp set_b_bytes_used];
  rewrite Hdata; reflexivity.

Ltac capture_takes w d Ho Hfd Hr Hdq Hdata :=
  unfold bind at 1; rewrite (find_device_open _ _ _ Ho);
  match goal with
  | |- context [libmedia_wait_for_frame ?h ?t] =>
      let Et := fresh "Et" in
      destruct (t =? 0) eqn:Et; cbn [negb andb];
      [ assert (t = 0) by lia; subst t;
        change (after_wait w d 0) with w in *;
        unfold bind at 1, ret at 1;
        capture_finish Ho Hdq Hdata
      | let n := fresh "n" in
        let rest := fresh "rest" in
        let Hn := fresh "Hn" in
        let Hs := fresh "Hs" in
        let Hne := fresh "Hne" in
        destruct Hr as [Hr|(n & rest & Hn & Hs)]; [lia|];
        assert (Hne : t <> 0) by lia;
        unfold bind at 1;
        rewrite (wait_for_frame_ready _ _ _ t n rest Ho Hfd Hn Hs Hne);
        replace (1 <=? 0) with false by reflexivity;
        capture_finish (after_wait_open _ _ _ t Ho) Hdq Hdata ]
  end.

Lemma capture_frame_takes w handle d ptr arr b frame timeout_ms index bytesused
      tv_sec tv_usec data :
  open_at w handle d ->
  fd d < FD_SETSIZE ->
  ready w timeout_ms ->
  buffers d = Some ptr -> heap w !! ptr = Some arr ->
  0 <= buffer_count d < 2 ^ 31 ->
  completed (kernel_answer (fd d) (dqbuf_request V4L2_BUF_TYPE_VIDEO_CAPTURE)
                           (after_wait w d timeout_ms))
    = Some (index, bytesused, tv_sec, tv_usec) ->
  u32 index < buffer_count d ->
  arr !! Z.to_nat (u32 index) = Some b ->
  array_get (b_start b) 0 = Some data ->
  libmedia_capture_frame handle (Some frame) timeout_ms w
    = Some ((0, Some (captured_frame d b data bytesused tv_sec tv_usec)),
            after_xioctl (fd d) (dqbuf_request V4L2_BUF_TYPE_VIDEO_CAPTURE)
                         (after_wait w d timeout_ms)).
Proof.
  intros Ho Hfd Hr Hb Hh Hc Hcomp Hi Ha Hdata.
  rewrite <- (after_wait_heap w d timeout_ms) in Hh.
  pose proof (dequeue_buffer_takes _ _ _ _ _ _ local_buffer _ _ _ _
                (after_wait_open _ _ _ timeout_ms Ho) Hb Hh Hc Hcomp Hi Ha) as Hdq.
  unfold libmedia_capture_frame. capture_takes w d Ho Hfd Hr Hdq Hdata.
Qed.

Lemma capture_frame_mp_takes w handle d ptr arr b frame timeout_ms index bytesused
      tv_sec tv_usec data :
  open_at w handle d ->
  fd d < FD_SETSIZE ->
  ready w timeout_ms ->
  buffers d = Some ptr -> heap w !! ptr = Some arr ->
  0 <= buffer_count d < 2 ^ 31 ->
  completed (kernel_answer (fd d) (dqbuf_request V4L2_BUF_TYPE_VIDEO_CAPTURE_MPLANE)
                           (after_wait w d timeout_ms))
    = Some (index, bytesused, tv_sec, tv_usec) ->
  u32 index < buffer_count d ->
  arr !! Z.to_nat (u32 index) = Some b ->
  array_get (b_start b) 0 = Some data ->
  libmedia_capture_frame_mp handle (Some frame) timeout_ms w
    = Some ((0, Some (captured_frame d b data bytesused tv_sec tv_usec)),
            after_xioctl (fd d) (dqbuf_request V4L2_BUF_TYPE_VIDEO_CAPTURE_MPLANE)
                         (after_wait w d timeout_ms)).
Proof.
  intros Ho Hfd Hr Hb Hh Hc Hcomp Hi Ha Hdata.
  rewrite <- (after_wait_heap w d timeout_ms) in Hh.
  pose proof (dequeue_buffer_mp_takes _ _ _ _ _ _ local_buffer _ _ _ _
                (after_wait_open _ _ _ timeout_ms Ho) Hb Hh Hc Hcomp Hi Ha) as Hdq.
  unfold libmedia_capture_frame_mp. capture_takes w d Ho Hfd Hr Hdq Hdata.
Qed.

(** X10: on an open device whose descriptor an fd_set can hold (below
    FD_SETSIZE), a capture that finds a frame ready (no wait asked for, or
    select reporting a positive count) and gets a completed buffer with an
    index below the pool size returns 0 with a frame built from the pool
    record at that index: its data pointer is the record's plane-0 address, its size
    the kernel's byte count, its time stamp the kernel's in nanoseconds, its
    frame id the record's index field, and its width, height and pixel
    format those of the cached format.  The capture writes nothing: the last
    error, the device table and the pool are as before, and the only system
    calls are the select (when a wait was asked for) and the VIDIOC_DQBUF. *)
Theorem capture_delivers_completed_buffer :
  forall (w : world) (handle : Z) (d : device_context_t) (ptr : Z)
         (arr : list media_buffer_t) (b : media_buffer_t) (frame : media_frame_t)
         (timeout_ms index bytesused tv_sec tv_usec data : Z)
         (capture : Z -> option media_frame_t -> Z -> M (Z * option media_frame_t))
         (type : Z),
    open_at w handle d ->
    fd d < FD_SETSIZE ->
    (capture = libmedia_capture_frame /\ type = V4L2_BUF_TYPE_VIDEO_CAPTURE) \/
    (capture = libmedia_capture_frame_mp /\ type = V4L2_BUF_TYPE_VIDEO_CAPTURE_MPLANE) ->
    ready w timeout_ms ->
    buffers d = Some ptr -> heap w !! ptr = Some arr ->
    0 <= buffer_count d < 2 ^ 31 ->
    completed (kernel_answer (fd d) (dqbuf_request type) (after_wait w d timeout_ms))
      = Some (index, bytesused, tv_sec, tv_usec) ->
    u32 index < buffer_count d ->
    arr !! Z.to_nat (u32 index) = Some b ->
    array_get (b_start b) 0 = Some data ->
    exists w' k,
      capture handle (Some frame) timeout_ms w
        = Some ((0, Some (captured_frame d b data bytesused tv_sec tv_usec)), w') /\
      g_last_error w' = g_last_error w /\
      g_devices w' = g_devices w /\
      heap w' = heap w /\
      trace w' = trace (after_wait w d timeout_ms)
                   ++ repeat (EvIoctl (fd d) (dqbuf_request type)) (S k).
Proof.
  intros w handle d ptr arr b frame timeout_ms index bytesused tv_sec tv_usec data
         capture type Ho Hfd Hcap Hr Hb Hh Hc Hcomp Hi Ha Hdata.
  destruct (after_xioctl_step (fd d) (dqbuf_request type) (after_wait w d timeout_ms))
    as [k (A1 & A2 & A3 & A4 & A5 & A6 & A7)].
  exists (after_xioctl (fd d) (dqbuf_request type) (after_wait w d timeout_ms)), k.
  split.
  { destruct Hcap as [[-> ->]|[-> ->]].
    - apply (capture_frame_takes w handle d ptr arr b frame timeout_ms index); assumption.
    - apply (capture_frame_mp_takes w handle d ptr arr b frame timeout_ms index);
        assumption. }
  rewrite A1, A4, A5, after_wait_last_error, after_wait_devices, after_wait_heap.
  repeat (split; [reflexivity|]). exact A7.
Qed.

Lemma sample_pool_at_2 : sample_pool !! Z.to_nat (u32 2) = Some (sample_buffer 2).
Proof. reflexivity. Qed.

Lemma capture_delivers_completed_buffer_witness :
  exists w',
    libmedia_capture_frame 0 (Some sample_frame) 1000
      (sample_world 4 1 [OkSelect 1; OkDqbuf 2 614400 10 500])
      = Some ((0, Some (mk_frame 2101248 614400 640 480 1448695129 10000500000 2)), w').
Proof.
  destruct (capture_delivers_completed_buffer
              (sample_world 4 1 [OkSelect 1; OkDqbuf 2 614400 10 500]) 0
              (sample_device 4 1) 1000 sample_pool (sample_buffer 2) sample_frame
              1000 2 614400 10 500 2101248 libmedia_capture_frame
              V4L2_BUF_TYPE_VIDEO_CAPTURE
              (sample_world_open 4 1 _) eq_refl (or_introl (conj eq_refl eq_refl))
              (or_intror (ex_intro _ 1 (ex_intro _ [OkDqbuf 2 614400 10 500]
                                          (conj eq_refl eq_refl))))
              eq_refl eq_refl ltac:(unfold sample_device; simpl; lia) eq_refl
              ltac:(unfold sample_device; simpl; vm_compute; reflexivity)
              sample_pool_at_2 eq_refl)
    as (w' & k & H & _).
  exists w'. exact H.
Defined.

(** * Releasing a frame *)

Lemma release_frame_dispatch w handle d fr :
  open_at w handle d ->
  libmedia_release_frame handle (Some fr) w
    = (if negb (use_multiplanar d =? 0)
       then libmedia_queue_buffer_mp handle (s32 (fr_frame_id fr)) w
       else libmedia_queue_buffer handle (s32 (fr_frame_id fr)) w).
Proof.
  intros Ho. unfold libmedia_release_frame, bind.
  rewrite (find_device_open _ _ _ Ho), (read_dev_open _ _ _ Ho).
  destruct (negb (use_multiplanar d =? 0)); reflexivity.
Qed.

Lemma release_frame_sends w handle d fr :
  open_at w handle d ->
  0 <= s32 (fr_frame_id fr) < buffer_count d ->
  exists r w',
    libmedia_release_frame handle (Some fr) w = Some (r, w') /\
    queue_outcome w d (buf_type (use_multiplanar d)) (s32 (fr_frame_id fr)) r w'.
Proof.
  intros Ho Hi. rewrite (release_frame_dispatch _ _ _ _ Ho). unfold buf_type.
  destruct (negb (use_multiplanar d =? 0)).
  - apply queue_buffer_mp_sends; assumption.
  - apply queue_buffer_sends; assumption.
Qed.

(** X11: libmedia_release_frame hands its frame id, read as an int, to the
    queue call that the plane mode of the device selects, whichever capture
    call produced the frame: an id outside the pool gives -1 with
    MEDIA_ERROR_INVALID_PARAM and no system call; an id inside it gives the
    VIDIOC_QBUF of that index with the buffer type of the device's mode. *)
Theorem release_frame_requeues_by_mode :
  forall (w : world) (handle : Z) (d : device_context_t) (fr : media_frame_t),
    open_at w handle d ->
    (s32 (fr_frame_id fr) < 0 \/ buffer_count d <= s32 (fr_frame_id fr) ->
     libmedia_release_frame handle (Some fr) w
       = Some (-1, with_last_error MEDIA_ERROR_INVALID_PARAM w)) /\
    (0 <= s32 (fr_frame_id fr) < buffer_count d ->
     exists r w',
       libmedia_release_frame handle (Some fr) w = Some (r, w') /\
       queue_outcome w d (buf_type (use_multiplanar d)) (s32 (fr_frame_id fr)) r w').
Proof.
  intros w handle d fr Ho. split; intros Hi.
  - rewrite (release_frame_dispatch _ _ _ _ Ho).
    destruct (negb (use_multiplanar d =? 0)).
    + apply (queue_buffer_mp_rejects _ _ d); assumption.
    + apply (queue_buffer_rejects _ _ d); assumption.
  - apply release_frame_sends; assumption.
Qed.

Lemma release_frame_requeues_by_mode_witness :
  exists r w',
    libmedia_release_frame 0 (Some (mk_frame 2101248 614400 640 480 1448695129 0 2))
                           (sample_world 4 1 [OkDone]) = Some (r, w') /\
    queue_outcome (sample_world 4 1 [OkDone]) (sample_device 4 1)
                  V4L2_BUF_TYPE_VIDEO_CAPTURE 2 r w'.
Proof.
  destruct (release_frame_requeues_by_mode (sample_world 4 1 [OkDone]) 0
              (sample_device 4 1) (mk_frame 2101248 614400 640 480 1448695129 0 2)
              (sample_world_open 4 1 _)) as [_ H].
  apply H. vm_compute. split; [discriminate | reflexivity].
Defined.

(** X12: on an open device whose descriptor an fd_set can hold (below
    FD_SETSIZE), a frame captured from a pool whose records carry their own
    index, as libmedia_request_buffers writes them, goes back to the kernel
    under the index the kernel handed out: libmedia_release_frame on that frame
    sends the VIDIOC_QBUF of exactly that index and returns the kernel's
    verdict. *)
Theorem capture_then_release_round_trip :
  forall (w : world) (handle : Z) (d : device_context_t) (ptr : Z)
         (arr : list media_buffer_t) (b : media_buffer_t) (frame : media_frame_t)
         (timeout_ms index bytesused tv_sec tv_usec data : Z)
         (capture : Z -> option media_frame_t -> Z -> M (Z * option media_frame_t))
         (type : Z),
    open_at w handle d ->
    fd d < FD_SETSIZE ->
    (capture = libmedia_capture_frame /\ type = V4L2_BUF_TYPE_VIDEO_CAPTURE) \/
    (capture = libmedia_capture_frame_mp /\ type = V4L2_BUF_TYPE_VIDEO_CAPTURE_MPLANE) ->
    ready w timeout_ms ->
    buffers d = Some ptr -> heap w !! ptr = Some arr ->
    0 <= buffer_count d < 2 ^ 31 ->
    completed (kernel_answer (fd d) (dqbuf_request type) (after_wait w d timeout_ms))
      = Some (index, bytesused, tv_sec, tv_usec) ->
    u32 index < buffer_count d ->
    arr !! Z.to_nat (u32 index) = Some b ->
    array_get (b_start b) 0 = Some data ->
    b_index b = u32 index ->
    exists fr w1 r w2,
      capture handle (Some frame) timeout_ms w = Some ((0, Some fr), w1) /\
      libmedia_release_frame handle (Some fr) w1 = Some (r, w2) /\
      queue_outcome w1 d (buf_type (use_multiplanar d)) (u32 index) r w2.
Proof.
  intros w handle d ptr arr b frame timeout_ms index bytesused tv_sec tv_usec data
         capture type Ho Hfd Hcap Hr Hb Hh Hc Hcomp Hi Ha Hdata Hidx.
  set (w1 := after_xioctl (fd d) (dqbuf_request type) (after_wait w d timeout_ms)).
  assert (Ho1 : open_at w1 handle d).
  { destruct (after_xioctl_step (fd d) (dqbuf_request type) (after_wait w d timeout_ms))
      as [k Hstep].
    apply (open_at_kernel_step _ _ _ _ _ Hstep). apply after_wait_open. exact Ho. }
  pose proof (u32_range index) as Hu.
  assert (Hid : s32 (fr_frame_id (captured_frame d b data bytesused tv_sec tv_usec))
                = u32 index).
  { cbn [captured_frame fr_frame_id]. rewrite Hidx.
    rewrite (u32_small (u32 index)) by exact Hu. apply s32_small. lia. }
  destruct (release_frame_sends w1 handle d
              (captured_frame d b data bytesused tv_sec tv_usec) Ho1)
    as (r & w2 & Hrel & Hq).
  { rewrite Hid. lia. }
  rewrite Hid in Hq.
  exists (captured_frame d b data bytesused tv_sec tv_usec), w1, r, w2.
  split; [|split; [exact Hrel | exact Hq]].
  destruct Hcap as [[-> ->]|[-> ->]].
  - apply (capture_frame_takes w handle d ptr arr b frame timeout_ms index); assumption.
  - apply (capture_frame_mp_takes w handle d ptr arr b frame timeout_ms index); assumption.
Qed.

Lemma capture_then_release_round_trip_witness :
  exists fr w1 r w2,
    libmedia_capture_frame 0 (Some sample_frame) 0
      (sample_world 4 1 [OkDqbuf 2 614400 10 500; OkDone]) = Some ((0, Some fr), w1) /\
    libmedia_release_frame 0 (Some fr) w1 = Some (r, w2) /\
    queue_outcome w1 (sample_device 4 1) V4L2_BUF_TYPE_VIDEO_CAPTURE 2 r w2.
Proof.
  exact (capture_then_release_round_trip
           (sample_world 4 1 [OkDqbuf 2 614400 10 500; OkDone]) 0
           (sample_device 4 1) 1000 sample_pool (sample_buffer 2) sample_frame
           0 2 614400 10 500 2101248 libmedia_capture_frame
           V4L2_BUF_TYPE_VIDEO_CAPTURE
           (sample_world_open 4 1 _) eq_refl (or_introl (conj eq_refl eq_refl))
           (or_introl eq_refl)
           eq_refl eq_refl ltac:(unfold sample_device; simpl; lia) eq_refl
              ltac:(unfold sample_device; simpl; vm_compute; reflexivity)
           sample_pool_at_2 eq_refl eq_refl).
Defined.

(** * Waiting for a frame *)

Lemma select_timeout_exact timeout_ms :
  (timeout_ms < 0 -> select_timeout timeout_ms = None) /\
  (0 <= timeout_ms ->
   exists sec usec,
     select_timeout timeout_ms = Some (sec, usec) /\
     0 <= sec /\ 0 <= usec < 1000000 /\
     sec * 1000000 + usec = timeout_ms * 1000).
Proof.
  unfold select_timeout. split; intros H.
  - replace (timeout_ms >=? 0) with false by lia. reflexivity.
  - replace (timeout_ms >=? 0) with true by lia.
    exists (Z.quot timeout_ms 1000), (Z.rem timeout_ms 1000 * 1000).
    pose proof (Z.quot_rem' timeout_ms 1000) as Hq.
    pose proof (Z.rem_bound_pos timeout_ms 1000 H ltac:(lia)) as Hr.
    pose proof (Z.quot_pos timeout_ms 1000 H ltac:(lia)) as Hp.
    repeat split; lia.
Qed.

(** X13: on an open device whose descriptor an fd_set can hold (below
    FD_SETSIZE) libmedia_wait_for_frame always completes with exactly one
    select on descriptor fd + 1, never a second one.  A non-negative timeout
    is passed on exactly (seconds and microseconds that add up to the
    milliseconds given, microseconds below one second), a negative one as no
    timeout at all.  The result follows the answer of that select: a count
    other than 0 and -1 gives 1 with the last error untouched; the count 0
    gives 0 with MEDIA_ERROR_TIMEOUT; a failure with EINTR gives 0 with
    MEDIA_ERROR_TIMEOUT, and a failure with any other errno gives -1 with
    MEDIA_ERROR_IOCTL_FAILED.  The device table and the pool are never
    written. *)
Theorem wait_for_frame_single_select :
  forall (w : world) (handle : Z) (d : device_context_t) (timeout_ms : Z),
    open_at w handle d ->
    fd d < FD_SETSIZE ->
    exists r w',
      libmedia_wait_for_frame handle timeout_ms w = Some (r, w') /\
      trace w' = trace w ++ [EvSelect (fd d + 1) (select_timeout timeout_ms)] /\
      script w' = tl (script w) /\
      g_devices w' = g_devices w /\ heap w' = heap w /\
      (timeout_ms < 0 -> select_timeout timeout_ms = None) /\
      (0 <= timeout_ms ->
       exists sec usec,
         select_timeout timeout_ms = Some (sec, usec) /\
         0 <= sec /\ 0 <= usec < 1000000 /\
         sec * 1000000 + usec = timeout_ms * 1000) /\
      (forall n, hd_error (script w) = Some (OkSelect n) -> n <> 0 -> n <> -1 ->
                 r = 1 /\ g_last_error w' = g_last_error w) /\
      (hd_error (script w) = Some (OkSelect 0) ->
       r = 0 /\ g_last_error w' = MEDIA_ERROR_TIMEOUT) /\
      (hd_error (script w) = Some (Err EINTR) ->
       r = 0 /\ g_last_error w' = MEDIA_ERROR_TIMEOUT) /\
      (forall e, hd_error (script w) = Some (Err e) -> e <> EINTR ->
                 r = -1 /\ g_last_error w' = MEDIA_ERROR_IOCTL_FAILED /\ errno w' = e) /\
      ((r = 1 /\ g_last_error w' = g_last_error w) \/
       (r = 0 /\ g_last_error w' = MEDIA_ERROR_TIMEOUT) \/
       (r = -1 /\ g_last_error w' = MEDIA_ERROR_IOCTL_FAILED /\ errno w' <> EINTR)).
Proof.
  intros w handle d timeout_ms Ho Hfd.
  destruct (select_timeout_exact timeout_ms) as [Hneg Hpos].
  unfold libmedia_wait_for_frame, bind.
  rewrite (find_device_open _ _ _ Ho), (read_dev_open _ _ _ Ho).
  rewrite (fd_set_defined _ _ _ Ho Hfd).
  fold (select_timeout timeout_ms).
  unfold sys_select, lift_sys, syscall.
  assert (Hio : EIO <> EINTR) by (unfold EIO, EINTR; lia).
  destruct (script w) as [|r0 rest]; [|destruct r0 as [e| | | | | | | | | | |n]];
    cbn [tl errno gets set_last_error modify ret hd_error];
    try (change (-1 =? -1) with true; cbv beta iota;
         cbn [errno]; replace (EIO =? EINTR) with false by reflexivity;
         eexists; eexists; split; [reflexivity|];
         cbn [trace script g_devices heap g_last_error errno with_last_error];
         repeat (split; [first [reflexivity | assumption
                               | intros; discriminate]|]);
         right; right; repeat split; assumption).
  - change (-1 =? -1) with true. cbv beta iota. cbn [errno].
    destruct (Z.eqb_spec e EINTR) as [He|He];
      eexists; eexists; (split; [reflexivity|]);
      cbn [trace script g_devices heap g_last_error errno with_last_error];
      do 6 (split; [first [reflexivity | assumption]|]);
      (split; [intros n0 Hn0; discriminate Hn0|]);
      (split; [intros Hn0; discriminate Hn0|]).
    + split; [intros _; split; reflexivity|].
      split; [intros e0 He0 Hne; inversion He0; subst e0; contradiction|].
      right; left. split; reflexivity.
    + split; [intros He0; inversion He0; contradiction|].
      split; [intros e0 He0 Hne; inversion He0; subst e0; repeat split|].
      right; right. repeat split. exact He.
  - destruct (Z.eqb_spec n (-1)) as [Hn|Hn]; [|destruct (Z.eqb_spec n 0) as [Hz|Hz]];
      cbv beta iota; cbn [errno].
    + destruct (Z.eqb_spec (errno w) EINTR) as [He|He];
        eexists; eexists; (split; [reflexivity|]);
        cbn [trace script g_devices heap g_last_error errno with_last_error];
        do 6 (split; [first [reflexivity | assumption]|]);
        (split; [intros n0 Hn0 H0 H1; inversion Hn0; subst n0; contradiction|]);
        (split; [intros Hn0; inversion Hn0; lia|]);
        (split; [intros Hn0; discriminate Hn0|]);
        (split; [intros e0 He0; discriminate He0|]).
      * right; left. split; reflexivity.
      * right; right. repeat split. exact He.
    + eexists; eexists; (split; [reflexivity|]);
        cbn [trace script g_devices heap g_last_error errno with_last_error];
        do 6 (split; [first [reflexivity | assumption]|]);
        (split; [intros n0 Hn0 H0 H1; inversion Hn0; subst n0; contradiction|]);
        (split; [intros _; split; reflexivity|]);
        (split; [intros Hn0; discriminate Hn0|]);
        (split; [intros e0 He0; discriminate He0|]).
      right; left. split; reflexivity.
    + eexists; eexists; (split; [reflexivity|]);
        cbn [trace script g_devices heap g_last_error errno with_last_error];
        do 6 (split; [first [reflexivity | assumption]|]);
        (split; [intros n0 Hn0 H0 H1; split; reflexivity|]);
        (split; [intros Hn0; inversion Hn0; contradiction|]);
        (split; [intros Hn0; discriminate Hn0|]);
        (split; [intros e0 He0; discriminate He0|]).
      left. split; reflexivity.
Qed.

Lemma wait_for_frame_single_select_witness :
  exists r w',
    libmedia_wait_for_frame 0 1500 (sample_world 4 1 [OkSelect 1]) = Some (r, w') /\
    trace w' = [EvSelect 4 (Some (1, 500000))] /\
    r = 1.
Proof.
  destruct (wait_for_frame_single_select (sample_world 4 1 [OkSelect 1]) 0
              (sample_device 4 1) 1500 (sample_world_open 4 1 _) eq_refl)
    as (r & w' & H1 & H2 & _ & _ & _ & _ & _ & H8 & _).
  exists r, w'. split; [exact H1|]. split; [exact H2|].
  apply (H8 1 eq_refl); discriminate.
Defined.

(** * Sessions *)

Lemma queue_events_app dfd type ks : forall i k,
  queue_events dfd type i (ks ++ [k])
    = queue_events dfd type i ks
        ++ repeat (EvIoctl dfd (qbuf_request type (i + Z.of_nat (List.length ks)))) (S k).
Proof.
  induction ks as [|k0 ks IH]; intros i k.
  - cbn [queue_events app List.length Z.of_nat]. rewrite Z.add_0_r, app_nil_r. reflexivity.
  - cbn [queue_events app List.length]. rewrite IH, <- app_assoc.
    replace (i + 1 + Z.of_nat (List.length ks)) with (i + Z.of_nat (S (List.length ks)))
      by lia.
    reflexivity.
Qed.

Lemma queue_one_spec mp w handle d i :
  open_at w handle d ->
  0 <= i < buffer_count d ->
  exists r w' res,
    queue_one mp handle i w = Some (r, w') /\
    queue_outcome w d (buf_type mp) i res w' /\
    ((res = 0 /\ r = None /\ g_last_error w' = g_last_error w) \/
     (res = -1 /\ r = Some (-1) /\ g_last_error w' = MEDIA_ERROR_BUFFER_ERROR)).
Proof.
  intros Ho Hi. unfold queue_one, buf_type, bind.
  destruct (negb (mp =? 0)).
  - destruct (queue_buffer_mp_sends w handle d i Ho Hi) as (res & w' & E & Hq).
    rewrite E. pose proof Hq as (_ & _ & _ & _ & _ & Hok & Hbad).
    destruct (failed (kernel_answer (fd d)
                (qbuf_request V4L2_BUF_TYPE_VIDEO_CAPTURE_MPLANE i) w)).
    + destruct (Hbad eq_refl) as [-> He]. eexists; eexists; exists (-1).
      split; [reflexivity|]. split; [exact Hq|]. right. auto.
    + destruct (Hok eq_refl) as [-> He]. eexists; eexists; exists 0.
      split; [reflexivity|]. split; [exact Hq|]. left. auto.
  - destruct (queue_buffer_sends w handle d i Ho Hi) as (res & w' & E & Hq).
    rewrite E. pose proof Hq as (_ & _ & _ & _ & _ & Hok & Hbad).
    destruct (failed (kernel_answer (fd d)
                (qbuf_request V4L2_BUF_TYPE_VIDEO_CAPTURE i) w)).
    + destruct (Hbad eq_refl) as [-> He]. eexists; eexists; exists (-1).
      split; [reflexivity|]. split; [exact Hq|]. right. auto.
    + destruct (Hok eq_refl) as [-> He]. eexists; eexists; exists 0.
      split; [reflexivity|]. split; [exact Hq|]. left. auto.
Qed.

Lemma open_at_same_table w w' handle d :
  g_devices w' = g_devices w -> g_device_count w' = g_device_count w ->
  open_at w handle d -> open_at w' handle d.
Proof. intros E1 E2 (H1 & H2 & H3). unfold open_at. rewrite E1, E2. auto. Qed.

Lemma queue_loop_spec mp w handle d :
  open_at w handle d ->
  0 <= buffer_count d ->
  exists r w' ks,
    for_loop (Z.to_nat (buffer_count d)) 0 (queue_one mp handle) w = Some (r, w') /\
    trace w' = trace w ++ queue_events (fd d) (buf_type mp) 0 ks /\
    g_devices w' = g_devices w /\ g_device_count w' = g_device_count w /\
    heap w' = heap w /\
    ((r = None /\ Z.of_nat (List.length ks) = buffer_count d /\
      g_last_error w' = g_last_error w) \/
     (r = Some (-1) /\ 1 <= Z.of_nat (List.length ks) <= buffer_count d /\
      g_last_error w' = MEDIA_ERROR_BUFFER_ERROR)).
Proof.
  intros Ho Hc.
  set (I := fun (j : Z) (w0 : world) =>
              exists ks, Z.of_nat (List.length ks) = j /\
                trace w0 = trace w ++ queue_events (fd d) (buf_type mp) 0 ks /\
                g_devices w0 = g_devices w /\ g_device_count w0 = g_device_count w /\
                heap w0 = heap w /\ g_last_error w0 = g_last_error w).
  set (Q := fun (v : Z) (w0 : world) =>
              exists ks, v = -1 /\ 1 <= Z.of_nat (List.length ks) <= buffer_count d /\
                trace w0 = trace w ++ queue_events (fd d) (buf_type mp) 0 ks /\
                g_devices w0 = g_devices w /\ g_device_count w0 = g_device_count w /\
                heap w0 = heap w /\ g_last_error w0 = MEDIA_ERROR_BUFFER_ERROR).
  destruct (for_loop_rule I Q (queue_one mp handle) (Z.to_nat (buffer_count d)) 0 w)
    as (r & w' & E & Hr).
  { exists []. cbn [List.length queue_events]. rewrite app_nil_r. auto 10. }
  { intros j w0 Hj (ks & Hl & Ht & Hd & Hn & Hh & He).
    rewrite Z2Nat.id in Hj by lia.
    pose proof (open_at_same_table _ _ _ _ Hd Hn Ho) as Ho0.
    destruct (queue_one_spec mp w0 handle d j Ho0 ltac:(lia))
      as (r & w1 & res & E & Hq & Hres).
    exists r, w1. split; [exact E|].
    destruct Hq as ((k & Qt) & Qd & Qn & Qh & _).
    assert (Ht1 : trace w1 = trace w ++ queue_events (fd d) (buf_type mp) 0 (ks ++ [k])).
    { rewrite Qt, Ht, queue_events_app, <- app_assoc, Hl, Z.add_0_l. reflexivity. }
    assert (Hl1 : Z.of_nat (List.length (ks ++ [k])) = j + 1).
    { rewrite length_app. cbn [List.length]. lia. }
    destruct Hres as [(-> & -> & Hle)|(-> & -> & Hle)].
    - exists (ks ++ [k]). repeat split; try assumption; congruence.
    - exists (ks ++ [k]). split; [reflexivity|]. split; [lia|].
      repeat split; try assumption; congruence. }
  exists r, w'. destruct r as [v|].
  - destruct Hr as (ks & -> & Hl & Ht & Hd & Hn & Hh & He).
    exists ks. split; [exact E|]. repeat (split; [assumption|]). right. auto.
  - destruct Hr as (ks & Hl & Ht & Hd & Hn & Hh & He).
    rewrite Z.add_0_l, Z2Nat.id in Hl by lia.
    exists ks. split; [exact E|]. repeat (split; [assumption|]). left. auto.
Qed.

Lemma start_by_mode w handle d mp :
  open_at w handle d ->
  exists k r w1,
    (if negb (mp =? 0) then libmedia_start_streaming_mp handle
     else libmedia_start_streaming handle) w = Some (r, w1) /\
    trace w1 = trace w ++ repeat (EvIoctl (fd d) (VIDIOC_STREAMON (buf_type mp))) (S k) /\
    heap w1 = heap w /\
    ((r = 0 /\ g_devices w1 = <[Z.to_nat handle := set_streaming 1 d]> (g_devices w)) \/
     (r = -1 /\ g_devices w1 = g_devices w /\
      g_last_error w1 = MEDIA_ERROR_STREAMING_ERROR)).
Proof.
  intros Ho. unfold buf_type. destruct (negb (mp =? 0)).
  - destruct (start_streaming_mp_spec w handle d Ho)
      as (k & r & w1 & E & Ht & Hh & _ & _ & [(-> & _ & Hd)|(-> & _ & Hd & He)]);
      exists k; eexists; exists w1; (split; [exact E|]); (split; [exact Ht|]);
      (split; [exact Hh|]); [left | right]; auto.
  - destruct (start_streaming_spec w handle d Ho)
      as (k & r & w1 & E & Ht & Hh & _ & _ & [(-> & _ & Hd)|(-> & _ & Hd & He)]);
      exists k; eexists; exists w1; (split; [exact E|]); (split; [exact Ht|]);
      (split; [exact Hh|]); [left | right]; auto.
Qed.

Lemma start_by_mode_run w handle d mp :
  open_at w handle d ->
  (if negb (mp =? 0) then libmedia_start_streaming_mp handle
   else libmedia_start_streaming handle) w
    = Some (switched handle d (VIDIOC_STREAMON (buf_type mp)) 1 w).
Proof.
  intros Ho. unfold buf_type. destruct (negb (mp =? 0)).
  - apply start_streaming_mp_run. exact Ho.
  - apply start_streaming_run. exact Ho.
Qed.

Lemma stop_by_mode_run w handle d mp :
  open_at w handle d ->
  (if negb (mp =? 0) then libmedia_stop_streaming_mp handle
   else libmedia_stop_streaming handle) w
    = Some (switched handle d (VIDIOC_STREAMOFF (buf_type mp)) 0 w).
Proof.
  intros Ho. unfold buf_type. destruct (negb (mp =? 0)).
  - apply stop_streaming_mp_run. exact Ho.
  - apply stop_streaming_run. exact Ho.
Qed.

Lemma queue_one_run mp w handle d i :
  open_at w handle d ->
  0 <= i < buffer_count d ->
  queue_one mp handle i w
    = Some (if failed (kernel_answer (fd d) (qbuf_request (buf_type mp) i) w)
            then (Some (-1), with_last_error MEDIA_ERROR_BUFFER_ERROR
                               (after_xioctl (fd d) (qbuf_request (buf_type mp) i) w))
            else (None, after_xioctl (fd d) (qbuf_request (buf_type mp) i) w)).
Proof.
  intros Ho Hi. unfold queue_one, buf_type, bind. destruct (negb (mp =? 0)).
  - rewrite (queue_buffer_mp_run w handle d i Ho Hi).
    destruct (failed _); reflexivity.
  - rewrite (queue_buffer_run w handle d i Ho Hi).
    destruct (failed _); reflexivity.
Qed.

Lemma kernel_step_refl w : kernel_step w w [].
Proof. unfold kernel_step. rewrite app_nil_r. repeat split; reflexivity. Qed.

(** The queueing loop of libmedia_start_session over a script that accepts
    the next buffers: one pass for each of them, and the loop goes on from
    the world these passes leave. *)
Lemma queue_loop_accepted mp handle d : forall ks i m w rest,
  open_at w handle d ->
  0 <= i -> i + Z.of_nat (List.length ks) <= buffer_count d ->
  script w = flat_map accepted ks ++ rest ->
  exists w1,
    for_loop (List.length ks + m) i (queue_one mp handle) w
      = for_loop m (i + Z.of_nat (List.length ks)) (queue_one mp handle) w1 /\
    script w1 = rest /\
    kernel_step w w1 (queue_events (fd d) (buf_type mp) i ks).
Proof.
  induction ks as [|k ks IH]; intros i m w rest Ho Hi Hb Hs.
  - exists w. cbn [List.length Nat.add Z.of_nat queue_events]. rewrite Z.add_0_r.
    split; [reflexivity|]. split; [exact Hs | apply kernel_step_refl].
  - cbn [List.length] in Hb. cbn [flat_map] in Hs. rewrite <- app_assoc in Hs.
    destruct (xioctl_script (fd d) (qbuf_request (buf_type mp) i) w k OkDone
                (flat_map accepted ks ++ rest) Hs eq_refl eq_refl)
      as (Ha & Hs1 & Hk1).
    pose proof (open_at_kernel_step _ _ _ _ _ Hk1 Ho) as Ho1.
    assert (Hi1 : 0 <= i + 1) by lia.
    assert (Hb1 : i + 1 + Z.of_nat (List.length ks) <= buffer_count d) by lia.
    assert (Hin : 0 <= i < buffer_count d) by lia.
    destruct (IH (i + 1) m _ rest Ho1 Hi1 Hb1 Hs1) as (w1 & E & Hs2 & Hk2).
    exists w1. cbn [List.length Nat.add for_loop queue_events]. unfold bind at 1.
    rewrite (queue_one_run mp w handle d i Ho Hin), Ha. cbn [failed].
    rewrite E.
    replace (i + 1 + Z.of_nat (List.length ks)) with (i + Z.of_nat (S (List.length ks)))
      by lia.
    split; [reflexivity|]. split; [exact Hs2|].
    eapply kernel_step_trans; eassumption.
Qed.

Lemma refused_not_eintr e : e <> EINTR -> is_eintr (Err e) = false.
Proof. intros He. cbn [is_eintr]. apply Z.eqb_neq. exact He. Qed.

(** X14: libmedia_start_session on a session over an open device queues
    the buffers of the pool in index order from 0, each with one VIDIOC_QBUF
    (repeated only while interrupted) of the buffer type the session's
    configuration selects, and sends VIDIOC_STREAMON only after every one of
    them was accepted.  It always returns, with 0 or -1.  When the kernel
    accepts every QBUF and the STREAMON, it returns 0 with the session
    marked active and the device marked streaming.  When the kernel accepts
    every QBUF and rejects the STREAMON, it returns -1 with
    MEDIA_ERROR_STREAMING_ERROR, the session as it was and the device table
    untouched.  When the kernel rejects the QBUF of a buffer, it returns -1
    with MEDIA_ERROR_BUFFER_ERROR, the session as it was and the device table
    untouched, and nothing more is sent: no QBUF for the buffers after it and
    no STREAMON, no further reply is consumed, and the buffers queued before
    it stay queued. *)
Theorem start_session_queues_then_streams :
  forall (w : world) (handle : Z) (d : device_context_t)
         (cfg : media_session_config_t) (active : Z),
    open_at w handle d ->
    0 <= buffer_count d ->
    (exists r s' w' ks ons,
      libmedia_start_session (Some (session_on handle cfg active)) w
        = Some ((r, Some s'), w') /\
      trace w' = trace w
                   ++ queue_events (fd d) (buf_type (c_use_multiplanar cfg)) 0 ks ++ ons /\
      heap w' = heap w /\
      ((r = 0 /\ s' = session_on handle cfg 1 /\
        Z.of_nat (List.length ks) = buffer_count d /\
        (exists k, ons = repeat (EvIoctl (fd d)
                                   (VIDIOC_STREAMON (buf_type (c_use_multiplanar cfg))))
                                (S k)) /\
        g_devices w' = <[Z.to_nat handle := set_streaming 1 d]> (g_devices w)) \/
       (r = -1 /\ s' = session_on handle cfg active /\
        g_devices w' = g_devices w /\
        ((1 <= Z.of_nat (List.length ks) <= buffer_count d /\ ons = [] /\
          g_last_error w' = MEDIA_ERROR_BUFFER_ERROR) \/
         (Z.of_nat (List.length ks) = buffer_count d /\
          (exists k, ons = repeat (EvIoctl (fd d)
                                     (VIDIOC_STREAMON (buf_type (c_use_multiplanar cfg))))
                                  (S k)) /\
          g_last_error w' = MEDIA_ERROR_STREAMING_ERROR))))) /\
    (forall (ks : list nat) (k : nat) (rest : list reply),
        Z.of_nat (List.length ks) = buffer_count d ->
        script w = flat_map accepted ks ++ accepted k ++ rest ->
        exists w',
          libmedia_start_session (Some (session_on handle cfg active)) w
            = Some ((0, Some (session_on handle cfg 1)), w') /\
          trace w' = trace w
                       ++ queue_events (fd d) (buf_type (c_use_multiplanar cfg)) 0 ks
                       ++ repeat (EvIoctl (fd d)
                                    (VIDIOC_STREAMON (buf_type (c_use_multiplanar cfg))))
                                 (S k) /\
          script w' = rest /\
          g_devices w' = <[Z.to_nat handle := set_streaming 1 d]> (g_devices w) /\
          g_last_error w' = g_last_error w) /\
    (forall (ks : list nat) (k : nat) (e : Z) (rest : list reply),
        Z.of_nat (List.length ks) = buffer_count d ->
        e <> EINTR ->
        script w = flat_map accepted ks ++ refused k e ++ rest ->
        exists w',
          libmedia_start_session (Some (session_on handle cfg active)) w
            = Some ((-1, Some (session_on handle cfg active)), w') /\
          trace w' = trace w
                       ++ queue_events (fd d) (buf_type (c_use_multiplanar cfg)) 0 ks
                       ++ repeat (EvIoctl (fd d)
                                    (VIDIOC_STREAMON (buf_type (c_use_multiplanar cfg))))
                                 (S k) /\
          script w' = rest /\
          g_devices w' = g_devices w /\
          g_last_error w' = MEDIA_ERROR_STREAMING_ERROR) /\
    (forall (ks : list nat) (k : nat) (e : Z) (rest : list reply),
        Z.of_nat (List.length ks) < buffer_count d ->
        e <> EINTR ->
        script w = flat_map accepted ks ++ refused k e ++ rest ->
        exists w',
          libmedia_start_session (Some (session_on handle cfg active)) w
            = Some ((-1, Some (session_on handle cfg active)), w') /\
          trace w' = trace w
                       ++ queue_events (fd d) (buf_type (c_use_multiplanar cfg)) 0
                                       (ks ++ [k]) /\
          script w' = rest /\
          g_devices w' = g_devices w /\
          g_last_error w' = MEDIA_ERROR_BUFFER_ERROR).
Proof.
  intros w handle d cfg active Ho Hc.
  split; [|split; [|split]].
  - unfold libmedia_start_session, session_on. cbn [s_device s_config s_active].
    unfold bind at 1. rewrite (read_dev_open _ _ _ Ho).
    destruct (queue_loop_spec (c_use_multiplanar cfg) w handle d Ho Hc)
      as (r & w1 & ks & E & Ht & Hd & Hn & Hh & Hr).
    unfold bind at 1. rewrite E.
    destruct Hr as [(-> & Hl & He)|(-> & Hl & He)].
    + pose proof (open_at_same_table _ _ _ _ Hd Hn Ho) as Ho1.
      destruct (start_by_mode w1 handle d (c_use_multiplanar cfg) Ho1)
        as (k & r & w2 & E2 & Ht2 & Hh2 & Hr2).
      unfold bind. rewrite E2.
      destruct Hr2 as [(-> & Hd2)|(-> & Hd2 & He2)].
      * change (0 <? 0) with false. cbv iota.
        eexists; eexists; eexists; exists ks; eexists.
        split; [reflexivity|]. split; [rewrite Ht2, Ht, <- app_assoc; reflexivity|].
        split; [congruence|]. left.
        split; [reflexivity|]. split; [reflexivity|]. split; [exact Hl|].
        split; [exists k; reflexivity|]. rewrite Hd2, Hd. reflexivity.
      * change (-1 <? 0) with true. cbv iota.
        eexists; eexists; eexists; exists ks; eexists.
        split; [reflexivity|]. split; [rewrite Ht2, Ht, <- app_assoc; reflexivity|].
        split; [congruence|]. right.
        split; [reflexivity|]. split; [reflexivity|]. split; [congruence|].
        right. split; [exact Hl|]. split; [exists k; reflexivity | exact He2].
    + eexists; eexists; eexists; exists ks, [].
      split; [reflexivity|]. split; [rewrite app_nil_r; exact Ht|].
      split; [exact Hh|]. right.
      split; [reflexivity|]. split; [reflexivity|]. split; [exact Hd|].
      left. split; [exact Hl|]. split; [reflexivity | exact He].
  - intros ks k rest Hl Hs.
    unfold libmedia_start_session, session_on. cbn [s_device s_config s_active].
    unfold bind at 1. rewrite (read_dev_open _ _ _ Ho).
    assert (H0 : 0 <= 0) by lia.
    assert (Hb : 0 + Z.of_nat (List.length ks) <= buffer_count d) by lia.
    destruct (queue_loop_accepted (c_use_multiplanar cfg) handle d ks 0 0 w
                (accepted k ++ rest) Ho H0 Hb Hs)
      as (w1 & E & Hs1 & Hk1).
    replace (Z.to_nat (buffer_count d)) with (List.length ks + 0)%nat by lia.
    unfold bind at 1. rewrite E. cbn [for_loop]. unfold ret at 1.
    pose proof (open_at_kernel_step _ _ _ _ _ Hk1 Ho) as Ho1.
    unfold bind at 1. rewrite (start_by_mode_run _ _ _ _ Ho1).
    destruct (xioctl_script (fd d)
                (VIDIOC_STREAMON (buf_type (c_use_multiplanar cfg))) w1 k OkDone rest
                Hs1 eq_refl eq_refl) as (Ha & Hs2 & Hk2).
    unfold switched. rewrite Ha. cbn [failed].
    change (0 <? 0) with false. cbv iota.
    eexists. split; [reflexivity|].
    destruct Hk1 as (A1 & A2 & A3 & A4 & A5 & A6 & A7).
    destruct Hk2 as (B1 & B2 & B3 & B4 & B5 & B6 & B7).
    unfold put_device. cbn [trace script g_devices g_last_error with_devices].
    rewrite B7, A7, <- app_assoc, Hs2, B1, A1, B4, A4. auto.
  - intros ks k e rest Hl He Hs.
    unfold libmedia_start_session, session_on. cbn [s_device s_config s_active].
    unfold bind at 1. rewrite (read_dev_open _ _ _ Ho).
    assert (H0 : 0 <= 0) by lia.
    assert (Hb : 0 + Z.of_nat (List.length ks) <= buffer_count d) by lia.
    destruct (queue_loop_accepted (c_use_multiplanar cfg) handle d ks 0 0 w
                (refused k e ++ rest) Ho H0 Hb Hs)
      as (w1 & E & Hs1 & Hk1).
    replace (Z.to_nat (buffer_count d)) with (List.length ks + 0)%nat by lia.
    unfold bind at 1. rewrite E. cbn [for_loop]. unfold ret at 1.
    pose proof (open_at_kernel_step _ _ _ _ _ Hk1 Ho) as Ho1.
    unfold bind at 1. rewrite (start_by_mode_run _ _ _ _ Ho1).
    destruct (xioctl_script (fd d)
                (VIDIOC_STREAMON (buf_type (c_use_multiplanar cfg))) w1 k (Err e) rest
                Hs1 eq_refl (refused_not_eintr e He)) as (Ha & Hs2 & Hk2).
    unfold switched. rewrite Ha. cbn [failed].
    change (-1 <? 0) with true. cbv iota.
    eexists. split; [reflexivity|].
    destruct Hk1 as (A1 & A2 & A3 & A4 & A5 & A6 & A7).
    destruct Hk2 as (B1 & B2 & B3 & B4 & B5 & B6 & B7).
    cbn [trace script g_devices g_last_error with_last_error].
    rewrite B7, A7, <- app_assoc, Hs2, B1, A1. auto.
  - intros ks k e rest Hl He Hs.
    unfold libmedia_start_session, session_on. cbn [s_device s_config s_active].
    unfold bind at 1. rewrite (read_dev_open _ _ _ Ho).
    assert (H0 : 0 <= 0) by lia.
    assert (Hb : 0 + Z.of_nat (List.length ks) <= buffer_count d) by lia.
    assert (Hin : 0 <= 0 + Z.of_nat (List.length ks) < buffer_count d) by lia.
    destruct (queue_loop_accepted (c_use_multiplanar cfg) handle d ks 0
                (S (Z.to_nat (buffer_count d) - S (List.length ks))) w
                (refused k e ++ rest) Ho H0 Hb Hs)
      as (w1 & E & Hs1 & Hk1).
    replace (Z.to_nat (buffer_count d))
      with (List.length ks + S (Z.to_nat (buffer_count d) - S (List.length ks)))%nat
      by lia.
    unfold bind at 1. rewrite E. cbn [for_loop].
    pose proof (open_at_kernel_step _ _ _ _ _ Hk1 Ho) as Ho1.
    unfold bind at 1.
    rewrite (queue_one_run (c_use_multiplanar cfg) w1 handle d _ Ho1 Hin).
    destruct (xioctl_script (fd d)
                (qbuf_request (buf_type (c_use_multiplanar cfg))
                              (0 + Z.of_nat (List.length ks))) w1 k (Err e) rest
                Hs1 eq_refl (refused_not_eintr e He)) as (Ha & Hs2 & Hk2).
    rewrite Ha. cbn [failed]. unfold ret, bind.
    eexists. split; [reflexivity|].
    destruct Hk1 as (A1 & A2 & A3 & A4 & A5 & A6 & A7).
    destruct Hk2 as (B1 & B2 & B3 & B4 & B5 & B6 & B7).
    cbn [trace script g_devices g_last_error with_last_error].
    rewrite B7, A7, <- app_assoc, Hs2, B1, A1, queue_events_app. auto.
Qed.

Lemma start_session_queues_then_streams_witness :
  exists w',
    libmedia_start_session
      (Some (session_on 0 (mk_config (Some "/dev/video0"%string) sample_format 4 0 0) 0))
      (sample_world 4 0 [OkDone; Err EINTR; Err 22; OkDone; OkDone; OkDone])
      = Some ((-1, Some (session_on 0 (mk_config (Some "/dev/video0"%string)
                                                 sample_format 4 0 0) 0)), w') /\
    trace w' = [EvIoctl 3 (qbuf_request V4L2_BUF_TYPE_VIDEO_CAPTURE 0);
                EvIoctl 3 (qbuf_request V4L2_BUF_TYPE_VIDEO_CAPTURE 1);
                EvIoctl 3 (qbuf_request V4L2_BUF_TYPE_VIDEO_CAPTURE 1)] /\
    script w' = [OkDone; OkDone; OkDone] /\
    g_devices w' = g_devices (sample_world 4 0 []) /\
    g_last_error w' = MEDIA_ERROR_BUFFER_ERROR.
Proof.
  destruct (start_session_queues_then_streams
              (sample_world 4 0 [OkDone; Err EINTR; Err 22; OkDone; OkDone; OkDone]) 0
              (sample_device 4 0) (mk_config (Some "/dev/video0"%string) sample_format 4 0 0) 0
              (sample_world_open 4 0 _) ltac:(unfold sample_device; simpl; lia))
    as (_ & _ & _ & H).
  apply (H [O] 1%nat 22 [OkDone; OkDone; OkDone]).
  - unfold sample_device; simpl; lia.
  - discriminate.
  - reflexivity.
Defined.

(** X15: libmedia_stop_session on a session over an open device sends the
    VIDIOC_STREAMOFF of the buffer type the session's configuration selects,
    once for each EINTR the kernel answers first and once for the answer
    that follows, and marks the session inactive whatever that answer is.
    When the kernel accepts the stop, the call returns 0 and the device is
    marked not streaming.  When the kernel rejects the stop, the call returns
    -1 with MEDIA_ERROR_STREAMING_ERROR and the device keeps its streaming
    flag, while the session is already inactive.  Either way a capture
    through the session is refused afterwards with -1 and no system call. *)
Theorem stop_session_always_deactivates :
  forall (w : world) (handle : Z) (d : device_context_t)
         (cfg : media_session_config_t) (active : Z),
    open_at w handle d ->
    exists r w',
      libmedia_stop_session (Some (session_on handle cfg active)) w
        = Some ((r, Some (session_on handle cfg 0)), w') /\
      trace w' = trace w
                   ++ repeat (EvIoctl (fd d)
                                (VIDIOC_STREAMOFF (buf_type (c_use_multiplanar cfg))))
                             (S (interrupted (script w))) /\
      script w' = drop (S (interrupted (script w))) (script w) /\
      (failed (kernel_answer (fd d)
                 (VIDIOC_STREAMOFF (buf_type (c_use_multiplanar cfg))) w) = false ->
       r = 0 /\ g_last_error w' = g_last_error w /\
       g_devices w' = <[Z.to_nat handle := set_streaming 0 d]> (g_devices w)) /\
      (failed (kernel_answer (fd d)
                 (VIDIOC_STREAMOFF (buf_type (c_use_multiplanar cfg))) w) = true ->
       r = -1 /\ g_last_error w' = MEDIA_ERROR_STREAMING_ERROR /\
       g_devices w' = g_devices w) /\
      (forall frame timeout_ms,
          libmedia_session_capture_frame (Some (session_on handle cfg 0)) (Some frame)
                                         timeout_ms w'
            = Some ((-1, Some frame), with_last_error MEDIA_ERROR_STREAMING_ERROR w')).
Proof.
  intros w handle d cfg active Ho.
  destruct (switched handle d (VIDIOC_STREAMOFF (buf_type (c_use_multiplanar cfg))) 0 w)
    as [r w1] eqn:E.
  destruct (switched_spec _ _ _ _ _ _ _ E) as (Ht & Hs & _ & _ & _ & Hok & Hbad).
  exists r, w1.
  split.
  { unfold libmedia_stop_session, session_on, bind. cbn [s_device s_config].
    rewrite (stop_by_mode_run _ _ _ _ Ho), E. reflexivity. }
  split; [exact Ht|]. split; [exact Hs|]. split; [exact Hok|]. split; [exact Hbad|].
  reflexivity.
Qed.

Lemma stop_session_always_deactivates_witness :
  exists w',
    libmedia_stop_session
      (Some (session_on 0 (mk_config (Some "/dev/video0"%string) sample_format 4 0 0) 1))
      (sample_world 4 1 [Err EINTR; Err 22; OkDone])
      = Some ((-1, Some (session_on 0 (mk_config (Some "/dev/video0"%string)
                                                 sample_format 4 0 0) 0)), w') /\
    trace w' = repeat (EvIoctl 3 (VIDIOC_STREAMOFF V4L2_BUF_TYPE_VIDEO_CAPTURE)) 2 /\
    script w' = [OkDone] /\
    g_last_error w' = MEDIA_ERROR_STREAMING_ERROR /\
    g_devices w' = g_devices (sample_world 4 1 []).
Proof.
  destruct (stop_session_always_deactivates
              (sample_world 4 1 [Err EINTR; Err 22; OkDone]) 0
              (sample_device 4 1)
              (mk_config (Some "/dev/video0"%string) sample_format 4 0 0) 1
              (sample_world_open 4 1 _))
    as (r & w' & H1 & Ht & Hs & _ & Hbad & _).
  destruct (Hbad eq_refl) as (-> & He & Hd).
  exists w'. split; [exact H1|]. split; [exact Ht|]. split; [exact Hs|].
  split; [exact He | exact Hd].
Defined.

(** * Shutting the library down *)

Lemma close_idle_device w handle d :
  open_at w handle d ->
  idle d ->
  libmedia_close_device handle w
    = Some (0, put_device handle (set_fd (-1) d) (after_close (fd d) w)).
Proof.
  intros Ho [Hb Hs].
  unfold libmedia_close_device, bind at 1. rewrite (find_device_open _ _ _ Ho).
  unfold bind, ret. rewrite (read_dev_open _ _ _ Ho), Hs. cbn [Z.eqb negb].
  rewrite (read_dev_open _ _ _ Ho), Hb, (read_dev_open _ _ _ Ho).
  replace (fd d >=? 0) with true by (destruct Ho as (_ & _ & H); lia).
  unfold sys_close, modify. fold (after_close (fd d) w).
  assert (Ho1 : open_at (after_close (fd d) w) handle d) by exact Ho.
  rewrite (write_dev_open _ _ _ _ Ho1). reflexivity.
Qed.

Lemma deinit_slot_spec w0 j d :
  0 <= j < g_device_count w0 ->
  g_devices w0 !! Z.to_nat j = Some d ->
  idle d ->
  exists w1,
    deinit_slot j w0 = Some (None, w1) /\
    trace w1 = trace w0 ++ close_event d /\
    g_devices w1 = <[Z.to_nat j := if fd d >=? 0 then set_fd (-1) d else d]> (g_devices w0) /\
    g_device_count w1 = g_device_count w0 /\
    g_initialized w1 = g_initialized w0 /\
    heap w1 = heap w0 /\ script w1 = script w0.
Proof.
  intros Hj Hd Hidle. unfold deinit_slot, bind at 1, read_dev.
  replace (j <? 0) with false by lia. rewrite Hd.
  unfold close_event. destruct (fd d >=? 0) eqn:Efd.
  - assert (Ho : open_at w0 j d) by (unfold open_at; repeat split; try assumption; lia).
    unfold bind. rewrite (close_idle_device _ _ _ Ho Hidle).
    eexists. split; [reflexivity|]. repeat split; reflexivity.
  - exists w0. split; [reflexivity|]. rewrite app_nil_r, list_insert_id by exact Hd.
    repeat split; reflexivity.
Qed.

Lemma deinit_loop_spec w :
  registry_inv w ->
  g_initialized w <> 0 ->
  exists w',
    for_loop (Z.to_nat (g_device_count w)) 0 deinit_slot w = Some (None, w') /\
    trace w' = trace w
                 ++ flat_map close_event (take (Z.to_nat (g_device_count w)) (g_devices w)) /\
    g_device_count w' = g_device_count w /\
    g_initialized w' = g_initialized w /\
    heap w' = heap w /\ script w' = script w /\
    List.length (g_devices w') = List.length (g_devices w) /\
    (forall i d0, (i < Z.to_nat (g_device_count w))%nat ->
                  g_devices w' !! i = Some d0 -> fd d0 < 0).
Proof.
  intros (Hl & Hc & H0 & Hi) Hn. specialize (Hi Hn).
  set (I := fun (j : Z) (w0 : world) =>
              trace w0 = trace w ++ flat_map close_event (take (Z.to_nat j) (g_devices w)) /\
              g_device_count w0 = g_device_count w /\
              g_initialized w0 = g_initialized w /\
              heap w0 = heap w /\ script w0 = script w /\
              List.length (g_devices w0) = List.length (g_devices w) /\
              (forall i d0, (i < Z.to_nat j)%nat -> g_devices w0 !! i = Some d0 -> fd d0 < 0) /\
              (forall i, (Z.to_nat j <= i)%nat -> g_devices w0 !! i = g_devices w !! i)).
  destruct (for_loop_rule I (fun (_ : Z) (_ : world) => False) deinit_slot
              (Z.to_nat (g_device_count w)) 0 w) as (r & w' & E & Hr).
  { unfold I. cbn [Z.to_nat take flat_map]. rewrite app_nil_r.
    repeat split; try reflexivity. intros i d0 Hlt. lia. }
  { intros j w0 Hj (It & Ic & Ii & Ih & Is & Il & Iclosed & Irest).
    rewrite Z2Nat.id in Hj by lia.
    destruct (g_devices w !! Z.to_nat j) as [d|] eqn:Ed.
    2:{ apply lookup_ge_None in Ed. rewrite Hl in Ed. unfold MAX_DEVICES in *. lia. }
    assert (Hidle : idle d).
    { rewrite Forall_forall in Hi. apply Hi. eapply list_elem_of_lookup_2. exact Ed. }
    assert (Ed0 : g_devices w0 !! Z.to_nat j = Some d).
    { rewrite Irest by lia. exact Ed. }
    destruct (deinit_slot_spec w0 j d ltac:(lia) Ed0 Hidle)
      as (w1 & E & Jt & Jd & Jc & Ji & Jh & Js).
    exists None, w1. split; [exact E|]. unfold I.
    replace (Z.to_nat (j + 1)) with (S (Z.to_nat j)) by lia.
    split.
    { rewrite Jt, It, (take_S_r _ _ _ Ed), flat_map_app, <- app_assoc.
      cbn [flat_map]. rewrite app_nil_r. reflexivity. }
    split; [congruence|]. split; [congruence|]. split; [congruence|].
    split; [congruence|].
    split; [rewrite Jd, length_insert; exact Il|].
    split.
    - intros i d0 Hlt Hd0. rewrite Jd in Hd0.
      destruct (Nat.eq_dec i (Z.to_nat j)) as [->|Hne].
      + rewrite list_lookup_insert_eq in Hd0 by (apply lookup_lt_Some in Ed0; exact Ed0).
        inversion Hd0; subst d0.
        destruct (fd d >=? 0) eqn:Efd; cbn [set_fd fd]; lia.
      + rewrite list_lookup_insert_ne in Hd0 by congruence.
        apply (Iclosed i); [lia | exact Hd0].
    - intros i Hle. rewrite Jd, list_lookup_insert_ne by lia. apply Irest. lia. }
  destruct r as [v|]; [contradiction|].
  destruct Hr as (It & Ic & Ii & Ih & Is & Il & Iclosed & _).
  rewrite Z.add_0_l, Nat2Z.id in *.
  exists w'. split; [exact E|]. auto 10.
Qed.

(** X16: on a registry whose devices hold no pool and are not streaming,
    libmedia_deinit does nothing when the library is not initialised;
    otherwise it closes the descriptor of every device that is still open,
    once each and in slot order, makes no other system call, and clears the
    initialised flag.  Afterwards no handle is usable any more: every slot
    below the device count holds a negative descriptor.  The device count
    itself is not reset. *)
Theorem deinit_closes_every_open_device :
  forall (w : world),
    registry_inv w ->
    (g_initialized w = 0 -> libmedia_deinit w = Some (tt, w)) /\
    (g_initialized w <> 0 ->
     exists w',
       libmedia_deinit w = Some (tt, w') /\
       g_initialized w' = 0 /\
       g_device_count w' = g_device_count w /\
       trace w' = trace w
                    ++ flat_map close_event
                         (take (Z.to_nat (g_device_count w)) (g_devices w)) /\
       heap w' = heap w /\ script w' = script w /\
       (forall handle, dead_handle w' handle)).
Proof.
  intros w Inv. split; intros Hn.
  - unfold libmedia_deinit, bind, gets. rewrite Hn. reflexivity.
  - destruct (deinit_loop_spec w Inv Hn) as (w1 & E & Ht & Hc & Hi & Hh & Hs & Hl & Hclosed).
    exists (with_initialized 0 w1).
    split.
    { unfold libmedia_deinit, bind, gets.
      destruct (Z.eqb_spec (g_initialized w) 0) as [H0|_]; [contradiction|].
      rewrite E. reflexivity. }
    split; [reflexivity|]. split; [exact Hc|]. split; [exact Ht|].
    split; [exact Hh|]. split; [exact Hs|].
    intros handle. unfold dead_handle. cbn [with_initialized g_device_count g_devices].
    destruct (Z_lt_dec handle 0) as [|Hge]; [left; assumption|].
    destruct (Z_le_dec (g_device_count w1) handle) as [|Hlt]; [right; left; assumption|].
    right; right.
    destruct Inv as (Hlen & Hcnt & _).
    destruct (g_devices w1 !! Z.to_nat handle) as [d0|] eqn:Ed.
    + exists d0. split; [reflexivity|]. apply (Hclosed (Z.to_nat handle)); [lia | exact Ed].
    + apply lookup_ge_None in Ed. rewrite Hl, Hlen in Ed. unfold MAX_DEVICES in *. lia.
Qed.

Lemma sample_world_registry replies : registry_inv (sample_world 0 0 replies).
Proof.
  unfold registry_inv, sample_world, sample_device, closed_device, zero_device, idle.
  cbn. unfold MAX_DEVICES. split; [reflexivity|]. split; [lia|].
  split; [intros H; discriminate H|]. intros _.
  repeat (constructor; [split; reflexivity|]). constructor.
Qed.

Lemma deinit_closes_every_open_device_witness :
  exists w',
    libmedia_deinit (sample_world 0 0 []) = Some (tt, w') /\
    trace w' = [EvClose 3] /\
    dead_handle w' 0.
Proof.
  destruct (deinit_closes_every_open_device (sample_world 0 0 [])
              (sample_world_registry [])) as [_ H].
  destruct H as (w' & H1 & _ & _ & H4 & _ & _ & H7).
  { cbn. discriminate. }
  exists w'. split; [exact H1|]. split; [exact H4 | apply H7].
Defined.

(** * No use of the pool after it was freed *)

Ltac dequeue_empty Ho Hc :=
  unfold bind; rewrite (find_device_open _ _ _ Ho), (read_dev_open _ _ _ Ho);
  rewrite xioctl_run;
  match goal with
  | |- context [after_xioctl ?dfd ?req ?w] =>
      let k := fresh "k" in
      let Hstep := fresh "Hstep" in
      destruct (after_xioctl_step dfd req w) as [k Hstep];
      pose proof (open_at_kernel_step _ _ _ _ _ Hstep Ho) as Ho1;
      destruct (kernel_answer dfd req w);
      try (unfold gets;
           match goal with
           | |- context [?e =? EAGAIN] => destruct (e =? EAGAIN)
           end;
           eexists; reflexivity);
      rewrite (read_dev_open _ _ _ Ho1), Hc;
      match goal with
      | |- context [u32 ?i >=? u32 0] =>
          pose proof (u32_range i);
          replace (u32 i >=? u32 0) with true by (change (u32 0) with 0; lia)
      end;
      eexists; reflexivity
  end.

Lemma dequeue_buffer_empty w handle d out :
  open_at w handle d ->
  buffer_count d = 0 ->
  exists w', libmedia_dequeue_buffer handle (Some out) w = Some ((-1, Some out), w').
Proof. intros Ho Hc. unfold libmedia_dequeue_buffer. dequeue_empty Ho Hc. Qed.

Lemma dequeue_buffer_mp_empty w handle d out :
  open_at w handle d ->
  buffer_count d = 0 ->
  exists w', libmedia_dequeue_buffer_mp handle (Some out) w = Some ((-1, Some out), w').
Proof. intros Ho Hc. unfold libmedia_dequeue_buffer_mp. dequeue_empty Ho Hc. Qed.

(** X17: once libmedia_free_buffers has released a pool, the library never
    goes back to the caller's array: the device holds no pool pointer and
    a pool size of 0, so libmedia_queue_buffer and libmedia_queue_buffer_mp
    refuse every index with -1 before any system call, and
    libmedia_dequeue_buffer and libmedia_dequeue_buffer_mp return -1 with
    the caller's buffer untouched whatever the kernel answers, without
    reading the array. *)
Theorem freed_pool_is_never_used :
  forall (w : world) (handle : Z) (d : device_context_t) (ptr : Z)
         (arr : list media_buffer_t) (count : Z),
    open_at w handle d ->
    heap w !! ptr = Some arr ->
    array_ok arr count ->
    0 < count ->
    exists w1,
      libmedia_free_buffers handle (Some ptr) count w = Some (0, w1) /\
      open_at w1 handle (freed_device d) /\
      (forall index,
          libmedia_queue_buffer handle index w1
            = Some (-1, with_last_error MEDIA_ERROR_INVALID_PARAM w1) /\
          libmedia_queue_buffer_mp handle index w1
            = Some (-1, with_last_error MEDIA_ERROR_INVALID_PARAM w1)) /\
      (forall out,
          (exists w2, libmedia_dequeue_buffer handle (Some out) w1
                        = Some ((-1, Some out), w2)) /\
          (exists w2, libmedia_dequeue_buffer_mp handle (Some out) w1
                        = Some ((-1, Some out), w2))).
Proof.
  intros w handle d ptr arr count Ho Hh Hok Hc.
  destruct (free_buffers_spec w handle d ptr arr count Ho Hh Hok Hc)
    as (w1 & arr1 & E & Hu & _).
  pose proof (open_at_unmap_step _ _ _ _ Hu Ho) as Ho1.
  assert (Ho2 : open_at (put_device handle (freed_device d) w1) handle (freed_device d)).
  { apply (open_at_put_device _ _ d); [exact Ho1 | apply Ho]. }
  exists (put_device handle (freed_device d) w1).
  split.
  { rewrite E. unfold put_device. destruct Hu as (A1 & _). rewrite A1. reflexivity. }
  split; [exact Ho2|]. split.
  - intros index. split.
    + apply (queue_buffer_rejects _ _ (freed_device d)); [exact Ho2|].
      cbn [freed_device set_buffer_count buffer_count]. lia.
    + apply (queue_buffer_mp_rejects _ _ (freed_device d)); [exact Ho2|].
      cbn [freed_device set_buffer_count buffer_count]. lia.
  - intros out. split.
    + apply (dequeue_buffer_empty _ _ (freed_device d)); [exact Ho2 | reflexivity].
    + apply (dequeue_buffer_mp_empty _ _ (freed_device d)); [exact Ho2 | reflexivity].
Qed.

Lemma freed_pool_is_never_used_witness :
  exists w1,
    libmedia_free_buffers 0 (Some 1000) 4 (sample_world 4 0 [OkDqbuf 0 614400 10 0])
      = Some (0, w1) /\
    exists w2, libmedia_dequeue_buffer 0 (Some local_buffer) w1
                 = Some ((-1, Some local_buffer), w2).
Proof.
  destruct (freed_pool_is_never_used (sample_world 4 0 [OkDqbuf 0 614400 10 0]) 0
              (sample_device 4 0) 1000 sample_pool 4
              (sample_world_open 4 0 _) eq_refl sample_pool_ok ltac:(lia))
    as (w1 & H1 & _ & _ & H4).
  exists w1. split; [exact H1|]. apply (H4 local_buffer).
Defined.

(** * A failed dequeue *)

Lemma syscall_errno ev fits w e w' :
  syscall ev fits w = (Err e, w') -> errno w' = e.
Proof.
  unfold syscall. intros H.
  set (r := match script w with
            | r :: _ => if fits r then r else Err EIO
            | [] => Err EIO
            end) in *.
  assert (Hr : r = Err e) by (inversion H; reflexivity).
  inversion H; subst w'. cbn [errno]. rewrite Hr. reflexivity.
Qed.

Lemma xioctl_loop_errno n dfd req : forall w r w' e,
  xioctl_loop n dfd req w = (r, w') -> r = Err e -> errno w' = e.
Proof.
  induction n as [|n IH]; intros w r w' e; cbn [xioctl_loop].
  - destruct (ioctl dfd req w) as [r0 w0] eqn:E. intros H Hr.
    inversion H; subst. apply (syscall_errno _ _ _ _ _ E).
  - destruct (ioctl dfd req w) as [r0 w0] eqn:E.
    destruct (is_eintr r0).
    + apply IH.
    + intros H Hr. inversion H; subst. apply (syscall_errno _ _ _ _ _ E).
Qed.

Lemma after_xioctl_errno dfd req w e :
  kernel_answer dfd req w = Err e -> errno (after_xioctl dfd req w) = e.
Proof.
  unfold kernel_answer, after_xioctl.
  destruct (xioctl_loop _ dfd req w) as [r w'] eqn:E. cbn [fst snd].
  apply (xioctl_loop_errno _ _ _ _ _ _ _ E).
Qed.

Ltac dequeue_fails Ho Hk type :=
  unfold bind; rewrite (find_device_open _ _ _ Ho), (read_dev_open _ _ _ Ho);
  fold (dqbuf_request type); rewrite xioctl_run, Hk;
  unfold gets; rewrite (after_xioctl_errno _ _ _ _ Hk); unfold dequeue_error;
  match goal with
  | |- context [?e =? EAGAIN] => destruct (e =? EAGAIN)
  end; reflexivity.

Lemma dequeue_buffer_fails w handle d out e :
  open_at w handle d ->
  kernel_answer (fd d) (dqbuf_request V4L2_BUF_TYPE_VIDEO_CAPTURE) w = Err e ->
  libmedia_dequeue_buffer handle (Some out) w
    = Some ((-1, Some out),
            with_last_error (dequeue_error e)
              (after_xioctl (fd d) (dqbuf_request V4L2_BUF_TYPE_VIDEO_CAPTURE) w)).
Proof.
  intros Ho Hk. unfold libmedia_dequeue_buffer.
  dequeue_fails Ho Hk V4L2_BUF_TYPE_VIDEO_CAPTURE.
Qed.

Lemma dequeue_buffer_mp_fails w handle d out e :
  open_at w handle d ->
  kernel_answer (fd d) (dqbuf_request V4L2_BUF_TYPE_VIDEO_CAPTURE_MPLANE) w = Err e ->
  libmedia_dequeue_buffer_mp handle (Some out) w
    = Some ((-1, Some out),
            with_last_error (dequeue_error e)
              (after_xioctl (fd d) (dqbuf_request V4L2_BUF_TYPE_VIDEO_CAPTURE_MPLANE) w)).
Proof.
  intros Ho Hk. unfold libmedia_dequeue_buffer_mp.
  dequeue_fails Ho Hk V4L2_BUF_TYPE_VIDEO_CAPTURE_MPLANE.
Qed.

Ltac capture_fails w d Ho Hfd Hr Hdq :=
  unfold bind at 1; rewrite (find_device_open _ _ _ Ho);
  match goal with
  | |- context [libmedia_wait_for_frame ?h ?t] =>
      let Et := fresh "Et" in
      destruct (t =? 0) eqn:Et; cbn [negb andb];
      [ assert (t = 0) by lia; subst t;
        change (after_wait w d 0) with w in *;
        unfold bind at 1, ret at 1
      | let n := fresh "n" in
        let rest := fresh "rest" in
        let Hn := fresh "Hn" in
        let Hs := fresh "Hs" in
        let Hne := fresh "Hne" in
        destruct Hr as [Hr|(n & rest & Hn & Hs)]; [lia|];
        assert (Hne : t <> 0) by lia;
        unfold bind at 1;
        rewrite (wait_for_frame_ready _ _ _ t n rest Ho Hfd Hn Hs Hne);
        replace (1 <=? 0) with false by reflexivity ];
      unfold bind at 1; rewrite Hdq; reflexivity
  end.

(** X18: when the VIDIOC_DQBUF fails, the dequeue calls return -1 with the
    caller's buffer untouched and record MEDIA_ERROR_TIMEOUT when errno is
    EAGAIN and MEDIA_ERROR_BUFFER_ERROR otherwise; on a descriptor an fd_set
    can hold (below FD_SETSIZE), a capture that had a frame announced (or
    did not wait) passes this on as -1 with the caller's frame untouched.
    So an empty queue on a non-blocking device is a time-out reported with a
    negative return. *)
Theorem dequeue_failure_classified :
  forall (w : world) (handle : Z) (d : device_context_t) (out : media_buffer_t)
         (frame : media_frame_t) (timeout_ms e : Z)
         (dequeue : Z -> option media_buffer_t -> M (Z * option media_buffer_t))
         (capture : Z -> option media_frame_t -> Z -> M (Z * option media_frame_t))
         (type : Z),
    open_at w handle d ->
    (dequeue = libmedia_dequeue_buffer /\ capture = libmedia_capture_frame /\
     type = V4L2_BUF_TYPE_VIDEO_CAPTURE) \/
    (dequeue = libmedia_dequeue_buffer_mp /\ capture = libmedia_capture_frame_mp /\
     type = V4L2_BUF_TYPE_VIDEO_CAPTURE_MPLANE) ->
    (kernel_answer (fd d) (dqbuf_request type) w = Err e ->
     dequeue handle (Some out) w
       = Some ((-1, Some out),
               with_last_error (dequeue_error e)
                 (after_xioctl (fd d) (dqbuf_request type) w))) /\
    (fd d < FD_SETSIZE ->
     ready w timeout_ms ->
     kernel_answer (fd d) (dqbuf_request type) (after_wait w d timeout_ms) = Err e ->
     capture handle (Some frame) timeout_ms w
       = Some ((-1, Some frame),
               with_last_error (dequeue_error e)
                 (after_xioctl (fd d) (dqbuf_request type) (after_wait w d timeout_ms)))).
Proof.
  intros w handle d out frame timeout_ms e dequeue capture type Ho Hsel.
  split.
  - intros Hk. destruct Hsel as [(-> & _ & ->)|(-> & _ & ->)].
    + apply dequeue_buffer_fails; assumption.
    + apply dequeue_buffer_mp_fails; assumption.
  - intros Hfd Hr Hk. destruct Hsel as [(_ & -> & ->)|(_ & -> & ->)].
    + pose proof (dequeue_buffer_fails _ _ _ local_buffer _
                    (after_wait_open _ _ _ timeout_ms Ho) Hk) as Hdq.
      unfold libmedia_capture_frame. capture_fails w d Ho Hfd Hr Hdq.
    + pose proof (dequeue_buffer_mp_fails _ _ _ local_buffer _
                    (after_wait_open _ _ _ timeout_ms Ho) Hk) as Hdq.
      unfold libmedia_capture_frame_mp. capture_fails w d Ho Hfd Hr Hdq.
Qed.

Lemma dequeue_failure_classified_witness :
  libmedia_capture_frame 0 (Some sample_frame) 0 (sample_world 4 1 [Err EAGAIN])
    = Some ((-1, Some sample_frame),
            with_last_error MEDIA_ERROR_TIMEOUT
              (after_xioctl 3 (dqbuf_request V4L2_BUF_TYPE_VIDEO_CAPTURE)
                            (sample_world 4 1 [Err EAGAIN]))).
Proof.
  destruct (dequeue_failure_classified (sample_world 4 1 [Err EAGAIN]) 0
              (sample_device 4 1) local_buffer sample_frame 0 EAGAIN
              libmedia_dequeue_buffer libmedia_capture_frame V4L2_BUF_TYPE_VIDEO_CAPTURE
              (sample_world_open 4 1 _) (or_introl (conj eq_refl (conj eq_refl eq_refl))))
    as [_ H].
  exact (H eq_refl (or_introl eq_refl) eq_refl).
Defined.

(** * From allocation to capture *)

Lemma request_with_total NP type body w handle d count ptr arr :
  maps_one NP (Z.of_nat (List.length arr)) ptr (body (fd d) ptr) ->
  open_at w handle d ->
  heap w !! ptr = Some arr ->
  Forall sized arr ->
  Z.of_nat (List.length arr) < 2 ^ 31 ->
  Forall (reply_fits (Z.of_nat (List.length arr))) (script w) ->
  exists r w',
    request_with type body handle count (Some ptr) w = Some (r, w') /\
    g_device_count w' = g_device_count w /\
    (forall m, In m (mappings w) -> In m (mappings w')) /\
    ((r = -1 /\ g_devices w' = g_devices w) \/
     (0 <= r < 2 ^ 31 /\
      open_at w' handle (pooled_device ptr r d) /\
      exists arr', heap w' !! ptr = Some arr' /\
        pool_mapped w' arr' r /\
        (forall i b, 0 <= i < r -> arr' !! Z.to_nat i = Some b -> NP b))).
Proof.
  intros Hbody Ho Hh Hsz Hlen HF.
  unfold request_with, bind at 1. rewrite (find_device_open _ _ _ Ho).
  destruct (count <=? 0).
  { eexists; eexists. split; [reflexivity|]. split; [reflexivity|].
    split; [auto|]. left. split; reflexivity. }
  unfold bind at 1. rewrite (read_dev_open _ _ _ Ho).
  set (req := VIDIOC_REQBUFS (u32 count) type V4L2_MEMORY_MMAP).
  unfold bind at 1. rewrite xioctl_run.
  destruct (kernel_answer_fits (reply_fits (Z.of_nat (List.length arr))) (reply_fits_err _)
              (fd d) req w HF) as [Hfit HF1].
  destruct (after_xioctl_step (fd d) req w) as [k Hk].
  pose proof (open_at_kernel_step _ _ _ _ _ Hk Ho) as Ho1.
  destruct Hk as (K1 & K2 & K3 & K4 & K5 & K6 & K7).
  set (w0a := after_xioctl (fd d) req w) in *.
  destruct (kernel_answer (fd d) req w) as [e| | | |n| | | | | | |] eqn:Ek;
    try (eexists; eexists; split; [reflexivity|]; split; [exact K2|];
         split; [cbn [mappings with_last_error]; rewrite K6; auto|];
         left; split; [reflexivity | exact K1]).
  cbn [reply_fits] in Hfit.
  destruct (map_loop_spec NP (Z.of_nat (List.length arr)) ptr (body (fd d) ptr) w0a arr (u32 n)
              Hbody ltac:(congruence) Hsz ltac:(lia) HF1)
    as (r0 & w1 & E & Hm & Hr0).
  unfold bind at 1. rewrite E.
  pose proof Hm as (M1 & M2 & M3).
  assert (Hmono : forall m, In m (mappings w) -> In m (mappings w1)).
  { intros m Hin. apply M3. rewrite K6. exact Hin. }
  destruct r0 as [v|].
  - subst v. eexists; eexists. split; [reflexivity|]. split; [congruence|].
    split; [exact Hmono|]. left. split; [reflexivity | congruence].
  - destruct Hr0 as (arr1 & Hh1 & Hpm & Hnp).
    assert (Ho2 : open_at w1 handle d).
    { destruct Ho1 as (H1 & H2 & H3). unfold open_at. rewrite M1, M2. auto. }
    unfold bind at 1. rewrite (write_dev_open _ _ _ _ Ho2).
    assert (Ho3 : open_at (put_device handle (set_buffers (Some ptr) d) w1) handle
                          (set_buffers (Some ptr) d)).
    { apply (open_at_put_device _ _ d); [exact Ho2 | apply Ho]. }
    unfold bind at 1. rewrite (write_dev_open _ _ _ _ Ho3).
    rewrite s32_u32 by lia.
    pose proof (u32_range n) as Hu.
    eexists; eexists. split; [reflexivity|].
    split; [cbn [put_device with_devices g_device_count]; congruence|].
    split; [exact Hmono|].
    right. split; [lia|]. split.
    + apply (open_at_put_device _ _ (set_buffers (Some ptr) d)); [exact Ho3 | apply Ho].
    + exists arr1. split; [exact Hh1|]. split; [exact Hpm | exact Hnp].
Qed.

Lemma request_with_granted NP type body w handle d count ptr arr r w' :
  maps_one NP (Z.of_nat (List.length arr)) ptr (body (fd d) ptr) ->
  open_at w handle d ->
  heap w !! ptr = Some arr ->
  Forall sized arr ->
  Z.of_nat (List.length arr) < 2 ^ 31 ->
  Forall (reply_fits (Z.of_nat (List.length arr))) (script w) ->
  request_with type body handle count (Some ptr) w = Some (r, w') ->
  r <> -1 ->
  0 <= r < 2 ^ 31 /\
  open_at w' handle (pooled_device ptr r d) /\
  exists arr', heap w' !! ptr = Some arr' /\
    pool_mapped w' arr' r /\
    (forall i b, 0 <= i < r -> arr' !! Z.to_nat i = Some b -> NP b).
Proof.
  intros Hbody Ho Hh Hsz Hlen HF Hreq Hr.
  destruct (request_with_total NP type body w handle d count ptr arr Hbody Ho Hh Hsz Hlen HF)
    as (r0 & w0 & E & _ & _ & Hcase).
  rewrite E in Hreq. inversion Hreq; subst.
  destruct Hcase as [[Hneg _]|H]; [contradiction | exact H].
Qed.

(** X19: a pool that libmedia_request_buffers has granted serves captures
    directly.  On an open device whose descriptor an fd_set can hold (below
    FD_SETSIZE), after a successful request for an array the kernel's
    answers fit into, a capture that gets a completed buffer with an index
    below the granted count returns 0 with a frame whose data pointer is a live
    mapping made by that request (never MAP_FAILED), whose size is the
    kernel's byte count, and whose frame id is the kernel's index, so that
    libmedia_release_frame queues that very buffer again. *)
Theorem granted_pool_serves_captures :
  forall (w : world) (handle : Z) (d : device_context_t) (count ptr : Z)
         (arr : list media_buffer_t) (r : Z) (w1 : world) (frame : media_frame_t)
         (timeout_ms index bytesused tv_sec tv_usec : Z),
    open_at w handle d ->
    fd d < FD_SETSIZE ->
    heap w !! ptr = Some arr ->
    Forall sized arr ->
    Z.of_nat (List.length arr) < 2 ^ 31 ->
    Forall (reply_fits (Z.of_nat (List.length arr))) (script w) ->
    libmedia_request_buffers handle count (Some ptr) w = Some (r, w1) ->
    r <> -1 ->
    ready w1 timeout_ms ->
    completed (kernel_answer (fd d) (dqbuf_request V4L2_BUF_TYPE_VIDEO_CAPTURE)
                             (after_wait w1 d timeout_ms))
      = Some (index, bytesused, tv_sec, tv_usec) ->
    u32 index < r ->
    exists fr w2 l res w3,
      libmedia_capture_frame handle (Some frame) timeout_ms w1 = Some ((0, Some fr), w2) /\
      fr_frame_id fr = u32 index /\
      fr_size fr = u32 bytesused /\
      fr_data fr <> MAP_FAILED /\
      In (fr_data fr, l) (mappings w2) /\
      libmedia_release_frame handle (Some fr) w2 = Some (res, w3) /\
      queue_outcome w2 d (buf_type (use_multiplanar d)) (u32 index) res w3.
Proof.
  intros w handle d count ptr arr r w1 frame timeout_ms index bytesused tv_sec tv_usec
         Ho Hfd Hh Hsz Hlen HF Hreq Hr Hready Hcomp Hi.
  rewrite request_buffers_shape in Hreq.
  destruct (request_with_granted (fun b => b_num_planes b = 1) _ _ w handle d count ptr arr
              r w1 (map_buffer_maps_one _ _ _) Ho Hh Hsz Hlen HF Hreq Hr)
    as (Hrange & Ho1 & arr1 & Hh1 & Hpm & Hnp).
  pose proof (u32_range index) as Hu.
  destruct (Hpm (u32 index) ltac:(lia)) as (b & Hb & Hidx & Hfull).
  pose proof (Hnp (u32 index) b ltac:(lia) Hb) as Hone.
  destruct (Hfull 0 ltac:(lia)) as (a & l & Ha & Hl & Hne & Hin).
  set (d1 := pooled_device ptr r d) in *.
  assert (Hcount : buffer_count d1 = r) by reflexivity.
  assert (Hcap : libmedia_capture_frame handle (Some frame) timeout_ms w1
                 = Some ((0, Some (captured_frame d1 b a bytesused tv_sec tv_usec)),
                         after_xioctl (fd d1) (dqbuf_request V4L2_BUF_TYPE_VIDEO_CAPTURE)
                                      (after_wait w1 d1 timeout_ms))).
  { apply (capture_frame_takes w1 handle d1 ptr arr1 b frame timeout_ms index);
      try assumption; try reflexivity; rewrite ?Hcount; assumption. }
  set (w2 := after_xioctl (fd d1) (dqbuf_request V4L2_BUF_TYPE_VIDEO_CAPTURE)
                          (after_wait w1 d1 timeout_ms)) in *.
  assert (Hk : exists k evs, kernel_step (after_wait w1 d1 timeout_ms) w2 evs /\
                             evs = repeat (EvIoctl (fd d1)
                                             (dqbuf_request V4L2_BUF_TYPE_VIDEO_CAPTURE)) (S k)).
  { destruct (after_xioctl_step (fd d1) (dqbuf_request V4L2_BUF_TYPE_VIDEO_CAPTURE)
                (after_wait w1 d1 timeout_ms)) as [k Hk].
    exists k. eexists. split; [exact Hk | reflexivity]. }
  destruct Hk as (k & evs & Hk & _).
  assert (Ho2 : open_at w2 handle d1).
  { apply (open_at_kernel_step _ _ _ _ _ Hk). apply after_wait_open. exact Ho1. }
  assert (Hid : s32 (fr_frame_id (captured_frame d1 b a bytesused tv_sec tv_usec))
                = u32 index).
  { cbn [captured_frame fr_frame_id]. rewrite Hidx.
    rewrite (u32_small (u32 index)) by exact Hu. apply s32_small. lia. }
  destruct (release_frame_sends w2 handle d1
              (captured_frame d1 b a bytesused tv_sec tv_usec) Ho2)
    as (res & w3 & Hrel & Hq).
  { rewrite Hid, Hcount. lia. }
  rewrite Hid in Hq.
  exists (captured_frame d1 b a bytesused tv_sec tv_usec), w2, l, res, w3.
  split; [exact Hcap|].
  split; [cbn [captured_frame fr_frame_id]; rewrite Hidx; apply u32_small; exact Hu|].
  split; [reflexivity|]. split; [exact Hne|].
  split.
  { destruct Hk as (_ & _ & _ & _ & _ & K6 & _). rewrite K6.
    unfold after_wait. destruct (timeout_ms =? 0); exact Hin. }
  split; [exact Hrel | exact Hq].
Qed.

Lemma granted_pool_serves_captures_witness :
  exists r w1 fr w2 l,
    libmedia_request_buffers 0 4 (Some 1000)
      (sample_world 0 0 [OkReqbufs 2; OkQuerybuf 614400 0; OkMmap 4096;
                         OkQuerybuf 614400 614400; OkMmap 1052672;
                         OkDqbuf 1 614400 10 0])
      = Some (r, w1) /\
    libmedia_capture_frame 0 (Some sample_frame) 0 w1 = Some ((0, Some fr), w2) /\
    fr_frame_id fr = 1 /\
    In (fr_data fr, l) (mappings w2).
Proof.
  set (w := sample_world 0 0 [OkReqbufs 2; OkQuerybuf 614400 0; OkMmap 4096;
                              OkQuerybuf 614400 614400; OkMmap 1052672;
                              OkDqbuf 1 614400 10 0]).
  destruct (libmedia_request_buffers 0 4 (Some 1000) w) as [[r w1]|] eqn:E;
    [|vm_compute in E; discriminate E].
  assert (Hr : r = 2) by (vm_compute in E; inversion E; reflexivity).
  destruct (granted_pool_serves_captures w 0 (sample_device 0 0) 4 1000 sample_pool
              r w1 sample_frame 0 1 614400 10 0
              (sample_world_open 0 0 _) eq_refl eq_refl sample_pool_sized
              ltac:(simpl; lia)
              ltac:(repeat (constructor;
                              [vm_compute; first [exact I | discriminate]|]);
                    constructor)
              E ltac:(lia) (or_introl eq_refl)
              ltac:(vm_compute in E; inversion E; subst; reflexivity)
              ltac:(rewrite Hr; vm_compute; reflexivity))
    as (fr & w2 & l & res & w3 & H1 & H2 & _ & _ & H5 & _).
  exists r, w1, fr, w2, l. split; [reflexivity|]. split; [exact H1|].
  split; [exact H2 | exact H5].
Defined.

(** * Creating a session *)

Lemma session_reply_err entries e : session_reply entries (Err e).
Proof. split; exact I. Qed.

Lemma close_device_empty w handle d :
  open_at w handle d ->
  streaming d = 0 ->
  buffer_count d = 0 ->
  exists w',
    libmedia_close_device handle w = Some (0, w') /\
    g_device_count w' = g_device_count w /\
    g_devices w' = <[Z.to_nat handle := set_fd (-1) d]> (g_devices w) /\
    heap w' = heap w /\
    trace w' = trace w ++ [EvClose (fd d)] /\
    mappings w' = mappings w /\
    script w' = script w /\
    (buffers d = None -> g_last_error w' = g_last_error w).
Proof.
  intros Ho Hs Hc.
  unfold libmedia_close_device, bind at 1. rewrite (find_device_open _ _ _ Ho).
  unfold bind at 1. rewrite (read_dev_open _ _ _ Ho), Hs. cbn [Z.eqb negb].
  unfold bind at 1, ret at 1. unfold bind at 1. rewrite (read_dev_open _ _ _ Ho).
  assert (Hfd : (fd d >=? 0) = true) by (destruct Ho as (_ & _ & H); lia).
  destruct (buffers d) as [ptr|].
  - unfold libmedia_free_buffers, bind at 1. unfold bind at 1.
    rewrite (find_device_open _ _ _ Ho), Hc. cbn [Z.leb Z.compare].
    unfold invalid_param, set_last_error, modify, bind, ret.
    assert (Ho1 : open_at (with_last_error MEDIA_ERROR_INVALID_PARAM w) handle d) by exact Ho.
    rewrite (read_dev_open _ _ _ Ho1), Hfd. unfold sys_close, modify.
    set (w1 := mk_world _ _ _ _ _ _ _ _ _).
    assert (Ho2 : open_at w1 handle d) by exact Ho.
    rewrite (write_dev_open _ _ _ _ Ho2).
    eexists. split; [reflexivity|]. repeat split; try reflexivity; discriminate.
  - unfold bind, ret. rewrite (read_dev_open _ _ _ Ho), Hfd. unfold sys_close, modify.
    set (w1 := mk_world _ _ _ _ _ _ _ _ _).
    assert (Ho2 : open_at w1 handle d) by exact Ho.
    rewrite (write_dev_open _ _ _ _ Ho2).
    eexists. split; [reflexivity|]. repeat split; reflexivity.
Qed.

Lemma closed_slot_dead w w' handle d count0 :
  open_at w handle d ->
  handle = count0 ->
  g_device_count w = count0 + 1 ->
  g_device_count w' = g_device_count w ->
  g_devices w' = <[Z.to_nat handle := set_fd (-1) d]> (g_devices w) ->
  forall h, count0 <= h -> dead_handle w' h.
Proof.
  intros (Hr & Hl & _) -> Hc Hc' Hd h Hh. unfold dead_handle.
  destruct (Z.eq_dec h count0) as [->|Hne].
  - right; right. exists (set_fd (-1) d). rewrite Hd. split; [|cbn; lia].
    apply list_lookup_insert_eq. apply lookup_lt_Some in Hl. exact Hl.
  - right; left. lia.
Qed.

Ltac format_fails d Ho1 Hb HF1 Hstep :=
  eexists; eexists; eexists; exists d; (split; [reflexivity|]);
  destruct Hstep as (K1 & K2 & K3 & K4 & K5 & K6 & K7);
  (split; [exact Ho1|]); (split; [exact Hb|]); (split; [reflexivity|]);
  (split; [exact K2|]); (split; [exact K5|]); (split; [exact K6|]);
  (split; [exact HF1|]); left; reflexivity.

Lemma set_format_by_total entries mp w handle d f :
  open_at w handle d ->
  bare d ->
  List.length (f_plane_size f) = Z.to_nat VIDEO_MAX_PLANES ->
  Forall (session_reply entries) (script w) ->
  exists r fo w' d',
    set_format_by mp handle (Some f) w = Some ((r, fo), w') /\
    open_at w' handle d' /\ bare d' /\ fd d' = fd d /\
    g_device_count w' = g_device_count w /\
    heap w' = heap w /\ mappings w' = mappings w /\
    Forall (session_reply entries) (script w') /\
    (r = -1 \/ (r = 0 /\ use_multiplanar d' = if negb (mp =? 0) then 1 else 0)).
Proof.
  intros Ho Hb Hlen HF. unfold set_format_by.
  destruct (negb (mp =? 0)).
  - unfold libmedia_set_format_mp, bind.
    rewrite (find_device_open _ _ _ Ho), (read_dev_open _ _ _ Ho).
    fold (s_fmt_request V4L2_BUF_TYPE_VIDEO_CAPTURE_MPLANE f). rewrite xioctl_run.
    destruct (kernel_answer_fits (session_reply entries) (session_reply_err entries)
                (fd d) (s_fmt_request V4L2_BUF_TYPE_VIDEO_CAPTURE_MPLANE f) w HF)
      as [Hfit HF1].
    destruct (after_xioctl_step (fd d) (s_fmt_request V4L2_BUF_TYPE_VIDEO_CAPTURE_MPLANE f) w)
      as [k Hstep].
    pose proof (open_at_kernel_step _ _ _ _ _ Hstep Ho) as Ho1.
    destruct (kernel_answer (fd d) (s_fmt_request V4L2_BUF_TYPE_VIDEO_CAPTURE_MPLANE f) w)
      as [e| | |width height pixelformat field num_planes sizeimage| | | | | | | |];
      try (format_fails d Ho1 Hb HF1 Hstep).
    destruct Hfit as [_ Hnp].
    assert (Hu8 : 0 <= u8 num_planes) by (unfold u8; apply Z.mod_pos_bound; lia).
    destruct (copy_plane_sizes_spec (Z.to_nat (u8 num_planes)) 0 sizeimage (f_plane_size f))
      as (ps & E & _).
    { lia. }
    { rewrite Z2Nat.id by lia. lia. }
    { rewrite Hlen. unfold VIDEO_MAX_PLANES in *. rewrite Z2Nat.id by lia. lia. }
    unfold lift_opt. rewrite E.
    set (f' := mk_format (u32 width) (u32 height) (u32 pixelformat) (u32 field)
                         (u8 num_planes) ps).
    rewrite (write_dev_open _ _ _ _ Ho1).
    pose proof (open_at_put_device _ _ d (set_format f' d) Ho1 (proj2 (proj2 Ho))) as Ho2.
    rewrite (write_dev_open _ _ _ _ Ho2).
    pose proof (open_at_put_device _ _ _ (set_use_multiplanar 1 (set_format f' d)) Ho2
                  (proj2 (proj2 Ho))) as Ho3.
    destruct Hstep as (K1 & K2 & K3 & K4 & K5 & K6 & K7).
    eexists; eexists; eexists; eexists. split; [reflexivity|].
    split; [exact Ho3|]. split; [exact Hb|]. split; [reflexivity|].
    split; [exact K2|]. split; [exact K5|]. split; [exact K6|].
    split; [exact HF1|]. right. split; reflexivity.
  - unfold libmedia_set_format, bind.
    rewrite (find_device_open _ _ _ Ho), (read_dev_open _ _ _ Ho).
    fold (s_fmt_request V4L2_BUF_TYPE_VIDEO_CAPTURE f). rewrite xioctl_run.
    destruct (kernel_answer_fits (session_reply entries) (session_reply_err entries)
                (fd d) (s_fmt_request V4L2_BUF_TYPE_VIDEO_CAPTURE f) w HF)
      as [Hfit HF1].
    destruct (after_xioctl_step (fd d) (s_fmt_request V4L2_BUF_TYPE_VIDEO_CAPTURE f) w)
      as [k Hstep].
    pose proof (open_at_kernel_step _ _ _ _ _ Hstep Ho) as Ho1.
    destruct (kernel_answer (fd d) (s_fmt_request V4L2_BUF_TYPE_VIDEO_CAPTURE f) w)
      as [e| |width height pixelformat field sizeimage| | | | | | | | |];
      try (format_fails d Ho1 Hb HF1 Hstep).
    destruct (array_set_in_range (f_plane_size f) 0 (u32 sizeimage)) as [ps Hps].
    { rewrite Hlen. unfold VIDEO_MAX_PLANES. lia. }
    unfold lift_opt. rewrite Hps.
    set (f' := mk_format (u32 width) (u32 height) (u32 pixelformat) (u32 field) 1 ps).
    rewrite (write_dev_open _ _ _ _ Ho1).
    pose proof (open_at_put_device _ _ d (set_format f' d) Ho1 (proj2 (proj2 Ho))) as Ho2.
    rewrite (write_dev_open _ _ _ _ Ho2).
    pose proof (open_at_put_device _ _ _ (set_use_multiplanar 0 (set_format f' d)) Ho2
                  (proj2 (proj2 Ho))) as Ho3.
    destruct Hstep as (K1 & K2 & K3 & K4 & K5 & K6 & K7).
    eexists; eexists; eexists; eexists. split; [reflexivity|].
    split; [exact Ho3|]. split; [exact Hb|]. split; [reflexivity|].
    split; [exact K2|]. split; [exact K5|]. split; [exact K6|].
    split; [exact HF1|]. right. split; reflexivity.
Qed.

Lemma request_buffers_by_total mp w handle d count ptr arr :
  open_at w handle d ->
  heap w !! ptr = Some arr ->
  Forall sized arr ->
  Z.of_nat (List.length arr) < 2 ^ 31 ->
  Forall (reply_fits (Z.of_nat (List.length arr))) (script w) ->
  exists r w',
    request_buffers_by mp handle count (Some ptr) w = Some (r, w') /\
    g_device_count w' = g_device_count w /\
    (forall m, In m (mappings w) -> In m (mappings w')) /\
    ((r = -1 /\ g_devices w' = g_devices w) \/
     (0 <= r < 2 ^ 31 /\
      open_at w' handle (pooled_device ptr r d) /\
      exists arr', heap w' !! ptr = Some arr' /\ pool_mapped w' arr' r)).
Proof.
  intros Ho Hh Hsz Hlen HF. unfold request_buffers_by.
  destruct (negb (mp =? 0)).
  - rewrite request_buffers_mp_shape.
    destruct (request_with_total (fun _ => True) V4L2_BUF_TYPE_VIDEO_CAPTURE_MPLANE
                map_buffer_mp w handle d count ptr arr
                (map_buffer_mp_maps_one _ _ _) Ho Hh Hsz Hlen HF)
      as (r & w' & E & Hc & Hm & [Hf|(Hr & Ho' & arr' & Hh' & Hpm & _)]);
      exists r, w'; (split; [exact E|]); (split; [exact Hc|]); (split; [exact Hm|]);
      [left; exact Hf|].
    right. split; [exact Hr|]. split; [exact Ho'|]. exists arr'. auto.
  - rewrite request_buffers_shape.
    destruct (request_with_total (fun b => b_num_planes b = 1) V4L2_BUF_TYPE_VIDEO_CAPTURE
                map_buffer w handle d count ptr arr
                (map_buffer_maps_one _ _ _) Ho Hh Hsz Hlen HF)
      as (r & w' & E & Hc & Hm & [Hf|(Hr & Ho' & arr' & Hh' & Hpm & _)]);
      exists r, w'; (split; [exact E|]); (split; [exact Hc|]); (split; [exact Hm|]);
      [left; exact Hf|].
    right. split; [exact Hr|]. split; [exact Ho'|]. exists arr'. auto.
Qed.

Lemma refused_unopened w w' buffers_mem :
  g_device_count w' = g_device_count w ->
  heap w' = heap w ->
  mappings w' = mappings w ->
  (forall block, buffers_mem = Some block -> heap w !! fst block = None) ->
  session_refused w buffers_mem w'.
Proof.
  intros Hc Hh Hm Hfresh. split; [|split; [|split]].
  - intros h Hh'. right; left. lia.
  - intros block Hb. rewrite Hh. apply Hfresh. exact Hb.
  - lia.
  - intros m Hin. rewrite Hm. exact Hin.
Qed.

Lemma refused_after_close w w2 w' d2 buffers_mem :
  open_at w2 (g_device_count w) d2 ->
  g_device_count w2 = g_device_count w + 1 ->
  g_device_count w' = g_device_count w2 ->
  g_devices w' = <[Z.to_nat (g_device_count w) := set_fd (-1) d2]> (g_devices w2) ->
  (forall block, buffers_mem = Some block -> heap w' !! fst block = None) ->
  (forall m, In m (mappings w) -> In m (mappings w')) ->
  session_refused w buffers_mem w'.
Proof.
  intros Ho Hc2 Hc' Hd Hheap Hm. split; [|split; [|split]].
  - apply (closed_slot_dead w2 w' _ d2 (g_device_count w) Ho eq_refl Hc2 Hc' Hd).
  - exact Hheap.
  - lia.
  - exact Hm.
Qed.

(** The format call of a session whose answer the kernel gives after [k]
    interrupted attempts. *)
Lemma set_format_by_accepts mp w handle d f k r rest :
  open_at w handle d ->
  bare d ->
  List.length (f_plane_size f) = Z.to_nat VIDEO_MAX_PLANES ->
  format_fits mp r ->
  script w = after_eintr k r ++ rest ->
  exists fo w' d',
    set_format_by mp handle (Some f) w = Some ((0, fo), w') /\
    open_at w' handle d' /\ bare d' /\ fd d' = fd d /\
    use_multiplanar d' = (if negb (mp =? 0) then 1 else 0) /\
    g_devices w' = <[Z.to_nat handle := d']> (g_devices w) /\
    g_device_count w' = g_device_count w /\
    g_last_error w' = g_last_error w /\
    heap w' = heap w /\ mappings w' = mappings w /\
    trace w' = trace w ++ repeat (EvIoctl (fd d) (s_fmt_request (buf_type mp) f)) (S k) /\
    script w' = rest.
Proof.
  intros Ho Hb Hlen Hfit Hs. unfold set_format_by, buf_type.
  destruct r; cbn [format_fits] in Hfit; try contradiction.
  - subst mp. cbn [Z.eqb negb].
    destruct (xioctl_script (fd d) (s_fmt_request V4L2_BUF_TYPE_VIDEO_CAPTURE f) w k
                (OkFmt width height pixelformat field sizeimage) rest Hs eq_refl eq_refl)
      as (Hans & Hs1 & Hk1).
    unfold libmedia_set_format, bind.
    rewrite (find_device_open _ _ _ Ho), (read_dev_open _ _ _ Ho).
    fold (s_fmt_request V4L2_BUF_TYPE_VIDEO_CAPTURE f). rewrite xioctl_run, Hans.
    pose proof (open_at_kernel_step _ _ _ _ _ Hk1 Ho) as Ho1.
    destruct (array_set_in_range (f_plane_size f) 0 (u32 sizeimage)) as [ps Hps].
    { rewrite Hlen. unfold VIDEO_MAX_PLANES. lia. }
    unfold lift_opt. rewrite Hps.
    set (f' := mk_format (u32 width) (u32 height) (u32 pixelformat) (u32 field) 1 ps).
    rewrite (write_dev_open _ _ _ _ Ho1).
    pose proof (open_at_put_device _ _ d (set_format f' d) Ho1 (proj2 (proj2 Ho))) as Ho2.
    rewrite (write_dev_open _ _ _ _ Ho2).
    pose proof (open_at_put_device _ _ _ (set_use_multiplanar 0 (set_format f' d)) Ho2
                  (proj2 (proj2 Ho))) as Ho3.
    destruct Hk1 as (K1 & K2 & K3 & K4 & K5 & K6 & K7).
    eexists; eexists; eexists. split; [reflexivity|].
    split; [exact Ho3|]. split; [exact Hb|]. split; [reflexivity|].
    split; [reflexivity|]. unfold put_device.
    cbn [g_devices g_device_count g_last_error heap mappings trace script with_devices].
    rewrite list_insert_insert_eq, K1. auto 10.
  - destruct Hfit as [Hmp Hnp].
    replace (negb (mp =? 0)) with true by (symmetry; apply negb_true_iff; lia).
    destruct (xioctl_script (fd d) (s_fmt_request V4L2_BUF_TYPE_VIDEO_CAPTURE_MPLANE f) w k
                (OkFmtMp width height pixelformat field num_planes sizeimage) rest Hs
                eq_refl eq_refl) as (Hans & Hs1 & Hk1).
    unfold libmedia_set_format_mp, bind.
    rewrite (find_device_open _ _ _ Ho), (read_dev_open _ _ _ Ho).
    fold (s_fmt_request V4L2_BUF_TYPE_VIDEO_CAPTURE_MPLANE f). rewrite xioctl_run, Hans.
    pose proof (open_at_kernel_step _ _ _ _ _ Hk1 Ho) as Ho1.
    assert (Hu8 : 0 <= u8 num_planes) by (unfold u8; apply Z.mod_pos_bound; lia).
    destruct (copy_plane_sizes_spec (Z.to_nat (u8 num_planes)) 0 sizeimage (f_plane_size f))
      as (ps & E & _).
    { lia. }
    { rewrite Z2Nat.id by lia. lia. }
    { rewrite Hlen. unfold VIDEO_MAX_PLANES in *. rewrite Z2Nat.id by lia. lia. }
    unfold lift_opt. rewrite E.
    set (f' := mk_format (u32 width) (u32 height) (u32 pixelformat) (u32 field)
                         (u8 num_planes) ps).
    rewrite (write_dev_open _ _ _ _ Ho1).
    pose proof (open_at_put_device _ _ d (set_format f' d) Ho1 (proj2 (proj2 Ho))) as Ho2.
    rewrite (write_dev_open _ _ _ _ Ho2).
    pose proof (open_at_put_device _ _ _ (set_use_multiplanar 1 (set_format f' d)) Ho2
                  (proj2 (proj2 Ho))) as Ho3.
    destruct Hk1 as (K1 & K2 & K3 & K4 & K5 & K6 & K7).
    eexists; eexists; eexists. split; [reflexivity|].
    split; [exact Ho3|]. split; [exact Hb|]. split; [reflexivity|].
    split; [reflexivity|]. unfold put_device.
    cbn [g_devices g_device_count g_last_error heap mappings trace script with_devices].
    rewrite list_insert_insert_eq, K1. auto 10.
Qed.

(** The allocation call a session selects, reply by reply. *)
Lemma request_buffers_by_grants mp w handle d count ptr arr k n gs rest :
  open_at w handle d ->
  1 <= count ->
  heap w !! ptr = Some arr ->
  Forall sized arr ->
  Z.of_nat (List.length arr) < 2 ^ 31 ->
  script w = after_eintr k (OkReqbufs n) ++ flat_map grant_replies gs ++ rest ->
  Z.of_nat (List.length gs) = u32 n ->
  u32 n <= Z.of_nat (List.length arr) ->
  Forall (grant_ok (buf_type mp)) gs ->
  exists w',
    request_buffers_by mp handle count (Some ptr) w = Some (u32 n, w') /\
    heap w' = <[ptr := granted_pool 0 gs arr]> (heap w) /\
    g_devices w' = <[Z.to_nat handle := pooled_device ptr (u32 n) d]> (g_devices w) /\
    g_device_count w' = g_device_count w /\
    g_last_error w' = g_last_error w /\
    trace w' = trace w ++ reqbufs_events (fd d) count (buf_type mp) k
                       ++ pool_events (fd d) (buf_type mp) 0 gs /\
    mappings w' = mappings w ++ flat_map grant_mappings gs /\
    script w' = rest.
Proof.
  unfold request_buffers_by, buf_type. destruct (negb (mp =? 0)).
  - rewrite request_buffers_mp_shape.
    apply (request_with_grants _ _ map_buffer_mp_grants).
  - rewrite request_buffers_shape.
    apply (request_with_grants _ _ map_buffer_grants).
Qed.

Lemma request_buffers_by_unmapped mp w handle d count ptr arr k n gs k' q addrs m rest :
  open_at w handle d ->
  1 <= count ->
  heap w !! ptr = Some arr ->
  Forall sized arr ->
  Z.of_nat (List.length arr) < 2 ^ 31 ->
  script w = after_eintr k (OkReqbufs n) ++ flat_map grant_replies gs
               ++ after_eintr k' q ++ map OkMmap addrs ++ m :: rest ->
  Z.of_nat (List.length gs) < u32 n ->
  u32 n <= Z.of_nat (List.length arr) ->
  Forall (grant_ok (buf_type mp)) gs ->
  query_fits (buf_type mp) q ->
  (List.length addrs < List.length (planes_of q))%nat ->
  Forall (fun a => a <> MAP_FAILED) addrs ->
  mmap_failure m ->
  exists w',
    request_buffers_by mp handle count (Some ptr) w = Some (-1, w') /\
    alloc_step w w'
      (reqbufs_events (fd d) count (buf_type mp) k ++ pool_events (fd d) (buf_type mp) 0 gs
         ++ query_events (fd d) (buf_type mp) (Z.of_nat (List.length gs)) k'
         ++ mmap_events (fd d) (take (S (List.length addrs)) (planes_of q)))
      (flat_map grant_mappings gs ++ combine addrs (plane_lengths q))
      rest MEDIA_ERROR_OUT_OF_MEMORY.
Proof.
  unfold request_buffers_by, buf_type. destruct (negb (mp =? 0)).
  - rewrite request_buffers_mp_shape.
    apply (request_with_unmapped _ _ map_buffer_mp_grants map_buffer_mp_unmapped).
  - rewrite request_buffers_shape.
    apply (request_with_unmapped _ _ map_buffer_grants map_buffer_unmapped).
Qed.

(** libmedia_create_session up to the allocation: the open and the format
    call succeed and the block of the array enters the heap. *)
Lemma create_session_setup w cfg p ptr junk newfd kf fr rest :
  registry_ready w ->
  List.length (f_plane_size (c_format cfg)) = Z.to_nat VIDEO_MAX_PLANES ->
  c_device_path cfg = Some p ->
  g_device_count w < MAX_DEVICES ->
  0 <= newfd ->
  format_fits (c_use_multiplanar cfg) fr ->
  script w = OkOpen newfd :: after_eintr kf fr ++ rest ->
  exists w3 d2,
    libmedia_create_session (Some cfg) true (Some (ptr, junk)) w
      = (buffer_count <- request_buffers_by (c_use_multiplanar cfg) (g_device_count w)
                                             (c_buffer_count cfg) (Some ptr) ;;
         if buffer_count <=? 0 then
           sys_free ptr ;;;
           libmedia_close_device (g_device_count w) ;;;
           ret None
         else ret (Some (mk_session (Some (g_device_count w)) cfg 0)))%cmd w3 /\
    open_at w3 (g_device_count w) d2 /\ bare d2 /\ fd d2 = newfd /\
    use_multiplanar d2 = (if negb (c_use_multiplanar cfg =? 0) then 1 else 0) /\
    g_device_count w3 = g_device_count w + 1 /\
    g_last_error w3 = g_last_error w /\
    heap w3 = <[ptr := junk]> (heap w) /\
    mappings w3 = mappings w /\
    trace w3 = trace w ++ session_setup_events cfg p newfd kf /\
    script w3 = rest.
Proof.
  intros Hready Hlen Hpath Hlt Hfd Hfit Hs.
  unfold libmedia_create_session. rewrite Hpath. cbn [negb].
  destruct (open_device_succeeds p newfd _ w Hready Hlt Hs ltac:(lia)) as (old & Hold & E1).
  unfold bind at 1. rewrite E1.
  pose proof Hready as (_ & _ & Hc0).
  replace (g_device_count w <? 0) with false by lia.
  pose proof (opened_world_open_at p newfd (after_eintr kf fr ++ rest) w old Hready Hlt Hfd)
    as Ho1.
  assert (Hb1 : bare (opened_device newfd p old)) by (repeat split).
  fold (set_format_by (c_use_multiplanar cfg) (g_device_count w) (Some (c_format cfg))).
  destruct (set_format_by_accepts (c_use_multiplanar cfg) _ (g_device_count w) _ (c_format cfg)
              kf fr rest Ho1 Hb1 Hlen Hfit eq_refl)
    as (fo & w2 & d2 & E2 & Ho2 & Hb2 & Hfd2 & Hmp2 & Hd2 & Hc2 & He2 & Hh2 & Hm2 & Ht2 & Hs2).
  unfold bind at 1. rewrite E2. cbn [fst]. change (0 <? 0) with false. cbv iota.
  unfold bind at 1, sys_malloc, bind at 1, modify, ret at 1. cbn [fst snd].
  exists (with_heap (<[ptr := junk]> (heap w2)) w2), d2.
  split; [reflexivity|].
  cbn [g_device_count g_last_error heap mappings trace script with_heap].
  split; [exact Ho2|]. split; [exact Hb2|]. split; [exact Hfd2|]. split; [exact Hmp2|].
  split; [rewrite Hc2; reflexivity|]. split; [exact He2|].
  split; [rewrite Hh2; reflexivity|]. split; [exact Hm2|].
  split; [|exact Hs2].
  rewrite Ht2. unfold session_setup_events, opened_world. cbn [trace fd opened_device].
  rewrite <- app_assoc. reflexivity.
Qed.

(** X20: what libmedia_create_session returns and leaves, for a
    configuration whose format has its C size and a buffer-array block that
    is fresh and holds as many well-sized entries as the configuration asks
    for.

    As long as the kernel's answers fit the array, the call completes.  When
    it returns a session, the session is inactive and points at the slot
    that was next in the registry; that device is open, not streaming, in
    the plane mode of the configuration, and owns the block as a pool of at
    least one buffer, each mapped.  When it returns NULL -- a NULL path,
    either malloc failing, the open, the format or the allocation being
    refused, or the kernel granting no buffer -- the device it may have
    opened is closed again and the block is not left in the heap; but the
    registry slot of the open stays used, and no mapping is removed: what a
    failed allocation had mapped stays mapped.

    Reply by reply, when the open and the format call succeed: if the
    kernel grants G >= 1 buffers and maps every plane, the call returns the
    session, the device records the block with count G, each of its first G
    buffers carries its index and the plane count the kernel reported and is
    mapped in every one of these planes, and the mappings made are exactly
    those of these planes; if an mmap fails, the call returns NULL with
    MEDIA_ERROR_OUT_OF_MEMORY after freeing the block and closing the
    descriptor, without one munmap, the slot used and the mappings made
    before the failure still in place. *)
Theorem create_session_outcomes :
  forall (w : world) (cfg : media_session_config_t) (session_mem : bool)
         (buffers_mem : option (Z * list media_buffer_t)),
    registry_ready w ->
    List.length (f_plane_size (c_format cfg)) = Z.to_nat VIDEO_MAX_PLANES ->
    c_buffer_count cfg < 2 ^ 31 ->
    (forall block, buffers_mem = Some block ->
       heap w !! fst block = None /\
       Forall sized (snd block) /\
       Z.of_nat (List.length (snd block)) = c_buffer_count cfg) ->
    (Forall (session_reply (c_buffer_count cfg)) (script w) ->
     exists r w',
       libmedia_create_session (Some cfg) session_mem buffers_mem w = Some (r, w') /\
       match r with
       | Some s =>
           session_mem = true /\
           exists block, buffers_mem = Some block /\
                         session_created cfg (g_device_count w) (fst block) s w'
       | None => session_refused w buffers_mem w'
       end) /\
    (forall (p : string) (ptr : Z) (junk : list media_buffer_t) (newfd : Z)
            (kf : nat) (fr : reply) (k : nat) (n : Z) (gs : list grant),
        session_mem = true ->
        c_device_path cfg = Some p ->
        buffers_mem = Some (ptr, junk) ->
        g_device_count w < MAX_DEVICES ->
        0 <= newfd ->
        format_fits (c_use_multiplanar cfg) fr ->
        u32 n <= c_buffer_count cfg ->
        Forall (grant_ok (buf_type (c_use_multiplanar cfg))) gs ->
        (forall rest : list reply,
            0 < u32 n ->
            Z.of_nat (List.length gs) = u32 n ->
            script w = OkOpen newfd :: after_eintr kf fr ++ after_eintr k (OkReqbufs n)
                         ++ flat_map grant_replies gs ++ rest ->
            exists w' d',
              libmedia_create_session (Some cfg) session_mem buffers_mem w
                = Some (Some (session_on (g_device_count w) cfg 0), w') /\
              open_at w' (g_device_count w) d' /\
              fd d' = newfd /\ buffers d' = Some ptr /\ buffer_count d' = u32 n /\
              streaming d' = 0 /\
              use_multiplanar d' = (if negb (c_use_multiplanar cfg =? 0) then 1 else 0) /\
              g_device_count w' = g_device_count w + 1 /\
              g_last_error w' = g_last_error w /\
              trace w' = trace w ++ session_setup_events cfg p newfd kf
                           ++ reqbufs_events newfd (c_buffer_count cfg)
                                             (buf_type (c_use_multiplanar cfg)) k
                           ++ pool_events newfd (buf_type (c_use_multiplanar cfg)) 0 gs /\
              mappings w' = mappings w ++ flat_map grant_mappings gs /\
              script w' = rest /\
              heap w' = <[ptr := granted_pool 0 gs junk]> (heap w) /\
              pool_mapped w' (granted_pool 0 gs junk) (u32 n) /\
              (forall i b,
                  0 <= i < u32 n ->
                  granted_pool 0 gs junk !! Z.to_nat i = Some b ->
                  exists g,
                    gs !! Z.to_nat i = Some g /\
                    b_num_planes b = Z.of_nat (List.length (planes_of (g_query g))))) /\
        (forall (k' : nat) (q : reply) (addrs : list Z) (m : reply) (rest : list reply),
            Z.of_nat (List.length gs) < u32 n ->
            query_fits (buf_type (c_use_multiplanar cfg)) q ->
            (List.length addrs < List.length (planes_of q))%nat ->
            Forall (fun a => a <> MAP_FAILED) addrs ->
            mmap_failure m ->
            script w = OkOpen newfd :: after_eintr kf fr ++ after_eintr k (OkReqbufs n)
                         ++ flat_map grant_replies gs
                         ++ after_eintr k' q ++ map OkMmap addrs ++ m :: rest ->
            exists w',
              libmedia_create_session (Some cfg) session_mem buffers_mem w
                = Some (None, w') /\
              session_refused w buffers_mem w' /\
              g_device_count w' = g_device_count w + 1 /\
              g_last_error w' = MEDIA_ERROR_OUT_OF_MEMORY /\
              trace w' = trace w ++ session_setup_events cfg p newfd kf
                           ++ (reqbufs_events newfd (c_buffer_count cfg)
                                              (buf_type (c_use_multiplanar cfg)) k
                               ++ pool_events newfd (buf_type (c_use_multiplanar cfg)) 0 gs
                               ++ query_events newfd (buf_type (c_use_multiplanar cfg))
                                               (Z.of_nat (List.length gs)) k'
                               ++ mmap_events newfd
                                    (take (S (List.length addrs)) (planes_of q)))
                           ++ [EvClose newfd] /\
              mappings w' = mappings w ++ flat_map grant_mappings gs
                              ++ combine addrs (plane_lengths q) /\
              script w' = rest)).
Proof.
  intros w cfg session_mem buffers_mem Hready Hlen Hcnt Hblock.
  assert (Hfresh : forall block, buffers_mem = Some block -> heap w !! fst block = None).
  { intros block Hb. apply (Hblock block Hb). }
  split.
  - intros HF.
  unfold libmedia_create_session.
  destruct (c_device_path cfg) as [path|].
  2:{ eexists; eexists. split; [reflexivity|].
      apply refused_unopened; [reflexivity | reflexivity | reflexivity | exact Hfresh]. }
  destruct session_mem; cbn [negb].
  2:{ eexists; eexists. split; [reflexivity|].
      apply refused_unopened; [reflexivity | reflexivity | reflexivity | exact Hfresh]. }
  destruct (open_device_run (Some path) w Hready) as (h & w1 & E1 & Hheap1 & Hmap1 & Hout).
  unfold bind at 1. rewrite E1.
  destruct Hout as [(-> & Hd1 & Hc1 & _)|(-> & Hc1 & p & newfd & old & Hp & Hs & Hne & Hold
                                           & Hd1 & Ht1 & He1)].
  { change (-1 <? 0) with true. cbv iota.
    eexists; eexists. split; [reflexivity|].
    apply refused_unopened; assumption. }
  pose proof Hready as (_ & Hl & Hc0).
  replace (g_device_count w <? 0) with false by lia.
  rewrite Hs in HF. inversion HF as [|r0 rest [_ Hfd] HF1]; subst r0 rest.
  cbn in Hfd.
  assert (Ho1 : open_at w1 (g_device_count w) (opened_device newfd p old)).
  { unfold open_at. split; [lia|]. split; [|exact Hfd].
    rewrite Hd1. apply list_lookup_insert_eq. apply lookup_lt_Some in Hold. exact Hold. }
  assert (Hb1 : bare (opened_device newfd p old)) by (repeat split).
  fold (set_format_by (c_use_multiplanar cfg) (g_device_count w) (Some (c_format cfg))).
  destruct (set_format_by_total (c_buffer_count cfg) (c_use_multiplanar cfg) w1
              (g_device_count w) _ (c_format cfg) Ho1 Hb1 Hlen HF1)
    as (r2 & fo & w2 & d2 & E2 & Ho2 & Hb2 & Hfd2 & Hc2 & Hh2 & Hm2 & HF2 & Hcase).
  unfold bind at 1. rewrite E2. cbn [fst].
  pose proof Hb2 as (Hbuf2 & Hbc2 & Hst2).
  assert (Hmono2 : forall m, In m (mappings w) -> In m (mappings w2)).
  { intros m Hin. rewrite Hm2, Hmap1. exact Hin. }
  destruct Hcase as [->|(-> & Hmp2)].
  { change (-1 <? 0) with true. cbv iota.
    destruct (close_device_empty w2 _ d2 Ho2 Hst2 Hbc2)
      as (w3 & E3 & Hc3 & Hd3 & Hh3 & _ & Hm3 & _ & _).
    unfold bind, ret. rewrite E3.
    eexists; eexists. split; [reflexivity|].
    apply (refused_after_close w w2 w3 d2); [exact Ho2 | congruence | exact Hc3 | exact Hd3 | |].
    - intros block Hb. rewrite Hh3, Hh2, Hheap1. apply Hfresh. exact Hb.
    - intros m Hin. rewrite Hm3. apply Hmono2, Hin. }
  change (0 <? 0) with false. cbv iota.
  destruct buffers_mem as [[ptr junk]|].
  2:{ destruct (close_device_empty w2 _ d2 Ho2 Hst2 Hbc2)
        as (w3 & E3 & Hc3 & Hd3 & Hh3 & _ & Hm3 & _ & _).
      unfold bind, ret, set_last_error, modify. rewrite E3.
      eexists; eexists. split; [reflexivity|].
      apply (refused_after_close w w2 _ d2); [exact Ho2 | congruence | exact Hc3 | exact Hd3 | |].
      - intros block Hb. discriminate Hb.
      - intros m Hin. cbn [mappings with_last_error]. rewrite Hm3. apply Hmono2, Hin. }
  destruct (Hblock (ptr, junk) eq_refl) as (_ & Hsz & Hjl). cbn [fst snd] in Hsz, Hjl.
  unfold bind at 1, sys_malloc, bind at 1, modify, ret at 1. cbn [fst snd].
  set (w3 := with_heap (<[ptr := junk]> (heap w2)) w2).
  assert (Ho3 : open_at w3 (g_device_count w) d2) by exact Ho2.
  assert (Hh3 : heap w3 !! ptr = Some junk) by apply lookup_insert_eq.
  assert (HF3 : Forall (reply_fits (Z.of_nat (List.length junk))) (script w3)).
  { rewrite Hjl. eapply Forall_impl; [exact HF2|]. intros r [Hr _]. exact Hr. }
  fold (request_buffers_by (c_use_multiplanar cfg) (g_device_count w) (c_buffer_count cfg)
                           (Some ptr)).
  destruct (request_buffers_by_total (c_use_multiplanar cfg) w3 (g_device_count w) d2
              (c_buffer_count cfg) ptr junk Ho3 Hh3 Hsz ltac:(lia) HF3)
    as (r4 & w4 & E4 & Hc4 & Hm4 & Hcase4).
  unfold bind at 1. rewrite E4.
  assert (Hmono4 : forall m, In m (mappings w) -> In m (mappings w4)).
  { intros m Hin. apply Hm4. apply Hmono2, Hin. }
  assert (Hcount4 : g_device_count w4 = g_device_count w + 1).
  { rewrite Hc4. unfold w3. cbn [with_heap g_device_count]. congruence. }
  destruct Hcase4 as [(-> & Hd4)|(Hr4 & Ho4 & arr4 & Hh4 & Hpm4)].
  { change (-1 <=? 0) with true. cbv iota.
    unfold bind at 1, sys_free, modify.
    set (w5 := with_heap (delete ptr (heap w4)) w4).
    assert (Ho5 : open_at w5 (g_device_count w) d2).
    { apply (open_at_same_table w3); [exact Hd4 | exact Hc4 | exact Ho3]. }
    destruct (close_device_empty w5 _ d2 Ho5 Hst2 Hbc2)
      as (w6 & E6 & Hc6 & Hd6 & Hh6 & _ & Hm6 & _ & _).
    unfold bind, ret. rewrite E6.
    eexists; eexists. split; [reflexivity|].
    apply (refused_after_close w w5 w6 d2);
      [exact Ho5 | exact Hcount4 | exact Hc6 | exact Hd6 | |].
    - intros block Hb. inversion Hb; subst block. cbn [fst].
      rewrite Hh6. unfold w5. cbn [with_heap heap]. apply lookup_delete_eq.
    - intros m Hin. rewrite Hm6. apply Hmono4, Hin. }
  destruct (r4 <=? 0) eqn:Er4.
  { assert (r4 = 0) by lia. subst r4.
    unfold bind at 1, sys_free, modify.
    set (w5 := with_heap (delete ptr (heap w4)) w4).
    assert (Ho5 : open_at w5 (g_device_count w) (pooled_device ptr 0 d2)) by exact Ho4.
    destruct (close_device_empty w5 _ _ Ho5 Hst2 eq_refl)
      as (w6 & E6 & Hc6 & Hd6 & Hh6 & _ & Hm6 & _ & _).
    unfold bind, ret. rewrite E6.
    eexists; eexists. split; [reflexivity|].
    apply (refused_after_close w w5 w6 (pooled_device ptr 0 d2));
      [exact Ho5 | exact Hcount4 | exact Hc6 | exact Hd6 | |].
    - intros block Hb. inversion Hb; subst block. cbn [fst].
      rewrite Hh6. unfold w5. cbn [with_heap heap]. apply lookup_delete_eq.
    - intros m Hin. rewrite Hm6. apply Hmono4, Hin. }
  eexists; eexists. split; [reflexivity|].
  split; [reflexivity|]. exists (ptr, junk). split; [reflexivity|].
  unfold session_created. cbn [fst].
  split; [reflexivity|].
  split; [exact Hcount4|].
  exists (pooled_device ptr r4 d2), arr4.
  split; [exact Ho4|]. split; [reflexivity|]. split; [cbn; lia|].
  split; [exact Hst2|]. split; [exact Hmp2|]. split; [exact Hh4 | exact Hpm4].
  - intros p ptr junk newfd kf fr k n gs -> Hpath -> Hlt Hfd Hfit Hfitn Hok.
    destruct (Hblock (ptr, junk) eq_refl) as (Hfr & Hsz & Hjl). cbn [fst snd] in Hfr, Hsz, Hjl.
    split.
    + intros rest Hpos Hn Hs.
      destruct (create_session_setup w cfg p ptr junk newfd kf fr _ Hready Hlen Hpath Hlt
                  Hfd Hfit Hs)
        as (w3 & d2 & E & Ho3 & (Hb2 & Hbc2 & Hst2) & Hfd2 & Hmp2 & Hc3 & He3 & Hh3 & Hm3
            & Ht3 & Hs3).
      rewrite E.
      assert (Hh3' : heap w3 !! ptr = Some junk) by (rewrite Hh3; apply lookup_insert_eq).
      destruct (request_buffers_by_grants (c_use_multiplanar cfg) w3 (g_device_count w) d2
                  (c_buffer_count cfg) ptr junk k n gs rest Ho3 ltac:(lia) Hh3' Hsz
                  ltac:(lia) Hs3 Hn ltac:(lia) Hok)
        as (w4 & E4 & Hh4 & Hd4 & Hc4 & He4 & Ht4 & Hm4 & Hs4).
      unfold bind. rewrite E4.
      replace (u32 n <=? 0) with false by lia.
      exists w4, (pooled_device ptr (u32 n) d2).
      split; [reflexivity|].
      split.
      { apply (open_at_slot w3 w4 _ d2 _ Ho3 Hd4 Hc4 eq_refl). }
      split; [exact Hfd2|]. split; [reflexivity|]. split; [reflexivity|].
      split; [exact Hst2|]. split; [exact Hmp2|].
      split; [congruence|]. split; [congruence|].
      split; [rewrite Ht4, Ht3, Hfd2, <- !app_assoc; reflexivity|].
      split; [rewrite Hm4, Hm3; reflexivity|]. split; [exact Hs4|].
      split; [rewrite Hh4, Hh3, insert_insert_eq; reflexivity|].
      destruct (granted_pool_mapped (buf_type (c_use_multiplanar cfg)) w4 gs junk (mappings w3)
                  Hok Hsz ltac:(lia) Hm4) as [Hpm Hnp].
      rewrite Hn in Hpm, Hnp. split; [exact Hpm | exact Hnp].
    + intros k' q addrs m rest Hn Hq Hla Hoka Hm Hs.
      destruct (create_session_setup w cfg p ptr junk newfd kf fr _ Hready Hlen Hpath Hlt
                  Hfd Hfit Hs)
        as (w3 & d2 & E & Ho3 & (Hb2 & Hbc2 & Hst2) & Hfd2 & Hmp2 & Hc3 & He3 & Hh3 & Hm3
            & Ht3 & Hs3).
      rewrite E.
      assert (Hh3' : heap w3 !! ptr = Some junk) by (rewrite Hh3; apply lookup_insert_eq).
      destruct (request_buffers_by_unmapped (c_use_multiplanar cfg) w3 (g_device_count w) d2
                  (c_buffer_count cfg) ptr junk k n gs k' q addrs m rest Ho3 ltac:(lia) Hh3'
                  Hsz ltac:(lia) Hs3 Hn ltac:(lia) Hok Hq Hla Hoka Hm)
        as (w4 & E4 & A1 & A2 & A3 & A4 & A5 & A6 & A7).
      unfold bind at 1. rewrite E4.
      change (-1 <=? 0) with true. cbv iota.
      unfold bind at 1, sys_free, modify.
      set (w5 := with_heap (delete ptr (heap w4)) w4).
      assert (Ho5 : open_at w5 (g_device_count w) d2).
      { apply (open_at_same_table w3); [exact A1 | exact A2 | exact Ho3]. }
      destruct (close_device_empty w5 _ d2 Ho5 Hst2 Hbc2)
        as (w6 & E6 & Hc6 & Hd6 & Hh6 & Ht6 & Hm6 & Hs6 & Hke).
      unfold bind, ret. rewrite E6.
      exists w6. split; [reflexivity|].
      assert (Hcount5 : g_device_count w5 = g_device_count w + 1).
      { unfold w5. cbn [with_heap g_device_count]. congruence. }
      assert (Hmap6 : mappings w6 = mappings w ++ flat_map grant_mappings gs
                                      ++ combine addrs (plane_lengths q)).
      { rewrite Hm6. unfold w5. cbn [with_heap mappings]. rewrite A6, Hm3. reflexivity. }
      split.
      { apply (refused_after_close w w5 w6 d2);
          [exact Ho5 | exact Hcount5 | exact Hc6 | exact Hd6 | |].
        - intros block Hb. inversion Hb; subst block. cbn [fst].
          rewrite Hh6. unfold w5. cbn [with_heap heap]. apply lookup_delete_eq.
        - intros m0 Hin. rewrite Hmap6. apply in_or_app. left. exact Hin. }
      split; [congruence|].
      split.
      { rewrite (Hke Hb2). exact A4. }
      split.
      { rewrite Ht6. unfold w5. cbn [with_heap trace]. rewrite A5, Ht3, Hfd2.
        rewrite <- !app_assoc. reflexivity. }
      split; [exact Hmap6|].
      rewrite Hs6. exact A7.
Qed.

Lemma sample_block_fits replies :
  forall block, Some sample_block = Some block ->
    heap (sample_world 0 0 replies) !! fst block = None /\
    Forall sized (snd block) /\
    Z.of_nat (List.length (snd block)) = c_buffer_count sample_config.
Proof.
  intros block Hb. inversion Hb; subst block. cbn [fst snd sample_block].
  split; [reflexivity|]. split; [repeat constructor | reflexivity].
Qed.

Lemma create_session_outcomes_witness :
  (exists w',
     libmedia_create_session
       (Some sample_config) true
       (Some sample_block)
       (sample_world 0 0 [OkOpen 5; OkFmt 640 480 1448695129 1 614400; OkReqbufs 2;
                          OkQuerybuf 614400 0; OkMmap 4096;
                          OkQuerybuf 614400 614400; OkMmap 1052672])
       = Some (Some (session_on 1 sample_config 0), w') /\
     g_device_count w' = 2 /\
     mappings w' = [(4096, 614400); (1052672, 614400)] /\
     pool_mapped w'
       (granted_pool 0 [mk_grant 0 (OkQuerybuf 614400 0) [4096];
                        mk_grant 0 (OkQuerybuf 614400 614400) [1052672]]
                     [local_buffer; local_buffer]) 2) /\
  (exists w',
     libmedia_create_session
       (Some sample_config) true
       (Some sample_block)
       (sample_world 0 0 [OkOpen 5; OkFmt 640 480 1448695129 1 614400; OkReqbufs 2;
                          OkQuerybuf 614400 0; OkMmap 4096;
                          OkQuerybuf 614400 614400; Err 12])
       = Some (None, w') /\
     g_device_count w' = 2 /\
     dead_handle w' 1 /\
     heap w' !! 2000 = None /\
     mappings w' = [(4096, 614400)] /\
     trace w' = [EvOpen "/dev/video1"%string;
                 EvIoctl 5 (VIDIOC_S_FMT 1 640 480 1448695129 1);
                 EvIoctl 5 (VIDIOC_REQBUFS 2 1 1);
                 EvIoctl 5 (VIDIOC_QUERYBUF 1 1 0); EvMmap 614400 5 0;
                 EvIoctl 5 (VIDIOC_QUERYBUF 1 1 1); EvMmap 614400 5 614400;
                 EvClose 5]).
Proof.
  split.
  - destruct (create_session_outcomes
                (sample_world 0 0 [OkOpen 5; OkFmt 640 480 1448695129 1 614400; OkReqbufs 2;
                                   OkQuerybuf 614400 0; OkMmap 4096;
                                   OkQuerybuf 614400 614400; OkMmap 1052672])
                sample_config true
                (Some sample_block)
                (sample_world_ready 0 0 _) eq_refl ltac:(cbn; lia)
                (sample_block_fits _)) as [_ H].
    destruct (H "/dev/video1"%string 2000 [local_buffer; local_buffer] 5 0%nat
                (OkFmt 640 480 1448695129 1 614400) 0%nat 2
                [mk_grant 0 (OkQuerybuf 614400 0) [4096];
                 mk_grant 0 (OkQuerybuf 614400 614400) [1052672]]
                eq_refl eq_refl eq_refl) as [Hb _].
    { vm_compute. reflexivity. }
    { lia. }
    { reflexivity. }
    { vm_compute. discriminate. }
    { repeat (constructor; [repeat split; repeat constructor; discriminate|]).
      constructor. }
    destruct (Hb [] ltac:(vm_compute; reflexivity) eq_refl eq_refl)
      as (w' & d' & E & _ & _ & _ & _ & _ & _ & Hc & _ & _ & Hm & _ & _ & Hpm & _).
    exists w'. split; [exact E|]. split; [exact Hc|]. split; [exact Hm | exact Hpm].
  - destruct (create_session_outcomes
                (sample_world 0 0 [OkOpen 5; OkFmt 640 480 1448695129 1 614400; OkReqbufs 2;
                                   OkQuerybuf 614400 0; OkMmap 4096;
                                   OkQuerybuf 614400 614400; Err 12])
                sample_config true
                (Some sample_block)
                (sample_world_ready 0 0 _) eq_refl ltac:(cbn; lia)
                (sample_block_fits _)) as [_ H].
    destruct (H "/dev/video1"%string 2000 [local_buffer; local_buffer] 5 0%nat
                (OkFmt 640 480 1448695129 1 614400) 0%nat 2
                [mk_grant 0 (OkQuerybuf 614400 0) [4096]]
                eq_refl eq_refl eq_refl) as [_ Hc].
    { vm_compute. reflexivity. }
    { lia. }
    { reflexivity. }
    { vm_compute. discriminate. }
    { repeat (constructor; [repeat split; repeat constructor; discriminate|]).
      constructor. }
    destruct (Hc 0%nat (OkQuerybuf 614400 614400) [] (Err 12) [])
      as (w' & E & (Hdead & Hfree & _) & Hcount & _ & Ht & Hm & _).
    { vm_compute. reflexivity. }
    { reflexivity. }
    { cbn. lia. }
    { constructor. }
    { right. exists 12. reflexivity. }
    { reflexivity. }
    exists w'. split; [exact E|]. split; [exact Hcount|].
    split; [apply Hdead; cbn; lia|].
    split; [apply (Hfree sample_block eq_refl)|].
    split; [exact Hm | exact Ht].
Defined.

(** * Destroying a session *)



(** * Capturing and releasing through a session *)

Lemma buf_type_mode mp : buf_type (if negb (mp =? 0) then 1 else 0) = buf_type mp.
Proof. unfold buf_type. destruct (mp =? 0); reflexivity. Qed.

(** X22: through an active session whose device is in the plane mode of
    the session's configuration, as libmedia_create_session leaves it, and
    whose descriptor an fd_set can hold (below FD_SETSIZE), capture and
    release agree on the buffer type.
    libmedia_session_capture_frame dequeues with the type the configuration
    selects, and libmedia_session_release_frame on the captured frame sends
    the VIDIOC_QBUF of the index the kernel handed out with that same
    type. *)
Theorem session_capture_release_agree :
  forall (w : world) (handle : Z) (d : device_context_t)
         (cfg : media_session_config_t) (active ptr : Z)
         (arr : list media_buffer_t) (b : media_buffer_t) (frame : media_frame_t)
         (timeout_ms index bytesused tv_sec tv_usec data : Z),
    open_at w handle d ->
    fd d < FD_SETSIZE ->
    active <> 0 ->
    use_multiplanar d = (if negb (c_use_multiplanar cfg =? 0) then 1 else 0) ->
    ready w timeout_ms ->
    buffers d = Some ptr -> heap w !! ptr = Some arr ->
    0 <= buffer_count d < 2 ^ 31 ->
    completed (kernel_answer (fd d) (dqbuf_request (buf_type (c_use_multiplanar cfg)))
                             (after_wait w d timeout_ms))
      = Some (index, bytesused, tv_sec, tv_usec) ->
    u32 index < buffer_count d ->
    arr !! Z.to_nat (u32 index) = Some b ->
    array_get (b_start b) 0 = Some data ->
    b_index b = u32 index ->
    exists fr w1 r w2,
      libmedia_session_capture_frame (Some (session_on handle cfg active)) (Some frame)
                                     timeout_ms w
        = Some ((0, Some fr), w1) /\
      libmedia_session_release_frame (Some (session_on handle cfg active)) (Some fr) w1
        = Some (r, w2) /\
      queue_outcome w1 d (buf_type (c_use_multiplanar cfg)) (u32 index) r w2.
Proof.
  intros w handle d cfg active ptr arr b frame timeout_ms index bytesused tv_sec tv_usec data
         Ho Hfd Ha Hmode Hr Hb Hh Hc Hcomp Hi Hl Hdata Hidx.
  set (type := buf_type (c_use_multiplanar cfg)) in *.
  set (w1 := after_xioctl (fd d) (dqbuf_request type) (after_wait w d timeout_ms)).
  set (fr := captured_frame d b data bytesused tv_sec tv_usec).
  assert (Hcap : libmedia_session_capture_frame (Some (session_on handle cfg active))
                   (Some frame) timeout_ms w = Some ((0, Some fr), w1)).
  { unfold libmedia_session_capture_frame, session_on. cbn [s_device s_active s_config].
    destruct (Z.eqb_spec active 0) as [E|_]; [contradiction|].
    unfold w1, type, buf_type in *.
    destruct (negb (c_use_multiplanar cfg =? 0)).
    - apply (capture_frame_mp_takes w handle d ptr arr b frame timeout_ms index); assumption.
    - apply (capture_frame_takes w handle d ptr arr b frame timeout_ms index); assumption. }
  assert (Ho1 : open_at w1 handle d).
  { destruct (after_xioctl_step (fd d) (dqbuf_request type) (after_wait w d timeout_ms))
      as [k Hstep].
    apply (open_at_kernel_step _ _ _ _ _ Hstep). apply after_wait_open. exact Ho. }
  pose proof (u32_range index) as Hu.
  assert (Hid : s32 (fr_frame_id fr) = u32 index).
  { unfold fr. cbn [captured_frame fr_frame_id]. rewrite Hidx.
    rewrite (u32_small (u32 index)) by exact Hu. apply s32_small. lia. }
  destruct (release_frame_sends w1 handle d fr Ho1) as (r & w2 & Hrel & Hq).
  { rewrite Hid. lia. }
  rewrite Hid, Hmode, buf_type_mode in Hq.
  exists fr, w1, r, w2. split; [exact Hcap|]. split; [|exact Hq].
  unfold libmedia_session_release_frame, session_on. cbn [s_device]. exact Hrel.
Qed.

Lemma session_capture_release_agree_witness :
  exists fr w1 r w2,
    libmedia_session_capture_frame
      (Some (session_on 0 (mk_config (Some "/dev/video0"%string) sample_format 4 0 0) 1))
      (Some sample_frame) 0 (sample_world 4 1 [OkDqbuf 2 614400 10 500; OkDone])
      = Some ((0, Some fr), w1) /\
    libmedia_session_release_frame
      (Some (session_on 0 (mk_config (Some "/dev/video0"%string) sample_format 4 0 0) 1))
      (Some fr) w1 = Some (r, w2) /\
    queue_outcome w1 (sample_device 4 1) V4L2_BUF_TYPE_VIDEO_CAPTURE 2 r w2.
Proof.
  exact (session_capture_release_agree
           (sample_world 4 1 [OkDqbuf 2 614400 10 500; OkDone]) 0 (sample_device 4 1)
           (mk_config (Some "/dev/video0"%string) sample_format 4 0 0) 1 1000
           sample_pool (sample_buffer 2) sample_frame 0 2 614400 10 500 2101248
           (sample_world_open 4 1 _) eq_refl ltac:(lia) eq_refl (or_introl eq_refl)
           eq_refl eq_refl ltac:(unfold sample_device; simpl; lia) eq_refl
           ltac:(unfold sample_device; simpl; vm_compute; reflexivity)
           sample_pool_at_2 eq_refl eq_refl).
Defined.
